(* ===== verification/_CoqProject ===== *)
-Q . S2P
Prelude.v
CFloat.v
CEnum.v
StateMachine.v
SensorSystem.v
ActuatorSystem.v
CommunicationSystem.v
ErrorLogging.v
CFormat.v
AppLogic.v
WifiManager.v
RadioParams.v
ConfigMsg.v
Nmea.v
HalTimer.v
Hal.v
HalInterface.v
GpsSensor.v
GpsGeo.v
GpsTracker.v
LoraOta.v
OtaRefinement.v
NodeState.v
Display.v
ControlChannel.v
Cascade.v
Node.v
SystemConfig.v
EnvMonitor.v
