(* ===== verification/Prelude.v ===== *)
(** * Verification of the ESP32 LoRa node firmware (ESP32-Lora-Template)

    The program is the firmware under [src/src/]: a Heltec ESP32-S3 node
    that sends or receives LoRa frames on an SX1262 radio ([main.cpp]),
    changes its radio parameters from a button and propagates them to the
    other nodes in [CFG] frames (on its operating channel and on a fixed
    control channel), persists them with [Preferences], can receive a
    firmware image over LoRa ([OTA_START/OTA_DATA/OTA_END]) and, in the
    [ENABLE_WIFI_OTA] build, joins WiFi ([wifi_manager.cpp]), accepts an
    [ArduinoOTA] update and cascades it over LoRa. Beside it the repository
    holds a hardware abstraction layer ([hardware/hardware_abstraction.cpp])
    and a GPS driver for the UC6580 receiver ([sensors/gps_sensor.cpp]) that
    runs on that layer, and two examples: a GPS tracker and an
    environmental monitor ([examples/environmental_monitor/main.cpp]).

    The development is a shallow embedding: every global or member becomes
    a record field, every function a Rocq function from the state (and the
    values the environment supplies: clock readings, pin levels, received
    frames, results of library calls) to its result and the new state.
    Fallible code returns [option] ([None] for undefined behaviour: an
    out-of-bounds store, a read past a terminator, a division by zero, a
    signed overflow). Unsigned integers are [Z] reduced to their width
    ([u32], [u8], [u16]); floats are exact rationals or exact decimals,
    except in the GPS geometry, which computes in IEEE [double] ([CFloat.v]).
    Library code that is not in the repository (RadioLib, the ESP32 core's
    WiFi, [Update], ESP-IDF) is an interface, a [Class] whose instances say
    what each call returns; the theorems hold for every instance unless
    they name a concrete one.

    Files, in dependency order, and what they model:
    - [Prelude.v] (this file): text as [list ascii], the C string functions
      the firmware uses ([strstr], [strlen], [isspace]), [uint32_t]
      arithmetic ([u32], [-u], [+u]), decimal digits of [printf]/[strtol],
      the hint databases [lora] and [lora_rw] and the shared lemmas.
    - [CFloat.v]: C's [double] and [float] as IEEE 754 binary64 and
      binary32 (round to nearest, ties to even, signed zeros, infinities,
      NaN): each [+ - * /] and each conversion rounds the exact result once;
      rounding is monotone, so bounds on operands give bounds on results by
      evaluating the rounding at the endpoints.
    - [CEnum.v]: C++ [enum class]es in general: the value of a constructor
      (its declaration index, or the explicit initialiser), the inverse
      [static_cast] from an integer, and flag enums whose values are single
      bits combined with [|] and tested with [&].
    - [StateMachine.v]: [core/state_machine.h] (namespace
      [SystemStateMachine]): states, events, results, the [Transition] and
      [StateHandler] classes with their inline members, the seven
      predefined handlers and the engine's storage and initialiser list.
    - [SensorSystem.v]: [sensors/sensor_interface.h] (the [ISensor]
      interface as a [Class], the manager's storage) and
      [sensors/lightning_sensor.h] (the AS3935 register map, configuration,
      statistics and inline members; its out-of-line members are the class
      [AS3935Impl], from which an [ISensor] instance is built).
    - [ActuatorSystem.v]: [actuators/actuator_interface.h] (colors,
      animations, sound patterns, commands, [IActuator], the manager).
    - [CommunicationSystem.v]: [communication/communication_interface.h]
      (channels, messages and the ownership of their payload over a heap of
      live blocks, [ICommunication], the manager's six-slot table).
    - [ErrorLogging.v]: [core/error_handler.h] and [core/logger.h]: the
      severities, categories, error codes and their blocks, log levels and
      destination flags.
    - [CFormat.v]: [snprintf] ([%u %d %.kf], truncation) and [sscanf]
      (format compiled to directives, run with the C rules).
    - [AppLogic.v]: [app_logic.cpp] ([classifyPress], [cycleIndex],
      [formatTxMessage]).
    - [WifiManager.v]: [wifi_manager.cpp] and [wifi_config.h], the network
      table, the AUTO fallback and the per-location connections; the WiFi
      stack is the class [WifiLink].
    - [RadioParams.v]: the parameter globals of [main.cpp], the SF/BW/TX
      tables and indices, the [Preferences] namespace as a [gmap], and the
      RadioLib setter chain over the class [RadioDriver].
    - [ConfigMsg.v]: the [CFG] frame: its [snprintf] and the receiver's
      [sscanf].
    - [Nmea.v]: the NMEA text functions of [gps_sensor.cpp]
      ([validateChecksum], [splitNMEA] with [strtok], [nmeaToDecimal], the
      PCAS command builder).
    - [HalTimer.v]: the HAL's [Result] codes and software timers.
    - [Hal.v]: the rest of the HAL (initialisation, GPIO, I2C, SPI, PWM,
      ADC, power, NVS, the heap and system queries, [restart] and the task
      watchdog) in both builds, ESP-IDF as the class [EspPlatform]; the
      watchdog calls are the list of [esp_task_wdt_*] calls made.
    - [HalInterface.v]: the [HAL] class of [hardware_abstraction.h] as a
      [Record] of operations (one field per declared member), the
      implementation [hal_impl] built from [Hal.v], and the contract
      [HAL_contract] a client may rely on; client lemmas are proved from the
      contract alone.
    - [GpsSensor.v]: the [UC6580] driver over the HAL state, with its
      parsers, power and configuration commands and its UART, the step
      relation [gps_step] of its public calls, and [printDiagnostics] as
      the list of lines it prints.
    - [GpsGeo.v]: [distanceTo] (haversine) and [bearingTo] of the driver in
      the IEEE arithmetic of [CFloat.v], operation by operation as the
      source writes them; [sin], [cos], [atan2] and [sqrt] are the C
      library's, the class [Libm].
    - [GpsTracker.v]: the tracker example [gps_tracker_example.cpp]: the
      HAL, the global driver [g_gps] and the example's own state composed
      in one record; its [initialize()], [update()], [setup()] and host
      [main()].
    - [LoraOta.v]: the LoRa OTA receiving session ([handleLoraOtaPacket],
      [checkLoraOtaTimeout]) with the outcome each frame has on the
      display (started, progress percentage, flashed, failed) and the
      chunking of [sendLoraOtaUpdate]; [Update] is the class [Flasher].
    - [OtaRefinement.v]: the OTA session protocol as an abstract state
      machine ([Idle]/[Active]), the abstraction of the session globals, and
      the loop's reaction to a frame or a timeout check ([impl_step]).
    - [Display.v]: [initDisplay()] of [main.cpp]: power, reset, I2C and the
      two [u8g2] addresses, as the list of hardware calls made.
    - [NodeState.v]: the record [node] of all globals of [main.cpp], the
      display routine ([oledMsg], [drawStatusBar]) as the list of strings
      drawn with their position and font (the 64-pixel-wide rotated
      screen, 6 and 5 pixels per glyph), and the shared radio and
      persistence helpers.
    - [ControlChannel.v]: the control-channel broadcast and receive window.
    - [Cascade.v]: the WiFi-side cascade ([storeCurrentFirmware],
      [triggerLoraFirmwareUpdates], [sendLoraOtaUpdate] with its progress
      display, [initOTA]).
    - [Node.v]: [updateButton], one iteration of [loop()] on a [tick] of
      environment values, [setup()] (after [initDisplay]), and runs of
      several iterations.
    - [SystemConfig.v]: [config/system_config.h] (namespace [SystemConfig]
      and its nested namespaces) and its agreement with the literals and
      macros the firmware uses.
    - [EnvMonitor.v] (Module [EnvMonitor]): the environmental monitor
      example: its [SensorData], [setup()], [loop()], [readSensors()],
      [displayData()] and [logDataToSD()], with the SD card as a [gmap]
      from path to contents, the serial output as the list of lines
      printed, and a step relation [em_step] (boot, then loop iterations).
      The sensor, actuator and power-manager classes it includes are not in
      the repository; their readings are the environment record [tick] and
      the build flags the record [build].

    What the theorems show, by group (the claims [C1]..[C36] carry their
    statement in their doc comments):
    - the loop: a pending configuration broadcast is sent the announced
      number of times and then committed; a receiver applies a well-formed
      [CFG] frame and ignores a malformed one; the inline button thresholds
      agree with [classifyPress];
    - the [CFG] frame round trip (print then scan gives the parameters back)
      and the table bandwidth 62.5 kHz for which it fails;
    - the LoRa OTA session: an invariant of every reachable session, the
      complete session flashes exactly the bytes sent, images of 1024 bytes
      or more never flash, a zero size traps, a partial start frame
      overwrites the session; the chunking partitions the image; the
      cascade's stored image and its chunk buffer overflow;
    - refinement and liveness of the OTA session: along every sequence of
      well-formed frames and timeout checks the code follows the abstract
      machine with a 1023-byte buffer and flashes exactly when it does; a
      session with a timeout below [2^32 - 1] ms ends at the first check
      past it, one with [2^32 - 1] never does;
    - the HAL: the board build never initialises (so every guarded call
      fails), the flag invariant of every reachable state, the timer table
      invariant and the exact set of callbacks [processTimers] calls, a
      fired one-shot timer whose slot no later [createTimer] reuses until
      the timer is deleted or the subsystem reset, the battery percentage that is always 0, the PWM channel collision; the
      implementation satisfies the [HAL_contract] of the interface (range
      checks on pins, duty cycles, I2C addresses and ADC resolutions, the
      guard of every call on an uninitialised layer);
    - the GPS driver: [splitNMEA] is "the non-empty fields", hence standard
      GGA sentences with empty fields are rejected; every parse counts
      exactly once; [nmeaToDecimal] is degrees plus minutes over 60; the
      powered-implies-initialised invariant;
    - the tracker example: on the board its [setup()] halts in
      [while (1)] in every reachable HAL state;
    - the control channel (the early return that skips restoring the
      operational configuration, the end of the receive window), the persistence round
      trip, and the networks the WiFi AUTO fallback can try for any table
      (the remembered one and the first of each priority 1..N);
    - the display: a board without a display halts in [setup()] before
      its radio starts; the right-aligned mode line of [oledMsg] and the
      status bar overflow the 64-pixel screen on reachable states;
    - the environmental monitor: from an SD card whose data file is a CSV
      file (header, then rows), every reachable state keeps it one; each
      row read back with the format of its columns gives the six values
      written;
    - the GPS geometry in IEEE arithmetic: for every C library whose
      [atan2] stays within [[-M_PI, M_PI]], [bearingTo] returns a finite
      float in the closed range [[0, 360]], and exactly [360] when [atan2]
      returns a negative value from [-2^-23] up, although its comment
      promises a normalisation to 0-360.
    The framework headers' lemmas (message ownership, flag masks, enum
    round trips, the agreement of [system_config.h] with the firmware), the
    [initDisplay] call sequence, the checksum of the factory-reset command
    and the host build's undefined [update] are kept as lemmas of their
    files.
    Each claim with hypotheses has a witness [<name>_witness] that applies it
    at a concrete input.

    Bounds and fuel: [dec_fuel] = 20 digits covers every 64-bit value
    printed by [%u]; [compile_fmt] takes the format's length as fuel, one
    directive per character at least; [ota_chunks] and [strtok_loop] take
    the number of bytes left (plus one), and each step consumes at least one
    byte, so the fuel never runs out (the chunking theorem of [LoraOta.v],
    [strtok_loop_spec]); run-based statements ([run_loop], [listen]) take
    the list of environment events, and the termination theorem of the
    receive window shows enough events always end it.

    Not modelled: the pixels [u8g2] draws (the display is the list of
    strings with position and font); the C library's [sin], [cos], [atan2]
    and [sqrt] (an interface: no value of [distanceTo] is claimed, since
    whether its haversine term rounds above 1 depends on them); the
    rounding of the parser's [double]s ([nmeaToDecimal], [atof]: the
    driver stores exact rationals, and [GpsGeo.v] starts from the nearest
    [double]) and of the monitor's sensor readings; what a timer's
    callback does when [processTimers] calls it (a callback is an id, and
    the theorems are about which ids are called and the slot table); the
    members of the
    framework headers that are declared and never defined in the
    repository (the engine's, the managers' and the logger's and error
    handler's methods): there is no code to translate. The environmental
    monitor's sensor, actuator and power-manager objects and its
    [HAL::init] are not in the repository; the model takes their results
    as inputs. *)

From stdpp Require Import base list strings.
From Stdlib Require Import ZArith Ascii String Lia.

Declare Scope lora_scope.
Delimit Scope lora_scope with lora.
Open Scope Z_scope.

Create HintDb lora discriminated.
Create Rewrite HintDb lora_rw.

(** ** Text

    C strings and Arduino [String]s are modelled as lists of characters.
    [lit] turns a Rocq string literal into such a list. *)

Abbreviation text := (list ascii).

(** [length] and [concat] are the list functions throughout the
    development (Stdlib's [String] would otherwise shadow them). *)
Abbreviation length := List.length (only parsing).
Abbreviation concat := List.concat (only parsing).

Definition lit (s : string) : text := list_ascii_of_string s.

(** Characters as the C library classifies them. *)
Definition code (c : ascii) : Z := Z.of_nat (nat_of_ascii c).

Definition is_digit (c : ascii) : bool := (48 <=? code c) && (code c <=? 57).

(** [isspace] of the C locale: space, \t, \n, \v, \f, \r. *)
Definition is_space (c : ascii) : bool :=
  (code c =? 32) || ((9 <=? code c) && (code c <=? 13)).

Definition digit_val (c : ascii) : Z := code c - 48.

Definition digit_char (d : Z) : ascii := ascii_of_nat (Z.to_nat (d + 48)).

Definition nul : ascii := Ascii.zero.

(** [String::startsWith] of the Arduino core. *)
Fixpoint starts_with (p t : text) : bool :=
  match p, t with
  | [], _ => true
  | c :: p', d :: t' => if ascii_dec c d then starts_with p' t' else false
  | _ :: _, [] => false
  end.

(** [strstr(hay, needle)]: the suffix of [hay] from the first occurrence of
    [needle], [NULL] as [None]. *)
Fixpoint strstr (needle hay : text) : option text :=
  if starts_with needle hay then Some hay
  else match hay with [] => None | _ :: t => strstr needle t end.

(** The C string a character array denotes: everything before the first NUL
    ([strlen], and the [String(const char * )] constructor). *)
Fixpoint cstr (t : text) : text :=
  match t with
  | [] => []
  | c :: t' => if ascii_dec c nul then [] else c :: cstr t'
  end.

Fixpoint skip_ws (t : text) : text :=
  match t with
  | c :: t' => if is_space c then skip_ws t' else t
  | [] => []
  end.

(** ** Unsigned 32-bit arithmetic

    [uint32_t] values are integers in [0, 2^32); every arithmetic result is
    reduced modulo 2^32, as C does for unsigned types. *)

Definition u32_modulus : Z := 2 ^ 32.

Definition u32 (z : Z) : Z := z mod u32_modulus.

Definition is_u32 (z : Z) : Prop := 0 <= z < u32_modulus.

(** An [unsigned] value converted to [int] (two's complement). *)
Definition i32_of_u32 (z : Z) : Z := if z <? 2 ^ 31 then z else z - u32_modulus.

Notation "a -u b" := (u32 (a - b)) (at level 50, left associativity) : lora_scope.
Notation "a +u b" := (u32 (a + b)) (at level 50, left associativity) : lora_scope.

Open Scope lora_scope.

(** ** Decimal printing and scanning of non-negative integers

    [fmt_uint] is the digit string [printf] produces for [%u]/[%lu]/[%zu];
    [span_digits] and [digits_value] are the digit loop of [strtol]. The
    fuel [dec_fuel] bounds the number of digits (20 digits cover every
    64-bit value). *)

Fixpoint digits_lsd (fuel : nat) (n : Z) : list Z :=
  match fuel with
  | O => []
  | S f => n mod 10 :: (if n <? 10 then [] else digits_lsd f (n / 10))
  end.

Definition dec_fuel : nat := 20.

Definition fmt_uint (n : Z) : text := map digit_char (rev (digits_lsd dec_fuel n)).

Definition digits_value (ds : text) : Z :=
  fold_left (fun acc c => acc * 10 + digit_val c) ds 0.

Fixpoint span_digits (t : text) : text * text :=
  match t with
  | c :: t' => if is_digit c then let '(ds, r) := span_digits t' in (c :: ds, r) else ([], t)
  | [] => ([], [])
  end.

(** [rest] does not begin with a digit: scanning stops where it starts. *)
Definition digit_free_head (rest : text) : bool :=
  match rest with
  | c :: _ => negb (is_digit c)
  | [] => true
  end.

(** ** Shared tactics *)

(** Close a goal about [u32] by unfolding the modulus and calling [lia]. *)
Ltac u32_lia :=
  unfold u32, is_u32, u32_modulus in *; lia.

(** Case on every boolean comparison of the goal. *)
Ltac case_cmp :=
  repeat match goal with
  | |- context [Z.ltb ?a ?b] => destruct (Z.ltb_spec a b)
  | |- context [Z.leb ?a ?b] => destruct (Z.leb_spec a b)
  | |- context [Z.eqb ?a ?b] => destruct (Z.eqb_spec a b)
  end.

(** ** Lemmas on unsigned arithmetic *)

Lemma u32_range z : is_u32 (u32 z).
Proof. unfold is_u32, u32, u32_modulus. apply Z.mod_pos_bound. lia. Qed.

Lemma u32_small z : is_u32 z -> u32 z = z.
Proof. unfold is_u32, u32. apply Z.mod_small. Qed.

(** Elapsed time [now - start] is the true distance across a wrap of the
    clock, as long as it is below 2^32. *)
Lemma u32_elapsed t0 d : is_u32 t0 -> 0 <= d < u32_modulus -> u32 (t0 +u d - t0) = d.
Proof.
  intros H0 Hd. unfold u32. rewrite Zminus_mod_idemp_l.
  replace (t0 + d - t0) with d by lia. apply Z.mod_small. exact Hd.
Qed.

Lemma u32_add_mod a b : a +u b = u32 (u32 a + b).
Proof. unfold u32. now rewrite Zplus_mod_idemp_l. Qed.

#[export] Hint Resolve u32_range : lora.
#[export] Hint Rewrite u32_small using (assumption || auto with lora) : lora_rw.

(** ** Lemmas on digits *)

Lemma digit_val_char d : 0 <= d < 10 -> digit_val (digit_char d) = d.
Proof.
  intros Hd. unfold digit_val, digit_char, code.
  rewrite nat_ascii_embedding by lia. lia.
Qed.

Lemma is_digit_char d : 0 <= d < 10 -> is_digit (digit_char d) = true.
Proof.
  intros Hd. unfold is_digit, code, digit_char.
  rewrite nat_ascii_embedding by lia. apply andb_true_intro; split; apply Z.leb_le; lia.
Qed.

Lemma digits_lsd_range fuel n : 0 <= n -> Forall (fun d => 0 <= d < 10) (digits_lsd fuel n).
Proof.
  revert n. induction fuel as [|f IH]; intros n Hn; simpl; constructor.
  - apply Z.mod_pos_bound; lia.
  - case_cmp; [constructor | apply IH; apply Z.div_pos; lia].
Qed.

Lemma digits_lsd_value fuel n :
  0 <= n < 10 ^ Z.of_nat fuel ->
  fold_right (fun d acc => acc * 10 + d) 0 (digits_lsd fuel n) = n.
Proof.
  revert n. induction fuel as [|f IH]; intros n Hn.
  { change (10 ^ Z.of_nat 0) with 1 in Hn. simpl. lia. }
  simpl. case_cmp.
  - cbn [foldr]. rewrite Z.mod_small; lia.
  - rewrite IH.
    + pose proof (Z.div_mod n 10). lia.
    + split; [apply Z.div_pos; lia|].
      apply Z.div_lt_upper_bound; [lia|].
      rewrite Nat2Z.inj_succ, Z.pow_succ_r in Hn; lia.
Qed.

Lemma digits_lsd_length f m j : 0 <= m < 10 ^ Z.of_nat (S j) -> (length (digits_lsd f m) <= S j)%nat.
Proof.
  revert m j. induction f as [|f IH]; intros m j Hm; simpl; [lia|].
  case_cmp; simpl; [lia|].
  destruct j as [|j].
  - change (10 ^ Z.of_nat 1) with 10 in Hm. lia.
  - apply le_n_S, IH. split; [apply Z.div_pos; lia|].
    apply Z.div_lt_upper_bound; [lia|]. rewrite (Nat2Z.inj_succ (S j)), Z.pow_succ_r in Hm; lia.
Qed.

Lemma fmt_uint_digits n : 0 <= n -> Forall (fun c => is_digit c = true) (fmt_uint n).
Proof.
  intros Hn. unfold fmt_uint. apply Forall_map, Forall_rev.
  eapply Forall_impl; [apply digits_lsd_range; exact Hn|].
  intros d Hd. apply is_digit_char. exact Hd.
Qed.

Lemma fmt_uint_value n : 0 <= n < 10 ^ 20 -> digits_value (fmt_uint n) = n.
Proof.
  intros Hn. unfold digits_value, fmt_uint.
  rewrite <- (digits_lsd_value dec_fuel n) at 2 by exact Hn.
  pose proof (digits_lsd_range dec_fuel n ltac:(lia)) as Hr.
  induction (digits_lsd dec_fuel n) as [|d ds IH]; simpl; [reflexivity|].
  inversion Hr; subst. rewrite map_app, fold_left_app. simpl.
  rewrite digit_val_char, IH by assumption. reflexivity.
Qed.

Lemma digits_lsd_S f n : exists l, digits_lsd (S f) n = n mod 10 :: l.
Proof. now eexists. Qed.

Lemma fmt_uint_nonempty n : fmt_uint n <> [].
Proof.
  unfold fmt_uint. change dec_fuel with (S 19).
  destruct (digits_lsd_S 19 n) as [l ->]. cbn [rev]. rewrite map_app.
  intros H. now apply app_eq_nil in H as [_ ?].
Qed.

(** A number of at least [10^k] has more than [k] digits. *)
Lemma digits_lsd_length_ge f k n : (k < f)%nat -> 10 ^ Z.of_nat k <= n -> (k < length (digits_lsd f n))%nat.
Proof.
  revert f n. induction k as [|k IH]; intros f n Hf Hn; destruct f as [|f]; try lia; simpl; [lia|].
  rewrite Nat2Z.inj_succ, Z.pow_succ_r in Hn by lia.
  destruct (Z.ltb_spec n 10); [pose proof (Z.pow_pos_nonneg 10 (Z.of_nat k)); lia|]. simpl.
  apply -> Nat.succ_lt_mono. apply IH; [lia|]. apply Z.div_le_lower_bound; lia.
Qed.

Lemma fmt_uint_length_ge k n : (k < 20)%nat -> 10 ^ Z.of_nat k <= n -> (k < length (fmt_uint n))%nat.
Proof. intros Hk Hn. unfold fmt_uint. rewrite length_map, length_rev. apply digits_lsd_length_ge; assumption. Qed.

Lemma span_digits_app ds rest :
  Forall (fun c => is_digit c = true) ds -> digit_free_head rest = true ->
  span_digits (ds ++ rest) = (ds, rest).
Proof.
  intros Hds Hr. induction Hds as [|c ds Hc _ IH]; simpl.
  - destruct rest as [|c rest]; simpl in *; [reflexivity|].
    destruct (is_digit c); [discriminate | reflexivity].
  - rewrite Hc, IH. reflexivity.
Qed.

Lemma starts_with_app p t : starts_with p (p ++ t) = true.
Proof. induction p as [|c p IH]; simpl; [reflexivity|]. destruct (ascii_dec c c); [exact IH | congruence]. Qed.

Lemma starts_with_spec p t : starts_with p t = true <-> exists r, t = p ++ r.
Proof.
  split.
  - revert t. induction p as [|c p IH]; intros t H; [now exists t|].
    destruct t as [|d t]; simpl in H; [discriminate|].
    destruct (ascii_dec c d) as [->|]; [|discriminate].
    destruct (IH t H) as [r ->]. now exists r.
  - intros [r ->]. apply starts_with_app.
Qed.

#[export] Hint Resolve starts_with_app fmt_uint_digits fmt_uint_nonempty : lora.
