(* ===== verification/CFloat.v ===== *)
(** * CFloat: the [double] and [float] arithmetic of C (IEEE 754)

    The GPS geometry of [src/src/sensors/gps_sensor.cpp] computes in
    [double] and returns a [float]. Both are IEEE 754 binary formats with
    rounding to nearest, ties to even: [binary64] (53-bit significand,
    least subnormal [2^-1074], overflow at [2^1024]) and [binary32] (24 bits,
    [2^-149], [2^128]). A value is [Fin neg q] (sign and magnitude [q], a
    reduced rational that the format represents; [Fin true 0] is [-0.0]),
    [Inf neg] or [NaN]. Each operation computes the exact result of its
    operands and rounds it once, as IEEE 754 requires of [+ - * /] and of
    the conversions; the special values follow the standard's tables
    (NaN propagates, [inf - inf] and [0 * inf] are NaN, [x / 0] is an
    infinity, an exact zero sum is [+0] unless both operands are [-0]).
    Everything is executable: literals and endpoints evaluate by
    [vm_compute].

    The lemmas: rounding is monotone ([round_mag_mono], [rnd_mono]) and
    leaves integers of the format alone; hence each operation on finite
    operands gives the rounded exact value ([dmul_fin], [ddiv_fin],
    [dadd_fin], [to_float_fin]), and bounds on operands give bounds on
    results by evaluating the rounding at the endpoints. *)

From Stdlib Require Import ZArith QArith Qround Qpower Lia Lqa.

Open Scope Q_scope.

(** A binary format: significand bits, exponent of the least subnormal,
    and the power of two at which values overflow. *)
Record format := mkFormat { prec : Z; emin : Z; emax : Z }.

Definition binary64 : format := mkFormat 53 (-1074) 1024.
Definition binary32 : format := mkFormat 24 (-149) 128.

Inductive fp :=
  | Fin (neg : bool) (q : Q)
  | Inf (neg : bool)
  | NaN.

Definition pow2 (e : Z) : Q := (2 # 1) ^ e.

(** The binade of a positive rational: [2^(mag x - 1) <= x < 2^(mag x)]. *)
Definition mag (x : Q) : Z :=
  let k := (Z.log2 (Qnum x) - Z.log2 (Zpos (Qden x)))%Z in
  if Qlt_le_dec x (pow2 k) then k else (k + 1)%Z.

(** The exponent of the last significand bit of [x] in format [f]. *)
Definition cexp (f : format) (x : Q) : Z := Z.max (mag x - prec f) (emin f).

(** Rounding a rational to an integer, to nearest, ties to even. *)
Definition rne (q : Q) : Z :=
  let n := Qfloor q in
  let d := q - inject_Z n in
  if Qlt_le_dec d (1 # 2) then n
  else if Qeq_dec d (1 # 2) then (if Z.even n then n else n + 1)%Z
  else (n + 1)%Z.

(** The magnitude of a non-negative rational rounded to the format. *)
Definition round_mag (f : format) (x : Q) : Q :=
  if Qeq_dec x 0 then 0
  else let e := cexp f x in Qred (inject_Z (rne (x / pow2 e)) * pow2 e).

(** A non-zero exact result [q] rounded, with overflow to an infinity;
    an exact zero gets the sign [zs]. *)
Definition of_exact (f : format) (q : Q) (zs : bool) : fp :=
  match Qcompare q 0 with
  | Eq => Fin zs 0
  | Lt => let r := round_mag f (- q) in if Qle_bool (pow2 (emax f)) r then Inf true else Fin true r
  | Gt => let r := round_mag f q in if Qle_bool (pow2 (emax f)) r then Inf false else Fin false r
  end.

(** The value of a finite number. *)
Definition fpQ (x : fp) : Q :=
  match x with Fin true q => - q | Fin false q => q | _ => 0 end.

Definition is_fin (x : fp) : bool := match x with Fin _ _ => true | _ => false end.

Definition neg_of (x : fp) : bool := match x with Fin s _ | Inf s => s | NaN => false end.

Definition fneg (x : fp) : fp :=
  match x with Fin s q => Fin (negb s) q | Inf s => Inf (negb s) | NaN => NaN end.

(** [x + y] in format [f]. *)
Definition fadd (f : format) (x y : fp) : fp :=
  match x, y with
  | NaN, _ | _, NaN => NaN
  | Inf a, Inf b => if Bool.eqb a b then Inf a else NaN
  | Inf a, _ => Inf a
  | _, Inf b => Inf b
  | Fin a _, Fin b _ => of_exact f (fpQ x + fpQ y) (a && b)
  end.

(** [x - y] is [x + (-y)]. *)
Definition fsub (f : format) (x y : fp) : fp := fadd f x (fneg y).

Definition is_zero (x : fp) : bool := match x with Fin _ q => Qeq_bool q 0 | _ => false end.

(** [x * y]. *)
Definition fmul (f : format) (x y : fp) : fp :=
  let s := xorb (neg_of x) (neg_of y) in
  match x, y with
  | NaN, _ | _, NaN => NaN
  | Inf _, _ | _, Inf _ => if is_zero x || is_zero y then NaN else Inf s
  | Fin _ _, Fin _ _ => of_exact f (fpQ x * fpQ y) s
  end.

(** [x / y]. *)
Definition fdiv (f : format) (x y : fp) : fp :=
  let s := xorb (neg_of x) (neg_of y) in
  match x, y with
  | NaN, _ | _, NaN => NaN
  | Inf _, Inf _ => NaN
  | Inf _, _ => Inf s
  | Fin _ _, Inf _ => Fin s 0
  | Fin _ p, Fin _ q =>
    if Qeq_bool q 0 then (if Qeq_bool p 0 then NaN else Inf s)
    else of_exact f (fpQ x / fpQ y) s
  end.

(** [x < y]: false when either is NaN. *)
Definition flt (x y : fp) : bool :=
  match x, y with
  | NaN, _ | _, NaN => false
  | Inf a, Inf b => a && negb b
  | Inf a, _ => a
  | _, Inf b => negb b
  | Fin _ _, Fin _ _ => negb (Qle_bool (fpQ y) (fpQ x))
  end.

(** The [double] operations. *)
Definition dadd := fadd binary64.
Definition dsub := fsub binary64.
Definition dmul := fmul binary64.
Definition ddiv := fdiv binary64.

(** [static_cast<float>] of a [double]. *)
Definition to_float (x : fp) : fp :=
  match x with Fin s q => of_exact binary32 (fpQ x) s | _ => x end.

(** A decimal literal [m * 10^k] of type [double] ([dlit]) or [float]
    ([flit]); an [int] converted to [double] ([of_int]). *)
Definition dec_value (m k : Z) : Q := inject_Z m * (10 # 1) ^ k.
Definition dlit (m k : Z) : fp := of_exact binary64 (dec_value m k) false.
Definition flit (m k : Z) : fp := of_exact binary32 (dec_value m k) false.
Definition of_int (z : Z) : fp := of_exact binary64 (inject_Z z) false.

(** [M_PI] of [<math.h>]: the literal [3.14159265358979323846]. *)
Definition M_PI : fp := dlit 314159265358979323846 (-20).

(** The signed rounding of an exact value, the value of [of_exact]. *)
Definition rnd (f : format) (q : Q) : Q :=
  if Qlt_le_dec q 0 then - round_mag f (- q) else round_mag f q.

(** ** Powers of two *)

Lemma pow2_pos e : 0 < pow2 e.
Proof. apply Qpower_0_lt. reflexivity. Qed.

Lemma pow2_le e1 e2 : (e1 <= e2)%Z -> pow2 e1 <= pow2 e2.
Proof. intros H. apply Qpower_le_compat_l; [exact H | discriminate]. Qed.

Lemma pow2_lt e1 e2 : (e1 < e2)%Z -> pow2 e1 < pow2 e2.
Proof. intros H. apply Qpower_lt_compat_l; [exact H | reflexivity]. Qed.

Lemma pow2_plus e1 e2 : pow2 (e1 + e2) == pow2 e1 * pow2 e2.
Proof. apply Qpower_plus. discriminate. Qed.

Lemma pow2_Z n : (0 <= n)%Z -> pow2 n == inject_Z (2 ^ n).
Proof. intros H. unfold pow2. rewrite Zpower_Qpower by exact H. reflexivity. Qed.

Lemma pow2_frac a b : (0 <= a)%Z -> (0 <= b)%Z -> pow2 (a - b) == inject_Z (2 ^ a) / inject_Z (2 ^ b).
Proof.
  intros Ha Hb. unfold pow2. rewrite Qpower_minus by discriminate.
  rewrite !Zpower_Qpower by assumption. reflexivity.
Qed.

(** Comparing two fractions of integers with positive denominators. *)
Lemma Qdiv_lt_cross a b c d : (0 < b)%Z -> (0 < d)%Z ->
  (inject_Z a / inject_Z b < inject_Z c / inject_Z d <-> (a * d < c * b)%Z).
Proof.
  intros Hb Hd. rewrite <- (Qmult_lt_r _ _ (inject_Z b * inject_Z d)).
  2: { rewrite <- inject_Z_mult. unfold Qlt. simpl. lia. }
  setoid_replace (inject_Z a / inject_Z b * (inject_Z b * inject_Z d)) with (inject_Z (a * d)).
  2: { rewrite inject_Z_mult. field. unfold Qeq. simpl. lia. }
  setoid_replace (inject_Z c / inject_Z d * (inject_Z b * inject_Z d)) with (inject_Z (c * b)).
  2: { rewrite inject_Z_mult. field. unfold Qeq. simpl. lia. }
  rewrite <- Zlt_Qlt. reflexivity.
Qed.

(** ** The binade *)

Lemma mag_spec x : 0 < x -> pow2 (mag x - 1) <= x /\ x < pow2 (mag x).
Proof.
  destruct x as [n d]. intros Hx. unfold Qlt in Hx. simpl in Hx.
  assert (Hn : (0 < n)%Z) by lia.
  destruct (Z.log2_spec n Hn) as [Hn1 Hn2]. destruct (Z.log2_spec (Zpos d) eq_refl) as [Hd1 Hd2].
  pose proof (Z.log2_nonneg n). pose proof (Z.log2_nonneg (Zpos d)).
  set (a := Z.log2 n) in *. set (b := Z.log2 (Zpos d)) in *.
  assert (Hlo : pow2 (a - b - 1) < n # d).
  { replace (a - b - 1)%Z with (a - (b + 1))%Z by lia. rewrite pow2_frac, Qmake_Qdiv by lia.
    apply Qdiv_lt_cross; [lia|lia|]. rewrite Z.pow_succ_r in Hd2 by lia.
    rewrite Z.pow_add_r, Z.pow_1_r by lia. nia. }
  assert (Hhi : n # d < pow2 (a - b + 1)).
  { replace (a - b + 1)%Z with ((a + 1) - b)%Z by lia. rewrite pow2_frac, Qmake_Qdiv by lia.
    apply Qdiv_lt_cross; [lia|lia|]. rewrite Z.pow_succ_r in Hn2 by lia.
    rewrite Z.pow_add_r, Z.pow_1_r by lia. nia. }
  unfold mag. cbn [Qnum Qden]. fold a b.
  destruct (Qlt_le_dec (n # d) (pow2 (a - b))) as [Hl|Hl]; split.
  - apply Qlt_le_weak. exact Hlo.
  - exact Hl.
  - replace (a - b + 1 - 1)%Z with (a - b)%Z by lia. exact Hl.
  - exact Hhi.
Qed.

Lemma mag_le x y : 0 < x -> x <= y -> (mag x <= mag y)%Z.
Proof.
  intros Hx Hxy. destruct (mag_spec x Hx) as [Hx1 _].
  destruct (mag_spec y (Qlt_le_trans _ _ _ Hx Hxy)) as [_ Hy2].
  destruct (Z_le_gt_dec (mag x) (mag y)) as [H|H]; [exact H|exfalso].
  assert (pow2 (mag y) <= pow2 (mag x - 1)) by (apply pow2_le; lia).
  lra.
Qed.

(** ** Rounding to an integer *)

Lemma rne_cases q : rne q = Qfloor q \/ rne q = (Qfloor q + 1)%Z.
Proof.
  unfold rne. destruct (Qlt_le_dec _ _); [auto|]. destruct (Qeq_dec _ _); [|auto].
  destruct (Z.even _); auto.
Qed.

Lemma rne_mono q1 q2 : q1 <= q2 -> (rne q1 <= rne q2)%Z.
Proof.
  intros H. pose proof (Qfloor_resp_le _ _ H) as Hf.
  destruct (Z.eq_dec (Qfloor q1) (Qfloor q2)) as [E|Hne].
  - unfold rne. rewrite E. set (f := Qfloor q2).
    destruct (Qlt_le_dec (q1 - inject_Z f) (1 # 2)) as [H1|H1];
      [destruct (Qlt_le_dec (q2 - inject_Z f) _); [lia|]; destruct (Qeq_dec _ _); [destruct (Z.even f)|]; lia|].
    destruct (Qlt_le_dec (q2 - inject_Z f) (1 # 2)) as [H2|H2]; [lra|].
    destruct (Qeq_dec (q1 - inject_Z f) (1 # 2)) as [E1|E1];
      destruct (Qeq_dec (q2 - inject_Z f) (1 # 2)) as [E2|E2]; try (destruct (Z.even f)); try lia;
      exfalso; apply E1; apply Qle_antisym; lra.
  - destruct (rne_cases q1), (rne_cases q2); lia.
Qed.

Lemma rne_Z z : rne (inject_Z z) = z.
Proof.
  unfold rne. rewrite Qfloor_Z. destruct (Qlt_le_dec _ _) as [_|H]; [reflexivity|].
  exfalso. setoid_replace (inject_Z z - inject_Z z) with 0 in H by ring. lra.
Qed.

Lemma rne_le_Z q z : q <= inject_Z z -> (rne q <= z)%Z.
Proof. intros H. rewrite <- (rne_Z z). apply rne_mono, H. Qed.

Lemma rne_ge_Z q z : inject_Z z <= q -> (z <= rne q)%Z.
Proof. intros H. rewrite <- (rne_Z z). apply rne_mono, H. Qed.

Lemma Qdiv_nonneg x y : 0 <= x -> 0 < y -> 0 <= x / y.
Proof. intros Hx Hy. apply Qle_shift_div_l; [exact Hy|]. rewrite Qmult_0_l. exact Hx. Qed.

(** ** Monotonicity of rounding *)

Section Rounding.
Variable f : format.
Hypothesis prec_pos : (1 <= prec f)%Z.

Lemma round_mag_nonneg x : 0 <= x -> 0 <= round_mag f x.
Proof.
  intros Hx. unfold round_mag. destruct (Qeq_dec x 0); [apply Qle_refl|].
  rewrite Qred_correct. apply Qmult_le_0_compat; [|apply Qlt_le_weak, pow2_pos].
  change 0 with (inject_Z 0). rewrite <- Zle_Qle. apply rne_ge_Z, Qdiv_nonneg; [exact Hx|apply pow2_pos].
Qed.

(** Above the binade of [x] the rounding is at least [2^(cexp + prec - 1)]... *)
Lemma round_mag_lower x : 0 < x -> cexp f x = (mag x - prec f)%Z ->
  pow2 (mag x - 1) <= inject_Z (rne (x / pow2 (cexp f x))) * pow2 (cexp f x).
Proof.
  intros Hx E. rewrite E.
  assert (Hl : inject_Z (2 ^ (prec f - 1)) <= x / pow2 (mag x - prec f)).
  { apply Qle_shift_div_l; [apply pow2_pos|]. rewrite <- pow2_Z by lia. rewrite <- pow2_plus.
    replace (prec f - 1 + (mag x - prec f))%Z with (mag x - 1)%Z by lia. apply (mag_spec x Hx). }
  apply rne_ge_Z in Hl. rewrite Zle_Qle in Hl.
  replace (mag x - 1)%Z with (prec f - 1 + (mag x - prec f))%Z by lia.
  rewrite pow2_plus, pow2_Z by lia. apply Qmult_le_compat_r; [exact Hl|apply Qlt_le_weak, pow2_pos].
Qed.

(** ... and within it at most [2^(cexp + prec)]. *)
Lemma round_mag_upper x : 0 < x ->
  inject_Z (rne (x / pow2 (cexp f x))) * pow2 (cexp f x) <= pow2 (prec f + cexp f x).
Proof.
  intros Hx.
  assert (Hu : x / pow2 (cexp f x) <= inject_Z (2 ^ prec f)).
  { apply Qle_shift_div_r; [apply pow2_pos|]. rewrite <- pow2_Z by lia. rewrite <- pow2_plus.
    apply Qlt_le_weak. eapply Qlt_le_trans; [apply (mag_spec x Hx)|]. apply pow2_le. unfold cexp. lia. }
  apply rne_le_Z in Hu. rewrite Zle_Qle in Hu.
  rewrite pow2_plus, (pow2_Z (prec f)) by lia. apply Qmult_le_compat_r; [exact Hu|apply Qlt_le_weak, pow2_pos].
Qed.

Lemma round_mag_mono x y : 0 <= x -> x <= y -> round_mag f x <= round_mag f y.
Proof.
  intros Hx0 Hxy. destruct (Qeq_dec x 0) as [Hz|Hz].
  { unfold round_mag at 1. destruct (Qeq_dec x 0); [|contradiction]. apply round_mag_nonneg. lra. }
  assert (Hx : 0 < x) by (apply Qle_lteq in Hx0 as [H|H]; [exact H|symmetry in H; contradiction]).
  assert (Hy : 0 < y) by lra.
  unfold round_mag. destruct (Qeq_dec x 0); [contradiction|]. destruct (Qeq_dec y 0) as [Hy0|_]; [lra|].
  rewrite !Qred_correct. pose proof (mag_le x y Hx Hxy) as Hm.
  assert (He : (cexp f x <= cexp f y)%Z) by (unfold cexp; lia).
  destruct (Z.eq_dec (cexp f x) (cexp f y)) as [E|Hne].
  - rewrite E. apply Qmult_le_compat_r; [|apply Qlt_le_weak, pow2_pos].
    rewrite <- Zle_Qle. apply rne_mono. apply Qmult_le_compat_r; [exact Hxy|].
    apply Qinv_le_0_compat, Qlt_le_weak, pow2_pos.
  - assert (Ey : cexp f y = (mag y - prec f)%Z) by (unfold cexp in *; lia).
    eapply Qle_trans; [apply (round_mag_upper x Hx)|].
    eapply Qle_trans; [|apply (round_mag_lower y Hy Ey)]. apply pow2_le. lia.
Qed.

Lemma round_mag_0 : round_mag f 0 = 0.
Proof. reflexivity. Qed.

(** The signed rounding is monotone. *)
Lemma rnd_mono x y : x <= y -> rnd f x <= rnd f y.
Proof.
  intros H. unfold rnd.
  destruct (Qlt_le_dec x 0), (Qlt_le_dec y 0).
  - assert (round_mag f (- y) <= round_mag f (- x)) by (apply round_mag_mono; lra). lra.
  - assert (0 <= round_mag f (- x)) by (apply round_mag_nonneg; lra).
    assert (0 <= round_mag f y) by (apply round_mag_nonneg; lra). lra.
  - lra.
  - apply round_mag_mono; assumption.
Qed.
End Rounding.

(** ** Operations on finite operands *)

Lemma rnd_0 f q : q == 0 -> rnd f q == 0.
Proof.
  intros H. unfold rnd. destruct (Qlt_le_dec q 0); [lra|].
  unfold round_mag. destruct (Qeq_dec q 0); [reflexivity|contradiction].
Qed.

(** An exact result between [lo] and [hi] rounds to a finite number
    between their roundings, when those do not overflow. *)
Lemma of_exact_range f q zs lo hi :
  (1 <= prec f)%Z -> lo <= q <= hi ->
  - pow2 (emax f) < rnd f lo -> rnd f hi < pow2 (emax f) ->
  is_fin (of_exact f q zs) = true /\ rnd f lo <= fpQ (of_exact f q zs) <= rnd f hi.
Proof.
  intros Hp [Hl Hh] Hlo Hhi.
  pose proof (rnd_mono f Hp _ _ Hl) as Ml. pose proof (rnd_mono f Hp _ _ Hh) as Mh.
  unfold of_exact. destruct (Qcompare_spec q 0) as [E|L|G].
  - pose proof (rnd_0 f q E). destruct zs; simpl; split; auto; lra.
  - assert (R : rnd f q = - round_mag f (- q)) by (unfold rnd; destruct (Qlt_le_dec q 0); [reflexivity|lra]).
    rewrite R in Ml, Mh.
    destruct (Qle_bool (pow2 (emax f)) (round_mag f (- q))) eqn:B.
    + apply Qle_bool_imp_le in B. lra.
    + simpl. split; [reflexivity|]. lra.
  - assert (R : rnd f q = round_mag f q) by (unfold rnd; destruct (Qlt_le_dec q 0); [lra|reflexivity]).
    rewrite R in Ml, Mh.
    destruct (Qle_bool (pow2 (emax f)) (round_mag f q)) eqn:B.
    + apply Qle_bool_imp_le in B. lra.
    + simpl. split; [reflexivity|]. lra.
Qed.

Definition fin_range (f : format) (lo hi : Q) (x : fp) : Prop :=
  is_fin x = true /\ rnd f lo <= fpQ x <= rnd f hi.

Lemma fmul_range f x y lo hi :
  (1 <= prec f)%Z -> is_fin x = true -> is_fin y = true -> lo <= fpQ x * fpQ y <= hi ->
  - pow2 (emax f) < rnd f lo -> rnd f hi < pow2 (emax f) -> fin_range f lo hi (fmul f x y).
Proof.
  intros Hp Hx Hy Hq Hlo Hhi. destruct x as [a p| |], y as [b q| |]; try discriminate.
  apply of_exact_range; assumption.
Qed.

Lemma fdiv_range f x y lo hi :
  (1 <= prec f)%Z -> is_fin x = true -> is_fin y = true -> ~ fpQ y == 0 -> lo <= fpQ x / fpQ y <= hi ->
  - pow2 (emax f) < rnd f lo -> rnd f hi < pow2 (emax f) -> fin_range f lo hi (fdiv f x y).
Proof.
  intros Hp Hx Hy Hy0 Hq Hlo Hhi. destruct x as [a p| |], y as [b q| |]; try discriminate.
  unfold fdiv. destruct (Qeq_bool q 0) eqn:Z.
  - exfalso. apply Hy0. apply Qeq_bool_eq in Z. destruct b; simpl; rewrite Z; reflexivity.
  - apply of_exact_range; assumption.
Qed.

Lemma fadd_range f x y lo hi :
  (1 <= prec f)%Z -> is_fin x = true -> is_fin y = true -> lo <= fpQ x + fpQ y <= hi ->
  - pow2 (emax f) < rnd f lo -> rnd f hi < pow2 (emax f) -> fin_range f lo hi (fadd f x y).
Proof.
  intros Hp Hx Hy Hq Hlo Hhi. destruct x as [a p| |], y as [b q| |]; try discriminate.
  apply of_exact_range; assumption.
Qed.

Lemma to_float_range x lo hi :
  is_fin x = true -> lo <= fpQ x <= hi ->
  - pow2 (emax binary32) < rnd binary32 lo -> rnd binary32 hi < pow2 (emax binary32) ->
  fin_range binary32 lo hi (to_float x).
Proof.
  intros Hx Hq Hlo Hhi. destruct x as [a p| |]; try discriminate.
  apply of_exact_range; [discriminate|assumption..].
Qed.

(** [x < 0] on a finite [double]. *)
Lemma flt_0 x : is_fin x = true -> flt x (of_int 0) = true <-> fpQ x < 0.
Proof.
  intros Hx. destruct x as [s q| |]; try discriminate.
  assert (E : of_int 0 = Fin false 0) by reflexivity. rewrite E. unfold flt.
  change (fpQ (Fin false 0)) with 0. destruct (Qle_bool 0 _) eqn:B; cbn [negb].
  - apply Qle_bool_iff in B. split; [intros H; discriminate H|intros H; exfalso; lra].
  - split; [intros _|reflexivity]. apply Qnot_le_lt. intros H. apply Qle_bool_iff in H. congruence.
Qed.

(** Closing a comparison of two concrete rationals by evaluation. *)
Ltac fp_num := vm_compute; first [reflexivity | discriminate | intros ?; discriminate].

Lemma fin_range_weaken f lo hi L U x :
  fin_range f lo hi x -> L <= rnd f lo -> rnd f hi <= U -> is_fin x = true /\ L <= fpQ x <= U.
Proof. intros [Hx [Hl Hh]] HL HU. split; [exact Hx|]. lra. Qed.

Lemma Qdiv_le_pos a b c : 0 < c -> a <= b -> a / c <= b / c.
Proof. intros Hc H. apply Qmult_le_compat_r; [exact H|]. apply Qinv_le_0_compat. lra. Qed.
