(* ===== verification/CEnum.v ===== *)
(** * CEnum: C++ enumerations and bit flags

    The headers of the framework ([state_machine.h], [sensor_interface.h],
    [actuator_interface.h], [communication_interface.h], [error_handler.h],
    [logger.h], [lightning_sensor.h]) declare [enum class]es whose
    enumerators carry integer values, implicit ([0, 1, ...]) or explicit.
    Each is an [Inductive] with the source's constructors, a [Finite]
    instance listing them in declaration order, and its value function
    [static_cast<int>]. This file holds what they share: the conversion back
    ([static_cast<E>] of a value that names an enumerator, [enum_of_int]),
    its round trip, the flag enumerations whose values are single bits and
    the bound of their union. *)

From stdpp Require Import base list finite.
From Stdlib Require Import ZArith Lia.
From S2P Require Import Prelude.

Open Scope Z_scope.

(** The obligations of a [Finite] instance given by the list of
    constructors: no duplicates, every constructor listed. Both are decided
    by computation. *)
Ltac decide_goal := match goal with |- ?g => apply (bool_decide_unpack g); vm_compute; reflexivity end.

Ltac finite_enum :=
  first [ decide_goal | intros []; decide_goal | match goal with x : _ |- ?x ∈ _ => destruct x; decide_goal end ].

Section Decl.
Context {A : Type} `{Finite A}.

(** The value of an enumerator of an [enum class] without initialisers:
    its position in the declaration. *)
Definition decl_index (a : A) : Z :=
  match list_find (fun b => b = a) (enum A) with Some (i, _) => Z.of_nat i | None => 0 end.

Lemma decl_index_spec a : enum A !! Z.to_nat (decl_index a) = Some a /\ 0 <= decl_index a < Z.of_nat (length (enum A)).
Proof.
  unfold decl_index. destruct (list_find (fun b => b = a) (enum A)) as [[i b]|] eqn:Hf.
  - apply list_find_Some in Hf as [Hi [-> _]]. rewrite Nat2Z.id. split; [exact Hi|].
    apply lookup_lt_Some in Hi. lia.
  - exfalso. apply list_find_None in Hf. rewrite Forall_forall in Hf. by apply (Hf a); [apply elem_of_enum|].
Qed.

End Decl.

Section CEnum.
Context {A : Type} `{Finite A} (val : A -> Z).

(** [static_cast<E>(z)] for a [z] that is the value of an enumerator: the
    first enumerator with that value. *)
Definition enum_of_int (z : Z) : option A := List.find (fun a => bool_decide (val a = z)) (enum A).

(** The enumerators' values, in declaration order. *)
Definition enum_values : list Z := map val (enum A).

(** Distinct enumerators have distinct values. *)
Definition vals_distinct : bool := bool_decide (NoDup enum_values).

(** [x] is a single bit of a [w]-bit integer: a power of two below [2^w]. *)
Definition single_bit (w x : Z) : bool := (0 <? x) && (2 ^ Z.log2 x =? x) && (x <? 2 ^ w).

(** A flag enumeration of [w] bits: every enumerator is [0] (the empty
    set, such as [NONE]) or a single bit. *)
Definition flag_enum (w : Z) : bool := forallb (fun a => (val a =? 0) || single_bit w (val a)) (enum A).

(** The mask of a list of flags: [a | b | ...]. *)
Definition flags_mask (l : list A) : Z := foldr Z.lor 0 (map val l).

(** The union of all flags. *)
Definition all_flags : Z := flags_mask (enum A).

(** ** Lemmas *)

Lemma enum_of_int_spec z a : enum_of_int z = Some a -> val a = z.
Proof. unfold enum_of_int. intros Hf. apply List.find_some in Hf as [_ Hv]. by apply bool_decide_eq_true in Hv. Qed.

Lemma NoDup_map_elem (l : list A) a b :
  NoDup (map val l) -> a ∈ l -> b ∈ l -> val a = val b -> a = b.
Proof.
  induction l as [|c l IH]; cbn [map]; intros Hd Ha Hb Hab; [by apply elem_of_nil in Ha|].
  apply NoDup_cons in Hd as [Hn Hd]. apply elem_of_cons in Ha, Hb.
  destruct Ha as [->|Ha], Hb as [->|Hb]; [done | | | by apply IH].
  - exfalso. apply Hn. rewrite Hab. by apply (list_elem_of_fmap_2 val).
  - exfalso. apply Hn. rewrite <- Hab. by apply (list_elem_of_fmap_2 val).
Qed.

Lemma val_inj : vals_distinct = true -> forall a b, val a = val b -> a = b.
Proof.
  unfold vals_distinct, enum_values. intros Hd a b. apply bool_decide_eq_true in Hd.
  apply (NoDup_map_elem (enum A)); [exact Hd | apply elem_of_enum | apply elem_of_enum].
Qed.

(** [static_cast<E>(static_cast<int>(a)) == a] when the values are distinct. *)
Lemma enum_of_int_val : vals_distinct = true -> forall a, enum_of_int (val a) = Some a.
Proof.
  intros Hd a. destruct (enum_of_int (val a)) as [b|] eqn:Hf.
  - f_equal. apply val_inj; [exact Hd|]. by apply enum_of_int_spec.
  - exfalso. unfold enum_of_int in Hf. eapply List.find_none in Hf; [|apply list_elem_of_In, elem_of_enum].
    rewrite bool_decide_eq_true_2 in Hf; [discriminate | reflexivity].
Qed.

Lemma flag_enum_val w a : flag_enum w = true -> val a = 0 \/ (0 < val a < 2 ^ w /\ val a = 2 ^ Z.log2 (val a)).
Proof.
  unfold flag_enum, single_bit. rewrite forallb_forall. intros Hf.
  specialize (Hf a (proj1 (list_elem_of_In _ _) (elem_of_enum a))).
  apply orb_prop in Hf as [Hz|Hf]; [left; lia|right].
  apply andb_prop in Hf as [Hf Hlt]. apply andb_prop in Hf as [Hp Hpow]. lia.
Qed.

Lemma testbit_flags_mask l k : Z.testbit (flags_mask l) k = existsb (fun b => Z.testbit (val b) k) l.
Proof.
  unfold flags_mask. induction l as [|b l IH]; cbn [foldr map existsb]; [apply Z.testbit_0_l|].
  by rewrite Z.lor_spec, IH.
Qed.

Lemma land_pow2_nonzero m k : 0 <= k -> Z.land m (2 ^ k) <> 0 <-> Z.testbit m k = true.
Proof.
  intros Hk. split.
  - intros Hn. destruct (Z.testbit m k) eqn:E; [reflexivity|]. exfalso. apply Hn.
    apply Z.bits_inj_0. intros j. rewrite Z.land_spec, Z.pow2_bits_eqb by lia.
    destruct (Z.eqb_spec k j) as [->|]; [rewrite E|]; apply andb_false_r || reflexivity.
  - intros Ht Hz. assert (Z.testbit (Z.land m (2 ^ k)) k = true) as Hb
      by (rewrite Z.land_spec, Z.pow2_bits_true by lia; rewrite Ht; reflexivity).
    rewrite Hz, Z.testbit_0_l in Hb. discriminate.
Qed.

(** A mask of distinct flags encodes the set of its flags: testing a
    (non-zero) flag with [&] finds exactly the flags put in. *)
Lemma flags_mask_has w : vals_distinct = true -> flag_enum w = true ->
  forall l a, val a <> 0 -> Z.land (flags_mask l) (val a) <> 0 <-> a ∈ l.
Proof.
  intros Hd Hf l a Ha. destruct (flag_enum_val w a Hf) as [|[Hpos Hpa]]; [lia|].
  rewrite Hpa, land_pow2_nonzero by (apply Z.log2_nonneg). rewrite testbit_flags_mask, existsb_exists.
  split.
  - intros [b [Hb Hbit]]. destruct (flag_enum_val w b Hf) as [Hb0|[Hbpos Hpb]].
    + rewrite Hb0, Z.testbit_0_l in Hbit. discriminate.
    + rewrite Hpb, Z.pow2_bits_eqb in Hbit by apply Z.log2_nonneg. apply Z.eqb_eq in Hbit.
      assert (val b = val a) as E by (rewrite Hpb, Hpa, Hbit; reflexivity).
      apply (val_inj Hd) in E. subst b. by apply list_elem_of_In.
  - intros Hin. exists a. split; [by apply list_elem_of_In|].
    rewrite Hpa at 1. apply Z.pow2_bits_true, Z.log2_nonneg.
Qed.

(** The mask of flags of [w] bits is a [w]-bit value. *)
Lemma flags_mask_bound w l : 0 < w -> flag_enum w = true -> 0 <= flags_mask l < 2 ^ w.
Proof.
  intros Hw Hf. unfold flags_mask.
  assert (Hall : Forall (fun z => 0 <= z < 2 ^ w) (map val l)).
  { apply Forall_forall. intros z Hz. apply (list_elem_of_fmap_1 val) in Hz as [a [-> _]].
    pose proof (Z.pow_pos_nonneg 2 w ltac:(lia) ltac:(lia)). destruct (flag_enum_val w a Hf); lia. }
  induction Hall as [|z zs Hz _ IH]; cbn [foldr]; [split; [lia | apply Z.pow_pos_nonneg; lia]|].
  split; [apply Z.lor_nonneg; lia|].
  destruct (Z.eq_dec (Z.lor z (foldr Z.lor 0 zs)) 0) as [E|E]; [rewrite E; apply Z.pow_pos_nonneg; lia|].
  apply Z.log2_lt_pow2; [pose proof (Z.lor_nonneg z (foldr Z.lor 0 zs)); lia|].
  rewrite Z.log2_lor by lia. apply Z.max_lub_lt.
  - destruct (Z.eq_dec z 0) as [->|]; [cbn; lia|]. apply Z.log2_lt_pow2; lia.
  - destruct (Z.eq_dec (foldr Z.lor 0 zs) 0) as [->|]; [cbn; lia|]. apply Z.log2_lt_pow2; lia.
Qed.

End CEnum.

Arguments enum_of_int {_ _ _} _ _.
Arguments enum_values {_ _ _} _.
Arguments vals_distinct {_ _ _} _.
Arguments flag_enum {_ _ _} _ _.
Arguments all_flags {_ _ _} _.
Arguments flags_mask {_} _ _.

(** The positions of the declaration are distinct values. *)
Lemma decl_index_distinct {A} `{Finite A} : vals_distinct (@decl_index A _ _) = true.
Proof.
  unfold vals_distinct, enum_values. apply bool_decide_eq_true.
  apply NoDup_fmap_2_strong; [|apply NoDup_enum].
  intros a b _ _ Hab. pose proof (decl_index_spec a) as [Ha _]. pose proof (decl_index_spec b) as [Hb _].
  rewrite Hab in Ha. congruence.
Qed.


