(* ===== verification/StateMachine.v ===== *)
(** * StateMachine: the state machine framework header

    Source: [src/src/system/state_machine.h], namespace
    [SystemStateMachine] (the Module of the same name). The header declares
    the states, events and transition results, the [Transition] record and
    its two constructors, the [StateHandler] base class with the default
    bodies of its virtual methods and its inline accessors, the predefined
    handler classes' constructors, and the [StateMachineEngine] singleton:
    its storage, its private constructor and its inline accessors. The
    engine's other members ([registerState], [processEvent], [update], ...),
    the predefined handlers' overrides and [setupDefaultStateMachine] are
    declared only: no file of the repository defines them, so they are not
    modelled. A [std::function] is an [option] of a Rocq function, [nullptr]
    and the empty function being [None]; what a callback does when it runs
    is not modelled. A pointer to a handler is the handler it points to. *)

From stdpp Require Import base list finite.
From Stdlib Require Import ZArith String Lia.
From S2P Require Import Prelude CEnum.

Open Scope Z_scope.

Module SystemStateMachine.

(** [enum class SystemState]. *)
Inductive SystemState :=
  BOOT | INIT | IDLE | SENDER | RECEIVER | CONFIG | OTA_UPDATE | ERROR | SLEEP | SHUTDOWN.

#[global] Instance SystemState_eq_dec : EqDecision SystemState.
Proof. solve_decision. Defined.
#[global] Program Instance SystemState_finite : Finite SystemState :=
  {| enum := [BOOT; INIT; IDLE; SENDER; RECEIVER; CONFIG; OTA_UPDATE; ERROR; SLEEP; SHUTDOWN] |}.
Next Obligation. finite_enum. Qed.
Next Obligation. finite_enum. Qed.

(** [enum class Event]. *)
Inductive Event :=
  POWER_ON | INIT_COMPLETE | BUTTON_SHORT | BUTTON_MEDIUM | BUTTON_LONG | BUTTON_VERY_LONG
| LORA_MESSAGE | WIFI_CONNECTED | WIFI_DISCONNECTED | OTA_AVAILABLE | SENSOR_TRIGGER
| ERROR_OCCURRED | TIMEOUT | SLEEP_REQUEST | WAKEUP | SHUTDOWN_REQUEST | CUSTOM.

#[global] Instance Event_eq_dec : EqDecision Event.
Proof. solve_decision. Defined.
#[global] Program Instance Event_finite : Finite Event :=
  {| enum := [POWER_ON; INIT_COMPLETE; BUTTON_SHORT; BUTTON_MEDIUM; BUTTON_LONG; BUTTON_VERY_LONG;
              LORA_MESSAGE; WIFI_CONNECTED; WIFI_DISCONNECTED; OTA_AVAILABLE; SENSOR_TRIGGER;
              ERROR_OCCURRED; TIMEOUT; SLEEP_REQUEST; WAKEUP; SHUTDOWN_REQUEST; CUSTOM] |}.
Next Obligation. finite_enum. Qed.
Next Obligation. finite_enum. Qed.

(** [enum class TransitionResult]. *)
Inductive TransitionResult := SUCCESS | INVALID_EVENT | TRANSITION_BLOCKED | ACTION_FAILED | INVALID_STATE.

#[global] Instance TransitionResult_eq_dec : EqDecision TransitionResult.
Proof. solve_decision. Defined.
#[global] Program Instance TransitionResult_finite : Finite TransitionResult :=
  {| enum := [SUCCESS; INVALID_EVENT; TRANSITION_BLOCKED; ACTION_FAILED; INVALID_STATE] |}.
Next Obligation. finite_enum. Qed.
Next Obligation. finite_enum. Qed.

(** [static_cast<int>] of the three enumerations: none has initialisers. *)
Definition SystemState_val : SystemState -> Z := decl_index.
Definition Event_val : Event -> Z := decl_index.
Definition TransitionResult_val : TransitionResult -> Z := decl_index.

(** The callback types. *)
Definition StateEntryAction := option (unit -> bool).
Definition StateExitAction := option (unit -> unit).
Definition StateUpdateAction := option (unit -> unit).
Definition GuardCondition := option (Event -> bool).
Definition EventCallback := option (Event -> Z -> unit).
Definition StateChangeCallback := option (SystemState -> SystemState -> Event -> unit).

(** [struct Transition]. *)
Record Transition := mkTransition {
  fromState : SystemState;
  triggerEvent : Event;
  toState : SystemState;
  guard : GuardCondition;
  action : StateEntryAction
}.

(** [Transition()]: the boot transition, without guard or action. *)
Definition Transition_default : Transition := mkTransition BOOT POWER_ON INIT None None.

(** [Transition(from, event, to, guardFn = nullptr, actionFn = nullptr)]. *)
Definition Transition_new (from : SystemState) (event : Event) (to : SystemState)
    (guardFn : GuardCondition) (actionFn : StateEntryAction) : Transition :=
  mkTransition from event to guardFn actionFn.

(** [class StateHandler]: its data members. *)
Record StateHandler := mkHandler {
  state_ : SystemState;
  name_ : text;
  entryAction_ : StateEntryAction;
  exitAction_ : StateExitAction;
  updateAction_ : StateUpdateAction
}.

(** [StateHandler(state, name)]: the three [std::function] members are
    default-constructed, that is empty. *)
Definition StateHandler_new (state : SystemState) (name : text) : StateHandler :=
  mkHandler state name None None None.

(** The default bodies of the virtual methods: [onEntry] returns [true],
    [onExit] and [onUpdate] do nothing, [canTransition] returns [true]. None
    of them calls the stored actions. *)
Definition onEntry (h : StateHandler) : bool := true.
Definition onExit (h : StateHandler) : StateHandler := h.
Definition onUpdate (h : StateHandler) : StateHandler := h.
Definition canTransition (h : StateHandler) (event : Event) : bool := true.

Definition getState (h : StateHandler) : SystemState := state_ h.
Definition getName (h : StateHandler) : text := name_ h.

Definition setEntryAction (a : StateEntryAction) (h : StateHandler) : StateHandler :=
  mkHandler (state_ h) (name_ h) a (exitAction_ h) (updateAction_ h).
Definition setExitAction (a : StateExitAction) (h : StateHandler) : StateHandler :=
  mkHandler (state_ h) (name_ h) (entryAction_ h) a (updateAction_ h).
Definition setUpdateAction (a : StateUpdateAction) (h : StateHandler) : StateHandler :=
  mkHandler (state_ h) (name_ h) (entryAction_ h) (exitAction_ h) a.

(** The constructors of the predefined handlers: [BootState()] ..
    [ErrorState()]. *)
Definition BootState : StateHandler := StateHandler_new BOOT (lit "Boot").
Definition InitState : StateHandler := StateHandler_new INIT (lit "Initialize").
Definition IdleState : StateHandler := StateHandler_new IDLE (lit "Idle").
Definition SenderState : StateHandler := StateHandler_new SENDER (lit "Sender").
Definition ReceiverState : StateHandler := StateHandler_new RECEIVER (lit "Receiver").
Definition ConfigState : StateHandler := StateHandler_new CONFIG (lit "Config").
Definition ErrorState : StateHandler := StateHandler_new ERROR (lit "Error").

Definition predefined_handlers : list StateHandler :=
  [BootState; InitState; IdleState; SenderState; ReceiverState; ConfigState; ErrorState].

(** The states no predefined handler class is declared for. *)
Definition states_without_handler : list SystemState :=
  filter (fun s => Forall (fun h => getState h <> s) predefined_handlers) (enum SystemState).

(** ** [class StateMachineEngine] *)

Definition MAX_STATES : nat := 16.
Definition MAX_TRANSITIONS : nat := 32.
Definition MAX_DELAYED_EVENTS : nat := 8.

(** [struct StateEntry]. *)
Record StateEntry := mkStateEntry { handler : option StateHandler; isActive : bool }.

(** [struct DelayedEvent]. *)
Record DelayedEvent := mkDelayedEvent { de_event : Event; de_data : Z; de_triggerTime : Z; de_active : bool }.

(** The engine's data members. *)
Record StateMachineEngine := mkEngine {
  states_ : list StateEntry;
  stateCount_ : Z;
  transitions_ : list Transition;
  transitionCount_ : Z;
  delayedEvents_ : list DelayedEvent;
  initialized_ : bool;
  running_ : bool;
  currentState_ : SystemState;
  previousState_ : SystemState;
  stateEntryTime_ : Z;
  stateChangeCount_ : Z;
  timeoutSet_ : bool;
  timeoutTime_ : Z;
  eventCallback_ : EventCallback;
  stateChangeCallback_ : StateChangeCallback
}.

(** The private constructor [StateMachineEngine()] run by [getInstance()]
    on its static storage: the storage is zero-initialised first (so the
    scalars the constructor does not mention read 0, [BOOT], [false] and
    the aggregates [StateEntry] and [DelayedEvent] are zero), each element
    of [transitions_] is built by [Transition()], and the initialiser list
    sets [initialized_], [running_] and [currentState_]. *)
Definition StateMachineEngine_new : StateMachineEngine :=
  mkEngine (repeat (mkStateEntry None false) MAX_STATES) 0
           (repeat Transition_default MAX_TRANSITIONS) 0
           (repeat (mkDelayedEvent POWER_ON 0 0 false) MAX_DELAYED_EVENTS)
           false false BOOT BOOT 0 0 false 0 None None.

Definition isInitialized (e : StateMachineEngine) : bool := initialized_ e.
Definition getCurrentState (e : StateMachineEngine) : SystemState := currentState_ e.
Definition getPreviousState (e : StateMachineEngine) : SystemState := previousState_ e.
Definition getStateChangeCount (e : StateMachineEngine) : Z := stateChangeCount_ e.
Definition hasTimeout (e : StateMachineEngine) : bool := timeoutSet_ e.

Definition setEventCallback (cb : EventCallback) (e : StateMachineEngine) : StateMachineEngine :=
  mkEngine (states_ e) (stateCount_ e) (transitions_ e) (transitionCount_ e) (delayedEvents_ e)
    (initialized_ e) (running_ e) (currentState_ e) (previousState_ e) (stateEntryTime_ e)
    (stateChangeCount_ e) (timeoutSet_ e) (timeoutTime_ e) cb (stateChangeCallback_ e).
Definition setStateChangeCallback (cb : StateChangeCallback) (e : StateMachineEngine) : StateMachineEngine :=
  mkEngine (states_ e) (stateCount_ e) (transitions_ e) (transitionCount_ e) (delayedEvents_ e)
    (initialized_ e) (running_ e) (currentState_ e) (previousState_ e) (stateEntryTime_ e)
    (stateChangeCount_ e) (timeoutSet_ e) (timeoutTime_ e) (eventCallback_ e) cb.

(** ** Properties *)

(** The enumerators of the three enumerations have the values
    [0, 1, 2, ...] in declaration order (what [test_state_machine.cpp]
    checks one by one), and converting a value back gives the enumerator:
    [static_cast<E>(static_cast<int>(e)) == e]. *)
Theorem enum_codes_roundtrip :
  enum_values SystemState_val = seqZ 0 10 /\ enum_values Event_val = seqZ 0 17 /\
  enum_values TransitionResult_val = seqZ 0 5 /\
  (forall s, enum_of_int SystemState_val (SystemState_val s) = Some s) /\
  (forall e, enum_of_int Event_val (Event_val e) = Some e) /\
  (forall r, enum_of_int TransitionResult_val (TransitionResult_val r) = Some r).
Proof.
  split; [reflexivity|]. split; [reflexivity|]. split; [reflexivity|].
  split; [|split]; apply enum_of_int_val, decl_index_distinct.
Qed.

(** The predefined handler classes are for seven distinct states; the
    states [OTA_UPDATE], [SLEEP] and [SHUTDOWN] have none. *)
Theorem predefined_handlers_cover :
  NoDup (map getState predefined_handlers) /\ states_without_handler = [OTA_UPDATE; SLEEP; SHUTDOWN].
Proof. split; [decide_goal | reflexivity]. Qed.

End SystemStateMachine.
