(* ===== verification/SensorSystem.v ===== *)
(** * SensorSystem: the sensor framework and the AS3935 lightning sensor

    Sources: [src/src/sensors/sensor_interface.h] (namespace
    [SensorSystem], the Module of the same name) and
    [src/src/sensors/lightning_sensor.h] (namespace [Sensors]).

    [sensor_interface.h] declares the sensor states and data types, the
    [Reading] record, the [Capability] flags, the callback types, the pure
    virtual interface [ISensor] (here the class [ISensor] over the state
    type of a sensor) and the [SensorManager] singleton; the manager's
    methods and the utility functions are declared only and no file of the
    repository defines them. The union [Reading::value] is an inductive with
    one constructor per member; the code tags it with [type].

    [lightning_sensor.h] declares [LightningSensor], an [ISensor] whose data
    members are the record [lightning] and whose inline members are
    definitions here. Its out-of-line members (the constructor,
    [initialize], [readSensor], the register access, ...) have no
    definition in the repository: they are the class [AS3935Impl], and the
    instance [LightningSensor_ISensor] builds the interface from the inline
    members and that class, the way the header's [override]s combine them.
    The register enumeration is kept with its values, which alias. *)

From stdpp Require Import base list finite.
From Stdlib Require Import ZArith QArith String Lia.
From S2P Require Import Prelude CEnum.

Open Scope Z_scope.

Module SensorSystem.

(** [enum class State]. *)
Inductive State := UNINITIALIZED | INITIALIZING | READY | READING | ERROR | DISABLED.

#[global] Instance State_eq_dec : EqDecision State.
Proof. solve_decision. Defined.
#[global] Program Instance State_finite : Finite State :=
  {| enum := [UNINITIALIZED; INITIALIZING; READY; READING; ERROR; DISABLED] |}.
Next Obligation. finite_enum. Qed.
Next Obligation. finite_enum. Qed.

(** [enum class DataType]. *)
Inductive DataType := BOOLEAN | INTEGER | FLOAT | STRING | BINARY.

#[global] Instance DataType_eq_dec : EqDecision DataType.
Proof. solve_decision. Defined.
#[global] Program Instance DataType_finite : Finite DataType :=
  {| enum := [BOOLEAN; INTEGER; FLOAT; STRING; BINARY] |}.
Next Obligation. finite_enum. Qed.
Next Obligation. finite_enum. Qed.

Definition State_val : State -> Z := decl_index.
Definition DataType_val : DataType -> Z := decl_index.

(** The members of the union [Reading::value]. *)
Inductive ReadingValue :=
  | boolValue (b : bool)
  | intValue (i : Z)
  | floatValue (f : Q)
  | stringValue (s : text)
  | binaryValue (data : list Z) (len : Z).

(** [struct Reading]. *)
Record Reading := mkReading {
  timestamp : Z;
  type_ : DataType;
  name : text;
  unit_ : text;
  value : ReadingValue;
  isValid : bool;
  errorCode : Z
}.

(** [enum class Capability : uint16_t]. *)
Inductive Capability :=
  NONE | INTERRUPT_CAPABLE | CONFIGURABLE | SELF_TEST | CALIBRATION | MULTI_CHANNEL
| POWER_MANAGEMENT | THRESHOLD_DETECTION | DATA_LOGGING.

#[global] Instance Capability_eq_dec : EqDecision Capability.
Proof. solve_decision. Defined.
#[global] Program Instance Capability_finite : Finite Capability :=
  {| enum := [NONE; INTERRUPT_CAPABLE; CONFIGURABLE; SELF_TEST; CALIBRATION; MULTI_CHANNEL;
              POWER_MANAGEMENT; THRESHOLD_DETECTION; DATA_LOGGING] |}.
Next Obligation. finite_enum. Qed.
Next Obligation. finite_enum. Qed.

Definition Capability_val (c : Capability) : Z :=
  match c with
  | NONE => 0 | INTERRUPT_CAPABLE => 1 | CONFIGURABLE => 2 | SELF_TEST => 4 | CALIBRATION => 8
  | MULTI_CHANNEL => 16 | POWER_MANAGEMENT => 32 | THRESHOLD_DETECTION => 64 | DATA_LOGGING => 128
  end.

(** The callback types. *)
Definition ReadingCallback := option (Reading -> unit).
Definition ErrorCallback := option (text -> Z -> unit).
Definition StateChangeCallback := option (text -> State -> unit).

(** [class ISensor]: the pure virtual interface over the state [S] of a
    sensor. A method returning [bool] with an out-parameter returns the
    pair; a method that changes the sensor returns the new state. The
    [void*] parameter values are byte lists. *)
Class ISensor (S : Type) := {
  initialize : S -> bool * S;
  deinitialize : S -> bool * S;
  getState : S -> State;
  getId : S -> text;
  getName : S -> text;
  getCapabilities : S -> Z;
  readSensor : S -> bool * Reading * S;
  hasNewData : S -> bool;
  getReadingCount : S -> Z;
  setParameter : text -> list Z -> S -> bool * S;
  getParameter : text -> S -> bool * list Z;
  calibrate : S -> bool * S;
  selfTest : S -> bool * S;
  sleep : S -> bool * S;
  wakeup : S -> bool * S;
  reset : S -> bool * S;
  setReadingCallback : ReadingCallback -> S -> S;
  setErrorCallback : ErrorCallback -> S -> S;
  setStateChangeCallback : StateChangeCallback -> S -> S;
  update : S -> S;
  getLastError : S -> Z;
  getErrorString : Z -> S -> text
}.

(** [SensorManager]: its storage. A registered sensor is the index of an
    [ISensor] object in the program's sensors. *)
Definition MAX_SENSORS : nat := 8.

Record SensorEntry := mkSensorEntry { sensor : option nat; se_isActive : bool; lastUpdate : Z; errorCount : Z }.

Record SensorManager := mkSensorManager {
  sensors_ : list SensorEntry;
  sensorCount_ : Z;
  globalReadingCallback_ : ReadingCallback;
  globalErrorCallback_ : ErrorCallback
}.

(** [SensorManager() = default] on the static storage of [getInstance()]:
    every member zero, the callbacks empty. *)
Definition SensorManager_new : SensorManager :=
  mkSensorManager (repeat (mkSensorEntry None false 0 0) MAX_SENSORS) 0 None None.

End SensorSystem.

Module Sensors.

(** [struct LightningData]. *)
Record LightningData := mkLightningData {
  lightningDetected : bool;
  distance : Z;
  energy : Z;
  strikeCount : Z;
  lastStrikeTime : Z;
  isDisturber : bool;
  noiseLevel : Z
}.

(** [enum class AS3935Register : uint8_t]: thirteen names for five
    register addresses. *)
Inductive AS3935Register :=
  AFE_GAIN | PWD | NF_LEV | WDTH | CL_STAT | MIN_NUM_LIGH | SREJ | LCO_FDIV | MASK_DIST
| DISP_LCO | DISP_SRCO | DISP_TRCO | TUN_CAP.

#[global] Instance AS3935Register_eq_dec : EqDecision AS3935Register.
Proof. solve_decision. Defined.
#[global] Program Instance AS3935Register_finite : Finite AS3935Register :=
  {| enum := [AFE_GAIN; PWD; NF_LEV; WDTH; CL_STAT; MIN_NUM_LIGH; SREJ; LCO_FDIV; MASK_DIST;
              DISP_LCO; DISP_SRCO; DISP_TRCO; TUN_CAP] |}.
Next Obligation. finite_enum. Qed.
Next Obligation. finite_enum. Qed.

Definition AS3935Register_val (r : AS3935Register) : Z :=
  match r with
  | AFE_GAIN | PWD => 0
  | NF_LEV | WDTH => 1
  | CL_STAT | MIN_NUM_LIGH | SREJ => 2
  | LCO_FDIV | MASK_DIST => 3
  | DISP_LCO | DISP_SRCO | DISP_TRCO | TUN_CAP => 8
  end.

(** [enum class InterruptReason : uint8_t]. *)
Inductive InterruptReason := NOISE | DISTURBER | LIGHTNING.

#[global] Instance InterruptReason_eq_dec : EqDecision InterruptReason.
Proof. solve_decision. Defined.
#[global] Program Instance InterruptReason_finite : Finite InterruptReason :=
  {| enum := [NOISE; DISTURBER; LIGHTNING] |}.
Next Obligation. finite_enum. Qed.
Next Obligation. finite_enum. Qed.

Definition InterruptReason_val (r : InterruptReason) : Z :=
  match r with NOISE => 1 | DISTURBER => 4 | LIGHTNING => 8 end.

(** [LightningSensor::Config] and [LightningSensor::Statistics]. *)
Record Config := mkConfig {
  noiseFloor : Z;
  watchdogThreshold : Z;
  spikeRejection : Z;
  minimumStrikes : Z;
  indoorMode : bool;
  disturbersLightning : bool;
  tuningCapacitor : Z
}.

Record Statistics := mkStatistics {
  totalLightning : Z;
  totalDisturbers : Z;
  totalNoise : Z;
  lastActivity : Z;
  communicationErrors : Z;
  calibrationCount : Z
}.

(** The data members of [LightningSensor]. *)
Record lightning := mkLightning {
  state_ : SensorSystem.State;
  config_ : Config;
  stats_ : Statistics;
  lastLightning_ : LightningData;
  hasNewData_ : bool;
  readingCount_ : Z;
  lastError_ : Z;
  readingCallback_ : SensorSystem.ReadingCallback;
  errorCallback_ : SensorSystem.ErrorCallback;
  stateChangeCallback_ : SensorSystem.StateChangeCallback;
  interruptPending_ : bool
}.

(** The class constants and [LightningErrorCodes]. *)
Definition CHIP_ID : Z := 60.
Definition RESET_DELAY_MS : Z := 2.
Definition CALIBRATION_TIMEOUT_MS : Z := 2000.
Definition INTERRUPT_TIMEOUT_MS : Z := 100.

Definition CHIP_NOT_FOUND : Z := 1001.
Definition COMMUNICATION_FAILED : Z := 1002.
Definition CALIBRATION_FAILED : Z := 1003.
Definition INVALID_CONFIGURATION : Z := 1004.
Definition INTERRUPT_SETUP_FAILED : Z := 1005.
Definition TANK_TUNING_FAILED : Z := 1006.
Definition RCO_CALIBRATION_FAILED : Z := 1007.

(** The inline members. *)
Definition ls_getState (l : lightning) : SensorSystem.State := state_ l.
Definition ls_getId (l : lightning) : text := lit "AS3935".
Definition ls_getName (l : lightning) : text := lit "Lightning Sensor".
Definition ls_hasNewData (l : lightning) : bool := hasNewData_ l.
Definition ls_getReadingCount (l : lightning) : Z := readingCount_ l.
Definition ls_getLastError (l : lightning) : Z := lastError_ l.

Definition ls_setReadingCallback (cb : SensorSystem.ReadingCallback) (l : lightning) : lightning :=
  mkLightning (state_ l) (config_ l) (stats_ l) (lastLightning_ l) (hasNewData_ l) (readingCount_ l)
    (lastError_ l) cb (errorCallback_ l) (stateChangeCallback_ l) (interruptPending_ l).
Definition ls_setErrorCallback (cb : SensorSystem.ErrorCallback) (l : lightning) : lightning :=
  mkLightning (state_ l) (config_ l) (stats_ l) (lastLightning_ l) (hasNewData_ l) (readingCount_ l)
    (lastError_ l) (readingCallback_ l) cb (stateChangeCallback_ l) (interruptPending_ l).
Definition ls_setStateChangeCallback (cb : SensorSystem.StateChangeCallback) (l : lightning) : lightning :=
  mkLightning (state_ l) (config_ l) (stats_ l) (lastLightning_ l) (hasNewData_ l) (readingCount_ l)
    (lastError_ l) (readingCallback_ l) (errorCallback_ l) cb (interruptPending_ l).

Definition getNoiseFloor (l : lightning) : Z := noiseFloor (config_ l).
Definition getWatchdogThreshold (l : lightning) : Z := watchdogThreshold (config_ l).
Definition getSpikeRejection (l : lightning) : Z := spikeRejection (config_ l).
Definition getMinimumStrikes (l : lightning) : Z := minimumStrikes (config_ l).
Definition isIndoorMode (l : lightning) : bool := indoorMode (config_ l).
Definition areDisturbersLightning (l : lightning) : bool := disturbersLightning (config_ l).
Definition getTotalLightningCount (l : lightning) : Z := totalLightning (stats_ l).
Definition getTotalDisturberCount (l : lightning) : Z := totalDisturbers (stats_ l).
Definition getTotalNoiseEvents (l : lightning) : Z := totalNoise (stats_ l).
Definition getLastActivityTime (l : lightning) : Z := lastActivity (stats_ l).

(** The members [lightning_sensor.h] declares and the repository does not
    define. *)
Class AS3935Impl := {
  as_initialize : lightning -> bool * lightning;
  as_deinitialize : lightning -> bool * lightning;
  as_getCapabilities : lightning -> Z;
  as_readSensor : lightning -> bool * SensorSystem.Reading * lightning;
  as_setParameter : text -> list Z -> lightning -> bool * lightning;
  as_getParameter : text -> lightning -> bool * list Z;
  as_calibrate : lightning -> bool * lightning;
  as_selfTest : lightning -> bool * lightning;
  as_sleep : lightning -> bool * lightning;
  as_wakeup : lightning -> bool * lightning;
  as_reset : lightning -> bool * lightning;
  as_update : lightning -> lightning;
  as_getErrorString : Z -> lightning -> text
}.

(** [class LightningSensor : public ISensor]: the inline [override]s and
    the out-of-line ones. *)
#[global] Instance LightningSensor_ISensor `{AS3935Impl} : SensorSystem.ISensor lightning := {|
  SensorSystem.initialize := as_initialize;
  SensorSystem.deinitialize := as_deinitialize;
  SensorSystem.getState := ls_getState;
  SensorSystem.getId := ls_getId;
  SensorSystem.getName := ls_getName;
  SensorSystem.getCapabilities := as_getCapabilities;
  SensorSystem.readSensor := as_readSensor;
  SensorSystem.hasNewData := ls_hasNewData;
  SensorSystem.getReadingCount := ls_getReadingCount;
  SensorSystem.setParameter := as_setParameter;
  SensorSystem.getParameter := as_getParameter;
  SensorSystem.calibrate := as_calibrate;
  SensorSystem.selfTest := as_selfTest;
  SensorSystem.sleep := as_sleep;
  SensorSystem.wakeup := as_wakeup;
  SensorSystem.reset := as_reset;
  SensorSystem.setReadingCallback := ls_setReadingCallback;
  SensorSystem.setErrorCallback := ls_setErrorCallback;
  SensorSystem.setStateChangeCallback := ls_setStateChangeCallback;
  SensorSystem.update := as_update;
  SensorSystem.getLastError := ls_getLastError;
  SensorSystem.getErrorString := as_getErrorString
|}.

End Sensors.

(** ** Properties *)

(** The capability flags of [sensor_interface.h] have the values the tests
    check, and both flag enumerations are sets encoded as bit masks: the
    mask of any list of capabilities is a [uint16_t] (what
    [getCapabilities] returns), the mask of interrupt reasons a [uint8_t],
    and [mask & flag] is non-zero exactly for the flags put in ([NONE], the
    value 0, is in no mask). *)
Theorem flag_masks_roundtrip :
  enum_values SensorSystem.Capability_val = [0; 1; 2; 4; 8; 16; 32; 64; 128] /\
  (forall cs c, c <> SensorSystem.NONE ->
     0 <= flags_mask SensorSystem.Capability_val cs < 2 ^ 16 /\
     (Z.land (flags_mask SensorSystem.Capability_val cs) (SensorSystem.Capability_val c) <> 0 <-> c ∈ cs)) /\
  (forall rs r,
     0 <= flags_mask Sensors.InterruptReason_val rs < 2 ^ 8 /\
     (Z.land (flags_mask Sensors.InterruptReason_val rs) (Sensors.InterruptReason_val r) <> 0 <-> r ∈ rs)).
Proof.
  split; [reflexivity|]. split.
  - intros cs c Hc. split; [apply flags_mask_bound; [lia | reflexivity]|].
    apply (flags_mask_has _ 16); [reflexivity | reflexivity | destruct c; simpl; congruence].
  - intros rs r. split; [apply flags_mask_bound; [lia | reflexivity]|].
    apply (flags_mask_has _ 8); [reflexivity | reflexivity | destruct r; simpl; congruence].
Qed.

(** The thirteen register names of the AS3935 denote five register
    addresses; converting an address back gives the first name declared
    for it, so [PWD] reads back as [AFE_GAIN] and [TUN_CAP] as [DISP_LCO]:
    a register name selects a register, not a field of it. *)
Theorem as3935_register_aliases :
  remove_dups (enum_values Sensors.AS3935Register_val) = [0; 1; 2; 3; 8] /\
  vals_distinct Sensors.AS3935Register_val = false /\
  enum_of_int Sensors.AS3935Register_val (Sensors.AS3935Register_val Sensors.PWD) = Some Sensors.AFE_GAIN /\
  enum_of_int Sensors.AS3935Register_val (Sensors.AS3935Register_val Sensors.TUN_CAP) = Some Sensors.DISP_LCO.
Proof. repeat split; vm_compute; reflexivity. Qed.

(** ** Witnesses *)

Example flag_masks_roundtrip_witness :
  SensorSystem.CALIBRATION <> SensorSystem.NONE /\
  0 <= flags_mask SensorSystem.Capability_val [SensorSystem.SELF_TEST; SensorSystem.CALIBRATION] < 2 ^ 16 /\
  (Z.land (flags_mask SensorSystem.Capability_val [SensorSystem.SELF_TEST; SensorSystem.CALIBRATION])
     (SensorSystem.Capability_val SensorSystem.CALIBRATION) <> 0 <->
   SensorSystem.CALIBRATION ∈ [SensorSystem.SELF_TEST; SensorSystem.CALIBRATION]).
Proof.
  split; [discriminate|].
  exact (proj1 (proj2 flag_masks_roundtrip) [SensorSystem.SELF_TEST; SensorSystem.CALIBRATION]
           SensorSystem.CALIBRATION ltac:(discriminate)).
Defined.
