(* ===== verification/ActuatorSystem.v ===== *)
(** * ActuatorSystem: the actuator framework header

    Source: [src/src/actuators/actuator_interface.h], namespace
    [ActuatorSystem] (the Module of the same name): the actuator states and
    types, the [Color] record with its [constexpr] constructor and the
    predefined [Colors], the animations and sound patterns, the [Command]
    record whose anonymous union is an inductive with one constructor per
    member, the callback types, the pure virtual interface [IActuator] (the
    class [IActuator] over an actuator's state) and the storage of the
    [ActuatorManager] singleton. [Color::fromHSV], [fromHex], [toHex], the
    manager's methods and the [create*Command] functions are declared only:
    the repository does not define them. *)

From stdpp Require Import base list finite.
From Stdlib Require Import ZArith String Lia.
From S2P Require Import Prelude CEnum.

Open Scope Z_scope.

Module ActuatorSystem.

(** [enum class State]. *)
Inductive State := UNINITIALIZED | INITIALIZING | READY | ACTIVE | ERROR | DISABLED.

#[global] Instance State_eq_dec : EqDecision State.
Proof. solve_decision. Defined.
#[global] Program Instance State_finite : Finite State :=
  {| enum := [UNINITIALIZED; INITIALIZING; READY; ACTIVE; ERROR; DISABLED] |}.
Next Obligation. finite_enum. Qed.
Next Obligation. finite_enum. Qed.

(** [enum class Type] ([Type] is a keyword of Rocq). *)
Inductive Type_ := LED_STRIP | LED_SINGLE | BUZZER | DISPLAY | MOTOR | RELAY | CUSTOM.

#[global] Instance Type_eq_dec : EqDecision Type_.
Proof. solve_decision. Defined.
#[global] Program Instance Type_finite : Finite Type_ :=
  {| enum := [LED_STRIP; LED_SINGLE; BUZZER; DISPLAY; MOTOR; RELAY; CUSTOM] |}.
Next Obligation. finite_enum. Qed.
Next Obligation. finite_enum. Qed.

(** [struct Color]. *)
Record Color := mkColor { red : Z; green : Z; blue : Z; white : Z }.

(** [constexpr Color(uint8_t r = 0, uint8_t g = 0, uint8_t b = 0, uint8_t w = 0)]:
    the arguments are converted to [uint8_t]. *)
Definition Color_new (r g b w : Z) : Color := mkColor (r mod 256) (g mod 256) (b mod 256) (w mod 256).

(** [namespace Colors]. *)
Definition BLACK : Color := Color_new 0 0 0 0.
Definition WHITE : Color := Color_new 255 255 255 0.
Definition RED : Color := Color_new 255 0 0 0.
Definition GREEN : Color := Color_new 0 255 0 0.
Definition BLUE : Color := Color_new 0 0 255 0.
Definition YELLOW : Color := Color_new 255 255 0 0.
Definition CYAN : Color := Color_new 0 255 255 0.
Definition MAGENTA : Color := Color_new 255 0 255 0.
Definition ORANGE : Color := Color_new 255 165 0 0.
Definition PURPLE : Color := Color_new 128 0 128 0.

(** [enum class Animation] and [enum class SoundPattern]; each has its own
    [NONE] and [CUSTOM]. *)
Module Animation.
Inductive t := NONE | FADE | BLINK | PULSE | RAINBOW | CHASE | SPARKLE | LIGHTNING | CUSTOM.
#[global] Instance eq_dec : EqDecision t.
Proof. solve_decision. Defined.
#[global] Program Instance finite : Finite t :=
  {| enum := [NONE; FADE; BLINK; PULSE; RAINBOW; CHASE; SPARKLE; LIGHTNING; CUSTOM] |}.
Next Obligation. finite_enum. Qed.
Next Obligation. finite_enum. Qed.
End Animation.

Module SoundPattern.
Inductive t := NONE | BEEP | DOUBLE_BEEP | TRIPLE_BEEP | LONG_BEEP | ALARM | MUSICAL_NOTE | CUSTOM.
#[global] Instance eq_dec : EqDecision t.
Proof. solve_decision. Defined.
#[global] Program Instance finite : Finite t :=
  {| enum := [NONE; BEEP; DOUBLE_BEEP; TRIPLE_BEEP; LONG_BEEP; ALARM; MUSICAL_NOTE; CUSTOM] |}.
Next Obligation. finite_enum. Qed.
Next Obligation. finite_enum. Qed.
End SoundPattern.

Definition State_val : State -> Z := decl_index.
Definition Type_val : Type_ -> Z := decl_index.
Definition Animation_val : Animation.t -> Z := decl_index.
Definition SoundPattern_val : SoundPattern.t -> Z := decl_index.

(** The anonymous union of [Command]. *)
Inductive CommandPayload :=
  | led (startIndex count : Z) (color : Color) (animation : Animation.t) (animationSpeed brightness : Z)
  | buzzer (pattern : SoundPattern.t) (frequency volume duration : Z)
  | display (x y : Z) (text_ : text) (font : Z) (clear : bool)
  | generic (parameter1 parameter2 : Z) (data : list Z) (dataSize : Z).

(** [struct Command]. *)
Record Command := mkCommand {
  type_ : Type_;
  timestamp : Z;
  duration : Z;
  priority : Z;
  payload : CommandPayload
}.

(** The callback types. *)
Definition CompletionCallback := option (text -> unit).
Definition ErrorCallback := option (text -> Z -> unit).
Definition StateChangeCallback := option (text -> State -> State -> unit).

(** [class IActuator] over the state [S] of an actuator. [getState] is
    overloaded: [getState()] returns the state, [getState(void*, size_t&)]
    copies out the actuator's state data ([getStateData] here). *)
Class IActuator (S : Type) := {
  initialize : S -> bool * S;
  deinitialize : S -> bool * S;
  getState : S -> State;
  getType : S -> Type_;
  getId : S -> text;
  getName : S -> text;
  executeCommand : Command -> S -> bool * S;
  stopCommand : S -> bool * S;
  isCommandActive : S -> bool;
  getRemainingTime : S -> Z;
  setState : bool -> S -> bool * S;
  getStateData : S -> bool * list Z;
  reset : S -> bool * S;
  setParameter : text -> list Z -> S -> bool * S;
  getParameter : text -> S -> bool * list Z;
  selfTest : S -> bool * S;
  setCompletionCallback : CompletionCallback -> S -> S;
  setErrorCallback : ErrorCallback -> S -> S;
  setStateChangeCallback : StateChangeCallback -> S -> S;
  update : S -> S;
  getLastError : S -> Z;
  getErrorString : Z -> S -> text
}.

(** The storage of [ActuatorManager]; a registered actuator is the index
    of an [IActuator] object of the program. *)
Definition MAX_ACTUATORS : nat := 8.

Record ActuatorEntry := mkActuatorEntry { actuator : option nat; isActive : bool; lastUpdate : Z; errorCount : Z }.

Record ActuatorManager := mkActuatorManager {
  actuators_ : list ActuatorEntry;
  actuatorCount_ : Z;
  globalCompletionCallback_ : CompletionCallback;
  globalErrorCallback_ : ErrorCallback
}.

(** [ActuatorManager() = default] on the static storage of [getInstance()]. *)
Definition ActuatorManager_new : ActuatorManager :=
  mkActuatorManager (repeat (mkActuatorEntry None false 0 0) MAX_ACTUATORS) 0 None None.

Definition predefined_colors : list Color :=
  [BLACK; WHITE; RED; GREEN; BLUE; YELLOW; CYAN; MAGENTA; ORANGE; PURPLE].

Definition color_ok (c : Color) : Prop :=
  0 <= red c < 256 /\ 0 <= green c < 256 /\ 0 <= blue c < 256 /\ 0 <= white c < 256.

(** ** Properties *)

(** Every [Color] the constructor builds has four [uint8_t] components,
    whatever its arguments (they are reduced modulo 256); the predefined
    colors keep the components written in the header, with no white. *)
Theorem color_components_u8 :
  (forall r g b w, color_ok (Color_new r g b w)) /\
  map (fun c => (red c, green c, blue c, white c)) predefined_colors =
    [(0, 0, 0, 0); (255, 255, 255, 0); (255, 0, 0, 0); (0, 255, 0, 0); (0, 0, 255, 0);
     (255, 255, 0, 0); (0, 255, 255, 0); (255, 0, 255, 0); (255, 165, 0, 0); (128, 0, 128, 0)].
Proof.
  split; [|reflexivity].
  intros r g b w. unfold color_ok, Color_new; cbn. repeat split; apply Z.mod_pos_bound; lia.
Qed.

End ActuatorSystem.
