(* ===== verification/CommunicationSystem.v ===== *)
(** * CommunicationSystem: the communication framework header

    Source: [src/src/communication/communication_interface.h], namespace
    [CommunicationSystem] (the Module of the same name): channels, message
    types, priorities and states, the [MessageHeader] and [Message]
    records, the statistics record, the callback types, the pure virtual
    interface [ICommunication] (the class [ICommunication] over a channel's
    state) and the [CommunicationManager] singleton's storage and private
    constructor. [Message]'s inline default constructor and destructor are
    modelled over a heap of live [new[]] blocks (a [gset] of addresses);
    its copy and move members, the manager's methods and the [create*]
    functions are declared only: the repository does not define them. *)

From stdpp Require Import base list finite gmap.
From Stdlib Require Import ZArith QArith String Lia.
From S2P Require Import Prelude CEnum.

Open Scope Z_scope.

Module CommunicationSystem.

(** [enum class Channel]. *)
Module Channel.
Inductive t := LORA_DATA | LORA_CONTROL | WIFI | SERIAL | BLUETOOTH | USB | CUSTOM.
#[global] Instance eq_dec : EqDecision t.
Proof. solve_decision. Defined.
#[global] Program Instance finite : Finite t :=
  {| enum := [LORA_DATA; LORA_CONTROL; WIFI; SERIAL; BLUETOOTH; USB; CUSTOM] |}.
Next Obligation. finite_enum. Qed.
Next Obligation. finite_enum. Qed.
End Channel.

(** [enum class MessageType]. *)
Module MessageType.
Inductive t := PING | PONG | CONFIG | SENSOR_DATA | COMMAND | STATUS | ERROR | OTA_REQUEST | OTA_DATA | CUSTOM.
#[global] Instance eq_dec : EqDecision t.
Proof. solve_decision. Defined.
#[global] Program Instance finite : Finite t :=
  {| enum := [PING; PONG; CONFIG; SENSOR_DATA; COMMAND; STATUS; ERROR; OTA_REQUEST; OTA_DATA; CUSTOM] |}.
Next Obligation. finite_enum. Qed.
Next Obligation. finite_enum. Qed.
End MessageType.

(** [enum class Priority]: explicit values 0 .. 3. *)
Module Priority.
Inductive t := LOW | NORMAL | HIGH | CRITICAL.
#[global] Instance eq_dec : EqDecision t.
Proof. solve_decision. Defined.
#[global] Program Instance finite : Finite t := {| enum := [LOW; NORMAL; HIGH; CRITICAL] |}.
Next Obligation. finite_enum. Qed.
Next Obligation. finite_enum. Qed.
Definition val (p : t) : Z := match p with LOW => 0 | NORMAL => 1 | HIGH => 2 | CRITICAL => 3 end.
End Priority.

(** [enum class State]. *)
Module State.
Inductive t := UNINITIALIZED | INITIALIZING | READY | TRANSMITTING | RECEIVING | ERROR | DISABLED.
#[global] Instance eq_dec : EqDecision t.
Proof. solve_decision. Defined.
#[global] Program Instance finite : Finite t :=
  {| enum := [UNINITIALIZED; INITIALIZING; READY; TRANSMITTING; RECEIVING; ERROR; DISABLED] |}.
Next Obligation. finite_enum. Qed.
Next Obligation. finite_enum. Qed.
End State.

Definition Channel_val : Channel.t -> Z := decl_index.
Definition MessageType_val : MessageType.t -> Z := decl_index.
Definition State_val : State.t -> Z := decl_index.

(** [struct MessageHeader]. *)
Record MessageHeader := mkMessageHeader {
  messageId : Z;
  type_ : MessageType.t;
  priority : Priority.t;
  sourceId : Z;
  destinationId : Z;
  sequenceNumber : Z;
  payloadSize : Z;
  timestamp : Z;
  checksum : Z
}.

(** [struct Message]: [header] is [None] while its members are
    indeterminate; [payload] is the address of a [new[]] block or [None]
    for [nullptr]. *)
Record Message := mkMessage { header : option MessageHeader; payload : option Z; ownsPayload : bool }.

(** [Message() : payload(nullptr), ownsPayload(false) {}]: the header is
    default-initialised, that is left indeterminate. *)
Definition Message_new : Message := mkMessage None None false.

(** The blocks [new[]] has returned and [delete[]] has not freed. *)
Abbreviation heap := (gset Z).

(** [~Message() { if (ownsPayload && payload) delete[] payload; }];
    [delete[]] of a block that is not live is undefined behaviour. *)
Definition Message_destroy (m : Message) (hp : heap) : option heap :=
  match ownsPayload m, payload m with
  | true, Some p => if bool_decide (p ∈ hp) then Some (hp ∖ {[p]}) else None
  | _, _ => Some hp
  end.

(** [struct Statistics]. *)
Record Statistics := mkStatistics {
  messagesSent : Z;
  messagesReceived : Z;
  bytesTransmitted : Z;
  bytesReceived : Z;
  errorsTransmit : Z;
  errorsReceive : Z;
  messagesDropped : Z;
  averageRSSI : Q;
  averageSNR : Q;
  lastActivity : Z
}.

(** The callback types. *)
Definition MessageCallback := option (Message -> unit).
Definition ErrorCallback := option (Channel.t -> Z -> unit).
Definition StateChangeCallback := option (Channel.t -> State.t -> State.t -> unit).
Definition MessageFilterCallback := option (Message -> bool).

(** [class ICommunication] over the state [S] of a channel. *)
Class ICommunication (S : Type) := {
  initialize : S -> bool * S;
  deinitialize : S -> bool * S;
  getState : S -> State.t;
  getChannel : S -> Channel.t;
  getName : S -> text;
  sendMessage : Message -> S -> bool * S;
  receiveMessage : S -> bool * Message * S;
  hasMessages : S -> bool;
  getMessageCount : S -> Z;
  clearMessages : S -> bool * S;
  setParameter : text -> list Z -> S -> bool * S;
  getParameter : text -> S -> bool * list Z;
  reset : S -> bool * S;
  setMessageCallback : MessageCallback -> S -> S;
  setErrorCallback : ErrorCallback -> S -> S;
  setStateChangeCallback : StateChangeCallback -> S -> S;
  setMessageFilter : MessageFilterCallback -> S -> S;
  getStatistics : S -> Statistics;
  resetStatistics : S -> S;
  sleep : S -> bool * S;
  wakeup : S -> bool * S;
  update : S -> S;
  getLastError : S -> Z;
  getErrorString : Z -> S -> text
}.

(** The storage of [CommunicationManager]; a registered channel is the
    index of an [ICommunication] object of the program. *)
Definition MAX_CHANNELS : nat := 6.

Record ChannelEntry := mkChannelEntry { comm : option nat; isActive : bool; ce_lastActivity : Z; errorCount : Z }.

Record CommunicationManager := mkCommunicationManager {
  channels_ : list ChannelEntry;
  channelCount_ : Z;
  deviceId_ : Z;
  sequenceNumber_ : Z;
  globalMessageCallback_ : MessageCallback;
  globalErrorCallback_ : ErrorCallback;
  globalMessageFilter_ : MessageFilterCallback
}.

(** [CommunicationManager() : deviceId_(1), sequenceNumber_(0) {}] on the
    static storage of [getInstance()]. *)
Definition CommunicationManager_new : CommunicationManager :=
  mkCommunicationManager (repeat (mkChannelEntry None false 0 0) MAX_CHANNELS) 0 1 0 None None None.

(** ** Properties *)

(** The life of a message's payload: destroying a default-constructed
    message frees nothing; destroying a message that owns a live block
    frees exactly that block; destroying a second message that owns the
    same block (two owners of one payload) is a double [delete[]]. *)
Theorem message_destroy_ownership hp p h :
  Message_destroy Message_new hp = Some hp /\
  (p ∈ hp -> Message_destroy (mkMessage h (Some p) true) hp = Some (hp ∖ {[p]}) /\
   (Message_destroy (mkMessage h (Some p) true) hp ≫= Message_destroy (mkMessage h (Some p) true)) = None).
Proof.
  split; [reflexivity|]. intros Hp. unfold Message_destroy; cbn.
  rewrite bool_decide_true by exact Hp. split; [reflexivity|]. cbn.
  rewrite bool_decide_false by set_solver. reflexivity.
Qed.

(** The manager's table has six slots for the seven channels a
    [registerChannel] keyed by [Channel] can name: one channel can never
    be registered beside the others. *)
Theorem channel_table_short :
  length (enum Channel.t) = 7%nat /\ (MAX_CHANNELS < length (enum Channel.t))%nat /\
  length (channels_ CommunicationManager_new) = MAX_CHANNELS.
Proof. repeat split; reflexivity || (vm_compute; lia). Qed.

(** ** Witnesses *)

Example message_destroy_ownership_witness :
  Message_destroy Message_new {[8]} = Some {[8]} /\
  (8 ∈ ({[8]} : heap) /\ Message_destroy (mkMessage None (Some 8) true) {[8]} = Some ({[8]} ∖ {[8]}) /\
   (Message_destroy (mkMessage None (Some 8) true) {[8]} ≫= Message_destroy (mkMessage None (Some 8) true)) = None).
Proof.
  destruct (message_destroy_ownership {[8]} 8 None) as [H0 H1]. split; [exact H0|].
  assert (Hin : 8 ∈ ({[8]} : heap)) by (apply (bool_decide_unpack (8 ∈ ({[8]} : heap))); vm_compute; reflexivity).
  split; [exact Hin | exact (H1 Hin)].
Defined.

End CommunicationSystem.
