(* ===== verification/ErrorLogging.v ===== *)
(** * ErrorLogging: the error handler and logger headers

    Sources: [src/src/system/error_handler.h] (namespace [ErrorHandling])
    and [src/src/system/logger.h] (namespace [Logging]), the Modules of the
    same names. Both headers declare enumerations, a record and free
    functions; no file of the repository defines the functions, so what is
    modelled is the data: the enumerations with their values, [ErrorInfo],
    [LogStats], and the default arguments of the declared functions. *)

From stdpp Require Import base list finite.
From Stdlib Require Import ZArith String Lia.
From S2P Require Import Prelude CEnum.

Open Scope Z_scope.

Module ErrorHandling.

(** [enum class Severity]. *)
Inductive Severity := INFO | WARNING | ERROR | CRITICAL.
#[global] Instance Severity_eq_dec : EqDecision Severity.
Proof. solve_decision. Defined.
#[global] Program Instance Severity_finite : Finite Severity := {| enum := [INFO; WARNING; ERROR; CRITICAL] |}.
Next Obligation. finite_enum. Qed.
Next Obligation. finite_enum. Qed.

(** [enum class Category]. *)
Inductive Category := HARDWARE | RADIO | WIFI | SENSOR | ACTUATOR | OTA | SYSTEM | CONFIG.
#[global] Instance Category_eq_dec : EqDecision Category.
Proof. solve_decision. Defined.
#[global] Program Instance Category_finite : Finite Category :=
  {| enum := [HARDWARE; RADIO; WIFI; SENSOR; ACTUATOR; OTA; SYSTEM; CONFIG] |}.
Next Obligation. finite_enum. Qed.
Next Obligation. finite_enum. Qed.

(** [enum class Code]. *)
Inductive Code :=
  OLED_INIT_FAILED | I2C_COMMUNICATION_FAILED | POWER_MANAGEMENT_FAILED
| RADIO_INIT_FAILED | RADIO_TX_FAILED | RADIO_RX_FAILED | RADIO_CONFIG_FAILED
| WIFI_CONNECT_FAILED | WIFI_TIMEOUT | WIFI_AUTH_FAILED | WIFI_CONFIG_INVALID
| SENSOR_INIT_FAILED | SENSOR_READ_FAILED | SENSOR_CALIBRATION_FAILED
| LED_INIT_FAILED | LED_UPDATE_FAILED | BUZZER_INIT_FAILED
| OTA_INIT_FAILED | OTA_DOWNLOAD_FAILED | OTA_VERIFICATION_FAILED | OTA_STORAGE_FAILED
| MEMORY_ALLOCATION_FAILED | TASK_CREATION_FAILED | WATCHDOG_TIMEOUT
| CONFIG_LOAD_FAILED | CONFIG_SAVE_FAILED | CONFIG_VALIDATION_FAILED.
#[global] Instance Code_eq_dec : EqDecision Code.
Proof. solve_decision. Defined.
#[global] Program Instance Code_finite : Finite Code :=
  {| enum := [OLED_INIT_FAILED; I2C_COMMUNICATION_FAILED; POWER_MANAGEMENT_FAILED;
              RADIO_INIT_FAILED; RADIO_TX_FAILED; RADIO_RX_FAILED; RADIO_CONFIG_FAILED;
              WIFI_CONNECT_FAILED; WIFI_TIMEOUT; WIFI_AUTH_FAILED; WIFI_CONFIG_INVALID;
              SENSOR_INIT_FAILED; SENSOR_READ_FAILED; SENSOR_CALIBRATION_FAILED;
              LED_INIT_FAILED; LED_UPDATE_FAILED; BUZZER_INIT_FAILED;
              OTA_INIT_FAILED; OTA_DOWNLOAD_FAILED; OTA_VERIFICATION_FAILED; OTA_STORAGE_FAILED;
              MEMORY_ALLOCATION_FAILED; TASK_CREATION_FAILED; WATCHDOG_TIMEOUT;
              CONFIG_LOAD_FAILED; CONFIG_SAVE_FAILED; CONFIG_VALIDATION_FAILED] |}.
Next Obligation. finite_enum. Qed.
Next Obligation. finite_enum. Qed.

Definition Severity_val : Severity -> Z := decl_index.
Definition Category_val : Category -> Z := decl_index.

Definition Code_val (c : Code) : Z :=
  match c with
  | OLED_INIT_FAILED => 100 | I2C_COMMUNICATION_FAILED => 101 | POWER_MANAGEMENT_FAILED => 102
  | RADIO_INIT_FAILED => 200 | RADIO_TX_FAILED => 201 | RADIO_RX_FAILED => 202 | RADIO_CONFIG_FAILED => 203
  | WIFI_CONNECT_FAILED => 300 | WIFI_TIMEOUT => 301 | WIFI_AUTH_FAILED => 302 | WIFI_CONFIG_INVALID => 303
  | SENSOR_INIT_FAILED => 400 | SENSOR_READ_FAILED => 401 | SENSOR_CALIBRATION_FAILED => 402
  | LED_INIT_FAILED => 500 | LED_UPDATE_FAILED => 501 | BUZZER_INIT_FAILED => 502
  | OTA_INIT_FAILED => 600 | OTA_DOWNLOAD_FAILED => 601 | OTA_VERIFICATION_FAILED => 602
  | OTA_STORAGE_FAILED => 603
  | MEMORY_ALLOCATION_FAILED => 700 | TASK_CREATION_FAILED => 701 | WATCHDOG_TIMEOUT => 702
  | CONFIG_LOAD_FAILED => 800 | CONFIG_SAVE_FAILED => 801 | CONFIG_VALIDATION_FAILED => 802
  end.

(** [struct ErrorInfo]. *)
Record ErrorInfo := mkErrorInfo {
  code : Code;
  category : Category;
  severity : Severity;
  timestamp : Z;
  message : option text;
  module_ : text;
  data : Z
}.

(** The default arguments of [getErrorCount] and [hasErrors]. *)
Definition getErrorCount_default : Category := SYSTEM.
Definition hasErrors_default : Severity := ERROR.

(** The category whose block of codes ("Hardware errors (100-199)", ...,
    "Config errors (800-899)") a code's value lies in: block [k] of 100
    codes belongs to the category of value [k - 1]. *)
Definition code_block_category (c : Code) : option Category :=
  enum_of_int Category_val (Code_val c / 100 - 1).

(** ** Properties *)

(** The error codes are distinct (so a [switch] over them, such as
    [errorCodeToString], has no duplicate case), and every code lies in the
    block of 100 codes of a category, in the order of [Category]: the
    hundreds digit of a code is its category's value plus one. *)
Theorem error_code_blocks :
  vals_distinct Code_val = true /\
  forall c, exists cat, code_block_category c = Some cat /\
    100 * (Category_val cat + 1) <= Code_val c < 100 * (Category_val cat + 2).
Proof.
  split; [reflexivity|]. intros c.
  destruct c; eexists; (split; [reflexivity | split; vm_compute; congruence]).
Qed.

End ErrorHandling.

Module Logging.

(** [enum class Level]: explicit values 0 .. 5. *)
Inductive Level := TRACE | DEBUG | INFO | WARN | ERROR | FATAL.
#[global] Instance Level_eq_dec : EqDecision Level.
Proof. solve_decision. Defined.
#[global] Program Instance Level_finite : Finite Level := {| enum := [TRACE; DEBUG; INFO; WARN; ERROR; FATAL] |}.
Next Obligation. finite_enum. Qed.
Next Obligation. finite_enum. Qed.

Definition Level_val (l : Level) : Z :=
  match l with TRACE => 0 | DEBUG => 1 | INFO => 2 | WARN => 3 | ERROR => 4 | FATAL => 5 end.

(** [enum class Category]. *)
Inductive Category := SYSTEM | HARDWARE | RADIO | WIFI | SENSOR | ACTUATOR | OTA | UI | CONFIG | TEST.
#[global] Instance Category_eq_dec : EqDecision Category.
Proof. solve_decision. Defined.
#[global] Program Instance Category_finite : Finite Category :=
  {| enum := [SYSTEM; HARDWARE; RADIO; WIFI; SENSOR; ACTUATOR; OTA; UI; CONFIG; TEST] |}.
Next Obligation. finite_enum. Qed.
Next Obligation. finite_enum. Qed.

Definition Category_val : Category -> Z := decl_index.

(** [enum class Destination]: flags of the [uint8_t destinations]. *)
Module Destination.
Inductive t := SERIAL | DISPLAY | RADIO | STORAGE.
#[global] Instance eq_dec : EqDecision t.
Proof. solve_decision. Defined.
#[global] Program Instance finite : Finite t := {| enum := [SERIAL; DISPLAY; RADIO; STORAGE] |}.
Next Obligation. finite_enum. Qed.
Next Obligation. finite_enum. Qed.
Definition val (d : t) : Z := match d with SERIAL => 1 | DISPLAY => 2 | RADIO => 4 | STORAGE => 8 end.
End Destination.

(** The default arguments of [initialize(minLevel = INFO, destinations =
    static_cast<uint8_t>(Destination::SERIAL))]. *)
Definition initialize_default_level : Level := INFO.
Definition initialize_default_destinations : Z := Destination.val Destination.SERIAL.

(** [struct LogStats]. *)
Record LogStats := mkLogStats {
  totalMessages : Z;
  messagesByLevel : list Z;
  droppedMessages : Z;
  uptime : Z
}.

(** [LogStats stats = {}]: [messagesByLevel] has its declared 6 slots. *)
Definition LogStats_zero : LogStats := mkLogStats 0 (repeat 0 6) 0 0.

(** ** Properties *)

(** Every log level indexes [messagesByLevel[6]] in bounds (the levels are
    0 .. 5 in declaration order), and the destinations are distinct bits of
    the [uint8_t] mask: a mask of destinations is a [uint8_t] and
    [destinations & d] is non-zero exactly for the destinations put in; the
    default mask of [initialize] selects the serial port only. *)
Theorem log_levels_and_destinations :
  (forall l, 0 <= Level_val l < Z.of_nat (length (messagesByLevel LogStats_zero))) /\
  enum_values Level_val = enum_values (@decl_index Level _ _) /\
  (forall ds d, 0 <= flags_mask Destination.val ds < 2 ^ 8 /\
     (Z.land (flags_mask Destination.val ds) (Destination.val d) <> 0 <-> d ∈ ds)) /\
  (forall d, Z.land initialize_default_destinations (Destination.val d) <> 0 <-> d = Destination.SERIAL).
Proof.
  split; [intros []; cbn; lia|]. split; [reflexivity|]. split.
  - intros ds d. split; [apply flags_mask_bound; [lia | reflexivity]|].
    apply (flags_mask_has _ 8); [reflexivity | reflexivity | destruct d; simpl; congruence].
  - intros d. destruct d; vm_compute; split; congruence.
Qed.

End Logging.
