(* ===== verification/CFormat.v ===== *)
(** * The C library's formatted text I/O, as the firmware uses it

    The firmware builds every LoRa frame with [snprintf] and decodes every
    frame with [sscanf]. This file models the parts of newlib it relies on:
    - [fmt_uint]/[fmt_int]/[fmt_fixed]: the [%u %lu %zu], [%d] and [%.kf]
      conversions of [printf]; [snprintf_buf] the truncation to the buffer;
    - [sscanf]: the format string is compiled into [directive]s
      ([compile_fmt]) and run over the input ([run_scan]) with the C rules:
      white space in the format skips any white space, ordinary characters
      must match, every conversion except [%c] skips leading white space,
      the result is the number of assignments, or EOF (-1) when the input
      ends before the first conversion.
    Float values are exact decimals [dec] (mantissa, number of fraction
    digits). [printf] rounds half to even, which is what a binary float does
    on every tie that is exactly representable (x.5, x.25, ...); values whose
    decimal tie is not a binary tie are outside the model. [%f] scanning
    reads [sign digits [. digits]]; exponents, [inf] and [nan] are not
    modelled (no frame the firmware sends contains them). *)

From stdpp Require Import base list strings.
From Stdlib Require Import ZArith Ascii String Lia.
From S2P Require Import Prelude.

Open Scope Z_scope.
Open Scope lora_scope.

(** ** Exact decimal numbers standing for [float] values *)

Record dec := Dec { dmant : Z; dexp : nat }.

Definition dec_of_Z (z : Z) : dec := Dec z 0.

(** Equality of values, the [==] of the code on floats. *)
Definition dec_eqb (a b : dec) : bool :=
  dmant a * 10 ^ Z.of_nat (dexp b) =? dmant b * 10 ^ Z.of_nat (dexp a).

Definition dec_eqv (a b : dec) : Prop := dec_eqb a b = true.

(** ** printf *)

(** [n / d] rounded to nearest, ties to even ([n >= 0], [d > 0]). *)
Definition round_half_even (n d : Z) : Z :=
  let q := n / d in
  let r := n mod d in
  if 2 * r <? d then q
  else if d <? 2 * r then q + 1
  else if Z.even q then q else q + 1.

(** [|x| * 10^k], rounded as [printf] rounds it. *)
Definition scaled_round (k : nat) (x : dec) : Z :=
  let m := Z.abs (dmant x) in
  if (dexp x <=? k)%nat then m * 10 ^ Z.of_nat (k - dexp x)
  else round_half_even m (10 ^ Z.of_nat (dexp x - k)).

(** The [k] low decimal digits of [v], zero padded. *)
Fixpoint frac_digits (k : nat) (v : Z) : text :=
  match k with
  | O => []
  | S k' => frac_digits k' (v / 10) ++ [digit_char (v mod 10)]
  end.

(** [printf("%.kf", x)]. *)
Definition fmt_fixed (k : nat) (x : dec) : text :=
  let s := scaled_round k x in
  let sign := if dmant x <? 0 then ["-"%char] else [] in
  match k with
  | O => sign ++ fmt_uint s
  | S _ => sign ++ fmt_uint (s / 10 ^ Z.of_nat k) ++ ["."%char] ++ frac_digits k (s mod 10 ^ Z.of_nat k)
  end.

(** [printf("%d", z)]. *)
Definition fmt_int (z : Z) : text :=
  if z <? 0 then "-"%char :: fmt_uint (- z) else fmt_uint z.

(** [snprintf(buf, size, ...)] keeps at most [size - 1] characters. *)
Definition snprintf_buf (size : nat) (t : text) : text := take (size - 1) t.

(** ** sscanf *)

Inductive conv := CInt | CUns | CFlt | CStr (width : option nat).

Inductive directive := DLit (c : ascii) | DSpace | DConv (k : conv).

Inductive scan_val := VInt (z : Z) | VFlt (x : dec) | VStr (t : text).

Definition conv_of (c : ascii) (w : option nat) : option conv :=
  if ascii_dec c "d" then Some CInt
  else if ascii_dec c "u" then Some CUns
  else if ascii_dec c "f" then Some CFlt
  else if ascii_dec c "s" then Some (CStr w)
  else None.

(** Compile a format string; [fuel] is its length. An unsupported
    conversion ends the directive list. *)
Fixpoint compile_fmt_aux (fuel : nat) (f : text) : list directive :=
  match fuel with
  | O => []
  | S fuel' =>
    match f with
    | [] => []
    | c :: f' =>
      if is_space c then DSpace :: compile_fmt_aux fuel' f'
      else if ascii_dec c "%" then
        let '(w, r) := span_digits f' in
        let width := match w with [] => None | _ => Some (Z.to_nat (digits_value w)) end in
        match r with
        | k :: r' =>
          match conv_of k width with
          | Some cv => DConv cv :: compile_fmt_aux fuel' r'
          | None => []
          end
        | [] => []
        end
      else DLit c :: compile_fmt_aux fuel' f'
    end
  end.

Definition compile_fmt (f : text) : list directive := compile_fmt_aux (List.length f) f.

Definition scan_sign (t : text) : Z * text :=
  match t with
  | c :: t' => if ascii_dec c "-" then (-1, t') else if ascii_dec c "+" then (1, t') else (1, t)
  | [] => (1, [])
  end.

Definition int_min : Z := - 2 ^ 31.
Definition int_max : Z := 2 ^ 31 - 1.

(** [strtol] saturates at [LONG_MIN]/[LONG_MAX] (32-bit on the ESP32). *)
Definition sat_int (z : Z) : Z := Z.max int_min (Z.min z int_max).

Definition scan_int (t : text) : option (Z * text) :=
  let '(sg, t1) := scan_sign t in
  let '(ds, t2) := span_digits t1 in
  match ds with
  | [] => None
  | _ => Some (sat_int (sg * digits_value ds), t2)
  end.

(** [strtoul]: the magnitude saturates at [ULONG_MAX], a minus sign negates
    modulo 2^32. *)
Definition scan_uint (t : text) : option (Z * text) :=
  let '(sg, t1) := scan_sign t in
  let '(ds, t2) := span_digits t1 in
  match ds with
  | [] => None
  | _ => Some (u32 (sg * Z.min (digits_value ds) (u32_modulus - 1)), t2)
  end.

Definition scan_float (t : text) : option (dec * text) :=
  let '(sg, t1) := scan_sign t in
  let '(ip, t2) := span_digits t1 in
  let '(fp, t3) :=
    match t2 with
    | c :: t2' => if ascii_dec c "." then span_digits t2' else ([], t2)
    | [] => ([], [])
    end in
  match ip ++ fp with
  | [] => None
  | ds => Some (Dec (sg * digits_value ds) (List.length fp), t3)
  end.

Fixpoint take_nonspace (w : nat) (t : text) : text * text :=
  match w, t with
  | S w', c :: t' => if is_space c then ([], t) else let '(s, r) := take_nonspace w' t' in (c :: s, r)
  | _, _ => ([], t)
  end.

Definition scan_str (w : option nat) (t : text) : option (text * text) :=
  match take_nonspace (default (List.length t) w) t with
  | ([], _) => None
  | (s, r) => Some (s, r)
  end.

Definition scan_conv (k : conv) (t : text) : option (scan_val * text) :=
  match k with
  | CInt => (fun '(z, r) => (VInt z, r)) <$> scan_int t
  | CUns => (fun '(z, r) => (VInt z, r)) <$> scan_uint t
  | CFlt => (fun '(x, r) => (VFlt x, r)) <$> scan_float t
  | CStr w => (fun '(s, r) => (VStr s, r)) <$> scan_str w t
  end.

(** The return value when the input runs out: EOF before any assignment. *)
Definition eof_or (n : Z) : Z := if n =? 0 then -1 else n.

Fixpoint run_scan (ds : list directive) (inp : text) (n : Z) : Z * list scan_val :=
  match ds with
  | [] => (n, [])
  | DSpace :: ds' => run_scan ds' (skip_ws inp) n
  | DLit c :: ds' =>
    match inp with
    | [] => (eof_or n, [])
    | d :: inp' => if ascii_dec c d then run_scan ds' inp' n else (n, [])
    end
  | DConv k :: ds' =>
    match skip_ws inp with
    | [] => (eof_or n, [])
    | inp1 =>
      match scan_conv k inp1 with
      | Some (v, rest) => let '(m, vs) := run_scan ds' rest (n + 1) in (m, v :: vs)
      | None => (n, [])
      end
    end
  end.

(** [sscanf(inp, fmt, ...)]: the count it returns and the values it assigns,
    in the order of the conversions. *)
Definition sscanf (fmt inp : text) : Z * list scan_val := run_scan (compile_fmt fmt) inp 0.

(** ** Lemmas: what [sscanf] reads back from what [printf] wrote *)

Definition dec_sign (x : dec) : Z := if dmant x <? 0 then -1 else 1.

(** The first character of [t] exists and is not blank. *)
Definition hd_not_space (t : text) : bool :=
  match t with c :: _ => negb (is_space c) | [] => false end.


Lemma dec_eqb_refl x : dec_eqb x x = true.
Proof. unfold dec_eqb. apply Z.eqb_refl. Qed.

Lemma digits_value_snoc ds c : digits_value (ds ++ [c]) = digits_value ds * 10 + digit_val c.
Proof. unfold digits_value. now rewrite fold_left_app. Qed.

Lemma fmt_uint_cons n : 0 <= n -> exists c t, fmt_uint n = c :: t /\ is_digit c = true.
Proof.
  intros Hn. pose proof (fmt_uint_digits n Hn) as Hd. pose proof (fmt_uint_nonempty n) as Hne.
  destruct (fmt_uint n) as [|c t]; [congruence|]. inversion Hd; subst. eauto.
Qed.

(** A digit is neither sign: [scan_sign] leaves a printed number alone. *)
Lemma scan_sign_fmt_uint n rest : 0 <= n -> scan_sign (fmt_uint n ++ rest) = (1, fmt_uint n ++ rest).
Proof.
  intros Hn. destruct (fmt_uint_cons n Hn) as (c & t & -> & Hc). simpl.
  destruct (ascii_dec c "-"); [subst; discriminate|].
  destruct (ascii_dec c "+"); [subst; discriminate|]. reflexivity.
Qed.

Lemma span_fmt_uint n rest :
  0 <= n -> digit_free_head rest = true -> span_digits (fmt_uint n ++ rest) = (fmt_uint n, rest).
Proof. intros Hn Hr. apply span_digits_app; auto with lora. Qed.

Lemma span_digits_stop rest : digit_free_head rest = true -> span_digits rest = ([], rest).
Proof. apply (span_digits_app []). constructor. Qed.

#[export] Hint Resolve dec_eqb_refl : lora.

Lemma scan_uint_fmt n rest :
  is_u32 n -> digit_free_head rest = true -> scan_uint (fmt_uint n ++ rest) = Some (n, rest).
Proof.
  intros Hn Hr. unfold scan_uint.
  rewrite scan_sign_fmt_uint, span_fmt_uint by (unfold is_u32 in Hn; lia || assumption).
  rewrite fmt_uint_value by u32_lia.
  destruct (fmt_uint_cons n) as (c & t & -> & _); [u32_lia|].
  f_equal. f_equal. rewrite Z.min_l by u32_lia. rewrite Z.mul_1_l. now apply u32_small.
Qed.

Lemma scan_int_fmt z rest :
  int_min <= z <= int_max -> digit_free_head rest = true -> scan_int (fmt_int z ++ rest) = Some (z, rest).
Proof.
  intros Hz Hr. unfold scan_int, fmt_int, int_min, int_max in *. case_cmp.
  - simpl. rewrite span_fmt_uint by (lia || assumption).
    rewrite fmt_uint_value by lia.
    destruct (fmt_uint_cons (- z)) as (c & t & -> & _); [lia|].
    unfold sat_int, int_min, int_max. do 2 f_equal. lia.
  - rewrite scan_sign_fmt_uint, span_fmt_uint by (lia || assumption).
    rewrite fmt_uint_value by lia.
    destruct (fmt_uint_cons z) as (c & t & -> & _); [lia|].
    unfold sat_int, int_min, int_max. do 2 f_equal. lia.
Qed.

Lemma round_half_even_nonneg n d : 0 <= n -> 0 < d -> 0 <= round_half_even n d.
Proof.
  intros Hn Hd. pose proof (Z.div_pos n d Hn Hd).
  unfold round_half_even. case_cmp; try destruct (Z.even _); lia.
Qed.

Lemma scaled_round_nonneg k x : 0 <= scaled_round k x.
Proof.
  unfold scaled_round. destruct (dexp x <=? k)%nat.
  - apply Z.mul_nonneg_nonneg; [lia | apply Z.pow_nonneg; lia].
  - apply round_half_even_nonneg; [lia | apply Z.pow_pos_nonneg; lia].
Qed.

(** ** The fraction digits of [%.kf] *)

Lemma mod_pow10_S v k : 0 <= k -> (v / 10) mod 10 ^ k * 10 + v mod 10 = v mod 10 ^ (k + 1).
Proof.
  intros Hk. pose proof (Z.pow_pos_nonneg 10 k ltac:(lia) Hk) as Hp.
  pose proof (Z.mod_pos_bound (v / 10) (10 ^ k) Hp). pose proof (Z.mod_pos_bound v 10 ltac:(lia)).
  pose proof (Z.div_mod v 10 ltac:(lia)). pose proof (Z.div_mod (v / 10) (10 ^ k) ltac:(lia)).
  rewrite Z.pow_add_r by lia.
  apply Z.mod_unique with ((v / 10) / 10 ^ k); [left|]; nia.
Qed.

Lemma frac_digits_digits k v : Forall (fun c => is_digit c = true) (frac_digits k v).
Proof.
  revert v. induction k as [|k IH]; intros v; simpl; [constructor|].
  apply Forall_app; split; [apply IH|]. constructor; [|constructor].
  apply is_digit_char, Z.mod_pos_bound. lia.
Qed.

Lemma length_frac_digits k v : length (frac_digits k v) = k.
Proof. revert v. induction k as [|k IH]; intros v; simpl; [reflexivity|]. rewrite length_app, IH. simpl. lia. Qed.

Lemma digits_value_acc es a :
  fold_left (fun acc c => acc * 10 + digit_val c) es a = a * 10 ^ Z.of_nat (length es) + digits_value es.
Proof.
  unfold digits_value. revert a. induction es as [|c es IH]; intros a; simpl; [lia|].
  rewrite IH, (IH (0 * 10 + digit_val c)), Nat2Z.inj_succ, Z.pow_succ_r by lia. ring.
Qed.

Lemma digits_value_app ds es :
  digits_value (ds ++ es) = digits_value ds * 10 ^ Z.of_nat (length es) + digits_value es.
Proof. unfold digits_value at 1. rewrite fold_left_app. apply digits_value_acc. Qed.

Lemma digits_value_single c : digits_value [c] = digit_val c.
Proof. unfold digits_value. simpl. lia. Qed.

(** The [k] fraction digits are the value modulo [10^k], as [strtod] reads them. *)
Lemma digits_value_frac k v : digits_value (frac_digits k v) = v mod 10 ^ Z.of_nat k.
Proof.
  revert v. induction k as [|k IH]; intros v; simpl frac_digits.
  - change (10 ^ Z.of_nat 0) with 1. rewrite Z.mod_1_r. reflexivity.
  - rewrite digits_value_app, IH, digits_value_single, digit_val_char by (apply Z.mod_pos_bound; lia).
    change (10 ^ Z.of_nat (length [digit_char (v mod 10)])) with 10.
    rewrite Nat2Z.inj_succ, <- Z.add_1_r. apply mod_pow10_S. lia.
Qed.

(** [%.1f] of a value of at least 99.95 takes at least five characters. *)
Lemma fmt_fixed1_length x : 1000 <= scaled_round 1 x -> (5 <= length (fmt_fixed 1 x))%nat.
Proof.
  intros Hx. unfold fmt_fixed. change (10 ^ Z.of_nat 1) with 10.
  assert (H3 : (2 < length (fmt_uint (scaled_round 1 x / 10)))%nat).
  { apply fmt_uint_length_ge; [lia|]. change (10 ^ Z.of_nat 2) with 100. apply Z.div_le_lower_bound; lia. }
  rewrite !length_app, length_frac_digits. simpl. lia.
Qed.

(** Scanning the output of [%.kf], [k > 0], gives back the rounded value
    with [k] fraction digits. *)
Lemma scan_float_fixed k x rest :
  (0 < k)%nat -> scaled_round k x < 10 ^ 20 -> digit_free_head rest = true ->
  scan_float (fmt_fixed k x ++ rest) = Some (Dec (dec_sign x * scaled_round k x) k, rest).
Proof.
  intros Hk Hb Hr. destruct k as [|k']; [lia|].
  set (s := scaled_round (S k') x). set (P := 10 ^ Z.of_nat (S k')).
  assert (Hs : 0 <= s) by apply scaled_round_nonneg.
  assert (HP : 0 < P) by (apply Z.pow_pos_nonneg; lia).
  assert (Hq : 0 <= s / P) by (apply Z.div_pos; lia).
  assert (Hq' : s / P < 10 ^ 20) by (apply Z.div_lt_upper_bound; nia).
  unfold fmt_fixed. fold s P. set (fr := frac_digits (S k') (s mod P)). rewrite <- !app_assoc.
  set (body := fmt_uint (s / P) ++ ["."%char] ++ fr ++ rest).
  assert (Hsign : scan_sign ((if dmant x <? 0 then ["-"%char] else []) ++ body) = (dec_sign x, body)).
  { unfold dec_sign, body. case_cmp; simpl; [reflexivity|]. apply scan_sign_fmt_uint. exact Hq. }
  unfold scan_float. rewrite Hsign. unfold body.
  rewrite span_fmt_uint by (try exact Hq; reflexivity). cbn [app].
  destruct (ascii_dec "." "."); [|congruence].
  rewrite span_digits_app by (apply frac_digits_digits || exact Hr).
  destruct (fmt_uint (s / P) ++ fr) as [|a l] eqn:E.
  { apply app_eq_nil in E as [E _]. exact (False_rect _ (fmt_uint_nonempty _ E)). }
  rewrite <- E, digits_value_app. unfold fr. rewrite digits_value_frac, fmt_uint_value, length_frac_digits by lia.
  fold P. rewrite Z.mod_mod by lia. do 3 f_equal. pose proof (Z.div_mod s P). lia.
Qed.

(** Scanning the output of [%.0f]: the rounded integer. *)
Lemma scan_float_fixed0 x c rest :
  scaled_round 0 x < 10 ^ 20 -> is_digit c = false -> c <> "."%char ->
  scan_float (fmt_fixed 0 x ++ c :: rest) = Some (Dec (dec_sign x * scaled_round 0 x) 0, c :: rest).
Proof.
  intros Hb Hc Hdot. set (s := scaled_round 0 x).
  assert (Hs : 0 <= s) by apply scaled_round_nonneg.
  assert (Hsign : scan_sign ((if dmant x <? 0 then ["-"%char] else []) ++ fmt_uint s ++ c :: rest)
                  = (dec_sign x, fmt_uint s ++ c :: rest)).
  { unfold dec_sign. case_cmp; simpl; [reflexivity|]. apply scan_sign_fmt_uint. exact Hs. }
  unfold scan_float, fmt_fixed. fold s. rewrite <- app_assoc, Hsign.
  rewrite span_fmt_uint by (simpl; rewrite ?Hc; reflexivity || exact Hs).
  destruct (ascii_dec c "."); [contradiction|].
  rewrite app_nil_r. destruct (fmt_uint_cons s Hs) as (d & t & Ed & _). rewrite Ed.
  rewrite <- Ed, fmt_uint_value by lia. reflexivity.
Qed.

(** ** Stepping [run_scan] over printed text *)

Lemma skip_ws_id t : hd_not_space t = true -> skip_ws t = t.
Proof. destruct t as [|c t]; simpl; [discriminate|]. now destruct (is_space c). Qed.

Lemma hd_not_space_uint n r : 0 <= n -> hd_not_space (fmt_uint n ++ r) = true.
Proof.
  intros Hn. destruct (fmt_uint_cons n Hn) as (c & t & -> & Hc). simpl.
  unfold is_digit, is_space in *. destruct (code c =? 32) eqn:E1; [apply Z.eqb_eq in E1; rewrite E1 in Hc; discriminate|].
  apply andb_prop in Hc as [H1 H2]. apply Z.leb_le in H1. simpl.
  destruct (9 <=? code c) eqn:E2; simpl; [|reflexivity].
  destruct (code c <=? 13) eqn:E3; [apply Z.leb_le in E3; lia | reflexivity].
Qed.

Lemma hd_not_space_int z r : hd_not_space (fmt_int z ++ r) = true.
Proof. unfold fmt_int. case_cmp; [reflexivity|]. apply hd_not_space_uint. lia. Qed.

Lemma hd_not_space_fixed k x r : hd_not_space (fmt_fixed k x ++ r) = true.
Proof.
  unfold fmt_fixed. destruct (dmant x <? 0); [destruct k; reflexivity|].
  destruct k; simpl app; rewrite <- ?app_assoc; apply hd_not_space_uint.
  - apply scaled_round_nonneg.
  - apply Z.div_pos; [apply scaled_round_nonneg | apply Z.pow_pos_nonneg; lia].
Qed.

(** One conversion of [sscanf] that succeeds on text without leading blanks. *)
Lemma run_scan_conv k inp v rest ds n :
  hd_not_space inp = true -> scan_conv k inp = Some (v, rest) ->
  run_scan (DConv k :: ds) inp n = let '(m, vs) := run_scan ds rest (n + 1) in (m, v :: vs).
Proof.
  intros Hh Hs. cbn [run_scan]. rewrite skip_ws_id by exact Hh.
  destruct inp as [|c inp]; [discriminate|]. rewrite Hs. reflexivity.
Qed.

Lemma scan_conv_int z rest :
  int_min <= z <= int_max -> digit_free_head rest = true ->
  scan_conv CInt (fmt_int z ++ rest) = Some (VInt z, rest).
Proof. intros. simpl. rewrite scan_int_fmt by assumption. reflexivity. Qed.

Lemma scan_conv_fixed0 x c rest :
  scaled_round 0 x < 10 ^ 20 -> is_digit c = false -> c <> "."%char ->
  scan_conv CFlt (fmt_fixed 0 x ++ c :: rest) = Some (VFlt (Dec (dec_sign x * scaled_round 0 x) 0), c :: rest).
Proof. intros. cbn [scan_conv]. rewrite scan_float_fixed0 by assumption. reflexivity. Qed.

Lemma run_scan_lit c ds inp n : run_scan (DLit c :: ds) (c :: inp) n = run_scan ds inp n.
Proof. simpl. destruct (ascii_dec c c); [reflexivity | congruence]. Qed.

Lemma run_scan_space1 c ds inp n :
  is_space c = false -> run_scan (DSpace :: ds) (" "%char :: c :: inp) n = run_scan ds (c :: inp) n.
Proof. intros H. simpl. rewrite H. reflexivity. Qed.

(** Consume the literal characters and single blanks of a format. *)
Ltac scan_literals :=
  repeat first [ rewrite run_scan_lit | rewrite run_scan_space1 by reflexivity ].


Lemma scan_conv_uint n rest :
  is_u32 n -> digit_free_head rest = true -> scan_conv CUns (fmt_uint n ++ rest) = Some (VInt n, rest).
Proof. intros. cbn [scan_conv]. rewrite scan_uint_fmt by assumption. reflexivity. Qed.

Lemma take_nonspace_all w d :
  Forall (fun c => is_space c = false) d -> (length d <= w)%nat -> take_nonspace w d = (d, []).
Proof.
  revert w. induction d as [|c d IH]; intros w Hd Hw; [destruct w; reflexivity|].
  inversion Hd; subst. destruct w as [|w]; [simpl in Hw; lia|]. simpl.
  rewrite H1, IH by (assumption || simpl in Hw; lia). reflexivity.
Qed.

(** [%ws] reads a whole blank-free word of at most [w] characters. *)
Lemma scan_conv_str w d :
  d <> [] -> Forall (fun c => is_space c = false) d -> (length d <= w)%nat ->
  scan_conv (CStr (Some w)) d = Some (VStr d, []).
Proof.
  intros Hne Hd Hw. cbn [scan_conv]. unfold scan_str. simpl default.
  rewrite take_nonspace_all by assumption. destruct d; [congruence | reflexivity].
Qed.

Lemma scan_conv_fixed k x rest :
  (0 < k)%nat -> scaled_round k x < 10 ^ 20 -> digit_free_head rest = true ->
  scan_conv CFlt (fmt_fixed k x ++ rest) = Some (VFlt (Dec (dec_sign x * scaled_round k x) k), rest).
Proof. intros. cbn [scan_conv]. rewrite scan_float_fixed by assumption. reflexivity. Qed.
