(* ===== verification/AppLogic.v ===== *)
(** * ButtonClassifier and the pure helpers of [app_logic.cpp]

    Source: [src/src/app_logic.cpp] ([classifyPress], [cycleIndex],
    [formatTxMessage]) and [src/src/app_logic.h] ([ButtonAction]). The
    firmware's [updateButton] in [main.cpp] repeats the thresholds of
    [classifyPress] inline; [Node.v] proves the two agree. [int] arithmetic
    is kept at 32 bits: [currentIndex + 1] at [INT_MAX] is a signed
    overflow, undefined behaviour, modelled as [None]. *)

From stdpp Require Import base list strings.
From Stdlib Require Import ZArith Ascii String Lia.
From S2P Require Import Prelude CFormat.

Open Scope Z_scope.
Open Scope lora_scope.

Inductive ButtonAction := Ignore | ToggleMode | CycleSF | CycleBW.

#[export] Instance ButtonAction_eq_dec : EqDecision ButtonAction.
Proof. solve_decision. Defined.

(** [classifyPress(uint32_t pressDurationMs)]. *)
Definition classifyPress (pressDurationMs : Z) : ButtonAction :=
  if pressDurationMs <? 100 then Ignore
  else if pressDurationMs <? 1000 then ToggleMode
  else if pressDurationMs <? 3000 then CycleSF
  else CycleBW.

(** The order of the actions along the duration axis. *)
Definition action_rank (a : ButtonAction) : nat :=
  match a with Ignore => 0 | ToggleMode => 1 | CycleSF => 2 | CycleBW => 3 end.

(** [int cycleIndex(int currentIndex, int size)]; [None] when
    [currentIndex + 1] overflows [int]. *)
Definition cycleIndex (currentIndex size : Z) : option Z :=
  if size <=? 0 then Some 0
  else if int_max <? currentIndex + 1 then None
  else let next := currentIndex + 1 in
       if size <=? next then Some 0 else Some next.

(** [formatTxMessage(uint32_t)]: [snprintf] into [char buffer[48]]. *)
Definition formatTxMessage (sequenceNumber : Z) : text :=
  snprintf_buf 48 (lit "PING seq=" ++ fmt_uint sequenceNumber).

(** ** Properties *)

(** [classifyPress] splits the durations into the four intervals of the
    spec, inclusive below and exclusive above. *)
Theorem classifyPress_intervals d :
  (classifyPress d = Ignore <-> d < 100) /\
  (classifyPress d = ToggleMode <-> 100 <= d < 1000) /\
  (classifyPress d = CycleSF <-> 1000 <= d < 3000) /\
  (classifyPress d = CycleBW <-> 3000 <= d).
Proof. unfold classifyPress. case_cmp; repeat split; intros; try discriminate; try lia; reflexivity. Qed.

(** A longer press never selects an earlier action. *)
Lemma classifyPress_monotone d1 d2 : d1 <= d2 -> (action_rank (classifyPress d1) <= action_rank (classifyPress d2))%nat.
Proof. unfold classifyPress. intros H. case_cmp; simpl; lia. Qed.

(** For an index in range, [cycleIndex] stays in range and is the
    successor modulo the size. *)
Theorem cycleIndex_in_range i size :
  0 <= i < size -> size <= int_max ->
  exists j, cycleIndex i size = Some j /\ 0 <= j < size /\ j = (i + 1) mod size.
Proof.
  intros Hi Hs. unfold cycleIndex, int_max in *. case_cmp; try lia; eexists; (split; [reflexivity|]).
  - split; [lia|]. symmetry. replace (i + 1) with size by lia. apply Z.mod_same. lia.
  - split; [lia|]. symmetry. apply Z.mod_small. lia.
Qed.

(** Below [-1] the result leaves the range: [cycleIndex(-5, 3) = -4]. *)
Lemma cycleIndex_negative_escapes : cycleIndex (-5) 3 = Some (-4).
Proof. reflexivity. Qed.

Lemma fmt_uint_length_u32 n : is_u32 n -> (length (fmt_uint n) <= 10)%nat.
Proof.
  intros Hn. unfold fmt_uint. rewrite length_map, length_rev. apply (digits_lsd_length _ _ 9).
  change (10 ^ Z.of_nat 10) with 10000000000. u32_lia.
Qed.

(** The ping frame of every 32-bit sequence number is "PING seq="
    followed by its decimal digits, untruncated, and reading the digits back
    gives the number: the wrap of [seq] at 2^32 is visible on the air. *)
Theorem formatTxMessage_roundtrip n :
  is_u32 n ->
  exists ds, formatTxMessage n = lit "PING seq=" ++ ds /\ span_digits ds = (ds, []) /\ digits_value ds = n.
Proof.
  intros Hn. exists (fmt_uint n). unfold formatTxMessage, snprintf_buf.
  rewrite take_ge by (rewrite length_app; pose proof (fmt_uint_length_u32 n Hn); simpl; lia).
  split; [reflexivity|]. split.
  - rewrite <- (app_nil_r (fmt_uint n)) at 1. apply span_digits_app; [apply fmt_uint_digits; u32_lia | reflexivity].
  - apply fmt_uint_value. unfold is_u32, u32_modulus in Hn. lia.
Qed.

(** The host unit tests of [test_app_logic.cpp]. *)
Example classifyPress_tests :
  map classifyPress [0; 50; 99; 100; 150; 999; 1000; 1500; 2999; 3000; 10000; 4294967295] =
  [Ignore; Ignore; Ignore; ToggleMode; ToggleMode; ToggleMode; CycleSF; CycleSF; CycleSF; CycleBW; CycleBW; CycleBW].
Proof. reflexivity. Qed.

Example cycleIndex_tests :
  map (fun '(i, s) => cycleIndex i s) [(0, 3); (1, 3); (2, 3); (5, 0); (-1, 3); (0, 1); (10, 1); (999, 10)] =
  map Some [1; 2; 0; 0; 0; 0; 0; 0].
Proof. reflexivity. Qed.

Example formatTxMessage_tests :
  map formatTxMessage [0; 42; 1; 4294967295; 1000000] =
  map lit ["PING seq=0"; "PING seq=42"; "PING seq=1"; "PING seq=4294967295"; "PING seq=1000000"]%string.
Proof. vm_compute. reflexivity. Qed.

Example cycleIndex_in_range_witness :
  (0 <= 2 < 3 /\ 3 <= int_max) /\ exists j, cycleIndex 2 3 = Some j /\ 0 <= j < 3 /\ j = (2 + 1) mod 3.
Proof. split; [unfold int_max; lia|]. apply cycleIndex_in_range; unfold int_max; lia. Defined.

Example formatTxMessage_roundtrip_witness :
  is_u32 4294967295 /\
  exists ds, formatTxMessage 4294967295 = lit "PING seq=" ++ ds /\ span_digits ds = (ds, []) /\ digits_value ds = 4294967295.
Proof. split; [u32_lia|]. apply formatTxMessage_roundtrip. u32_lia. Defined.
