(* ===== verification/WifiManager.v ===== *)
(** * WifiManager: multi-network WiFi selection

    Source: [src/src/wifi_manager.cpp] and [src/src/wifi_config.h]. The
    manager keeps [currentNetworkMode] (an [enum class] restored from the
    integer stored under "networkMode", so any [int] can reach it),
    [currentConnectedNetworkIndex] and the [Preferences] namespace
    "WiFiConfig". The ESP32 WiFi stack is the interface [WifiLink]: whether
    [WiFi.begin] on a configured network reaches [WL_CONNECTED] before
    [WIFI_CONNECT_TIMEOUT_MS]. The record [wifi] also logs the networks
    [WiFi.begin] was called on, in order, so that the number and the order
    of connection attempts can be stated. *)

From stdpp Require Import base list strings gmap.
From Stdlib Require Import ZArith Ascii String Lia.
From S2P Require Import Prelude CFormat.

Open Scope Z_scope.
Open Scope lora_scope.

(** [struct WiFiNetwork]. *)
Record WiFiNetwork := mkNetwork {
  ssid : string;
  password : string;
  location : string;
  priority : Z
}.

(** [WIFI_NETWORKS[]] as shipped. *)
Definition WIFI_NETWORKS : list WiFiNetwork :=
  [mkNetwork "Skeyelab" "diamond2" "Home" 1; mkNetwork "ND-guest" "" "Work" 2].

(** [wifiNetworks[]] of [wifi_networks_example.h], the template the user
    is told to copy to [wifi_networks.h]. *)
Definition wifiNetworks : list WiFiNetwork :=
  [mkNetwork "YourHomeSSID" "YourHomePassword" "Home" 1; mkNetwork "YourWorkSSID" "YourWorkPassword" "Work" 2].

(** [enum class NetworkSelectionMode], by its underlying [int]. *)
Definition AUTO : Z := 0.
Definition MANUAL_HOME : Z := 1.
Definition MANUAL_WORK : Z := 2.
Definition MANUAL_CUSTOM : Z := 3.

Record wifi := mkWifi {
  currentNetworkMode : Z;
  currentConnectedNetworkIndex : Z;
  wifiPrefs : gmap string Z;     (** the "WiFiConfig" namespace *)
  wl_connected : bool;           (** [WiFi.status() == WL_CONNECTED] *)
  joins : list Z                 (** the networks passed to [WiFi.begin] *)
}.

(** The values before [initWiFiPreferences]. *)
Definition wifi_boot (st : gmap string Z) : wifi := mkWifi AUTO (-1) st false [].

(** Which networks the access points in range let the node join. *)
Class WifiLink := { wifi_join : Z -> bool }.

(** A link on which only the first table entry ([Home]) is in range. *)
Definition link_home : WifiLink := {| wifi_join i := i =? 0 |}.

Section Manager.
Context `{WifiLink}.
(** The configured table; [WIFI_NETWORKS] in the firmware. *)
Variable networks : list WiFiNetwork.

Definition NUM_WIFI_NETWORKS : Z := Z.of_nat (length networks).

Definition valid_index (i : Z) : bool := (0 <=? i) && (i <? NUM_WIFI_NETWORKS).

Definition set_mode (m : Z) (w : wifi) : wifi :=
  mkWifi m (currentConnectedNetworkIndex w) (wifiPrefs w) (wl_connected w) (joins w).
Definition set_link (up : bool) (w : wifi) : wifi :=
  mkWifi (currentNetworkMode w) (currentConnectedNetworkIndex w) (wifiPrefs w) up (joins w).

(** [initWiFiPreferences()]. *)
Definition initWiFiPreferences (w : wifi) : wifi :=
  mkWifi (default AUTO (wifiPrefs w !! "networkMode"))
         (default (-1) (wifiPrefs w !! "lastNetwork"))
         (wifiPrefs w) (wl_connected w) (joins w).

(** [saveNetworkMode()]. *)
Definition saveNetworkMode (w : wifi) : wifi :=
  mkWifi (currentNetworkMode w) (currentConnectedNetworkIndex w)
         (<["lastNetwork" := currentConnectedNetworkIndex w]>
            (<["networkMode" := currentNetworkMode w]> (wifiPrefs w)))
         (wl_connected w) (joins w).

Definition network_at (i : Z) : option WiFiNetwork := networks !! Z.to_nat i.

(** [getCurrentNetworkLocation()]. *)
Definition getCurrentNetworkLocation (w : wifi) : string :=
  if valid_index (currentConnectedNetworkIndex w) then
    default "Unknown" (location <$> network_at (currentConnectedNetworkIndex w))
  else "Unknown".

(** [getWiFiStatusString()]: the location copied into [static char statusStr[32]]. *)
Definition getWiFiStatusString (w : wifi) : text :=
  if valid_index (currentConnectedNetworkIndex w) then
    take 31 (lit (getCurrentNetworkLocation w))
  else lit "Disconnected".

(** [getCurrentNetworkIndex()]. *)
Definition getCurrentNetworkIndex (w : wifi) : Z := currentConnectedNetworkIndex w.

(** [printConfiguredNetworks()]: the lines written to [Serial], without
    their line ends. *)
Definition printConfiguredNetworks : list text :=
  lit "WiFi Manager: Configured networks:" ::
  imap (fun i n => lit "  [" ++ fmt_int (Z.of_nat i) ++ lit "] " ++ lit (ssid n) ++ lit " (" ++
                   lit (location n) ++ lit ") - Priority " ++ fmt_int (priority n)) networks.

(** [connectToSpecificNetwork(int networkIndex)]. *)
Definition connectToSpecificNetwork (i : Z) (w : wifi) : bool * wifi :=
  if negb (valid_index i) then (false, w) else
  let w1 := mkWifi (currentNetworkMode w) (currentConnectedNetworkIndex w) (wifiPrefs w)
                   (wifi_join i) (joins w ++ [i]) in
  if wifi_join i then
    (true, saveNetworkMode (mkWifi (currentNetworkMode w1) i (wifiPrefs w1) true (joins w1)))
  else (false, w1).

(** The inner loop [for (i ...) if (WIFI_NETWORKS[i].priority == p) ...]: the
    first network of priority [p]. *)
Definition find_priority (p : Z) : option Z :=
  (fun '(i, _) => Z.of_nat i) <$> list_find (fun n => priority n = p) networks.

(** The outer loop over [attempt]: try the network of priority
    [attempt + 1], stop at the first success. *)
Fixpoint try_priorities (attempts : list Z) (w : wifi) : bool * wifi :=
  match attempts with
  | [] => (false, w)
  | a :: rest =>
    match find_priority (a + 1) with
    | Some i =>
      let '(ok, w1) := connectToSpecificNetwork i w in
      if ok then (true, w1) else try_priorities rest w1
    | None => try_priorities rest w
    end
  end.

Definition attempts : list Z := map Z.of_nat (seq 0 (length networks)).

(** [connectWithAutoFallback()]. *)
Definition connectWithAutoFallback (w : wifi) : bool * wifi :=
  if valid_index (currentConnectedNetworkIndex w) then
    let '(ok, w1) := connectToSpecificNetwork (currentConnectedNetworkIndex w) w in
    if ok then (true, w1) else try_priorities attempts w1
  else try_priorities attempts w.

(** The first network of a location ([strcmp(location, loc) == 0]). *)
Definition find_location (loc : string) : option Z :=
  (fun '(i, _) => Z.of_nat i) <$> list_find (fun n => location n = loc) networks.

(** [connectToHomeNetwork()] and [connectToWorkNetwork()]. *)
Definition connectToLocation (loc : string) (w : wifi) : bool * wifi :=
  match find_location loc with
  | Some i => connectToSpecificNetwork i w
  | None => (false, w)
  end.
Definition connectToHomeNetwork := connectToLocation "Home".
Definition connectToWorkNetwork := connectToLocation "Work".

(** [connectToWiFi()]: [WiFi.disconnect()], then the mode's strategy; an
    out-of-range mode takes the [default] branch. *)
Definition connectToWiFi (w : wifi) : bool * wifi :=
  let w0 := set_link false w in
  let m := currentNetworkMode w0 in
  if m =? AUTO then connectWithAutoFallback w0
  else if m =? MANUAL_HOME then connectToHomeNetwork w0
  else if m =? MANUAL_WORK then connectToWorkNetwork w0
  else if m =? MANUAL_CUSTOM then
    (if valid_index (currentConnectedNetworkIndex w0)
     then connectToSpecificNetwork (currentConnectedNetworkIndex w0) w0
     else connectToSpecificNetwork 0 w0)
  else connectWithAutoFallback w0.

(** [setNetworkMode(mode)]. *)
Definition setNetworkMode (m : Z) (w : wifi) : wifi :=
  if currentNetworkMode w =? m then w else
  let w1 := saveNetworkMode (set_mode m w) in
  if wl_connected w1 then snd (connectToWiFi (set_link false w1)) else w1.

(** [checkWiFiConnection()]. *)
Definition checkWiFiConnection (w : wifi) : bool * wifi :=
  if negb (wl_connected w) then connectToWiFi w else (true, w).

(** The networks [connectWithAutoFallback] tries, in order, when none joins. *)
Definition fallback_order (w : wifi) : list Z :=
  (if valid_index (currentConnectedNetworkIndex w) then [currentConnectedNetworkIndex w] else []) ++
  omap (fun a => find_priority (a + 1)) attempts.

(** Trying a list of networks until one joins. *)
Fixpoint try_each (cs : list Z) (w : wifi) : bool * wifi :=
  match cs with
  | [] => (false, w)
  | i :: cs' =>
    let '(ok, w1) := connectToSpecificNetwork i w in
    if ok then (true, w1) else try_each cs' w1
  end.
End Manager.

(** ** Lemmas *)

Section Proofs.
Context `{WifiLink}.
Variable networks : list WiFiNetwork.

Lemma omap_cons {A B} (f : A -> option B) x l :
  omap f (x :: l) = match f x with Some y => y :: omap f l | None => omap f l end.
Proof. reflexivity. Qed.

Lemma try_priorities_each ats w :
  try_priorities networks ats w = try_each networks (omap (fun a => find_priority networks (a + 1)) ats) w.
Proof.
  revert w. induction ats as [|a ats IH]; intros w; [reflexivity|].
  cbn [try_priorities]. rewrite omap_cons. destruct (find_priority networks (a + 1)); [|apply IH].
  cbn [try_each]. destruct (connectToSpecificNetwork networks z w) as [[] w1]; [reflexivity | apply IH].
Qed.

Lemma connectToSpecificNetwork_ok i w :
  fst (connectToSpecificNetwork networks i w) = valid_index networks i && wifi_join i.
Proof. unfold connectToSpecificNetwork. destruct (valid_index networks i), (wifi_join i); reflexivity. Qed.

Lemma try_each_app cs1 cs2 w :
  try_each networks (cs1 ++ cs2) w =
  let '(ok, w1) := try_each networks cs1 w in if ok then (true, w1) else try_each networks cs2 w1.
Proof.
  revert w. induction cs1 as [|i cs1 IH]; intros w; [reflexivity|].
  cbn [app try_each]. destruct (connectToSpecificNetwork networks i w) as [[] w1]; [reflexivity | apply IH].
Qed.

(** Trying a list succeeds exactly when some valid network of it joins. *)
Lemma try_each_ok cs w :
  fst (try_each networks cs w) = existsb (fun i => valid_index networks i && wifi_join i) cs.
Proof.
  revert w. induction cs as [|i cs IH]; intros w; [reflexivity|].
  cbn [try_each existsb]. rewrite <- (connectToSpecificNetwork_ok i w).
  destruct (connectToSpecificNetwork networks i w) as [[] w1]; [reflexivity | apply IH].
Qed.

(** [connectWithAutoFallback] tries the last network, then the networks by
    priority. *)
Lemma connectWithAutoFallback_each w :
  connectWithAutoFallback networks w = try_each networks (fallback_order networks w) w.
Proof.
  unfold connectWithAutoFallback, fallback_order.
  destruct (valid_index networks _); [|apply try_priorities_each].
  cbn [app try_each]. destruct (connectToSpecificNetwork networks (currentConnectedNetworkIndex w) w) as [[] w1];
    [reflexivity | apply try_priorities_each].
Qed.

Lemma connectWithAutoFallback_ok w :
  fst (connectWithAutoFallback networks w) =
  existsb (fun i => valid_index networks i && wifi_join i) (fallback_order networks w).
Proof. rewrite connectWithAutoFallback_each. apply try_each_ok. Qed.

(** A network [try_each] never reaches is never passed to [WiFi.begin]. *)
Lemma try_each_joins cs w :
  exists tried, joins (snd (try_each networks cs w)) = joins w ++ tried /\ Forall (fun i => i ∈ cs) tried.
Proof.
  revert w. induction cs as [|i cs IH]; intros w; [exists []; simpl; rewrite app_nil_r; auto|].
  cbn [try_each]. unfold connectToSpecificNetwork at 1.
  destruct (valid_index networks i); cbn [negb].
  - destruct (wifi_join i); cbn.
    + exists [i]. split; [reflexivity|]. constructor; [left|constructor].
    + destruct (IH (mkWifi (currentNetworkMode w) (currentConnectedNetworkIndex w) (wifiPrefs w) false (joins w ++ [i])))
        as (t & Ht & Hf). exists (i :: t). cbn in Ht. rewrite Ht, <- app_assoc. split; [reflexivity|].
      constructor; [left|]. eapply Forall_impl; [exact Hf|]. intros; right; assumption.
  - destruct (IH w) as (t & Ht & Hf). exists t. split; [exact Ht|].
    eapply Forall_impl; [exact Hf|]. intros; right; assumption.
Qed.
End Proofs.

(** ** Properties *)

Section Properties.
Context `{WifiLink}.

(** A two-network table with priorities 1 and 2, in this order. *)
Definition two_by_priority (networks : list WiFiNetwork) : Prop := map priority networks = [1; 2].

Lemma fallback_order_two networks w :
  two_by_priority networks ->
  fallback_order networks w =
  (if valid_index networks (currentConnectedNetworkIndex w) then [currentConnectedNetworkIndex w] else []) ++ [0; 1].
Proof.
  unfold two_by_priority. destruct networks as [|n1 [|n2 [|n3 ns]]]; try discriminate.
  intros [= H1 H2]. unfold fallback_order, find_priority, attempts. cbn.
  rewrite !H1, !H2. reflexivity.
Qed.

(** In AUTO mode a table of two networks by priority, such as the shipped
    table or the example's, is searched completely: the fallback connects
    exactly when one of the two networks joins, whatever network index was
    remembered. *)
Theorem connectWithAutoFallback_two networks w :
  two_by_priority networks ->
  fst (connectWithAutoFallback networks w) = true <-> wifi_join 0 = true \/ wifi_join 1 = true.
Proof.
  intros Ht. rewrite connectWithAutoFallback_ok, fallback_order_two by exact Ht.
  assert (Hl : NUM_WIFI_NETWORKS networks = 2)
    by (unfold NUM_WIFI_NETWORKS; rewrite <- (length_map priority), Ht; reflexivity).
  assert (H0v : valid_index networks 0 = true) by (unfold valid_index; rewrite Hl; reflexivity).
  assert (H1v : valid_index networks 1 = true) by (unfold valid_index; rewrite Hl; reflexivity).
  destruct (valid_index networks (currentConnectedNetworkIndex w)) eqn:Hv.
  - pose proof Hv as Hv'. unfold valid_index in Hv. rewrite Hl in Hv. apply andb_prop in Hv as [Ha Hb].
    apply Z.leb_le in Ha. apply Z.ltb_lt in Hb.
    destruct (decide (currentConnectedNetworkIndex w = 0)) as [E|Hne];
      [|replace (currentConnectedNetworkIndex w) with 1 in * by lia]; rewrite ?E in *;
      simpl; rewrite ?Hv', ?H0v, ?H1v; destruct (wifi_join 0), (wifi_join 1); intuition congruence.
  - simpl. rewrite H0v, H1v. destruct (wifi_join 0), (wifi_join 1); intuition congruence.
Qed.

Lemma shipped_and_example_by_priority : two_by_priority WIFI_NETWORKS /\ two_by_priority wifiNetworks.
Proof. split; reflexivity. Qed.

(** The networks [fallback_order] lists: the remembered one, if its index is
    valid, and for each priority [1 .. NUM_WIFI_NETWORKS] the first network
    of that priority. *)
Lemma elem_of_fallback_order networks w j :
  j ∈ fallback_order networks w ->
  (valid_index networks (currentConnectedNetworkIndex w) = true /\ j = currentConnectedNetworkIndex w) \/
  exists p, 1 <= p <= NUM_WIFI_NETWORKS networks /\ find_priority networks p = Some j.
Proof.
  unfold fallback_order. rewrite elem_of_app. intros [Hj|Hj].
  - left. destruct (valid_index networks _) eqn:Hv; [|set_solver]. split; [reflexivity|set_solver].
  - right. apply list_elem_of_omap in Hj as (a & Ha & Hf). unfold attempts in Ha.
    apply list_elem_of_fmap in Ha as (k & -> & Hk). apply elem_of_seq in Hk.
    exists (Z.of_nat k + 1). split; [unfold NUM_WIFI_NETWORKS; lia|exact Hf].
Qed.

(** C36: In AUTO mode the only networks passed to [WiFi.begin] are the
    remembered one (when its index is valid) and, for each priority from 1 to
    the number of networks, the first network of that priority: a network
    whose priority is above the table size (a table whose priorities skip a
    value) or repeats an earlier one is never tried, whatever the table. *)
Theorem auto_fallback_tried_networks networks w :
  exists tried, joins (snd (connectWithAutoFallback networks w)) = joins w ++ tried /\
  Forall (fun j =>
    (valid_index networks (currentConnectedNetworkIndex w) = true /\ j = currentConnectedNetworkIndex w) \/
    exists p, 1 <= p <= NUM_WIFI_NETWORKS networks /\ find_priority networks p = Some j) tried.
Proof.
  rewrite connectWithAutoFallback_each.
  destruct (try_each_joins networks (fallback_order networks w) w) as (t & Ht & Hf).
  exists t. split; [exact Ht|]. eapply Forall_impl; [exact Hf|]. apply elem_of_fallback_order.
Qed.
End Properties.
