(* ===== verification/RadioParams.v ===== *)
(** * RadioParameterStore: radio parameters, their tables, persistence and
      the radio driver interface

    Source: [src/src/main.cpp]. The firmware keeps the live parameters in the
    globals [currentFreq .. currentTxPower] (here [params]), the positions of
    the cycled values in [currentSfIndex], [currentBwIndex], [currentTxIndex]
    (here [indices]) and persists them with the ESP32 [Preferences] library
    under the namespace "LtngDet" (here a [gmap string pref_val]).
    The SX1262 driver (RadioLib) is not part of the repository: the
    firmware only sees the status of each call, so the driver is the
    interface [RadioDriver], whose methods say which settings it accepts. *)

From stdpp Require Import base list strings gmap.
From Stdlib Require Import ZArith Ascii String Lia.
From S2P Require Import Prelude CFormat.

Open Scope Z_scope.
Open Scope lora_scope.

Record params := mkParams {
  p_freq : dec;   (** currentFreq, MHz *)
  p_bw : dec;     (** currentBW, kHz *)
  p_sf : Z;       (** currentSF *)
  p_cr : Z;       (** currentCR *)
  p_tx : Z        (** currentTxPower, dBm *)
}.

(** Compile-time defaults ([LORA_FREQ_MHZ] .. [LORA_TX_DBM]). *)
Definition default_params : params :=
  mkParams (Dec 9150 1) (Dec 1250 1) 9 5 17.

(** The control channel of the boot-time rendezvous ([CTRL_*]); its TX
    power is the node's current one. *)
Definition ctrl_params (tx : Z) : params :=
  mkParams (Dec 9150 1) (Dec 1250 1) 9 5 tx.

(** ** The cycled tables *)

Definition sfValues : list Z := [7; 8; 9; 10; 11; 12].
Definition bwValues : list dec := [Dec 625 1; Dec 1250 1; Dec 2500 1; Dec 5000 1].
Definition txPowerValues : list Z := [2; 3; 5; 8; 10; 12; 15; 17; 20; 22].

Record indices := Indices { i_sf : nat; i_bw : nat; i_tx : nat }.

Definition default_indices : indices := Indices 2 1 7.

(** [tbl[i]] for an index the code keeps in range. *)
Definition table_at {A} (tbl : list A) (dflt : A) (i : nat) : A := nth i tbl dflt.

(** [(currentIndex + 1) % (sizeof(tbl) / sizeof(tbl[0]))]. *)
Definition next_index (i n : nat) : nat := (i + 1) mod n.

(** The loop [for (i ...) if (tbl[i] == v) { idx = i; break; }]: the first
    matching position, or the old index when the value is not in the table. *)
Definition find_index {A} (eqb : A -> A -> bool) (tbl : list A) (v : A) (old : nat) : nat :=
  match list_find (fun y => eqb y v = true) tbl with
  | Some (i, _) => i
  | None => old
  end.

(** [computeIndicesFromCurrent()] (also inlined twice in [loop()]). *)
Definition computeIndicesFromCurrent (p : params) (ix : indices) : indices :=
  Indices (find_index Z.eqb sfValues (p_sf p) (i_sf ix))
          (find_index dec_eqb bwValues (p_bw p) (i_bw ix))
          (find_index Z.eqb txPowerValues (p_tx p) (i_tx ix)).

(** The store invariant: each index points at the table entry equal to the
    current value. *)
Definition indices_ok (p : params) (ix : indices) : Prop :=
  sfValues !! i_sf ix = Some (p_sf p) /\
  (exists b, bwValues !! i_bw ix = Some b /\ dec_eqb b (p_bw p) = true) /\
  txPowerValues !! i_tx ix = Some (p_tx p).

(** Every cycled value lies in its table. *)
Definition in_tables (p : params) : Prop :=
  p_sf p ∈ sfValues /\ (exists b, b ∈ bwValues /\ dec_eqb b (p_bw p) = true) /\ p_tx p ∈ txPowerValues.

(** ** Persistence: the [Preferences] namespace "LtngDet" *)

Inductive pref_val := PFloat (x : dec) | PInt (z : Z) | PBool (b : bool).

Abbreviation prefs := (gmap string pref_val).

(** [prefs.getFloat(key, dflt)]: the stored value if the key holds a float. *)
Definition get_float (st : prefs) (k : string) (dflt : dec) : dec :=
  match st !! k with Some (PFloat x) => x | _ => dflt end.
Definition get_int (st : prefs) (k : string) (dflt : Z) : Z :=
  match st !! k with Some (PInt z) => z | _ => dflt end.
Definition get_bool (st : prefs) (k : string) (dflt : bool) : bool :=
  match st !! k with Some (PBool b) => b | _ => dflt end.

(** [prefs.isKey(key)]. *)
Definition is_key (st : prefs) (k : string) : bool := bool_decide (is_Some (st !! k)).

Definition savePersistedSettings (p : params) (st : prefs) : prefs :=
  <["tx" := PInt (p_tx p)]> (<["cr" := PInt (p_cr p)]> (<["sf" := PInt (p_sf p)]>
    (<["bw" := PFloat (p_bw p)]> (<["freq" := PFloat (p_freq p)]> st)))).

Definition savePersistedRole (isSender : bool) (st : prefs) : prefs :=
  <["sender" := PBool isSender]> st.

(** [loadPersistedSettingsAndRole()]: each present key overrides the value
    the node already holds. *)
Definition loadPersistedSettingsAndRole (st : prefs) (p : params) (isSender : bool) : params * bool :=
  (mkParams (if is_key st "freq" then get_float st "freq" (p_freq p) else p_freq p)
          (if is_key st "bw" then get_float st "bw" (p_bw p) else p_bw p)
          (if is_key st "sf" then get_int st "sf" (p_sf p) else p_sf p)
          (if is_key st "cr" then get_int st "cr" (p_cr p) else p_cr p)
          (if is_key st "tx" then get_int st "tx" (p_tx p) else p_tx p),
   if is_key st "sender" then get_bool st "sender" isSender else isSender).

(** ** The radio driver *)

(** The RadioLib status codes the firmware tests or shows. *)
Definition RADIOLIB_ERR_NONE : Z := 0.
Definition RADIOLIB_ERR_RX_TIMEOUT : Z := -6.

(** The SX1262 driver as the firmware sees it: the status each call returns
    ([RADIOLIB_ERR_NONE] or an error code). A call that fails leaves the
    setting as it was. [drv_begin] is
    [radio.begin(freq, bw, sf, cr, 0x34, power)]. *)
Class RadioDriver := {
  drv_begin : params -> Z;
  drv_freq : dec -> Z;
  drv_bw : dec -> Z;
  drv_sf : Z -> Z;
  drv_cr : Z -> Z;
  drv_power : Z -> Z
}.

(** The radio's live configuration; [None] after a failed [begin], whose
    effect on the chip is unknown. *)
Abbreviation radio := (option params).

Section Driver.
Context `{RadioDriver}.

(** [radio.begin(...)] followed on success by [setDio2AsRfSwitch] and
    [setCRC]: the status and the radio afterwards. *)
Definition radio_begin (p : params) (r : radio) : Z * radio :=
  let st := drv_begin p in
  if st =? RADIOLIB_ERR_NONE then (st, Some p) else (st, None).

Definition set_freq (x : dec) (q : params) : params := mkParams x (p_bw q) (p_sf q) (p_cr q) (p_tx q).
Definition set_bw (x : dec) (q : params) : params := mkParams (p_freq q) x (p_sf q) (p_cr q) (p_tx q).
Definition set_sf (x : Z) (q : params) : params := mkParams (p_freq q) (p_bw q) x (p_cr q) (p_tx q).
Definition set_cr (x : Z) (q : params) : params := mkParams (p_freq q) (p_bw q) (p_sf q) x (p_tx q).
Definition set_tx (x : Z) (q : params) : params := mkParams (p_freq q) (p_bw q) (p_sf q) (p_cr q) x.

(** One setter of [updateRadioSettings]: run only while the status is
    [RADIOLIB_ERR_NONE]; on success the radio takes the value. *)
Definition radio_set (st : Z) (call : Z) (upd : params -> params) (r : radio) : Z * radio :=
  if st =? RADIOLIB_ERR_NONE then
    if call =? RADIOLIB_ERR_NONE then (call, upd <$> r) else (call, r)
  else (st, r).

(** The setter chain of [updateRadioSettings()]: the status of the first
    failing setter (or [RADIOLIB_ERR_NONE]) and the radio afterwards. *)
Definition radio_setters (p : params) (r : radio) : Z * radio :=
  let '(st, r) := radio_set RADIOLIB_ERR_NONE (drv_freq (p_freq p)) (set_freq (p_freq p)) r in
  let '(st, r) := radio_set st (drv_bw (p_bw p)) (set_bw (p_bw p)) r in
  let '(st, r) := radio_set st (drv_sf (p_sf p)) (set_sf (p_sf p)) r in
  let '(st, r) := radio_set st (drv_cr (p_cr p)) (set_cr (p_cr p)) r in
  radio_set st (drv_power (p_tx p)) (set_tx (p_tx p)) r.
End Driver.

(** The SX1262 as RadioLib drives it: 150-960 MHz, the LoRa bandwidths of the
    chip, SF 5-12, CR 4/5-4/8, -9..22 dBm, with RadioLib's error codes. Used
    for concrete scenarios. *)
Definition sx1262_bws : list dec :=
  [Dec 78 1; Dec 104 1; Dec 156 1; Dec 208 1; Dec 3125 2; Dec 417 1; Dec 625 1; Dec 125 0; Dec 250 0; Dec 500 0].

Definition sx_check (ok : bool) (code : Z) : Z := if ok then RADIOLIB_ERR_NONE else code.

Definition sx_freq (f : dec) : Z :=
  sx_check (bool_decide (150 * 10 ^ Z.of_nat (dexp f) <= dmant f <= 960 * 10 ^ Z.of_nat (dexp f))) (-12).
Definition sx_bw (b : dec) : Z := sx_check (existsb (fun c => dec_eqb c b) sx1262_bws) (-8).
Definition sx_sf (sf : Z) : Z := sx_check (bool_decide (5 <= sf <= 12)) (-7).
Definition sx_cr (cr : Z) : Z := sx_check (bool_decide (5 <= cr <= 8)) (-9).
Definition sx_power (tx : Z) : Z := sx_check (bool_decide (-9 <= tx <= 22)) (-13).

Definition sx_first (sts : list Z) : Z :=
  default RADIOLIB_ERR_NONE (head (filter (fun st => st <> RADIOLIB_ERR_NONE) sts)).

Definition sx1262 : RadioDriver := {|
  drv_begin p := sx_first [sx_bw (p_bw p); sx_sf (p_sf p); sx_cr (p_cr p); sx_freq (p_freq p); sx_power (p_tx p)];
  drv_freq := sx_freq;
  drv_bw := sx_bw;
  drv_sf := sx_sf;
  drv_cr := sx_cr;
  drv_power := sx_power
|}.

(** ** Lemmas *)

Section FindIndex.
Context {A : Type} (eqb : A -> A -> bool).

(** When the value is in the table, the loop stops on an equal entry. *)
Lemma find_index_hit (tbl : list A) v old :
  (exists y, y ∈ tbl /\ eqb y v = true) ->
  exists y, tbl !! find_index eqb tbl v old = Some y /\ eqb y v = true.
Proof.
  intros (y & Hin & Hy). unfold find_index.
  destruct (list_find_elem_of (fun y => eqb y v = true) tbl y Hin Hy) as [[i z] Hf].
  rewrite Hf. apply list_find_Some in Hf as (? & ? & _). eauto.
Qed.

(** When it is not, the index keeps its old value. *)
Lemma find_index_miss (tbl : list A) v old :
  (forall y, y ∈ tbl -> eqb y v = false) -> find_index eqb tbl v old = old.
Proof.
  intros Hno. unfold find_index.
  replace (list_find _ tbl) with (@None (nat * A)); [reflexivity|].
  symmetry. apply list_find_None, Forall_forall. intros y Hy. rewrite Hno by exact Hy. discriminate.
Qed.
End FindIndex.

Lemma Z_eqb_hit (tbl : list Z) v : v ∈ tbl -> exists y, y ∈ tbl /\ Z.eqb y v = true.
Proof. intros H. exists v. split; [exact H | apply Z.eqb_refl]. Qed.

#[export] Hint Resolve find_index_hit Z_eqb_hit : lora.

Lemma is_key_insert (st : prefs) k v : is_key (<[k := v]> st) k = true.
Proof. unfold is_key. rewrite lookup_insert_eq. reflexivity. Qed.

Lemma is_key_empty k : is_key (∅ : prefs) k = false.
Proof. reflexivity. Qed.

(** C35: Saving the parameters and the role, then loading them, gives back
    exactly what was saved, whatever the store held before and whatever
    the node held at boot. *)
Lemma persist_roundtrip (st : prefs) p role p0 role0 :
  loadPersistedSettingsAndRole (savePersistedRole role (savePersistedSettings p st)) p0 role0 = (p, role).
Proof.
  destruct p as [f b sf cr tx].
  unfold loadPersistedSettingsAndRole, savePersistedRole, savePersistedSettings, is_key,
    get_float, get_int, get_bool.
  simplify_map_eq. reflexivity.
Qed.

Section DriverLemmas.
Context `{RadioDriver}.

Lemma radio_set_fail st call upd r : st <> RADIOLIB_ERR_NONE -> radio_set st call upd r = (st, r).
Proof. intros Hst. unfold radio_set. apply Z.eqb_neq in Hst. rewrite Hst. reflexivity. Qed.

Lemma radio_set_ok st call upd r :
  fst (radio_set st call upd r) = RADIOLIB_ERR_NONE ->
  st = RADIOLIB_ERR_NONE /\ call = RADIOLIB_ERR_NONE /\ snd (radio_set st call upd r) = upd <$> r.
Proof. unfold radio_set, RADIOLIB_ERR_NONE. case_cmp; simpl; intros; subst; try lia; auto. Qed.

(** When every setter succeeds, the radio holds exactly the parameters. *)
Lemma radio_setters_ok p r :
  fst (radio_setters p r) = RADIOLIB_ERR_NONE -> snd (radio_setters p r) = (fun _ => p) <$> r.
Proof.
  unfold radio_setters, radio_set, RADIOLIB_ERR_NONE.
  repeat (simpl; match goal with |- context [?x =? 0] => destruct (Z.eqb_spec x 0) end);
    simpl; intros; try lia.
  destruct r; [|reflexivity]. destruct p; reflexivity.
Qed.
End DriverLemmas.
