(* ===== verification/ConfigMsg.v ===== *)
(** * ControlMessage: the [CFG] frame

    Source: [src/src/main.cpp]. Both the control-channel broadcast and the
    pending-broadcast loop build the frame with
    [snprintf(msg, 64, "CFG F=%.1f BW=%.0f SF=%d CR=%d TX=%d", ...)]; the
    receiver checks [rx.startsWith("CFG ")] and applies the frame only when
    [sscanf(rx, "CFG F=%f BW=%f SF=%d CR=%d TX=%d", ...)] returns 5. *)

From stdpp Require Import base list strings.
From Stdlib Require Import ZArith Ascii String Lia.
From S2P Require Import Prelude CFormat RadioParams.

Open Scope Z_scope.
Open Scope lora_scope.

(** The characters [snprintf] writes before truncation. *)
Definition cfg_text (p : params) : text :=
  lit "CFG F=" ++ fmt_fixed 1 (p_freq p) ++ lit " BW=" ++ fmt_fixed 0 (p_bw p) ++
  lit " SF=" ++ fmt_int (p_sf p) ++ lit " CR=" ++ fmt_int (p_cr p) ++ lit " TX=" ++ fmt_int (p_tx p).

(** [char msg[64]; snprintf(msg, sizeof(msg), "CFG F=%.1f ...", ...)]. *)
Definition cfg_message (p : params) : text := snprintf_buf 64 (cfg_text p).

Definition cfg_format : text := lit "CFG F=%f BW=%f SF=%d CR=%d TX=%d".

Definition cfg_prefix : text := lit "CFG ".

(** [int parsed = sscanf(rx.c_str(), "CFG F=%f ...", &nf, &nb, &nsf, &ncr, &ntx);
     if (parsed == 5) { ... }]: the parameters the receiver commits, or
    [None] when it drops the frame. The temporaries start from the current
    values, but they are only used when all five are assigned. *)
Definition parse_cfg (rx : text) : option params :=
  match sscanf cfg_format rx with
  | (n, [VFlt f; VFlt b; VInt sf; VInt cr; VInt tx]) =>
    if n =? 5 then Some (mkParams f b sf cr tx) else None
  | _ => None
  end.

(** Equality of parameters as the code compares them ([==] on floats). *)
Definition params_eqv (p q : params) : Prop :=
  dec_eqb (p_freq p) (p_freq q) = true /\ dec_eqb (p_bw p) (p_bw q) = true /\
  p_sf p = p_sf q /\ p_cr p = p_cr q /\ p_tx p = p_tx q.

(** [x] printed with [k] fraction digits loses nothing. *)
Definition exact_at (k : nat) (x : dec) : bool :=
  if (dexp x <=? k)%nat then true
  else Z.abs (dmant x) mod 10 ^ Z.of_nat (dexp x - k) =? 0.

(** The frame of [p] fits the buffer and every integer is an [int]. *)
Definition cfg_sendable (p : params) : bool :=
  (scaled_round 1 (p_freq p) <? 10 ^ 20) && (scaled_round 0 (p_bw p) <? 10 ^ 20) &&
  (int_min <=? p_sf p) && (p_sf p <=? int_max) && (int_min <=? p_cr p) && (p_cr p <=? int_max) &&
  (int_min <=? p_tx p) && (p_tx p <=? int_max) && (List.length (cfg_text p) <? 64)%nat.

(** ** Reading a frame back *)

Lemma cfg_directives :
  compile_fmt cfg_format =
  [DLit "C"; DLit "F"; DLit "G"; DSpace; DLit "F"; DLit "="; DConv CFlt; DSpace;
   DLit "B"; DLit "W"; DLit "="; DConv CFlt; DSpace; DLit "S"; DLit "F"; DLit "=";
   DConv CInt; DSpace; DLit "C"; DLit "R"; DLit "="; DConv CInt; DSpace;
   DLit "T"; DLit "X"; DLit "="; DConv CInt].
Proof. reflexivity. Qed.

Section ReadBack.
Local Opaque fmt_fixed fmt_int.

(** What the receiver reads from a frame it did not truncate: the frequency
    rounded to 0.1 MHz, the bandwidth rounded to 1 kHz, the integers as
    they were. *)
Lemma parse_cfg_text p :
  scaled_round 1 (p_freq p) < 10 ^ 20 -> scaled_round 0 (p_bw p) < 10 ^ 20 ->
  int_min <= p_sf p <= int_max -> int_min <= p_cr p <= int_max -> int_min <= p_tx p <= int_max ->
  parse_cfg (cfg_text p) =
  Some (mkParams (Dec (dec_sign (p_freq p) * scaled_round 1 (p_freq p)) 1)
                 (Dec (dec_sign (p_bw p) * scaled_round 0 (p_bw p)) 0) (p_sf p) (p_cr p) (p_tx p)).
Proof.
  intros Hf Hb Hsf Hcr Htx.
  unfold parse_cfg, sscanf, cfg_text, lit. rewrite cfg_directives. cbn [app list_ascii_of_string].
  scan_literals.
  erewrite run_scan_conv; [| apply hd_not_space_fixed | apply scan_conv_fixed; [lia | exact Hf | reflexivity]].
  scan_literals.
  erewrite run_scan_conv; [| apply hd_not_space_fixed | apply scan_conv_fixed0; [exact Hb | reflexivity | discriminate]].
  scan_literals.
  erewrite run_scan_conv; [| apply hd_not_space_int | apply scan_conv_int; [exact Hsf | reflexivity]].
  scan_literals.
  erewrite run_scan_conv; [| apply hd_not_space_int | apply scan_conv_int; [exact Hcr | reflexivity]].
  scan_literals.
  rewrite <- (app_nil_r (fmt_int (p_tx p))).
  erewrite run_scan_conv; [| apply hd_not_space_int | apply scan_conv_int; [exact Htx | reflexivity]].
  reflexivity.
Qed.
End ReadBack.

Lemma sign_abs m : (if m <? 0 then -1 else 1) * Z.abs m = m.
Proof. case_cmp; lia. Qed.

(** A value printed without loss reads back equal. *)
Lemma exact_at_eqv k x : exact_at k x = true -> dec_eqb (Dec (dec_sign x * scaled_round k x) k) x = true.
Proof.
  destruct x as [m e]. unfold exact_at, scaled_round, dec_eqb, dec_sign. cbn [dmant dexp].
  destruct (Nat.leb_spec e k) as [Hle | Hgt]; intros Hex; apply Z.eqb_eq.
  - rewrite Z.mul_assoc, sign_abs, <- Z.mul_assoc, <- Z.pow_add_r by lia.
    now rewrite <- Nat2Z.inj_add, Nat.sub_add.
  - apply Z.eqb_eq in Hex. set (D := 10 ^ Z.of_nat (e - k)) in *.
    assert (HD : 0 < D) by (apply Z.pow_pos_nonneg; lia).
    assert (Hr : round_half_even (Z.abs m) D = Z.abs m / D).
    { unfold round_half_even. cbv zeta. rewrite Hex. case_cmp; lia. }
    pose proof (Z.div_mod (Z.abs m) D ltac:(lia)) as Hdm.
    rewrite Hr. set (q := Z.abs m / D) in *. rewrite Hex, Z.add_0_r in Hdm.
    replace (10 ^ Z.of_nat e) with (D * 10 ^ Z.of_nat k)
      by (unfold D; rewrite <- Z.pow_add_r, <- Nat2Z.inj_add, Nat.sub_add by lia; reflexivity).
    rewrite <- (sign_abs m) at 2. rewrite Hdm. ring.
Qed.

(** The frame fits the 64-byte buffer: [snprintf] did not cut it. *)
Lemma cfg_message_fits p : (List.length (cfg_text p) < 64)%nat -> cfg_message p = cfg_text p.
Proof. intros H. unfold cfg_message, snprintf_buf. apply take_ge. lia. Qed.

Lemma cfg_sendable_spec p :
  cfg_sendable p = true ->
  parse_cfg (cfg_message p) =
  Some (mkParams (Dec (dec_sign (p_freq p) * scaled_round 1 (p_freq p)) 1)
                 (Dec (dec_sign (p_bw p) * scaled_round 0 (p_bw p)) 0) (p_sf p) (p_cr p) (p_tx p)).
Proof.
  unfold cfg_sendable. intros H. repeat (apply andb_prop in H as [H ?]).
  rewrite cfg_message_fits by (apply Nat.ltb_lt; assumption).
  apply parse_cfg_text; lia.
Qed.

(** C3: formatting a [CFG] frame and parsing it back gives the same
    parameters, when the frequency has at most one decimal and the
    bandwidth is a whole number of kHz (and the frame fits its buffer). *)
Theorem cfg_roundtrip p :
  cfg_sendable p = true -> exact_at 1 (p_freq p) = true -> exact_at 0 (p_bw p) = true ->
  exists q, parse_cfg (cfg_message p) = Some q /\ params_eqv q p.
Proof.
  intros Hs Hf Hb. rewrite cfg_sendable_spec by exact Hs.
  eexists; split; [reflexivity|].
  repeat split; simpl; auto using exact_at_eqv.
Qed.

(** C4: the table bandwidth 62.5 kHz does not survive the frame: [%.0f]
    prints it as "62" (ties to even), and the receiver commits 62 kHz, a
    value that is in no table and that the SX1262 rejects. *)
Theorem cfg_roundtrip_fails_bw_62_5 p :
  p_bw p = Dec 625 1 -> cfg_sendable p = true ->
  exists q, parse_cfg (cfg_message p) = Some q /\ p_bw q = Dec 62 0 /\ dec_eqb (p_bw q) (p_bw p) = false.
Proof.
  intros Hbw Hs. rewrite cfg_sendable_spec by exact Hs.
  eexists; split; [reflexivity|]. rewrite Hbw. split; reflexivity.
Qed.

Example cfg_roundtrip_witness :
  cfg_sendable default_params = true /\ exact_at 1 (p_freq default_params) = true /\
  exact_at 0 (p_bw default_params) = true /\
  exists q, parse_cfg (cfg_message default_params) = Some q /\ params_eqv q default_params.
Proof.
  split; [reflexivity|]. split; [reflexivity|]. split; [reflexivity|].
  apply cfg_roundtrip; reflexivity.
Defined.

Example cfg_roundtrip_fails_bw_62_5_witness :
  exists q, parse_cfg (cfg_message (mkParams (Dec 9150 1) (Dec 625 1) 9 5 17)) = Some q /\
            p_bw q = Dec 62 0 /\ dec_eqb (p_bw q) (Dec 625 1) = false.
Proof. apply (cfg_roundtrip_fails_bw_62_5 (mkParams (Dec 9150 1) (Dec 625 1) 9 5 17)); reflexivity. Defined.
