(* ===== verification/Nmea.v ===== *)
(** * Nmea: the NMEA 0183 text functions of the GPS driver

    Source: [src/src/sensors/gps_sensor.cpp]: [validateChecksum],
    [splitNMEA], [nmeaToDecimal], [knots_to_kmh] and the command builder of
    [setBaudRate] / [setUpdateRate]. A sentence is the text before its NUL
    terminator. The C library functions these call ([strchr], [strtok],
    [strtol] in base 16, [atoi], [atof]) are written out as far as NMEA text
    needs them: [atof] reads a decimal number without exponent, as
    [CFormat.scan_float] does. A [double] is an exact rational. Reading a
    byte the sentence does not hold (undefined behaviour) is [None]. *)

From stdpp Require Import base list.
From Stdlib Require Import ZArith QArith Ascii String Lia.
From S2P Require Import Prelude CFormat AppLogic.

Open Scope Z_scope.
Open Scope lora_scope.

(** [strchr(s, c)] for a character other than NUL: its first index. *)
Fixpoint strchr (c : ascii) (s : text) : option nat :=
  match s with
  | [] => None
  | d :: s' => if ascii_dec c d then Some 0%nat else S <$> strchr c s'
  end.

(** [uint8_t checksum; checksum ^= *p] over the characters of [s]. *)
Definition nmea_xor (s : text) : Z := fold_left (fun acc c => Z.lxor acc (code c)) s 0.

(** The digit values of base 16. *)
Definition hex_val (c : ascii) : option Z :=
  if is_digit c then Some (digit_val c)
  else if (65 <=? code c) && (code c <=? 70) then Some (code c - 55)
  else if (97 <=? code c) && (code c <=? 102) then Some (code c - 87)
  else None.

Definition is_hex (c : ascii) : bool := match hex_val c with Some _ => true | None => false end.

(** The longest prefix of hexadecimal digits and the rest. *)
Fixpoint span_hex (t : text) : text * text :=
  match t with
  | c :: t' => if is_hex c then let '(ds, r) := span_hex t' in (c :: ds, r) else ([], t)
  | [] => ([], [])
  end.

Definition hex_value (ds : text) : Z := fold_left (fun acc c => acc * 16 + default 0 (hex_val c)) ds 0.

(** [strtol(s, nullptr, 16)] on the short strings the driver passes it:
    blanks, a sign, an optional [0x] prefix before a hexadecimal digit, the
    digits. *)
Definition strtol_hex (s : text) : Z :=
  let '(sg, t) := scan_sign (skip_ws s) in
  let t' := match t with
            | z :: x :: c :: r => if bool_decide (z = "0"%char) && bool_decide (x = "x"%char \/ x = "X"%char)
                                     && is_hex c then c :: r else t
            | _ => t
            end in
  sg * hex_value (fst (span_hex t')).

(** [uint8_t] conversion. *)
Definition u8 (z : Z) : Z := z mod 256.

(** [validateChecksum(sentence)]. The two characters after [*] are copied
    into [expected_hex]; when the sentence ends right at [*], the second one
    is read past its terminator: [None]. *)
Definition validateChecksum (s : text) : option bool :=
  match strchr "*" s with
  | None => Some false
  | Some i =>
    if (i =? 0)%nat then Some false else
    let cs := u8 (nmea_xor (take (i - 1) (drop 1 s))) in
    match drop (S i) s with
    | [] => None
    | [a] => Some (cs =? u8 (strtol_hex [a]))
    | a :: b :: _ => Some (cs =? u8 (strtol_hex [a; b]))
    end
  end.

(** [strtok]'s next token on the delimiter [,]: skip delimiters, take up to
    the next one, continue after it. *)
Fixpoint skip_commas (t : text) : text :=
  match t with
  | c :: t' => if ascii_dec c "," then skip_commas t' else t
  | [] => []
  end.

Fixpoint take_token (t : text) : text * text :=
  match t with
  | c :: t' => if ascii_dec c "," then ([], t') else let '(tok, r) := take_token t' in (c :: tok, r)
  | [] => ([], [])
  end.

Definition strtok_next (t : text) : option (text * text) :=
  match skip_commas t with
  | [] => None
  | t1 => Some (take_token t1)
  end.

(** [while (token && field_count < max_fields) { fields[field_count++] =
    token; token = strtok(nullptr, ","); }]; [fuel] bounds the tokens. *)
Fixpoint strtok_loop (fuel max : nat) (t : text) : list text :=
  match fuel, max with
  | S f, S m => match strtok_next t with
                | Some (tok, r) => tok :: strtok_loop f m r
                | None => []
                end
  | _, _ => []
  end.

(** [splitNMEA(sentence, fields, max_fields)]: [strncpy] into the static
    [char buffer[256]] keeps 255 characters; the text from [*] on is cut. *)
Definition splitNMEA (s : text) (max_fields : nat) : list text :=
  let buffer := take 255 s in
  let body := match strchr "*" buffer with Some i => take i buffer | None => buffer end in
  strtok_loop (S (length body)) max_fields body.

(** The specification of the split: the non-empty comma-separated fields. *)
Fixpoint split_on_comma (t : text) : list text :=
  match t with
  | [] => [[]]
  | c :: t' => if ascii_dec c "," then [] :: split_on_comma t'
               else match split_on_comma t' with
                    | f :: fs => (c :: f) :: fs
                    | [] => [[c]]
                    end
  end.

Definition dec_to_Q (d : dec) : Q := (inject_Z (dmant d) / inject_Z (10 ^ Z.of_nat (dexp d)))%Q.

(** [atof] and [atoi]: 0 when no number starts the text. *)
Definition atof (t : text) : Q :=
  match scan_float (skip_ws t) with Some (d, _) => dec_to_Q d | None => 0%Q end.

Definition atoi (t : text) : Z :=
  match scan_int (skip_ws t) with Some (z, _) => z | None => 0 end.

(** [nmeaToDecimal(nmea_coord, direction)]: [ddmm.mmmm] to signed degrees.
    [char deg_str[16]] overflows when the degrees take 16 characters or more:
    [None]. *)
Definition nmeaToDecimal (coord : text) (direction : ascii) : option Q :=
  if (length coord <? 4)%nat then Some 0%Q else
  match strchr "." coord with
  | None => Some 0%Q
  | Some dot =>
    let deg_len := (Z.of_nat dot - 2)%Z in
    if deg_len <=? 0 then Some 0%Q
    else if 16 <=? deg_len then None
    else
      let degrees := atof (take (Z.to_nat deg_len) coord) in
      let minutes := atof (drop (Z.to_nat deg_len) coord) in
      let decimal := (degrees + minutes / 60)%Q in
      Some (if bool_decide (direction = "S"%char \/ direction = "W"%char) then (- decimal)%Q else decimal)
  end.

(** [knots_to_kmh(knots)]. *)
Definition knots_to_kmh (knots : Q) : Q := (knots * (1852 # 1000))%Q.

(** [%02X] of a byte. *)
Definition hex_digit (v : Z) : ascii := if v <? 10 then digit_char v else ascii_of_nat (Z.to_nat (v + 55)).
Definition hex2 (b : Z) : text := [hex_digit (b / 16); hex_digit (b mod 16)].

(** The loop [for (int i = 1; command[i] != '*'; i++) checksum ^= command[i];]. *)
Definition command_checksum (cmd : text) : Z :=
  match strchr "*" (drop 1 cmd) with
  | Some i => u8 (nmea_xor (take i (drop 1 cmd)))
  | None => u8 (nmea_xor (drop 1 cmd))
  end.

(** The command of [setBaudRate] ([name] = [PCAS01,]) and [setUpdateRate]
    ([PCAS02,]): [snprintf(command, 64, "$<name>%u*", arg)], then
    [snprintf(command + strlen(command), 8, "%02X\r\n", checksum)]. *)
Definition pcas_command (name : text) (arg : Z) : text :=
  let c1 := snprintf_buf 64 (lit "$" ++ name ++ fmt_uint arg ++ lit "*") in
  c1 ++ snprintf_buf 8 (hex2 (command_checksum c1) ++ [ascii_of_nat 13; ascii_of_nat 10]).

(** The sentence the host build's [readLine] returns (lines 452-453). *)
Definition mock_gga : text :=
  lit "$GPGGA,123456.00,0000.0000,N,00000.0000,E,1,04,1.0,0.0,M,0.0,M,,*".

(** ** Lemmas *)

Definition has_comma (t : text) : bool := existsb (fun c => bool_decide (c = ","%char)) t.

Lemma split_on_comma_token t :
  split_on_comma t = fst (take_token t) :: (if has_comma t then split_on_comma (snd (take_token t)) else []).
Proof.
  induction t as [|c t IH]; [reflexivity|]. cbn [split_on_comma take_token has_comma existsb].
  destruct (ascii_dec c ","); [subst; reflexivity|].
  rewrite bool_decide_false by exact n. cbn [orb]. fold (has_comma t). rewrite IH.
  destruct (take_token t) as [tok r]. reflexivity.
Qed.

Lemma filter_split_skip t :
  filter (fun f => f <> []) (split_on_comma (skip_commas t)) = filter (fun f => f <> []) (split_on_comma t).
Proof.
  induction t as [|c t IH]; [reflexivity|]. cbn [skip_commas split_on_comma].
  destruct (ascii_dec c ",") as [->|Hc].
  - rewrite IH. simpl. rewrite filter_cons_False; [reflexivity|]. tauto.
  - simpl. destruct (ascii_dec c ","); [contradiction|reflexivity].
Qed.

Lemma filter_split_nil : filter (fun f : text => f <> []) (split_on_comma []) = [].
Proof. reflexivity. Qed.

Lemma skip_commas_head t c r : skip_commas t = c :: r -> c <> ","%char.
Proof.
  induction t as [|d t IH]; [discriminate|]. cbn [skip_commas].
  destruct (ascii_dec d ","); [exact IH|]. intros [= -> ->]. exact n.
Qed.

Lemma skip_commas_length t : (length (skip_commas t) <= length t)%nat.
Proof. induction t as [|c t IH]; [reflexivity|]. simpl. destruct (ascii_dec c ","); simpl; lia. Qed.

Lemma take_token_length c t : (length (snd (take_token (c :: t))) <= length t)%nat.
Proof.
  revert c. induction t as [|d t IH]; intros c; simpl; destruct (ascii_dec c ","); simpl; try lia.
  specialize (IH d). simpl in IH. destruct (ascii_dec d ","); simpl in *; [lia|].
  destruct (take_token t). simpl in *. lia.
Qed.

(** The tokens of a text that starts with a non-comma. *)
Lemma filter_split_token c r :
  c <> ","%char ->
  filter (fun f => f <> []) (split_on_comma (c :: r)) =
  fst (take_token (c :: r)) :: filter (fun f => f <> []) (split_on_comma (snd (take_token (c :: r)))).
Proof.
  intros Hc. rewrite (split_on_comma_token (c :: r)).
  assert (Hne : fst (take_token (c :: r)) <> []).
  { simpl. destruct (ascii_dec c ","); [contradiction|]. destruct (take_token r). discriminate. }
  rewrite filter_cons_True by exact Hne. f_equal.
  destruct (has_comma (c :: r)) eqn:Hh; [reflexivity|].
  assert (Hr : snd (take_token (c :: r)) = []).
  { clear Hne. revert c Hc Hh. induction r as [|d r IH]; intros c Hc Hh; simpl.
    - destruct (ascii_dec c ","); [contradiction|]. reflexivity.
    - destruct (ascii_dec c ","); [contradiction|]. simpl in Hh.
      rewrite bool_decide_false in Hh by exact Hc. simpl in Hh.
      destruct (ascii_dec d ",") as [->|Hd]; [rewrite bool_decide_true in Hh by reflexivity; discriminate|].
      specialize (IH d Hd Hh). simpl in IH. destruct (ascii_dec d ","); [contradiction|].
      destruct (take_token r). exact IH. }
  rewrite Hr. reflexivity.
Qed.

Lemma strtok_loop_spec fuel max t :
  (length t < fuel)%nat ->
  strtok_loop fuel max t = take max (filter (fun f => f <> []) (split_on_comma t)).
Proof.
  revert max t. induction fuel as [|f IH]; intros max t Hl; [lia|].
  destruct max as [|m]; [reflexivity|]. cbn [strtok_loop]. unfold strtok_next.
  rewrite <- filter_split_skip. pose proof (skip_commas_length t) as Hs.
  destruct (skip_commas t) as [|c r] eqn:E; [reflexivity|].
  rewrite (filter_split_token c r) by (eapply skip_commas_head; exact E).
  pose proof (take_token_length c r) as Ht.
  destruct (take_token (c :: r)) as [tok rest]. simpl in *. rewrite IH by lia. reflexivity.
Qed.

(** The body [splitNMEA] tokenises: the first 255 characters, cut at [*]. *)
Definition nmea_body (s : text) : text :=
  let buffer := take 255 s in
  match strchr "*" buffer with Some i => take i buffer | None => buffer end.

Lemma strchr_app_notin c s r : c ∉ s -> strchr c (s ++ c :: r) = Some (length s).
Proof.
  induction s as [|d s IH]; intros Hn; simpl.
  - destruct (ascii_dec c c); [reflexivity|contradiction].
  - destruct (ascii_dec c d) as [->|Hd]; [exfalso; apply Hn; left|].
    rewrite IH; [reflexivity|]. intros Hin. apply Hn. right. exact Hin.
Qed.

Lemma strtol_hex_hex2_all :
  forallb (fun b => strtol_hex (hex2 b) =? b) (map Z.of_nat (seq 0 256)) = true.
Proof. vm_compute. reflexivity. Qed.

Lemma strtol_hex_hex2 b : 0 <= b < 256 -> strtol_hex (hex2 b) = b.
Proof.
  intros Hb. pose proof strtol_hex_hex2_all as H. rewrite forallb_forall in H.
  apply Z.eqb_eq, H. apply in_map_iff. exists (Z.to_nat b). split; [lia|].
  apply in_seq. lia.
Qed.

Lemma u8_range z : 0 <= u8 z < 256.
Proof. unfold u8. apply Z.mod_pos_bound. lia. Qed.

Lemma u8_small z : 0 <= z < 256 -> u8 z = z.
Proof. unfold u8. apply Z.mod_small. Qed.

Lemma digit_not_star c : is_digit c = true -> c <> "*"%char.
Proof. intros Hd ->. discriminate Hd. Qed.

Definition all_digits (t : text) : Prop := Forall (fun c => is_digit c = true) t.

Lemma digit_head_scan c t : is_digit c = true -> scan_sign (c :: t) = (1, c :: t) /\ skip_ws (c :: t) = c :: t.
Proof.
  intros Hc. unfold scan_sign. cbn [skip_ws].
  destruct (ascii_dec c "-") as [->|]; [discriminate|].
  destruct (ascii_dec c "+") as [->|]; [discriminate|].
  split; [reflexivity|]. unfold is_digit, is_space in *.
  apply andb_prop in Hc as [H1 H2]. apply Z.leb_le in H1, H2.
  rewrite (proj2 (Z.eqb_neq (code c) 32)) by lia.
  rewrite (proj2 (Z.leb_gt (code c) 13)) by lia. rewrite andb_false_r. reflexivity.
Qed.

Lemma span_digits_all t : all_digits t -> span_digits t = (t, []).
Proof. intros H. rewrite <- (app_nil_r t) at 1. apply span_digits_app; [exact H | reflexivity]. Qed.

(** [atof] of [ip.fp] and of [ip], digit strings. *)
Lemma atof_frac ip fp :
  ip <> [] -> all_digits ip -> all_digits fp ->
  atof (ip ++ "."%char :: fp) = (inject_Z (digits_value (ip ++ fp)) / inject_Z (10 ^ Z.of_nat (length fp)))%Q.
Proof.
  intros Hne Hip Hfp. destruct ip as [|c ip']; [contradiction|].
  pose proof (Forall_inv Hip) as Hc. simpl in Hc.
  destruct (digit_head_scan c (ip' ++ "."%char :: fp) Hc) as [Hs Hw].
  unfold atof. simpl app. rewrite Hw. unfold scan_float. rewrite Hs.
  change (c :: ip' ++ "."%char :: fp) with ((c :: ip') ++ "."%char :: fp).
  rewrite (span_digits_app (c :: ip') ("."%char :: fp)) by (assumption || reflexivity).
  destruct (ascii_dec "." ".") as [_|Hn]; [|contradiction].
  rewrite span_digits_all by exact Hfp. simpl app. unfold dec_to_Q. cbn [dmant dexp]. rewrite Z.mul_1_l. reflexivity.
Qed.

Lemma atof_int ip : ip <> [] -> all_digits ip -> atof ip = (inject_Z (digits_value ip) / inject_Z 1)%Q.
Proof.
  intros Hne Hip. destruct ip as [|c ip']; [contradiction|].
  pose proof (Forall_inv Hip) as Hc. simpl in Hc.
  destruct (digit_head_scan c ip' Hc) as [Hs Hw].
  unfold atof. rewrite Hw. unfold scan_float. rewrite Hs, span_digits_all by exact Hip.
  rewrite app_nil_r. unfold dec_to_Q. simpl. rewrite Z.mul_1_l. reflexivity.
Qed.

Lemma digit_not_in c t : all_digits t -> is_digit c = false -> c ∉ t.
Proof.
  intros Ht Hc Hin. unfold all_digits in Ht. rewrite Forall_forall in Ht. apply Ht in Hin. congruence.
Qed.

Lemma drop_S_app_cons (l r : text) c : drop (S (length l)) (l ++ c :: r) = r.
Proof. induction l as [|d l IH]; [reflexivity|]. exact IH. Qed.

(** ** Properties *)

(** C21: [splitNMEA] is [strtok] on [,] over the body before [*]: it returns
    the first [max_fields] comma-separated fields of the (at most 255
    characters of the) sentence that are not empty; every empty field is
    dropped, so the later fields move to lower indices. *)
Theorem splitNMEA_spec s max_fields :
  splitNMEA s max_fields = take max_fields (filter (fun f => f <> []) (split_on_comma (nmea_body s))).
Proof.
  unfold splitNMEA. change (strtok_loop (S (length (nmea_body s))) max_fields (nmea_body s) =
    take max_fields (filter (fun f => f <> []) (split_on_comma (nmea_body s)))).
  apply strtok_loop_spec. lia.
Qed.

(** A command that [setBaudRate] and [setUpdateRate] build passes
    [validateChecksum]: for a command name without [*] and of at most 50
    characters and any [uint32_t] argument, the checksum the builder appends
    is the one the validator recomputes. *)
Lemma pcas_checksum_roundtrip name arg :
  "*"%char ∉ name -> (length name <= 50)%nat -> is_u32 arg ->
  validateChecksum (pcas_command name arg) = Some true.
Proof.
  intros Hn Hl Ha. unfold pcas_command. set (ds := fmt_uint arg).
  assert (Hds : "*"%char ∉ ds) by (apply digit_not_in; [apply fmt_uint_digits; unfold is_u32 in Ha; lia | reflexivity]).
  assert (Hlen : (length ds <= 10)%nat) by (apply fmt_uint_length_u32; exact Ha).
  assert (Hnd : "*"%char ∉ name ++ ds) by (rewrite elem_of_app; tauto).
  assert (Hc1 : snprintf_buf 64 (lit "$" ++ name ++ ds ++ lit "*") = ("$"%char :: name ++ ds) ++ ["*"%char]).
  { unfold snprintf_buf. rewrite take_ge; [simpl; rewrite app_assoc; reflexivity|].
    simpl. rewrite !length_app. simpl. lia. }
  rewrite Hc1. unfold command_checksum. cbn [drop app].
  rewrite !drop_0. rewrite strchr_app_notin by exact Hnd. rewrite take_app_length. set (cs := u8 (nmea_xor (name ++ ds))).
  unfold snprintf_buf at 1. rewrite take_ge by (unfold hex2; reflexivity || (simpl; lia)).
  match goal with |- validateChecksum ?w = _ =>
    replace w with (("$"%char :: name ++ ds) ++ "*"%char :: hex2 cs ++ [ascii_of_nat 13; ascii_of_nat 10])
      by (simpl; rewrite <- !app_assoc; reflexivity) end.
  unfold validateChecksum.
  rewrite (strchr_app_notin "*" ("$"%char :: name ++ ds)) by (apply not_elem_of_cons; split; [discriminate | exact Hnd]).
  cbn [length Nat.eqb]. replace (S (length (name ++ ds)) - 1)%nat with (length (name ++ ds)) by lia.
  change (S (S (length (name ++ ds)))) with (S (length ("$"%char :: name ++ ds))).
  rewrite drop_S_app_cons. cbn [drop app]. rewrite drop_0, take_app_length. fold cs.
  unfold hex2 at 1. cbn [app]. change [hex_digit (cs / 16); hex_digit (cs mod 16)] with (hex2 cs).
  rewrite strtol_hex_hex2, u8_small by apply u8_range. rewrite Z.eqb_refl. reflexivity.
Qed.

(** C29: [nmeaToDecimal] on a [d..dmm.f..f] coordinate with 1 to 15 degree
    digits returns degrees plus minutes divided by 60, negated for the
    directions [S] and [W]. *)
Theorem nmeaToDecimal_ddmm D m1 m2 F dir :
  all_digits D -> (1 <= length D <= 15)%nat -> is_digit m1 = true -> is_digit m2 = true -> all_digits F ->
  exists q, nmeaToDecimal (D ++ m1 :: m2 :: "."%char :: F) dir = Some q /\
    let v := (inject_Z (digits_value D) +
              inject_Z (digits_value (m1 :: m2 :: F)) / inject_Z (10 ^ Z.of_nat (length F)) / 60)%Q in
    (q == if bool_decide (dir = "S"%char \/ dir = "W"%char) then - v else v)%Q.
Proof.
  intros HD Hl H1 H2 HF. unfold nmeaToDecimal.
  rewrite (proj2 (Nat.ltb_ge _ _)) by (rewrite length_app; simpl; lia).
  change (D ++ m1 :: m2 :: "."%char :: F) with (D ++ [m1; m2] ++ "."%char :: F). rewrite app_assoc.
  rewrite strchr_app_notin.
  2: { apply digit_not_in; [apply Forall_app; split; [exact HD | repeat constructor; assumption] | reflexivity]. }
  rewrite length_app. cbn [length].
  replace (Z.of_nat (length D + 2) - 2) with (Z.of_nat (length D)) by lia.
  rewrite (proj2 (Z.leb_gt _ _)), (proj2 (Z.leb_gt 16 _)) by lia. rewrite Nat2Z.id, <- app_assoc.
  rewrite take_app_length, drop_app_length.
  assert (HDne : D <> []) by (intros ->; simpl in Hl; lia).
  rewrite atof_int by assumption.
  change (m1 :: m2 :: "."%char :: F) with ([m1; m2] ++ "."%char :: F).
  rewrite atof_frac by (discriminate || assumption || (repeat constructor; assumption)).
  eexists; split; [reflexivity|]. cbn zeta.
  assert (Hdiv : forall x : Q, (x / inject_Z 1 == x)%Q) by (intros x; field).
  destruct (bool_decide _); rewrite Hdiv; reflexivity.
Qed.

(** The sentence the host build's GPS mock returns ends at [*] with no
    checksum digits: [validateChecksum] reads past its terminator. *)
Lemma mock_gga_reads_past_end : validateChecksum mock_gga = None.
Proof. vm_compute. reflexivity. Qed.

(** ** Witnesses *)

Example nmeaToDecimal_ddmm_witness :
  exists q, nmeaToDecimal (lit "48" ++ "0"%char :: "7"%char :: "."%char :: lit "038") "S"%char = Some q /\
    (q == - (inject_Z 48 + inject_Z 7038 / inject_Z 1000 / 60))%Q.
Proof.
  exact (nmeaToDecimal_ddmm (lit "48") "0" "7" (lit "038") "S"
           ltac:(repeat constructor) ltac:(simpl; lia) eq_refl eq_refl ltac:(repeat constructor)).
Defined.
