(* ===== verification/HalTimer.v ===== *)
(** * HalTimer: the result codes and the software timers of the HAL

    Source: [src/src/hardware/hardware_abstraction.h] ([enum class Result],
    [namespace Timer]) and [src/src/hardware/hardware_abstraction.cpp]
    ([namespace Timer], lines 654-807). The timer table is the array
    [s_timers[MAX_TIMERS]] with its flag [s_timer_initialized]; a [Handle*]
    returned by [createTimer] is the index of its slot. A [TimerCallback] is
    an abstract callback name, [nullptr] is [None]; [processTimers] reports
    the slots whose callback it called, in order. [millis()] is the board's
    clock in the [ARDUINO] build and the static counter [++mock_time] of the
    host build: the section variable [arduino] selects the build, and [now]
    is the board's clock when a function reads it. *)

From stdpp Require Import base list relations.
From Stdlib Require Import ZArith Lia.
From S2P Require Import Prelude.

Open Scope Z_scope.
Open Scope lora_scope.

(** [enum class Result]. *)
Inductive Result :=
  | SUCCESS
  | ERROR_INIT_FAILED
  | ERROR_NOT_INITIALIZED
  | ERROR_INVALID_PARAMETER
  | ERROR_TIMEOUT
  | ERROR_COMMUNICATION_FAILED
  | ERROR_HARDWARE_FAULT.

#[export] Instance Result_eq_dec : EqDecision Result.
Proof. solve_decision. Defined.

(** [struct Timer::Handle]. *)
Record handle := mkHandle {
  interval_ms : Z;
  repeating : bool;
  callback : option Z;
  last_trigger : Z;
  active : bool;
  delete_requested : bool
}.

(** The value-initialised handle [{}]. *)
Definition empty_handle : handle := mkHandle 0 false None 0 false false.

Definition MAX_TIMERS : nat := 16.

(** The statics of [namespace Timer] and the two counters of the host
    build's [millis()] and [micros()]. *)
Record tstate := mkTstate {
  s_timer_initialized : bool;
  s_timers : list handle;
  mock_ms : Z;
  mock_us : Z
}.

Definition tstate_boot : tstate := mkTstate false (replicate MAX_TIMERS empty_handle) 0 0.

Definition set_slots (ts : list handle) (t : tstate) : tstate :=
  mkTstate (s_timer_initialized t) ts (mock_ms t) (mock_us t).

Section Timer.
(** [true] for the [ARDUINO] build, [false] for the host build. *)
Variable arduino : bool.

(** [Timer::initialize()]; [g_init] is the HAL's [g_initialized]. *)
Definition timer_initialize (g_init : bool) (t : tstate) : Result * tstate :=
  if negb g_init then (ERROR_NOT_INITIALIZED, t)
  else if s_timer_initialized t then (SUCCESS, t)
  else (SUCCESS, mkTstate true (replicate MAX_TIMERS empty_handle) (mock_ms t) (mock_us t)).

(** [Timer::millis()]. *)
Definition millis (now : Z) (t : tstate) : Z * tstate :=
  if arduino then (now, t)
  else let m := mock_ms t +u 1 in (m, mkTstate (s_timer_initialized t) (s_timers t) m (mock_us t)).

(** [Timer::micros()]; [now_us] is the board's [::micros()]. *)
Definition micros (now_us : Z) (t : tstate) : Z * tstate :=
  if arduino then (now_us, t)
  else let m := mock_us t +u 1 in (m, mkTstate (s_timer_initialized t) (s_timers t) (mock_ms t) m).

(** [Timer::delay(ms)] and [Timer::delayMicroseconds(us)]: on the board
    the real clock passes, which the next reading [now] shows; the host
    build does nothing, so its mock clocks do not advance either. Neither
    changes the layer's state. *)
Definition delay (ms : Z) (t : tstate) : tstate := t.
Definition delayMicroseconds (us : Z) (t : tstate) : tstate := t.

(** [Timer::createTimer(intervalMs, repeating, callback)]: the first slot
    without a callback; [millis()] is read only when one is found. *)
Definition createTimer (now intervalMs : Z) (rep : bool) (cb : option Z) (t : tstate)
    : option nat * tstate :=
  if negb (s_timer_initialized t) || bool_decide (cb = None) then (None, t) else
  match list_find (fun h => callback h = None) (s_timers t) with
  | Some (i, _) =>
    let '(m, t1) := millis now t in
    (Some i, set_slots (<[i := mkHandle intervalMs rep cb m false false]> (s_timers t1)) t1)
  | None => (None, t)
  end.

(** [Timer::startTimer(timer)]. *)
Definition startTimer (now : Z) (h : option nat) (t : tstate) : Result * tstate :=
  match h with
  | Some i =>
    if negb (s_timer_initialized t) then (ERROR_INVALID_PARAMETER, t) else
    let '(m, t1) := millis now t in
    (SUCCESS, set_slots (alter (fun x => mkHandle (interval_ms x) (repeating x) (callback x) m true
                                             (delete_requested x)) i (s_timers t1)) t1)
  | None => (ERROR_INVALID_PARAMETER, t)
  end.

(** [Timer::stopTimer(timer)]. *)
Definition stopTimer (h : option nat) (t : tstate) : Result * tstate :=
  match h with
  | Some i =>
    if negb (s_timer_initialized t) then (ERROR_INVALID_PARAMETER, t) else
    (SUCCESS, set_slots (alter (fun x => mkHandle (interval_ms x) (repeating x) (callback x) (last_trigger x)
                                             false (delete_requested x)) i (s_timers t)) t)
  | None => (ERROR_INVALID_PARAMETER, t)
  end.

(** [Timer::deleteTimer(timer)]: only marks the slot. *)
Definition deleteTimer (h : option nat) (t : tstate) : Result * tstate :=
  match h with
  | Some i =>
    if negb (s_timer_initialized t) then (ERROR_INVALID_PARAMETER, t) else
    (SUCCESS, set_slots (alter (fun x => mkHandle (interval_ms x) (repeating x) (callback x) (last_trigger x)
                                             (active x) true) i (s_timers t)) t)
  | None => (ERROR_INVALID_PARAMETER, t)
  end.

(** [Timer::reset()]. *)
Definition timer_reset (t : tstate) : tstate :=
  mkTstate false (replicate MAX_TIMERS empty_handle) (mock_ms t) (mock_us t).

(** The body of the loop of [processTimers] on one slot at [current_time]:
    the new slot and whether its callback ran. *)
Definition process_slot (current_time : Z) (h : handle) : handle * bool :=
  if delete_requested h then (empty_handle, false)
  else if negb (active h) || bool_decide (callback h = None) then (h, false)
  else if interval_ms h <=? current_time -u last_trigger h then
    (if repeating h then mkHandle (interval_ms h) true (callback h) current_time (active h) false
     else mkHandle (interval_ms h) false (callback h) (last_trigger h) false false, true)
  else (h, false).

(** The loop over the slots, from index [i]. *)
Fixpoint process_slots (current_time : Z) (i : nat) (hs : list handle) : list handle * list nat :=
  match hs with
  | [] => ([], [])
  | h :: hs' =>
    let '(h', fired) := process_slot current_time h in
    let '(hs'', fs) := process_slots current_time (S i) hs' in
    (h' :: hs'', if fired then i :: fs else fs)
  end.

(** [Timer::processTimers()]: the slots whose callback ran, and the table. *)
Definition processTimers (now : Z) (t : tstate) : list nat * tstate :=
  if negb (s_timer_initialized t) then ([], t) else
  let '(m, t1) := millis now t in
  let '(hs, fired) := process_slots m 0 (s_timers t1) in
  (fired, set_slots hs t1).
End Timer.

(** The condition under which [processTimers] calls a slot's callback. *)
Definition due (current_time : Z) (h : handle) : bool :=
  negb (delete_requested h) && active h && bool_decide (callback h <> None) &&
  (interval_ms h <=? current_time -u last_trigger h).

(** The operations of the timer API, for the reachability of table states. *)
Inductive timer_step (arduino : bool) : tstate -> tstate -> Prop :=
  | ts_init g t : timer_step arduino t (timer_initialize g t).2
  | ts_millis now t : timer_step arduino t (millis arduino now t).2
  | ts_micros now t : timer_step arduino t (micros arduino now t).2
  | ts_create now iv rep cb t : timer_step arduino t (createTimer arduino now iv rep cb t).2
  | ts_start now h t : timer_step arduino t (startTimer arduino now h t).2
  | ts_stop h t : timer_step arduino t (stopTimer h t).2
  | ts_delete h t : timer_step arduino t (deleteTimer h t).2
  | ts_reset t : timer_step arduino t (timer_reset t)
  | ts_process now t : timer_step arduino t (processTimers arduino now t).2.

(** The timer calls that leave slot [i] to its owner: every call of
    [timer_step] except [deleteTimer] of [i] and [Timer::reset()]. *)
Inductive timer_step_keep (arduino : bool) (i : nat) : tstate -> tstate -> Prop :=
  | tk_init g t : timer_step_keep arduino i t (timer_initialize g t).2
  | tk_millis now t : timer_step_keep arduino i t (millis arduino now t).2
  | tk_micros now t : timer_step_keep arduino i t (micros arduino now t).2
  | tk_create now iv rep cb t : timer_step_keep arduino i t (createTimer arduino now iv rep cb t).2
  | tk_start now h t : timer_step_keep arduino i t (startTimer arduino now h t).2
  | tk_stop h t : timer_step_keep arduino i t (stopTimer h t).2
  | tk_delete h t : h <> Some i -> timer_step_keep arduino i t (deleteTimer h t).2
  | tk_process now t : timer_step_keep arduino i t (processTimers arduino now t).2.

(** The table invariant: sixteen slots, all empty while the subsystem is not
    initialised. *)
Definition timer_inv (t : tstate) : Prop :=
  length (s_timers t) = MAX_TIMERS /\
  (s_timer_initialized t = false -> Forall (fun h => h = empty_handle) (s_timers t)).

(** Slot [i] belongs to a live timer with callback [c]: the subsystem is
    initialised and the slot holds [c] with no deletion pending. *)
Definition owned (i : nat) (c : Z) (t : tstate) : Prop :=
  s_timer_initialized t = true /\
  exists h, s_timers t !! i = Some h /\ callback h = Some c /\ delete_requested h = false.

(** Scenarios on the board: the subsystem initialised, a one-shot timer of
    100 ms with callback 7 created and then started at time 0. *)
Definition t_init : tstate := (timer_initialize true tstate_boot).2.
Definition t_one : tstate := (createTimer true 0 100 false (Some 7) t_init).2.
Definition t_run : tstate := (startTimer true 0 (Some 0%nat) t_one).2.

(** ** Lemmas *)

Lemma process_slot_fired m h : (process_slot m h).2 = due m h.
Proof.
  unfold process_slot, due.
  destruct (delete_requested h), (active h), (callback h), (interval_ms h <=? _), (repeating h); reflexivity.
Qed.

Lemma process_slot_callback m h : callback (process_slot m h).1 = if delete_requested h then None else callback h.
Proof.
  unfold process_slot. destruct (delete_requested h); [reflexivity|].
  destruct (negb (active h) || _); [reflexivity|]. destruct (_ <=? _), (repeating h); reflexivity.
Qed.

(** The loop of [processTimers] is a map over the slots ... *)
Lemma process_slots_fst m i hs : (process_slots m i hs).1 = map (fun h => (process_slot m h).1) hs.
Proof.
  revert i. induction hs as [|h hs IH]; intros i; [reflexivity|]. cbn [process_slots map].
  destruct (process_slot m h) as [h' f]. specialize (IH (S i)).
  destruct (process_slots m (S i) hs) as [hs'' fs]. simpl in *. congruence.
Qed.

(** ... and it reports exactly the indices of the due slots. *)
Lemma process_slots_snd m i hs k :
  k ∈ (process_slots m i hs).2 <-> exists j h, k = (i + j)%nat /\ hs !! j = Some h /\ due m h = true.
Proof.
  revert i. induction hs as [|h hs IH]; intros i.
  - simpl. split; [intros Hk; inversion Hk|]. intros (j & h & _ & Hj & _). inversion Hj.
  - cbn [process_slots]. pose proof (process_slot_fired m h) as Hf.
    destruct (process_slot m h) as [h' f]. cbn [snd] in Hf. specialize (IH (S i)).
    destruct (process_slots m (S i) hs) as [hs'' fs]. cbn [snd] in *.
    split.
    + intros Hk. destruct f; [apply elem_of_cons in Hk as [->|Hk]|].
      * exists 0%nat, h. split; [lia|]. split; [reflexivity|congruence].
      * apply IH in Hk as (j & h1 & -> & Hj & Hd). exists (S j), h1. split; [lia|]. auto.
      * apply IH in Hk as (j & h1 & -> & Hj & Hd). exists (S j), h1. split; [lia|]. auto.
    + intros (j & h1 & -> & Hj & Hd). destruct j as [|j].
      * simpl in Hj. injection Hj as <-. rewrite Nat.add_0_r. assert (f = true) as -> by congruence. left.
      * assert (Hk : (i + S j)%nat ∈ fs) by (apply IH; exists j, h1; split; [lia|]; auto).
        destruct f; [right|]; exact Hk.
Qed.

Lemma length_process_slots m i hs : length (process_slots m i hs).1 = length hs.
Proof. rewrite process_slots_fst. apply length_map. Qed.

Section TimerLemmas.
Variable arduino : bool.

Lemma millis_slots now t : s_timers (millis arduino now t).2 = s_timers t /\
  s_timer_initialized (millis arduino now t).2 = s_timer_initialized t.
Proof. unfold millis. destruct arduino; split; reflexivity. Qed.

Lemma micros_slots now t : s_timers (micros arduino now t).2 = s_timers t /\
  s_timer_initialized (micros arduino now t).2 = s_timer_initialized t.
Proof. unfold micros. destruct arduino; split; reflexivity. Qed.

(** Close an invariant goal whose table is returned unchanged. *)
Local Ltac same Hl He :=
  simpl; split; [exact Hl|first [exact He | intros ?; congruence | intros _; apply He; reflexivity]].

Lemma timer_step_inv t t' : timer_step arduino t t' -> timer_inv t -> timer_inv t'.
Proof.
  intros Hs [Hl He]. unfold timer_inv.
  destruct Hs as [g t0|now t0|now t0|now iv rep cb t0|now h t0|h t0|h t0|t0|now t0].
  - unfold timer_initialize. destruct g; [destruct (s_timer_initialized t0) eqn:Hi|]; try same Hl He.
    simpl. split; [reflexivity|]. intros _. repeat constructor.
  - destruct (millis_slots now t0) as [-> ->]. split; auto.
  - destruct (micros_slots now t0) as [-> ->]. split; auto.
  - unfold createTimer. destruct (s_timer_initialized t0) eqn:Hi; [|same Hl He].
    destruct (bool_decide _); [same Hl He|]. cbn [orb negb].
    match goal with |- context [list_find ?P ?l] => destruct (list_find P l) as [[i x]|] end; [|same Hl He].
    destruct (millis arduino now t0) as [m t1] eqn:Em.
    pose proof (millis_slots now t0) as [E1 E2]. rewrite Em in E1, E2. simpl in E1, E2.
    simpl. rewrite length_insert, E1. split; [exact Hl|]. congruence.
  - unfold startTimer. destruct h as [i|]; [|same Hl He]. destruct (s_timer_initialized t0) eqn:Hi; [|same Hl He].
    destruct (millis arduino now t0) as [m t1] eqn:Em.
    pose proof (millis_slots now t0) as [E1 E2]. rewrite Em in E1, E2. simpl in E1, E2.
    simpl. rewrite length_alter, E1. split; [exact Hl|]. congruence.
  - unfold stopTimer. destruct h as [i|]; [|same Hl He]. destruct (s_timer_initialized t0) eqn:Hi; [|same Hl He].
    simpl. rewrite length_alter. split; [exact Hl|congruence].
  - unfold deleteTimer. destruct h as [i|]; [|same Hl He]. destruct (s_timer_initialized t0) eqn:Hi; [|same Hl He].
    simpl. rewrite length_alter. split; [exact Hl|congruence].
  - simpl. split; [reflexivity|]. intros _. repeat constructor.
  - unfold processTimers. destruct (s_timer_initialized t0) eqn:Hi; [|same Hl He].
    destruct (millis arduino now t0) as [m t1] eqn:Em.
    pose proof (millis_slots now t0) as [E1 E2]. rewrite Em in E1, E2. simpl in E1, E2.
    pose proof (length_process_slots m 0 (s_timers t1)) as HL.
    destruct (process_slots m 0 (s_timers t1)) as [hs f] eqn:Ep. simpl in HL |- *.
    rewrite HL, E1. split; [exact Hl|]. congruence.
Qed.
End TimerLemmas.

Lemma timer_rtc_inv arduino t t' : rtc (timer_step arduino) t t' -> timer_inv t -> timer_inv t'.
Proof. induction 1; eauto using timer_step_inv. Qed.

Lemma processTimers_eq arduino now t :
  s_timer_initialized t = true ->
  let m := (millis arduino now t).1 in
  processTimers arduino now t =
    ((process_slots m 0 (s_timers t)).2, set_slots (process_slots m 0 (s_timers t)).1 (millis arduino now t).2).
Proof.
  intros Hi m. unfold processTimers. rewrite Hi. subst m.
  pose proof (millis_slots arduino now t) as [E1 _].
  destruct (millis arduino now t) as [m t1]. simpl in *. rewrite E1.
  destruct (process_slots m 0 (s_timers t)). reflexivity.
Qed.

Lemma lookup_processTimers arduino now t i :
  s_timer_initialized t = true ->
  s_timers (processTimers arduino now t).2 !! i =
    (fun h => (process_slot (millis arduino now t).1 h).1) <$> s_timers t !! i.
Proof.
  intros Hi. rewrite (processTimers_eq arduino now t Hi). simpl.
  rewrite process_slots_fst. apply list_lookup_fmap.
Qed.

(** An update of one slot that keeps the callback and the deletion flag
    keeps every slot's ownership. *)
Lemma owned_alter i c j f t :
  (forall x, callback (f x) = callback x /\ delete_requested (f x) = delete_requested x) ->
  owned i c t -> owned i c (set_slots (alter f j (s_timers t)) t).
Proof.
  intros Hf [Hi (h & Hh & Hc & Hd)]. split; [exact Hi|]. simpl.
  destruct (decide (j = i)) as [->|Hne].
  - rewrite list_lookup_alter_eq, Hh. exists (f h). destruct (Hf h). rewrite H, H0. auto.
  - rewrite list_lookup_alter_ne by congruence. eauto.
Qed.

Lemma delete_requested_process_slot m h :
  delete_requested h = false -> delete_requested (process_slot m h).1 = false.
Proof.
  unfold process_slot. intros Hd. rewrite Hd.
  destruct (negb (active h) || _); [exact Hd|].
  destruct (interval_ms h <=? m -u last_trigger h), (repeating h); simpl; auto.
Qed.

(** [createTimer] never returns an owned slot. *)
Lemma createTimer_not_owned arduino i c now iv rep cb t :
  owned i c t -> (createTimer arduino now iv rep cb t).1 <> Some i.
Proof.
  intros [Hi (h & Hh & Hc & _)]. unfold createTimer. rewrite Hi. simpl.
  destruct (bool_decide (cb = None)); [discriminate|].
  destruct (list_find _ _) as [[j x]|] eqn:E; [|discriminate].
  apply list_find_Some in E as (Hx & Hn & _).
  destruct (millis arduino now t). simpl. intros [= ->]. congruence.
Qed.

Lemma owned_step arduino i c t t' :
  timer_step_keep arduino i t t' -> owned i c t -> owned i c t'.
Proof.
  intros Hs Ho. pose proof Ho as [Hi (h & Hh & Hc & Hd)].
  destruct Hs as [g t0|now t0|now t0|now iv rep cb t0|now hd t0|hd t0|hd t0 Hne|now t0].
  - unfold timer_initialize. rewrite Hi. destruct g; exact Ho.
  - destruct (millis_slots arduino now t0) as [E1 E2]. split; [congruence|]. rewrite E1. eauto.
  - destruct (micros_slots arduino now t0) as [E1 E2]. split; [congruence|]. rewrite E1. eauto.
  - pose proof (createTimer_not_owned arduino i c now iv rep cb t0 Ho) as Hn. revert Hn.
    unfold createTimer. rewrite Hi. simpl. destruct (bool_decide (cb = None)); [intros _; exact Ho|].
    destruct (list_find _ _) as [[j x]|]; [|intros _; exact Ho].
    destruct (millis_slots arduino now t0) as [E1 E2].
    destruct (millis arduino now t0) as [m t1]. simpl in *. intros Hji.
    split; [simpl; congruence|]. simpl. rewrite list_lookup_insert_ne by congruence. rewrite E1. eauto.
  - unfold startTimer. destruct hd as [j|]; [|exact Ho]. rewrite Hi. simpl.
    destruct (millis_slots arduino now t0) as [E1 E2].
    destruct (millis arduino now t0) as [m t1]. simpl in *.
    apply owned_alter; [intros; split; reflexivity|]. split; [congruence|]. rewrite E1. eauto.
  - unfold stopTimer. destruct hd as [j|]; [|exact Ho]. rewrite Hi. simpl.
    apply owned_alter; [intros; split; reflexivity|exact Ho].
  - unfold deleteTimer. destruct hd as [j|]; [|exact Ho]. rewrite Hi. simpl.
    split; [exact Hi|]. simpl. rewrite list_lookup_alter_ne by congruence. eauto.
  - split.
    + rewrite (processTimers_eq arduino now t0 Hi). simpl. rewrite (proj2 (millis_slots arduino now t0)). exact Hi.
    + rewrite lookup_processTimers, Hh by exact Hi. eexists. split; [reflexivity|].
      rewrite process_slot_callback, Hd. split; [exact Hc|]. apply delete_requested_process_slot, Hd.
Qed.

Lemma owned_rtc arduino i c t t' :
  rtc (timer_step_keep arduino i) t t' -> owned i c t -> owned i c t'.
Proof. induction 1; eauto using owned_step. Qed.

(** ** Properties *)

Section TimerProperties.
Variable arduino : bool.

(** C30: in every state of the timer table reachable from boot through the
    timer API, in either build, the table has sixteen slots, and all of them
    are empty while the subsystem is not initialised. *)
Theorem timer_reachable_inv t : rtc (timer_step arduino) tstate_boot t -> timer_inv t.
Proof.
  intros Hr. apply (timer_rtc_inv arduino tstate_boot); [exact Hr|].
  split; [reflexivity|]. intros _. repeat constructor.
Qed.

(** [processTimers] calls the callback of exactly the slots that are not
    marked for deletion, are active, have a callback and whose interval has
    elapsed since their last trigger, in unsigned 32-bit time. *)
Theorem processTimers_fired now t k :
  s_timer_initialized t = true ->
  k ∈ (processTimers arduino now t).1 <->
  exists h, s_timers t !! k = Some h /\ due (millis arduino now t).1 h = true.
Proof.
  intros Hi. rewrite (processTimers_eq arduino now t Hi). simpl. rewrite process_slots_snd.
  split; [intros (j & h & -> & Hj & Hd); eauto|intros (h & Hk & Hd); exists k, h; auto].
Qed.

(** With the subsystem initialised and a non-null callback, [createTimer]
    returns [nullptr] exactly when every slot holds a callback. *)
Theorem createTimer_full now iv rep c t :
  s_timer_initialized t = true ->
  (createTimer arduino now iv rep (Some c) t).1 = None <-> Forall (fun h => callback h <> None) (s_timers t).
Proof.
  intros Hi. unfold createTimer. rewrite Hi. rewrite bool_decide_false by discriminate. simpl.
  destruct (list_find (fun h => callback h = None) (s_timers t)) as [[i x]|] eqn:E.
  - destruct (millis arduino now t). simpl. split; [discriminate|].
    intros Hf. apply list_find_Some in E as (Hx & Hc & _).
    rewrite Forall_lookup in Hf. destruct (Hf _ _ Hx Hc).
  - split; [intros _|reflexivity]. apply list_find_None in E. exact E.
Qed.

(** A timer is created in the first slot without a callback; the slot then
    holds the interval, the mode and the callback, stopped, with the clock
    read by [millis()] as its last trigger. *)
Theorem createTimer_first_free now iv rep c t i t' :
  s_timer_initialized t = true -> createTimer arduino now iv rep (Some c) t = (Some i, t') ->
  (exists h, s_timers t !! i = Some h /\ callback h = None) /\
  (forall j h, (j < i)%nat -> s_timers t !! j = Some h -> callback h <> None) /\
  s_timers t' !! i = Some (mkHandle iv rep (Some c) (millis arduino now t).1 false false).
Proof.
  intros Hi. unfold createTimer. rewrite Hi. rewrite bool_decide_false by discriminate. simpl.
  destruct (list_find (fun h => callback h = None) (s_timers t)) as [[j x]|] eqn:E; [|discriminate].
  apply list_find_Some in E as (Hx & Hc & Hb).
  pose proof (millis_slots arduino now t) as [E1 _].
  destruct (millis arduino now t) as [m t1]. intros [= <- <-]. simpl in E1 |- *.
  split; [eauto|]. split; [intros k h Hk Hh; exact (Hb k h Hh Hk)|].
  rewrite E1. apply list_lookup_insert_eq. eapply lookup_lt_Some, Hx.
Qed.

(** A deleted timer is cleared by the next [processTimers] without its
    callback being called. *)
Theorem delete_then_process_frees now t i :
  s_timer_initialized t = true -> (i < length (s_timers t))%nat ->
  let t1 := (deleteTimer (Some i) t).2 in
  s_timers (processTimers arduino now t1).2 !! i = Some empty_handle /\ i ∉ (processTimers arduino now t1).1.
Proof.
  intros Hi Hl t1.
  assert (Hi1 : s_timer_initialized t1 = true) by (subst t1; unfold deleteTimer; rewrite Hi; exact Hi).
  destruct (lookup_lt_is_Some_2 _ _ Hl) as [h Hh].
  assert (Hh1 : s_timers t1 !! i = Some (mkHandle (interval_ms h) (repeating h) (callback h) (last_trigger h)
                                          (active h) true))
    by (subst t1; unfold deleteTimer; rewrite Hi; simpl; rewrite list_lookup_alter_eq, Hh; reflexivity).
  split.
  - rewrite lookup_processTimers, Hh1 by exact Hi1. reflexivity.
  - rewrite (processTimers_eq arduino now t1 Hi1). simpl. rewrite process_slots_snd.
    intros (j & h' & Hij & Hh' & Hd). simpl in Hij. subst j. rewrite Hh1 in Hh'. injection Hh' as <-. discriminate Hd.
Qed.

(** C31: a one-shot timer that fires is only stopped: [processTimers]
    keeps its callback in the slot, and along every later sequence of timer
    calls that neither deletes that timer nor resets the subsystem,
    [createTimer] never hands the slot out. *)
Theorem one_shot_keeps_slot now t i h c :
  s_timer_initialized t = true -> s_timers t !! i = Some h -> callback h = Some c ->
  repeating h = false -> due (millis arduino now t).1 h = true ->
  (exists h', s_timers (processTimers arduino now t).2 !! i = Some h' /\
     callback h' = Some c /\ active h' = false) /\
  forall t', rtc (timer_step_keep arduino i) (processTimers arduino now t).2 t' ->
    forall now' iv rep cb, (createTimer arduino now' iv rep cb t').1 <> Some i.
Proof.
  intros Hi Hh Hc Hr Hd. unfold due in Hd. apply andb_prop in Hd as [Hd Hle].
  apply andb_prop in Hd as [Hd _]. apply andb_prop in Hd as [Hdel Ha]. apply negb_true_iff in Hdel.
  split.
  - rewrite lookup_processTimers, Hh by exact Hi. eexists. split; [reflexivity|].
    unfold process_slot. rewrite Hdel, Ha, Hc. simpl. rewrite Hle, Hr. auto.
  - intros t' Hs now' iv rep cb. apply (createTimer_not_owned arduino i c).
    apply (owned_rtc arduino i c _ _ Hs), (owned_step arduino i c t); [constructor|].
    split; [exact Hi|eauto].
Qed.
End TimerProperties.

(** A running repeating timer is due exactly when its interval has passed,
    across a wrap of the 32-bit clock: at [last +u d] with [d] below 2^32
    the elapsed time is [d]. *)
Theorem repeating_due_across_wrap last d iv c :
  is_u32 last -> 0 <= d < u32_modulus ->
  due (last +u d) (mkHandle iv true (Some c) last true false) = (iv <=? d).
Proof. intros Hl Hd. unfold due. simpl. rewrite u32_elapsed by assumption. reflexivity. Qed.

(** ** Witnesses *)

Example timer_reachable_inv_witness : timer_inv t_init.
Proof. apply (timer_reachable_inv true). apply rtc_once. apply (ts_init true true). Defined.

Example processTimers_fired_witness : 0%nat ∈ (processTimers true 150 t_run).1.
Proof.
  apply (proj2 (processTimers_fired true 150 t_run 0 eq_refl)).
  exists (mkHandle 100 false (Some 7) 0 true false). split; reflexivity.
Defined.

Example createTimer_full_witness :
  (createTimer true 0 50 true (Some 8) t_init).1 = None <-> Forall (fun h => callback h <> None) (s_timers t_init).
Proof. exact (createTimer_full true 0 50 true 8 t_init eq_refl). Defined.

Example createTimer_first_free_witness :
  (exists h, s_timers t_init !! 0%nat = Some h /\ callback h = None) /\
  (forall j h, (j < 0)%nat -> s_timers t_init !! j = Some h -> callback h <> None) /\
  s_timers t_one !! 0%nat = Some (mkHandle 100 false (Some 7) (millis true 0 t_init).1 false false).
Proof. exact (createTimer_first_free true 0 100 false 7 t_init 0 t_one eq_refl eq_refl). Defined.

Example delete_then_process_frees_witness :
  s_timers (processTimers true 150 (deleteTimer (Some 0%nat) t_run).2).2 !! 0%nat = Some empty_handle /\
  0%nat ∉ (processTimers true 150 (deleteTimer (Some 0%nat) t_run).2).1.
Proof. exact (delete_then_process_frees true 150 t_run 0 eq_refl ltac:(vm_compute; lia)). Defined.

Example one_shot_keeps_slot_witness :
  (exists h', s_timers (processTimers true 150 t_run).2 !! 0%nat = Some h' /\
     callback h' = Some 7 /\ active h' = false) /\
  forall t', rtc (timer_step_keep true 0) (processTimers true 150 t_run).2 t' ->
    forall now' iv rep cb, (createTimer true now' iv rep cb t').1 <> Some 0%nat.
Proof. exact (one_shot_keeps_slot true 150 t_run 0 (mkHandle 100 false (Some 7) 0 true false) 7
                eq_refl eq_refl eq_refl eq_refl eq_refl). Defined.

Example repeating_due_across_wrap_witness :
  due (4294967290 +u 16) (mkHandle 10 true (Some 7) 4294967290 true false) = true.
Proof. exact (repeating_due_across_wrap 4294967290 16 10 7 ltac:(u32_lia) ltac:(u32_lia)). Defined.
