(* ===== verification/Hal.v ===== *)
(** * Hal: the hardware abstraction layer

    Source: [src/src/hardware/hardware_abstraction.cpp] (and its header).
    The layer's statics ([g_initialized], the I2C/SPI/ADC flags,
    [g_nvs_handle], the LEDC and ADC statics and the timer table of
    [HalTimer.v]) form the record [hal]; every function is a function from
    [hal] to its result and the new [hal]. Both builds are modelled: the
    section variable [arduino] selects the [#ifdef ARDUINO] branches; in the
    host build ([#else]) the mock branches are taken. On the board, the
    results of the ESP-IDF and Arduino calls are the fields of the class
    [EspPlatform]. The LEDC channel assignment of the PWM functions is kept
    as the map from channel to GPIO and the duty of each channel. Floats are
    exact rationals ([Q]). *)

From stdpp Require Import base list gmap relations.
From Stdlib Require Import ZArith QArith Qround Lqa Lia String.
From S2P Require Import Prelude HalTimer.

Open Scope Z_scope.
Open Scope lora_scope.

(** ESP-IDF error codes. *)
Definition ESP_OK : Z := 0.
Definition ESP_ERR_NVS_NOT_FOUND : Z := 4354.          (** 0x1102 *)
Definition ESP_ERR_NVS_INVALID_LENGTH : Z := 4364.     (** 0x110c *)
Definition ESP_ERR_NVS_NO_FREE_PAGES : Z := 4365.      (** 0x110d *)
Definition ESP_ERR_NVS_NEW_VERSION_FOUND : Z := 4368.  (** 0x1110 *)

(** What the ESP-IDF and Arduino calls of the [ARDUINO] build return. *)
Class EspPlatform := {
  nvs_flash_init_first : Z;          (** the first [nvs_flash_init()] *)
  nvs_flash_erase_ret : Z;           (** [nvs_flash_erase()] *)
  nvs_flash_init_again : Z;          (** [nvs_flash_init()] after the erase *)
  wire_write : Z -> Z;               (** [Wire.write] of [n] bytes: the count written *)
  wire_end : bool -> Z;              (** [Wire.endTransmission(sendStop)] *)
  wire_request : Z -> Z -> Z;        (** [Wire.requestFrom(address, length)] *)
  wire_available : Z;
  wire_read : Z;
  spi_transfer : Z -> Z;
  pin_level : Z -> Z;                (** [::digitalRead(pin)] *)
  ledc_timer_config_ret : Z -> Z;    (** by frequency *)
  ledc_channel_config_ret : Z -> Z;  (** by GPIO *)
  ledc_set_duty_ret : Z -> Z -> Z;   (** by channel and duty *)
  ledc_update_duty_ret : Z -> Z;
  ledc_stop_ret : Z -> Z;
  adc_width_ret : Z;                 (** [adc1_config_width(ADC_WIDTH_BIT_12)] *)
  adc_calloc_ok : bool;              (** [calloc] of the characteristics *)
  adc_atten_ret : Z -> Z;            (** [adc1_config_channel_atten] by channel *)
  adc_raw : Z -> Z;                  (** [adc1_get_raw] by channel *)
  adc_cal_mv : Z -> Z;               (** [esp_adc_cal_raw_to_voltage] in mV *)
  nvs_open_ret : Z;
  nvs_open_handle : Z;               (** the handle [nvs_open] writes on success *)
  nvs_get_ret : Z;
  nvs_set_ret : Z;
  nvs_commit_ret : Z;
  free_heap : Z;                     (** [esp_get_free_heap_size()] *)
  min_free_heap : Z;                 (** [esp_get_minimum_free_heap_size()] *)
  largest_free_block : Z;            (** [heap_caps_get_largest_free_block] *)
  chip_revision : Z;                 (** [esp_chip_info().revision] *)
  efuse_mac : Z;                     (** [ESP.getEfuseMac()], 64 bits *)
  flash_chip_size : Z;               (** [ESP.getFlashChipSize()] *)
  cpu_freq_mhz : Z                   (** [ESP.getCpuFreqMHz()] *)
}.

Record hal := mkHal {
  g_initialized : bool;
  g_i2c_initialized : bool;
  g_spi_initialized : bool;
  g_adc_initialized : bool;
  g_nvs_handle : Z;
  s_ledc_initialized : bool;
  s_adc_chars : bool;                (** [s_adc_chars != nullptr] *)
  ledc_gpio : gmap Z Z;              (** LEDC channel -> GPIO it drives *)
  ledc_duty : gmap Z Z;              (** LEDC channel -> duty *)
  tm : tstate;
  halted : bool                      (** a call that never returns: [abort()], deep sleep *)
}.

Definition hal_boot : hal := mkHal false false false false 0 false false ∅ ∅ tstate_boot false.

(** [resultToString(result)]. *)
Definition resultToString (r : Result) : string :=
  match r with
  | SUCCESS => "SUCCESS"
  | ERROR_INIT_FAILED => "ERROR_INIT_FAILED"
  | ERROR_NOT_INITIALIZED => "ERROR_NOT_INITIALIZED"
  | ERROR_INVALID_PARAMETER => "ERROR_INVALID_PARAMETER"
  | ERROR_TIMEOUT => "ERROR_TIMEOUT"
  | ERROR_COMMUNICATION_FAILED => "ERROR_COMMUNICATION_FAILED"
  | ERROR_HARDWARE_FAULT => "ERROR_HARDWARE_FAULT"
  end.

(** [enum class GPIO::Mode] and [Power::Mode]. *)
Inductive pin_mode := MODE_INPUT | MODE_OUTPUT | MODE_INPUT_PULLUP | MODE_INPUT_PULLDOWN.
Inductive power_mode := NORMAL | LIGHT_SLEEP | DEEP_SLEEP.

(** The largest GPIO number of the ESP32-S3. *)
Definition MAX_GPIO : Z := 48.

Section Hal.
Context `{EspPlatform}.
Variable arduino : bool.

Definition set_flags (i2c spi adc : bool) (h : hal) : hal :=
  mkHal (g_initialized h) i2c spi adc (g_nvs_handle h) (s_ledc_initialized h) (s_adc_chars h)
        (ledc_gpio h) (ledc_duty h) (tm h) (halted h).
Definition set_init (b : bool) (h : hal) : hal :=
  mkHal b (g_i2c_initialized h) (g_spi_initialized h) (g_adc_initialized h) (g_nvs_handle h)
        (s_ledc_initialized h) (s_adc_chars h) (ledc_gpio h) (ledc_duty h) (tm h) (halted h).
Definition set_nvs (v : Z) (h : hal) : hal :=
  mkHal (g_initialized h) (g_i2c_initialized h) (g_spi_initialized h) (g_adc_initialized h) v
        (s_ledc_initialized h) (s_adc_chars h) (ledc_gpio h) (ledc_duty h) (tm h) (halted h).
Definition set_tm (t : tstate) (h : hal) : hal :=
  mkHal (g_initialized h) (g_i2c_initialized h) (g_spi_initialized h) (g_adc_initialized h) (g_nvs_handle h)
        (s_ledc_initialized h) (s_adc_chars h) (ledc_gpio h) (ledc_duty h) t (halted h).
Definition set_ledc (ini : bool) (gp du : gmap Z Z) (h : hal) : hal :=
  mkHal (g_initialized h) (g_i2c_initialized h) (g_spi_initialized h) (g_adc_initialized h) (g_nvs_handle h)
        ini (s_adc_chars h) gp du (tm h) (halted h).
Definition set_adc (ini chars : bool) (h : hal) : hal :=
  mkHal (g_initialized h) (g_i2c_initialized h) (g_spi_initialized h) ini (g_nvs_handle h)
        (s_ledc_initialized h) chars (ledc_gpio h) (ledc_duty h) (tm h) (halted h).
Definition set_halted (h : hal) : hal :=
  mkHal (g_initialized h) (g_i2c_initialized h) (g_spi_initialized h) (g_adc_initialized h) (g_nvs_handle h)
        (s_ledc_initialized h) (s_adc_chars h) (ledc_gpio h) (ledc_duty h) (tm h) true.

(** [HardwareAbstraction::initialize()]. On the board, NVS is initialised
    (erased and initialised again when full or of a newer version), then
    [Timer::initialize()] runs, before [g_initialized] is set. *)
Definition hal_initialize (h : hal) : Result * hal :=
  if g_initialized h then (SUCCESS, h) else
  if arduino then
    let r1 := nvs_flash_init_first in
    if (r1 =? ESP_ERR_NVS_NO_FREE_PAGES) || (r1 =? ESP_ERR_NVS_NEW_VERSION_FOUND) then
      if negb (nvs_flash_erase_ret =? ESP_OK) then (ERROR_INIT_FAILED, set_halted h) else
      if negb (nvs_flash_init_again =? ESP_OK) then (ERROR_INIT_FAILED, h) else
      let '(rt, t) := timer_initialize (g_initialized h) (tm h) in
      if negb (bool_decide (rt = SUCCESS)) then (ERROR_INIT_FAILED, set_tm t h)
      else (SUCCESS, set_init true (set_tm t h))
    else
      if negb (r1 =? ESP_OK) then (ERROR_INIT_FAILED, h) else
      let '(rt, t) := timer_initialize (g_initialized h) (tm h) in
      if negb (bool_decide (rt = SUCCESS)) then (ERROR_INIT_FAILED, set_tm t h)
      else (SUCCESS, set_init true (set_tm t h))
  else (SUCCESS, set_init true h).

(** [HardwareAbstraction::deinitialize()]. *)
Definition deinitialize (h : hal) : hal :=
  if negb (g_initialized h) then h else
  let h1 := if arduino then set_nvs 0 h else h in
  set_init false (set_tm (timer_reset (tm h1)) (set_flags false false false h1)).

(** ** GPIO *)

Definition pin_ok (pin : Z) : bool := pin <=? MAX_GPIO.

(** [GPIO::pinMode], [GPIO::digitalWrite], [GPIO::detachInterrupt]: the
    same two guards. *)
Definition gpio_guarded (pin : Z) (h : hal) : Result :=
  if negb (g_initialized h) then ERROR_NOT_INITIALIZED
  else if negb (pin_ok pin) then ERROR_INVALID_PARAMETER
  else SUCCESS.

Definition pinMode (pin : Z) (m : pin_mode) (h : hal) : Result := gpio_guarded pin h.
Definition digitalWrite (pin level : Z) (h : hal) : Result := gpio_guarded pin h.
Definition detachInterrupt (pin : Z) (h : hal) : Result := gpio_guarded pin h.

(** [GPIO::digitalRead]: [LEVEL_LOW] (0) when not initialised or out of range. *)
Definition digitalRead (pin : Z) (h : hal) : Z :=
  if negb (g_initialized h) || negb (pin_ok pin) then 0
  else if arduino then pin_level pin else 0.

(** [GPIO::attachInterrupt]; [cb] is [None] for [nullptr]. *)
Definition attachInterrupt (pin : Z) (cb : option Z) (mode : Z) (h : hal) : Result :=
  if negb (g_initialized h) then ERROR_NOT_INITIALIZED
  else if negb (pin_ok pin) || bool_decide (cb = None) then ERROR_INVALID_PARAMETER
  else SUCCESS.

(** ** I2C *)

(** [I2C::initialize(sda, scl, frequency)]. *)
Definition i2c_initialize (sda scl freq : Z) (h : hal) : Result * hal :=
  if negb (g_initialized h) then (ERROR_NOT_INITIALIZED, h)
  else if negb (pin_ok sda) || negb (pin_ok scl) then (ERROR_INVALID_PARAMETER, h)
  else (SUCCESS, set_flags true (g_spi_initialized h) (g_adc_initialized h) h).

Definition i2c_addr_ok (address : Z) : bool := address <=? 127.

(** [I2C::beginTransmission(address)]. *)
Definition beginTransmission (address : Z) (h : hal) : Result :=
  if negb (g_i2c_initialized h) then ERROR_NOT_INITIALIZED
  else if negb (i2c_addr_ok address) then ERROR_INVALID_PARAMETER
  else SUCCESS.

(** [I2C::write(data)] and [I2C::write(data, length)]; [data] is [None]
    for [nullptr]. *)
Definition i2c_write_byte (d : Z) (h : hal) : Result :=
  if negb (g_i2c_initialized h) then ERROR_NOT_INITIALIZED
  else if arduino then (if wire_write 1 =? 1 then SUCCESS else ERROR_COMMUNICATION_FAILED)
  else SUCCESS.

Definition i2c_write (data : option (list Z)) (len : Z) (h : hal) : Result :=
  if negb (g_i2c_initialized h) then ERROR_NOT_INITIALIZED
  else if bool_decide (data = None) || (len =? 0) then ERROR_INVALID_PARAMETER
  else if arduino then (if wire_write len =? len then SUCCESS else ERROR_COMMUNICATION_FAILED)
  else SUCCESS.

(** [I2C::endTransmission(sendStop)]: the Wire status codes 0-5. *)
Definition endTransmission (sendStop : bool) (h : hal) : Result :=
  if negb (g_i2c_initialized h) then ERROR_NOT_INITIALIZED
  else if arduino then
    let r := wire_end sendStop in
    if r =? 0 then SUCCESS
    else if (1 <=? r) && (r <=? 4) then ERROR_COMMUNICATION_FAILED
    else if r =? 5 then ERROR_TIMEOUT
    else ERROR_HARDWARE_FAULT
  else SUCCESS.

(** [I2C::requestFrom(address, length)]. *)
Definition requestFrom (address len : Z) (h : hal) : Result :=
  if negb (g_i2c_initialized h) then ERROR_NOT_INITIALIZED
  else if negb (i2c_addr_ok address) || (len =? 0) then ERROR_INVALID_PARAMETER
  else if arduino then (if wire_request address len =? len then SUCCESS else ERROR_COMMUNICATION_FAILED)
  else SUCCESS.

Definition i2c_available (h : hal) : Z :=
  if negb (g_i2c_initialized h) then 0 else if arduino then wire_available else 0.

Definition i2c_read (h : hal) : Z :=
  if negb (g_i2c_initialized h) then -1 else if arduino then wire_read else -1.

(** [I2C::reset()]. *)
Definition i2c_reset (h : hal) : hal :=
  if g_i2c_initialized h then set_flags false (g_spi_initialized h) (g_adc_initialized h) h else h.

(** ** SPI *)

(** [SPI::initialize()]. *)
Definition spi_initialize (h : hal) : Result * hal :=
  if negb (g_initialized h) then (ERROR_NOT_INITIALIZED, h)
  else (SUCCESS, set_flags (g_i2c_initialized h) true (g_adc_initialized h) h).

(** [SPI::beginTransaction] and [SPI::endTransaction]. *)
Definition spi_guarded (h : hal) : Result :=
  if negb (g_spi_initialized h) then ERROR_NOT_INITIALIZED else SUCCESS.

(** [SPI::transfer(data)]: the mock echoes the byte. *)
Definition spi_transfer_byte (d : Z) (h : hal) : Z :=
  if negb (g_spi_initialized h) then 0 else if arduino then spi_transfer d else d.

(** [SPI::transfer(data, length)]: full duplex in place; [nullptr] is
    [None]. The result is the buffer afterwards; the board build reads and
    writes [length] bytes, past the buffer when it is shorter: [None]. *)
Definition spi_transfer_buf (data : option (list Z)) (len : nat) (h : hal) : option (option (list Z)) :=
  if negb (g_spi_initialized h) then Some data else
  match data with
  | None => Some None
  | Some d =>
    if arduino then
      if (length d <? len)%nat then None else Some (Some (map spi_transfer (take len d) ++ drop len d))
    else Some data
  end.

(** [SPI::endTransaction()]. *)
Definition spi_endTransaction (h : hal) : Result :=
  if negb (g_spi_initialized h) then ERROR_NOT_INITIALIZED else SUCCESS.

(** ** PWM *)

(** The LEDC channel of a GPIO: [pin % 8]. *)
Definition ledc_channel (pin : Z) : Z := pin mod 8.

(** [PWM::initialize(pin, frequency)]. *)
Definition pwm_initialize (pin freq : Z) (h : hal) : Result * hal :=
  if negb (g_initialized h) then (ERROR_NOT_INITIALIZED, h)
  else if negb (pin_ok pin) then (ERROR_INVALID_PARAMETER, h)
  else if arduino then
    if negb (s_ledc_initialized h) && negb (ledc_timer_config_ret freq =? ESP_OK) then (ERROR_INIT_FAILED, h) else
    let h1 := set_ledc true (ledc_gpio h) (ledc_duty h) h in
    if ledc_channel_config_ret pin =? ESP_OK then
      (SUCCESS, set_ledc true (<[ledc_channel pin := pin]> (ledc_gpio h1))
                              (<[ledc_channel pin := 0]> (ledc_duty h1)) h1)
    else (ERROR_INIT_FAILED, h1)
  else (SUCCESS, h).

(** [PWM::setDutyCycle(pin, dutyCycle)]. *)
Definition setDutyCycle (pin duty : Z) (h : hal) : Result * hal :=
  if negb (g_initialized h) then (ERROR_NOT_INITIALIZED, h)
  else if negb (pin_ok pin) || (1023 <? duty) then (ERROR_INVALID_PARAMETER, h)
  else if arduino then
    let ch := ledc_channel pin in
    if negb (ledc_set_duty_ret ch duty =? ESP_OK) then (ERROR_HARDWARE_FAULT, h)
    else if ledc_update_duty_ret ch =? ESP_OK then
      (SUCCESS, set_ledc (s_ledc_initialized h) (ledc_gpio h) (<[ch := duty]> (ledc_duty h)) h)
    else (ERROR_HARDWARE_FAULT, h)
  else (SUCCESS, h).

(** [PWM::stop(pin)]: the channel output goes idle (level 0). *)
Definition pwm_stop (pin : Z) (h : hal) : Result * hal :=
  if negb (g_initialized h) then (ERROR_NOT_INITIALIZED, h)
  else if negb (pin_ok pin) then (ERROR_INVALID_PARAMETER, h)
  else if arduino then
    let ch := ledc_channel pin in
    if ledc_stop_ret ch =? ESP_OK then
      (SUCCESS, set_ledc (s_ledc_initialized h) (ledc_gpio h) (<[ch := 0]> (ledc_duty h)) h)
    else (ERROR_HARDWARE_FAULT, h)
  else (SUCCESS, h).

(** ** ADC *)

(** [ADC::initialize()]. *)
Definition adc_initialize (h : hal) : Result * hal :=
  if negb (g_initialized h) then (ERROR_NOT_INITIALIZED, h)
  else if arduino then
    if g_adc_initialized h then (SUCCESS, h)
    else if negb (adc_width_ret =? ESP_OK) then (ERROR_INIT_FAILED, h)
    else if negb adc_calloc_ok then (ERROR_INIT_FAILED, set_adc (g_adc_initialized h) false h)
    else (SUCCESS, set_adc true true h)
  else (SUCCESS, set_adc true (s_adc_chars h) h).

(** The [switch] from GPIO to ADC1 channel of the board build. *)
Definition adc_channel (pin : Z) : option Z :=
  if (1 <=? pin) && (pin <=? 10) then Some (pin - 1)
  else if (11 <=? pin) && (pin <=? 20) then Some (pin - 11)
  else None.

(** [ADC::read(pin, value)]: the status and the value written. *)
Definition adc_read (pin : Z) (h : hal) : Result * option Z :=
  if negb (g_adc_initialized h) then (ERROR_NOT_INITIALIZED, None)
  else if arduino then
    match adc_channel pin with
    | None => (ERROR_INVALID_PARAMETER, None)
    | Some ch =>
      if negb (adc_atten_ret ch =? ESP_OK) then (ERROR_HARDWARE_FAULT, None)
      else let raw := adc_raw ch in
           if raw <? 0 then (ERROR_HARDWARE_FAULT, None) else (SUCCESS, Some (raw mod 65536))
    end
  else if 20 <? pin then (ERROR_INVALID_PARAMETER, None)
  else (SUCCESS, Some 2048).

(** [(raw_value / 4095.0f) * 3.3f]. *)
Definition raw_to_volts (raw : Z) : Q := (inject_Z raw / 4095 * (33 # 10))%Q.

(** [ADC::readVoltage(pin, voltage)]. *)
Definition readVoltage (pin : Z) (h : hal) : Result * option Q :=
  if negb (g_adc_initialized h) then (ERROR_NOT_INITIALIZED, None) else
  match adc_read pin h with
  | (SUCCESS, Some raw) =>
    (SUCCESS, Some (if arduino && s_adc_chars h then (inject_Z (adc_cal_mv raw) / 1000)%Q else raw_to_volts raw))
  | (r, _) => (r, None)
  end.

(** [ADC::setResolution(bits)]. *)
Definition setResolution (bits : Z) (h : hal) : Result :=
  if negb (g_adc_initialized h) then ERROR_NOT_INITIALIZED
  else if (bits <? 9) || (12 <? bits) then ERROR_INVALID_PARAMETER
  else if arduino then
    if negb (bits =? 12) then ERROR_INVALID_PARAMETER
    else if adc_width_ret =? ESP_OK then SUCCESS else ERROR_HARDWARE_FAULT
  else SUCCESS.

(** ** Power *)

(** [Power::enableVext()] and [Power::disableVext()]. *)
Definition vext_guarded (h : hal) : Result :=
  if negb (g_initialized h) then ERROR_NOT_INITIALIZED else SUCCESS.

(** [Power::sleep(mode, timeMs)]: [esp_deep_sleep_start()] does not return. *)
Definition power_sleep (m : power_mode) (timeMs : Z) (h : hal) : Result * hal :=
  if negb (g_initialized h) then (ERROR_NOT_INITIALIZED, h)
  else if arduino then
    match m with DEEP_SLEEP => (SUCCESS, set_halted h) | _ => (SUCCESS, h) end
  else (SUCCESS, h).

(** [Power::getBatteryVoltage()]: ADC pin 37 behind a 2:1 divider. *)
Definition getBatteryVoltage (h : hal) : Q :=
  if arduino then
    match adc_read 37 h with
    | (SUCCESS, Some raw) => (raw_to_volts raw * 2)%Q
    | _ => 0%Q
    end
  else 0%Q.

(** The linear Li-Ion mapping of [getBatteryPercent], truncated by the
    [uint8_t] cast. *)
Definition battery_percent (v : Q) : Z :=
  if Qlt_le_dec v 3%Q then 0
  else if Qlt_le_dec (42 # 10) v then 100
  else Qfloor ((v - 3) / (12 # 10) * 100)%Q.

(** [Power::getBatteryPercent()]. *)
Definition getBatteryPercent (h : hal) : Z := battery_percent (getBatteryVoltage h).

(** ** Non-volatile storage *)

(** [Memory::nvs_open(namespace_name)]; [name] is [None] for [nullptr]. On
    the board a failing [::nvs_open] leaves [g_nvs_handle] as it was, the
    handle just closed included. *)
Definition nvs_open (name : option string) (h : hal) : Result * hal :=
  if negb (g_initialized h) || bool_decide (name = None) then (ERROR_INVALID_PARAMETER, h)
  else if arduino then
    if nvs_open_ret =? ESP_OK then (SUCCESS, set_nvs nvs_open_handle h) else (ERROR_INIT_FAILED, h)
  else (SUCCESS, set_nvs 1 h).

(** [Memory::nvs_get(key, value, length)]. *)
Definition nvs_get (key : option string) (value : option (list Z)) (h : hal) : Result :=
  if (g_nvs_handle h =? 0) || bool_decide (key = None) || bool_decide (value = None) then ERROR_INVALID_PARAMETER
  else if arduino then
    let r := nvs_get_ret in
    if r =? ESP_OK then SUCCESS
    else if r =? ESP_ERR_NVS_NOT_FOUND then ERROR_COMMUNICATION_FAILED
    else if r =? ESP_ERR_NVS_INVALID_LENGTH then ERROR_INVALID_PARAMETER
    else ERROR_HARDWARE_FAULT
  else SUCCESS.

(** [Memory::nvs_set(key, value, length)]. *)
Definition nvs_set (key : option string) (value : option (list Z)) (h : hal) : Result :=
  if (g_nvs_handle h =? 0) || bool_decide (key = None) || bool_decide (value = None) then ERROR_INVALID_PARAMETER
  else if arduino then (if nvs_set_ret =? ESP_OK then SUCCESS else ERROR_HARDWARE_FAULT)
  else SUCCESS.

(** [Memory::nvs_commit()]. *)
Definition nvs_commit (h : hal) : Result :=
  if g_nvs_handle h =? 0 then ERROR_INVALID_PARAMETER
  else if arduino then (if nvs_commit_ret =? ESP_OK then SUCCESS else ERROR_HARDWARE_FAULT)
  else SUCCESS.

(** [Memory::nvs_close()]. *)
Definition nvs_close (h : hal) : Result * hal :=
  if g_nvs_handle h =? 0 then (ERROR_INVALID_PARAMETER, h) else (SUCCESS, set_nvs 0 h).

(** ** Memory and system information *)

(** [Memory::getFreeHeap()], [getMinFreeHeap()], [getMaxAllocHeap()]. *)
Definition getFreeHeap : Z := if arduino then free_heap else 200000.
Definition getMinFreeHeap : Z := if arduino then min_free_heap else 150000.
Definition getMaxAllocHeap : Z := if arduino then largest_free_block else 100000.

(** [struct System::Info]; [cpuFreq] is a [float]. *)
Record sys_info := mkInfo {
  chipModel : string; chipRevision : Z; chipId : Z; flashSize : Z;
  freeHeap : Z; uptime : Z; cpuFreq : Q
}.

(** [System::getSystemInfo(info)]: on the board [uptime] is the Arduino
    [millis()] ([now]) and [chipId] the 64-bit eFuse MAC stored in a
    [uint32_t]; the host build's mock reads [Timer::millis()]. *)
Definition getSystemInfo (now : Z) (h : hal) : sys_info * hal :=
  if arduino then
    (mkInfo "ESP32-S3" (chip_revision mod 256) (u32 efuse_mac) (u32 flash_chip_size) (u32 free_heap)
            (u32 now) (inject_Z cpu_freq_mhz), h)
  else
    let '(m, t) := millis arduino now (tm h) in
    (mkInfo "ESP32-S3-Mock" 1 305419896 8388608 200000 m (inject_Z 240), set_tm t h).

(** [System::restart()]: the board reboots and every static of the layer
    starts again from its initialiser; the host build does nothing. *)
Definition restart (h : hal) : hal := if arduino then hal_boot else h.

(** The task watchdog calls of [enableWatchdog], [feedWatchdog] and
    [disableWatchdog] ([esp_task_wdt_init(timeout_s, panic)], [_add(NULL)],
    [_reset()], [_delete(NULL)], [_deinit()]). *)
Inductive wdt_call := WdtInit (timeout_s : Z) (panic : bool) | WdtAdd | WdtReset | WdtDelete | WdtDeinit.

Definition enableWatchdog (timeoutMs : Z) : list wdt_call :=
  if arduino then [WdtInit (timeoutMs / 1000) true; WdtAdd] else [].
Definition feedWatchdog : list wdt_call := if arduino then [WdtReset] else [].
Definition disableWatchdog : list wdt_call := if arduino then [WdtDelete; WdtDeinit] else [].

(** [Memory::allocate(size)]: [malloc] in both builds; [res] is what
    [malloc] returns, a block that is not live or [NULL]. The live blocks
    are the set [hp]. *)
Definition allocate (res : option Z) (hp : gset Z) : option Z * gset Z :=
  match res with Some p => (Some p, {[p]} ∪ hp) | None => (None, hp) end.

(** [Memory::deallocate(ptr)]: [free] of a non-null pointer; freeing a
    block that is not live is undefined behaviour ([None]). *)
Definition deallocate (ptr : option Z) (hp : gset Z) : option (gset Z) :=
  match ptr with
  | None => Some hp
  | Some p => if bool_decide (p ∈ hp) then Some (hp ∖ {[p]}) else None
  end.

(** ** The timer subsystem inside the layer *)

Definition hal_timer_initialize (h : hal) : Result * hal :=
  let '(r, t) := timer_initialize (g_initialized h) (tm h) in (r, set_tm t h).
End Hal.

(** The state-changing calls of the layer, in any order. *)
Inductive hal_step `{EspPlatform} (arduino : bool) : hal -> hal -> Prop :=
  | hs_initialize h : hal_step arduino h (hal_initialize arduino h).2
  | hs_deinitialize h : hal_step arduino h (deinitialize arduino h)
  | hs_i2c_initialize sda scl f h : hal_step arduino h (i2c_initialize sda scl f h).2
  | hs_i2c_reset h : hal_step arduino h (i2c_reset h)
  | hs_spi_initialize h : hal_step arduino h (spi_initialize h).2
  | hs_pwm_initialize pin f h : hal_step arduino h (pwm_initialize arduino pin f h).2
  | hs_setDutyCycle pin d h : hal_step arduino h (setDutyCycle arduino pin d h).2
  | hs_pwm_stop pin h : hal_step arduino h (pwm_stop arduino pin h).2
  | hs_adc_initialize h : hal_step arduino h (adc_initialize arduino h).2
  | hs_sleep m ms h : hal_step arduino h (power_sleep arduino m ms h).2
  | hs_nvs_open nm h : hal_step arduino h (nvs_open arduino nm h).2
  | hs_nvs_close h : hal_step arduino h (nvs_close h).2
  | hs_timer_initialize h : hal_step arduino h (hal_timer_initialize h).2
  | hs_millis now h : hal_step arduino h (set_tm (millis arduino now (tm h)).2 h)
  | hs_createTimer now iv rep cb h : hal_step arduino h (set_tm (createTimer arduino now iv rep cb (tm h)).2 h)
  | hs_startTimer now i h : hal_step arduino h (set_tm (startTimer arduino now i (tm h)).2 h)
  | hs_stopTimer i h : hal_step arduino h (set_tm (stopTimer i (tm h)).2 h)
  | hs_deleteTimer i h : hal_step arduino h (set_tm (deleteTimer i (tm h)).2 h)
  | hs_processTimers now h : hal_step arduino h (set_tm (processTimers arduino now (tm h)).2 h).

(** The layer's invariant: no subsystem is initialised while the layer is not. *)
Definition hal_inv (h : hal) : Prop :=
  g_initialized h = false ->
  g_i2c_initialized h = false /\ g_spi_initialized h = false /\ g_adc_initialized h = false /\
  s_timer_initialized (tm h) = false.

(** The platform of a board on which every ESP-IDF call succeeds. *)
Definition esp_all_ok : EspPlatform := {|
  nvs_flash_init_first := ESP_OK; nvs_flash_erase_ret := ESP_OK; nvs_flash_init_again := ESP_OK;
  wire_write n := n; wire_end _ := 0; wire_request _ n := n; wire_available := 0; wire_read := -1;
  spi_transfer d := d; pin_level _ := 0;
  ledc_timer_config_ret _ := ESP_OK; ledc_channel_config_ret _ := ESP_OK; ledc_set_duty_ret _ _ := ESP_OK;
  ledc_update_duty_ret _ := ESP_OK; ledc_stop_ret _ := ESP_OK;
  adc_width_ret := ESP_OK; adc_calloc_ok := true; adc_atten_ret _ := ESP_OK; adc_raw _ := 2048;
  adc_cal_mv _ := 1650;
  nvs_open_ret := ESP_OK; nvs_open_handle := 7; nvs_get_ret := ESP_OK; nvs_set_ret := ESP_OK;
  nvs_commit_ret := ESP_OK;
  free_heap := 250000; min_free_heap := 180000; largest_free_block := 110000; chip_revision := 0;
  efuse_mac := 254677853407332; flash_chip_size := 8388608; cpu_freq_mhz := 240 |}.

(** The host build after [initialize()] and [nvs_open("app")]. *)
Definition host_nvs_open : hal :=
  (@nvs_open esp_all_ok false (Some "app"%string) (@hal_initialize esp_all_ok false hal_boot).2).2.

(** The host build after [initialize()]; on it, the mock PWM functions. *)
Definition host_ready : hal := (@hal_initialize esp_all_ok false hal_boot).2.

(** A board state as if [initialize()] had succeeded. *)
Definition board_ready : hal := set_init true hal_boot.

(** ** Lemmas *)

Section TimerInit.
Variable arduino : bool.

Lemma millis_init now t : s_timer_initialized (millis arduino now t).2 = s_timer_initialized t.
Proof. apply millis_slots. Qed.

Lemma createTimer_init now iv rep cb t :
  s_timer_initialized (createTimer arduino now iv rep cb t).2 = s_timer_initialized t.
Proof.
  unfold createTimer. destruct (_ || _); [reflexivity|].
  destruct (list_find _ _) as [[i x]|]; [|reflexivity].
  pose proof (millis_init now t) as E. destruct (millis arduino now t). exact E.
Qed.

Lemma startTimer_init now i t : s_timer_initialized (startTimer arduino now i t).2 = s_timer_initialized t.
Proof.
  unfold startTimer. destruct i; [|reflexivity]. destruct (negb _); [reflexivity|].
  pose proof (millis_init now t) as E. destruct (millis arduino now t). exact E.
Qed.

Lemma stopTimer_init i t : s_timer_initialized (stopTimer i t).2 = s_timer_initialized t.
Proof. unfold stopTimer. destruct i; [destruct (negb _)|]; reflexivity. Qed.

Lemma deleteTimer_init i t : s_timer_initialized (deleteTimer i t).2 = s_timer_initialized t.
Proof. unfold deleteTimer. destruct i; [destruct (negb _)|]; reflexivity. Qed.

Lemma processTimers_init now t : s_timer_initialized (processTimers arduino now t).2 = s_timer_initialized t.
Proof.
  unfold processTimers. destruct (s_timer_initialized t) eqn:Hi; [|simpl; congruence].
  pose proof (millis_init now t) as E. destruct (millis arduino now t) as [m t1].
  destruct (process_slots _ _ _). simpl in *. congruence.
Qed.
End TimerInit.

Section Invariant.
Context `{EspPlatform}.
Variable arduino : bool.

(** A step that leaves the four flags as they were. *)
Lemma hal_inv_same h h' :
  g_initialized h' = g_initialized h -> g_i2c_initialized h' = g_i2c_initialized h ->
  g_spi_initialized h' = g_spi_initialized h -> g_adc_initialized h' = g_adc_initialized h ->
  s_timer_initialized (tm h') = s_timer_initialized (tm h) -> hal_inv h -> hal_inv h'.
Proof. unfold hal_inv. intros E1 E2 E3 E4 E5 Hi Hg. rewrite E1 in Hg. rewrite E2, E3, E4, E5. auto. Qed.

Ltac same_flags := eapply hal_inv_same; [..|eassumption]; simpl;
  rewrite ?millis_init, ?createTimer_init, ?startTimer_init, ?stopTimer_init, ?deleteTimer_init,
    ?processTimers_init; reflexivity.

Lemma hal_step_inv h h' : hal_step arduino h h' -> hal_inv h -> hal_inv h'.
Proof.
  intros Hs Hi. destruct Hs.
  - unfold hal_initialize. destruct (g_initialized h) eqn:E; [exact Hi|].
    destruct arduino; [|intros Hg; discriminate Hg].
    cbn [timer_initialize negb].
    repeat (case_match; try (simpl; same_flags)).
  - unfold deinitialize. destruct (g_initialized h) eqn:E; [|exact Hi].
    intros _. destruct arduino; simpl; auto.
  - unfold i2c_initialize. destruct (g_initialized h) eqn:E; simpl; [|exact Hi].
    case_match; [exact Hi|]. intros Hg; simpl in Hg; congruence.
  - unfold i2c_reset. case_match; [|exact Hi]. unfold hal_inv in *. simpl. intros Hg. destruct (Hi Hg) as (? & ? & ? & ?). auto.
  - unfold spi_initialize. destruct (g_initialized h) eqn:E; simpl; [|exact Hi].
    intros Hg; simpl in Hg; congruence.
  - unfold pwm_initialize. repeat (case_match; try same_flags).
  - unfold setDutyCycle. repeat (case_match; try same_flags).
  - unfold pwm_stop. repeat (case_match; try same_flags).
  - unfold adc_initialize. destruct (g_initialized h) eqn:E; simpl; [|exact Hi].
    repeat case_match; simpl; try exact Hi; intros Hg; simpl in Hg; congruence.
  - unfold power_sleep. repeat (case_match; try same_flags).
  - unfold nvs_open. repeat (case_match; try same_flags).
  - unfold nvs_close. repeat (case_match; try same_flags).
  - unfold hal_timer_initialize, timer_initialize. destruct (g_initialized h) eqn:E.
    + repeat case_match; simpl; intros Hg; simpl in Hg; congruence.
    + simpl. same_flags.
  - same_flags.
  - same_flags.
  - same_flags.
  - same_flags.
  - same_flags.
  - same_flags.
Qed.

Lemma hal_rtc_inv h h' : rtc (hal_step arduino) h h' -> hal_inv h -> hal_inv h'.
Proof. induction 1; eauto using hal_step_inv. Qed.
End Invariant.

Lemma set_tm_same h : set_tm (tm h) h = h.
Proof. destruct h; reflexivity. Qed.

(** On the board, a failing [initialize] leaves [g_initialized] false: the
    timer subsystem it starts first requires it. *)
Lemma board_initialize_not_init `{EspPlatform} h :
  g_initialized h = false ->
  (hal_initialize true h).1 = ERROR_INIT_FAILED /\ g_initialized (hal_initialize true h).2 = false.
Proof.
  intros Hg. unfold hal_initialize. rewrite Hg. cbn [timer_initialize negb].
  repeat case_match; simpl; auto; rewrite bool_decide_false in * by discriminate; discriminate.
Qed.

Lemma board_step_not_init `{EspPlatform} h h' :
  hal_step true h h' -> g_initialized h = false -> g_initialized h' = false.
Proof.
  intros Hs Hg. destruct Hs;
    try (unfold i2c_initialize, i2c_reset, spi_initialize, pwm_initialize, setDutyCycle, pwm_stop,
           adc_initialize, power_sleep, nvs_open, nvs_close, hal_timer_initialize;
         repeat case_match; simpl in *; congruence).
  - apply board_initialize_not_init, Hg.
  - unfold deinitialize. rewrite Hg. exact Hg.
Qed.

Lemma board_rtc_not_init `{EspPlatform} h h' :
  rtc (hal_step true) h h' -> g_initialized h = false -> g_initialized h' = false.
Proof. induction 1; eauto using board_step_not_init. Qed.

Lemma adc_channel_37 : adc_channel 37 = None.
Proof. reflexivity. Qed.

Lemma getBatteryVoltage_zero `{EspPlatform} arduino h : getBatteryVoltage arduino h = 0%Q.
Proof.
  unfold getBatteryVoltage, adc_read. destruct arduino; [|reflexivity].
  rewrite adc_channel_37. destruct (negb _); reflexivity.
Qed.

Lemma Qfloor_bounds (y : Q) (lo hi : Z) :
  (inject_Z lo <= y)%Q -> (y <= inject_Z hi)%Q -> lo <= Qfloor y <= hi.
Proof.
  intros Hlo Hhi. rewrite <- (Qfloor_Z lo), <- (Qfloor_Z hi).
  split; apply Qfloor_resp_le; assumption.
Qed.

Lemma battery_scaled_range (v : Q) :
  (3 <= v)%Q -> (v <= 42 # 10)%Q -> (inject_Z 0 <= (v - 3) / (12 # 10) * 100 <= inject_Z 100)%Q.
Proof.
  intros H1 H2. setoid_replace ((v - 3) / (12 # 10) * 100)%Q with ((v - 3) * (250 # 3))%Q using relation Qeq by field.
  unfold inject_Z. split; lra.
Qed.

(** ** Properties *)

Section Properties.
Context `{EspPlatform}.

(** C16: in every state reachable from boot through the layer's calls, in
    either build, no bus, ADC or timer subsystem is initialised while the
    layer itself is not. *)
Theorem hal_reachable_inv arduino h : rtc (hal_step arduino) hal_boot h -> hal_inv h.
Proof.
  intros Hr. apply (hal_rtc_inv arduino hal_boot); [exact Hr|].
  intros _. repeat split.
Qed.

(** C15: on the board, [initialize()] never succeeds: after NVS is up it calls
    [Timer::initialize()], which fails because [g_initialized] is not yet
    set; so in every reachable state the layer is uninitialised and every
    GPIO call reports [ERROR_NOT_INITIALIZED]. *)
Theorem board_never_initialized h :
  rtc (hal_step true) hal_boot h ->
  (hal_initialize true h).1 = ERROR_INIT_FAILED /\ g_initialized h = false /\
  forall pin m, pinMode pin m h = ERROR_NOT_INITIALIZED.
Proof.
  intros Hr. assert (Hg : g_initialized h = false) by (eapply board_rtc_not_init; [exact Hr|reflexivity]).
  split; [apply board_initialize_not_init, Hg|]. split; [exact Hg|].
  intros pin m. unfold pinMode, gpio_guarded. rewrite Hg. reflexivity.
Qed.

(** Before [initialize()], every guarded entry point reports
    [ERROR_NOT_INITIALIZED] (or [ERROR_INVALID_PARAMETER] for [nvs_open]) and
    changes nothing. *)
Theorem guards_before_init arduino h pin m sda scl f nm :
  g_initialized h = false ->
  pinMode pin m h = ERROR_NOT_INITIALIZED /\ digitalWrite pin 1 h = ERROR_NOT_INITIALIZED /\
  i2c_initialize sda scl f h = (ERROR_NOT_INITIALIZED, h) /\ spi_initialize h = (ERROR_NOT_INITIALIZED, h) /\
  pwm_initialize arduino pin f h = (ERROR_NOT_INITIALIZED, h) /\
  adc_initialize arduino h = (ERROR_NOT_INITIALIZED, h) /\
  hal_timer_initialize h = (ERROR_NOT_INITIALIZED, h) /\ nvs_open arduino nm h = (ERROR_INVALID_PARAMETER, h).
Proof.
  intros Hg. unfold pinMode, digitalWrite, gpio_guarded, i2c_initialize, spi_initialize, pwm_initialize,
    adc_initialize, hal_timer_initialize, timer_initialize, nvs_open.
  rewrite Hg. simpl. rewrite set_tm_same. repeat split.
Qed.

(** C32: the battery percentage is always 0: on the board GPIO 37 has no ADC
    channel in the [switch] of [ADC::read], so [getBatteryVoltage()] falls
    back to 0 V, as it does in the host build. *)
Theorem battery_percent_always_zero arduino h : getBatteryPercent arduino h = 0.
Proof. unfold getBatteryPercent. rewrite getBatteryVoltage_zero. reflexivity. Qed.

(** The Li-Ion mapping of [getBatteryPercent] stays within 0..100 for
    every voltage. *)
Theorem battery_percent_bounds v : 0 <= battery_percent v <= 100.
Proof.
  unfold battery_percent. destruct (Qlt_le_dec v 3); [lia|]. destruct (Qlt_le_dec (42 # 10) v); [lia|].
  apply Qfloor_bounds; apply battery_scaled_range; assumption.
Qed.

(** In the host build [deinitialize()] leaves the NVS handle open, so
    [nvs_set] still succeeds on an uninitialised layer; the board build
    closes it and refuses. *)
Theorem host_nvs_survives_deinit h k v :
  g_initialized h = true -> g_nvs_handle h <> 0 ->
  g_initialized (deinitialize false h) = false /\ nvs_set false (Some k) (Some v) (deinitialize false h) = SUCCESS /\
  g_nvs_handle (deinitialize true h) = 0 /\
  nvs_set true (Some k) (Some v) (deinitialize true h) = ERROR_INVALID_PARAMETER.
Proof.
  intros Hg Hn. unfold deinitialize, nvs_set. rewrite Hg. simpl.
  apply Z.eqb_neq in Hn. rewrite Hn. repeat split.
Qed.

(** On the board the LEDC channel is [pin % 8]: after [PWM::initialize]
    on GPIO 1 and then on GPIO 9, channel 1 drives GPIO 9, and a duty set
    for GPIO 1 goes to GPIO 9. *)
Theorem pwm_channel_collision h f :
  g_initialized h = true -> ledc_timer_config_ret f = ESP_OK ->
  ledc_channel_config_ret 1 = ESP_OK -> ledc_channel_config_ret 9 = ESP_OK ->
  ledc_set_duty_ret 1 512 = ESP_OK -> ledc_update_duty_ret 1 = ESP_OK ->
  let h2 := (pwm_initialize true 9 f (pwm_initialize true 1 f h).2).2 in
  (setDutyCycle true 1 512 h2).1 = SUCCESS /\
  ledc_gpio (setDutyCycle true 1 512 h2).2 !! 1 = Some 9 /\
  ledc_duty (setDutyCycle true 1 512 h2).2 !! 1 = Some 512.
Proof.
  intros Hg Ht H1 H9 Hd Hu h2. subst h2.
  unfold pwm_initialize, setDutyCycle. change (ledc_channel 1) with 1; change (ledc_channel 9) with 1.
  destruct (s_ledc_initialized h); do 4 (cbn; rewrite ?Hg, ?Ht, ?H1, ?H9, ?Hd, ?Hu);
    repeat split; simplify_map_eq; reflexivity.
Qed.
(** The layer's memory calls keep the heap: freeing a block [allocate]
    returned gives the heap back, freeing [NULL] does nothing, and freeing
    a block that is not live (a second [deallocate] of the same block) is
    undefined behaviour. *)
Theorem allocate_deallocate_roundtrip p hp :
  p ∉ hp ->
  deallocate (fst (allocate (Some p) hp)) (snd (allocate (Some p) hp)) = Some hp /\
  deallocate None hp = Some hp /\ deallocate (Some p) hp = None.
Proof.
  intros Hp. cbn. rewrite bool_decide_true by set_solver. rewrite bool_decide_false by exact Hp.
  split; [|split; reflexivity]. f_equal. apply leibniz_equiv. set_solver.
Qed.

End Properties.

(** ** Witnesses *)

Example hal_reachable_inv_witness : hal_inv host_ready.
Proof.
  apply (@hal_reachable_inv esp_all_ok false). apply rtc_once. apply (@hs_initialize esp_all_ok false).
Defined.

Example board_never_initialized_witness :
  let h := (@hal_initialize esp_all_ok true hal_boot).2 in
  (@hal_initialize esp_all_ok true h).1 = ERROR_INIT_FAILED /\ g_initialized h = false /\
  forall pin m, pinMode pin m h = ERROR_NOT_INITIALIZED.
Proof.
  apply (@board_never_initialized esp_all_ok). apply rtc_once. apply (@hs_initialize esp_all_ok true).
Defined.

Example guards_before_init_witness :
  pinMode 4 MODE_OUTPUT hal_boot = ERROR_NOT_INITIALIZED /\ digitalWrite 4 1 hal_boot = ERROR_NOT_INITIALIZED /\
  i2c_initialize 17 18 100000 hal_boot = (ERROR_NOT_INITIALIZED, hal_boot) /\
  spi_initialize hal_boot = (ERROR_NOT_INITIALIZED, hal_boot) /\
  @pwm_initialize esp_all_ok true 4 1000 hal_boot = (ERROR_NOT_INITIALIZED, hal_boot) /\
  @adc_initialize esp_all_ok true hal_boot = (ERROR_NOT_INITIALIZED, hal_boot) /\
  hal_timer_initialize hal_boot = (ERROR_NOT_INITIALIZED, hal_boot) /\
  @nvs_open esp_all_ok true (Some "app"%string) hal_boot = (ERROR_INVALID_PARAMETER, hal_boot).
Proof. exact (@guards_before_init esp_all_ok true hal_boot 4 MODE_OUTPUT 17 18 100000 _ eq_refl). Defined.

Example host_nvs_survives_deinit_witness :
  g_initialized (@deinitialize false host_nvs_open) = false /\
  @nvs_set esp_all_ok false (Some "k"%string) (Some [1]) (@deinitialize false host_nvs_open) = SUCCESS /\
  g_nvs_handle (@deinitialize true host_nvs_open) = 0 /\
  @nvs_set esp_all_ok true (Some "k"%string) (Some [1]) (@deinitialize true host_nvs_open) = ERROR_INVALID_PARAMETER.
Proof. exact (@host_nvs_survives_deinit esp_all_ok host_nvs_open _ _ eq_refl ltac:(discriminate)). Defined.

Example pwm_channel_collision_witness :
  let h2 := (@pwm_initialize esp_all_ok true 9 1000 (@pwm_initialize esp_all_ok true 1 1000 board_ready).2).2 in
  (@setDutyCycle esp_all_ok true 1 512 h2).1 = SUCCESS /\
  ledc_gpio (@setDutyCycle esp_all_ok true 1 512 h2).2 !! 1 = Some 9 /\
  ledc_duty (@setDutyCycle esp_all_ok true 1 512 h2).2 !! 1 = Some 512.
Proof.
  exact (@pwm_channel_collision esp_all_ok board_ready 1000 eq_refl eq_refl eq_refl eq_refl eq_refl eq_refl).
Defined.

Example allocate_deallocate_roundtrip_witness :
  deallocate (fst (allocate (Some 4096) {[8]})) (snd (allocate (Some 4096) {[8]})) = Some {[8]} /\
  deallocate None {[8]} = Some {[8]} /\ deallocate (Some 4096) {[8]} = None.
Proof. apply allocate_deallocate_roundtrip. apply (bool_decide_unpack (4096 ∉ ({[8]} : gset Z))). vm_compute. reflexivity. Defined.
