(* ===== verification/HalInterface.v ===== *)
(** * HalInterface: the layer's header as an interface, and its contract

    Source: [src/src/hardware/hardware_abstraction.h]. The header declares
    the functions of namespace [HardwareAbstraction] that its clients (the
    GPS driver, the tracker example) call; [hardware_abstraction.cpp]
    defines them. Here the header is the record [HAL] of operations over a
    state [S], one field per declaration, named after its namespace; the
    record [HAL_contract] states what a client may rely on: the lifecycle
    of [initialize]/[deinitialize], the guard every call makes before the
    layer is up, the parameter ranges the header documents ("0-1023", the
    7-bit I2C address, the 9..12-bit ADC resolution), the NVS handle
    discipline and distinct result names. [hal_impl] is the layer of
    [Hal.v] and [HalTimer.v] packed as a [HAL hal], in either build, and
    [hal_impl_contract] shows that it meets the contract; [Client] proves
    from the contract alone what happens to a client that ignores the
    result of [initialize]. *)

From stdpp Require Import base list gmap.
From Stdlib Require Import ZArith QArith String Lia.
From S2P Require Import Prelude HalTimer Hal.

Open Scope Z_scope.

(** [struct SPI::Settings]. *)
Record SPI_Settings := mkSPI_Settings { frequency : Z; bitOrder : Z; dataMode : Z }.

(** The declarations of [hardware_abstraction.h]. Pins, addresses,
    lengths and durations are [Z]; a callback or buffer pointer is an
    [option] ([None] for [nullptr]); a timer handle is the index of its
    slot; [now] and [now_us] are the board's clock readings. *)
Record HAL (S : Type) := mkHAL {
  GPIO_pinMode : Z -> pin_mode -> S -> Result;
  GPIO_digitalWrite : Z -> Z -> S -> Result;
  GPIO_digitalRead : Z -> S -> Z;
  GPIO_attachInterrupt : Z -> option Z -> Z -> S -> Result;
  GPIO_detachInterrupt : Z -> S -> Result;
  I2C_initialize : Z -> Z -> Z -> S -> Result * S;
  I2C_beginTransmission : Z -> S -> Result;
  I2C_write_byte : Z -> S -> Result;
  I2C_write : option (list Z) -> Z -> S -> Result;
  I2C_endTransmission : bool -> S -> Result;
  I2C_requestFrom : Z -> Z -> S -> Result;
  I2C_available : S -> Z;
  I2C_read : S -> Z;
  I2C_reset : S -> S;
  SPI_initialize : S -> Result * S;
  SPI_beginTransaction : SPI_Settings -> S -> Result;
  SPI_transfer_byte : Z -> S -> Z;
  SPI_transfer : option (list Z) -> nat -> S -> option (option (list Z));
  SPI_endTransaction : S -> Result;
  PWM_initialize : Z -> Z -> S -> Result * S;
  PWM_setDutyCycle : Z -> Z -> S -> Result * S;
  PWM_stop : Z -> S -> Result * S;
  ADC_initialize : S -> Result * S;
  ADC_read : Z -> S -> Result * option Z;
  ADC_readVoltage : Z -> S -> Result * option Q;
  ADC_setResolution : Z -> S -> Result;
  Timer_initialize : S -> Result * S;
  Timer_millis : Z -> S -> Z * S;
  Timer_micros : Z -> S -> Z * S;
  Timer_delay : Z -> S -> S;
  Timer_delayMicroseconds : Z -> S -> S;
  Timer_createTimer : Z -> Z -> bool -> option Z -> S -> option nat * S;
  Timer_startTimer : Z -> option nat -> S -> Result * S;
  Timer_stopTimer : option nat -> S -> Result * S;
  Timer_deleteTimer : option nat -> S -> Result * S;
  Timer_reset : S -> S;
  Power_enableVext : S -> Result;
  Power_disableVext : S -> Result;
  Power_sleep : power_mode -> Z -> S -> Result * S;
  Power_getBatteryVoltage : S -> Q;
  Power_getBatteryPercent : S -> Z;
  Memory_allocate : option Z -> gset Z -> option Z * gset Z;
  Memory_deallocate : option Z -> gset Z -> option (gset Z);
  Memory_getFreeHeap : Z;
  Memory_getMinFreeHeap : Z;
  Memory_getMaxAllocHeap : Z;
  Memory_nvs_open : option string -> S -> Result * S;
  Memory_nvs_get : option string -> option (list Z) -> S -> Result;
  Memory_nvs_set : option string -> option (list Z) -> S -> Result;
  Memory_nvs_commit : S -> Result;
  Memory_nvs_close : S -> Result * S;
  System_getSystemInfo : Z -> S -> sys_info * S;
  System_restart : S -> S;
  System_enableWatchdog : Z -> list wdt_call;
  System_feedWatchdog : list wdt_call;
  System_disableWatchdog : list wdt_call;
  initialize : S -> Result * S;
  isInitialized : S -> bool;
  deinitialize_ : S -> S;
  resultToString_ : Result -> string
}.

Arguments mkHAL {S}.
Arguments GPIO_pinMode {S}. Arguments GPIO_digitalWrite {S}. Arguments GPIO_digitalRead {S}.
Arguments GPIO_attachInterrupt {S}. Arguments GPIO_detachInterrupt {S}.
Arguments I2C_initialize {S}. Arguments I2C_beginTransmission {S}.
Arguments SPI_initialize {S}.
Arguments PWM_initialize {S}. Arguments PWM_setDutyCycle {S}. Arguments PWM_stop {S}.
Arguments ADC_initialize {S}. Arguments ADC_setResolution {S}.
Arguments Power_enableVext {S}. Arguments Power_disableVext {S}. Arguments Power_sleep {S}.
Arguments Memory_nvs_get {S}. Arguments Memory_nvs_set {S}. Arguments Memory_nvs_commit {S}.
Arguments Memory_nvs_close {S}.
Arguments initialize {S}. Arguments isInitialized {S}. Arguments deinitialize_ {S}.
Arguments resultToString_ {S}.

(** ** The layer of [hardware_abstraction.cpp] as a [HAL] *)

Section Impl.
Context `{EspPlatform}.
Variable arduino : bool.

(** A [Timer::] call on the layer's timer table. *)
Definition on_timer {A} (f : tstate -> A * tstate) (h : hal) : A * hal :=
  let '(a, t) := f (tm h) in (a, set_tm t h).

Definition hal_impl : HAL hal := mkHAL
  pinMode digitalWrite (digitalRead arduino) attachInterrupt detachInterrupt
  i2c_initialize beginTransmission (i2c_write_byte arduino) (i2c_write arduino) (endTransmission arduino)
  (requestFrom arduino) (i2c_available arduino) (i2c_read arduino) i2c_reset
  spi_initialize (fun _ => spi_guarded) (spi_transfer_byte arduino) (spi_transfer_buf arduino) spi_endTransaction
  (pwm_initialize arduino) (setDutyCycle arduino) (pwm_stop arduino)
  (adc_initialize arduino) (adc_read arduino) (readVoltage arduino) (setResolution arduino)
  hal_timer_initialize
  (fun now => on_timer (millis arduino now)) (fun now_us => on_timer (micros arduino now_us))
  (fun ms h => set_tm (delay ms (tm h)) h) (fun us h => set_tm (delayMicroseconds us (tm h)) h)
  (fun now iv rep cb => on_timer (createTimer arduino now iv rep cb))
  (fun now i => on_timer (startTimer arduino now i)) (fun i => on_timer (stopTimer i))
  (fun i => on_timer (deleteTimer i)) (fun h => set_tm (timer_reset (tm h)) h)
  vext_guarded vext_guarded (power_sleep arduino) (getBatteryVoltage arduino) (getBatteryPercent arduino)
  allocate deallocate (getFreeHeap arduino) (getMinFreeHeap arduino) (getMaxAllocHeap arduino)
  (nvs_open arduino) (nvs_get arduino) (nvs_set arduino) (nvs_commit arduino) nvs_close
  (getSystemInfo arduino) (restart arduino)
  (enableWatchdog arduino) (feedWatchdog arduino) (disableWatchdog arduino)
  (hal_initialize arduino) g_initialized (deinitialize arduino) resultToString.
End Impl.

(** ** The contract of the header *)

Section Contract.
Context {S : Type} (ops : HAL S).

(** Every call of GPIO, the bus initialisers, PWM, ADC and Power when the
    layer is not initialised: it reports [ERROR_NOT_INITIALIZED] (reads
    give [LEVEL_LOW]) and changes nothing. *)
Definition down_guarded (s : S) : Prop :=
  (forall pin m, GPIO_pinMode ops pin m s = ERROR_NOT_INITIALIZED) /\
  (forall pin l, GPIO_digitalWrite ops pin l s = ERROR_NOT_INITIALIZED) /\
  (forall pin, GPIO_digitalRead ops pin s = 0) /\
  (forall pin cb mode, GPIO_attachInterrupt ops pin cb mode s = ERROR_NOT_INITIALIZED) /\
  (forall pin, GPIO_detachInterrupt ops pin s = ERROR_NOT_INITIALIZED) /\
  (forall sda scl f, I2C_initialize ops sda scl f s = (ERROR_NOT_INITIALIZED, s)) /\
  SPI_initialize ops s = (ERROR_NOT_INITIALIZED, s) /\
  (forall pin f, PWM_initialize ops pin f s = (ERROR_NOT_INITIALIZED, s)) /\
  (forall pin d, PWM_setDutyCycle ops pin d s = (ERROR_NOT_INITIALIZED, s)) /\
  (forall pin, PWM_stop ops pin s = (ERROR_NOT_INITIALIZED, s)) /\
  ADC_initialize ops s = (ERROR_NOT_INITIALIZED, s) /\
  Power_enableVext ops s = ERROR_NOT_INITIALIZED /\ Power_disableVext ops s = ERROR_NOT_INITIALIZED /\
  (forall m ms, Power_sleep ops m ms s = (ERROR_NOT_INITIALIZED, s)).

(** A pin above GPIO 48 when the layer is up: rejected, nothing changed. *)
Definition pin_rejected (s : S) (pin : Z) : Prop :=
  (forall m, GPIO_pinMode ops pin m s = ERROR_INVALID_PARAMETER) /\
  (forall l, GPIO_digitalWrite ops pin l s = ERROR_INVALID_PARAMETER) /\
  (forall pin', I2C_initialize ops pin pin' 100000 s = (ERROR_INVALID_PARAMETER, s)) /\
  (forall f, PWM_initialize ops pin f s = (ERROR_INVALID_PARAMETER, s)) /\
  (forall d, PWM_setDutyCycle ops pin d s = (ERROR_INVALID_PARAMETER, s)).

(** After a successful [nvs_close] the handle is gone. *)
Definition nvs_gone (s : S) : Prop :=
  Memory_nvs_commit ops s = ERROR_INVALID_PARAMETER /\
  (forall k v, Memory_nvs_get ops k v s = ERROR_INVALID_PARAMETER) /\
  (forall k v, Memory_nvs_set ops k v s = ERROR_INVALID_PARAMETER) /\
  Memory_nvs_close ops s = (ERROR_INVALID_PARAMETER, s).

Record HAL_contract : Prop := {
  init_success s : fst (initialize ops s) = SUCCESS -> isInitialized ops (snd (initialize ops s)) = true;
  init_failure s : fst (initialize ops s) <> SUCCESS -> isInitialized ops (snd (initialize ops s)) = false;
  deinit_down s : isInitialized ops (deinitialize_ ops s) = false;
  down_guard s : isInitialized ops s = false -> down_guarded s;
  pin_range s pin : isInitialized ops s = true -> 48 < pin -> pin_rejected s pin;
  duty_range s pin d : isInitialized ops s = true -> 1023 < d -> PWM_setDutyCycle ops pin d s = (ERROR_INVALID_PARAMETER, s);
  i2c_address_range s sda scl f addr : fst (I2C_initialize ops sda scl f s) = SUCCESS -> 127 < addr ->
    I2C_beginTransmission ops addr (snd (I2C_initialize ops sda scl f s)) = ERROR_INVALID_PARAMETER;
  adc_resolution_range s bits : fst (ADC_initialize ops s) = SUCCESS -> bits < 9 \/ 12 < bits ->
    ADC_setResolution ops bits (snd (ADC_initialize ops s)) = ERROR_INVALID_PARAMETER;
  nvs_close_gone s : fst (Memory_nvs_close ops s) = SUCCESS -> nvs_gone (snd (Memory_nvs_close ops s));
  result_names r1 r2 : resultToString_ ops r1 = resultToString_ ops r2 -> r1 = r2
}.
End Contract.

(** ** The layer meets the contract *)

Section ImplContract.
Context `{EspPlatform}.
Variable arduino : bool.

Lemma impl_initialize_cases h :
  let '(r, h') := hal_initialize arduino h in
  (r = SUCCESS /\ g_initialized h' = true) \/ (r <> SUCCESS /\ g_initialized h' = false).
Proof.
  unfold hal_initialize. destruct (g_initialized h) eqn:E; [left; auto|].
  destruct arduino; [|left; auto]. unfold timer_initialize. cbn [negb].
  repeat case_match; simplify_eq; right; split; try discriminate; exact E.
Qed.

Lemma impl_down_guarded h : g_initialized h = false -> down_guarded (hal_impl arduino) h.
Proof.
  intros Hh. unfold down_guarded; cbn.
  unfold pinMode, digitalWrite, detachInterrupt, gpio_guarded, digitalRead, attachInterrupt, i2c_initialize,
    spi_initialize, pwm_initialize, setDutyCycle, pwm_stop, adc_initialize, vext_guarded, power_sleep.
  rewrite Hh. repeat split.
Qed.

Lemma impl_pin_rejected h pin : g_initialized h = true -> 48 < pin -> pin_rejected (hal_impl arduino) h pin.
Proof.
  intros Hh Hp. assert (Hok : pin_ok pin = false) by (apply Z.leb_gt; unfold MAX_GPIO; lia).
  unfold pin_rejected; cbn.
  unfold pinMode, digitalWrite, gpio_guarded, i2c_initialize, pwm_initialize, setDutyCycle.
  rewrite Hh, Hok. repeat split.
Qed.

Lemma impl_i2c_address h sda scl f addr :
  fst (i2c_initialize sda scl f h) = SUCCESS -> 127 < addr ->
  beginTransmission addr (snd (i2c_initialize sda scl f h)) = ERROR_INVALID_PARAMETER.
Proof.
  intros Hs Ha. unfold i2c_initialize in *. repeat case_match; simplify_eq; cbn in Hs; try discriminate.
  unfold beginTransmission, i2c_addr_ok. cbn. replace (addr <=? 127) with false by lia. reflexivity.
Qed.

Lemma impl_adc_resolution h bits :
  fst (adc_initialize arduino h) = SUCCESS -> bits < 9 \/ 12 < bits ->
  setResolution arduino bits (snd (adc_initialize arduino h)) = ERROR_INVALID_PARAMETER.
Proof.
  intros Hs Hb.
  assert (Ha : g_adc_initialized (snd (adc_initialize arduino h)) = true).
  { revert Hs. unfold adc_initialize. repeat case_match; cbn; congruence. }
  unfold setResolution. rewrite Ha. cbn [negb].
  replace ((bits <? 9) || (12 <? bits)) with true by lia. reflexivity.
Qed.

Lemma impl_nvs_close h : fst (nvs_close h) = SUCCESS -> nvs_gone (hal_impl arduino) (snd (nvs_close h)).
Proof.
  unfold nvs_close. case_match; cbn; [discriminate|]. intros _.
  unfold nvs_gone; cbn. unfold nvs_commit, nvs_get, nvs_set, nvs_close. cbn. repeat split.
Qed.

End ImplContract.

(** C17: The layer of [hardware_abstraction.cpp], in either build and on
    every platform, meets the contract of its header: [initialize] leaves
    the layer up exactly when it reports [SUCCESS]; [deinitialize] takes it
    down; while it is down every GPIO, bus-initialising, PWM, ADC and Power
    call reports [ERROR_NOT_INITIALIZED] and changes nothing; pins above 48,
    duty cycles above 1023, I2C addresses above 127 and ADC resolutions
    outside 9..12 are rejected; a closed NVS handle cannot be used again;
    and every result has its own name. *)
Theorem hal_impl_contract `{EspPlatform} arduino : HAL_contract (hal_impl arduino).
Proof.
  split; cbn.
  - intros h. pose proof (impl_initialize_cases arduino h) as Hc.
    destruct (hal_initialize arduino h); cbn. intuition congruence.
  - intros h. pose proof (impl_initialize_cases arduino h) as Hc.
    destruct (hal_initialize arduino h); cbn. intuition congruence.
  - intros h. unfold deinitialize. destruct (g_initialized h) eqn:E; [reflexivity | exact E].
  - apply impl_down_guarded.
  - apply impl_pin_rejected.
  - intros h pin d Hh Hd. unfold setDutyCycle. rewrite Hh. cbn [negb].
    replace (1023 <? d) with true by lia. now rewrite orb_true_r.
  - apply impl_i2c_address.
  - apply impl_adc_resolution.
  - apply impl_nvs_close.
  - intros [] []; cbn; intros Hn; reflexivity || discriminate Hn.
Qed.

(** ** A client of the interface *)

Section Client.
Context {S : Type} (ops : HAL S) (Hc : HAL_contract ops).

(** A client that calls [initialize()] and goes on without looking at the
    result, as [UC6580::initialize] and the tracker example's callers may:
    when initialisation failed, every call it makes next is refused. *)
Lemma ignored_init_failure s :
  fst (initialize ops s) <> SUCCESS -> down_guarded ops (snd (initialize ops s)).
Proof. intros Hf. apply (down_guard ops Hc), (init_failure ops Hc), Hf. Qed.

(** After [deinitialize()] every guarded call is refused, whatever the
    state before. *)
Lemma after_deinitialize s : down_guarded ops (deinitialize_ ops s).
Proof. apply (down_guard ops Hc), (deinit_down ops Hc). Qed.

End Client.
