(* ===== verification/GpsSensor.v ===== *)
(** * GpsSensor: the UC6580 GNSS driver

    Source: [src/src/sensors/gps_sensor.cpp] and [gps_sensor.h]. The
    members of [class UC6580] ([m_config], [m_data], [m_initialized],
    [m_powered], the two counters, [m_last_update]) are the record [gps];
    each method is a function of [gps] and of the HAL state [Hal.hal] it
    calls into ([GPIO::pinMode], [GPIO::digitalWrite], [Timer::millis]).
    The UART is the bytes it has received and not yet read ([uart_rx]) and
    the commands written to it ([uart_tx]); the received bytes are taken to
    arrive before [readLine]'s timeout, so the timeout ends a read exactly
    when no byte is left. The section variable [arduino] selects the build:
    in the host build [readLine] returns the fixed mock sentence and
    [sendCommand] writes nothing. [float]/[double] fields are exact
    rationals; the integer fields keep their C widths ([uint8_t],
    [uint16_t], [uint32_t]) and C's truncating [/] and [%]. A parse that
    reaches undefined behaviour returns [None]. *)

From stdpp Require Import base list gmap relations.
From Stdlib Require Import ZArith QArith Ascii String Lia.
From S2P Require Import Prelude CFormat AppLogic HalTimer Hal Nmea.

Open Scope Z_scope.
Open Scope lora_scope.

(** [enum class FixType]. *)
Inductive FixType := NO_FIX | FIX_2D | FIX_3D.

#[export] Instance FixType_eq_dec : EqDecision FixType.
Proof. solve_decision. Defined.

(** [struct Data]. *)
Record gps_data := mkData {
  latitude : Q; longitude : Q; altitude : Q;
  hdop : Q; vdop : Q; satellites : Z; fix_type : FixType;
  hour : Z; minute : Z; second : Z; year : Z; month : Z; day : Z;
  speed_kmh : Q; course_deg : Q;
  valid : bool; timestamp : Z
}.

(** [memset(&m_data, 0, sizeof(m_data))]. *)
Definition data_zero : gps_data :=
  mkData 0 0 0 0 0 0 NO_FIX 0 0 0 0 0 0 0 0 false 0.

(** The assignments the parsers make, one field group each. *)
Definition set_fix (f : FixType) (v : bool) (d : gps_data) : gps_data :=
  mkData (latitude d) (longitude d) (altitude d) (hdop d) (vdop d) (satellites d) f
    (hour d) (minute d) (second d) (year d) (month d) (day d) (speed_kmh d) (course_deg d) v (timestamp d).
Definition set_fix_type (f : FixType) (d : gps_data) : gps_data := set_fix f (valid d) d.
Definition set_valid (v : bool) (d : gps_data) : gps_data := set_fix (fix_type d) v d.
Definition set_satellites (n : Z) (d : gps_data) : gps_data :=
  mkData (latitude d) (longitude d) (altitude d) (hdop d) (vdop d) n (fix_type d)
    (hour d) (minute d) (second d) (year d) (month d) (day d) (speed_kmh d) (course_deg d) (valid d) (timestamp d).
Definition set_dop (h v : Q) (d : gps_data) : gps_data :=
  mkData (latitude d) (longitude d) (altitude d) h v (satellites d) (fix_type d)
    (hour d) (minute d) (second d) (year d) (month d) (day d) (speed_kmh d) (course_deg d) (valid d) (timestamp d).
Definition set_position (la lo al : Q) (d : gps_data) : gps_data :=
  mkData la lo al (hdop d) (vdop d) (satellites d) (fix_type d)
    (hour d) (minute d) (second d) (year d) (month d) (day d) (speed_kmh d) (course_deg d) (valid d) (timestamp d).
Definition set_date (y mo dd : Z) (d : gps_data) : gps_data :=
  mkData (latitude d) (longitude d) (altitude d) (hdop d) (vdop d) (satellites d) (fix_type d)
    (hour d) (minute d) (second d) y mo dd (speed_kmh d) (course_deg d) (valid d) (timestamp d).
Definition set_time (hh mm ss : Z) (d : gps_data) : gps_data :=
  mkData (latitude d) (longitude d) (altitude d) (hdop d) (vdop d) (satellites d) (fix_type d)
    hh mm ss (year d) (month d) (day d) (speed_kmh d) (course_deg d) (valid d) (timestamp d).
Definition set_motion (sp co : Q) (d : gps_data) : gps_data :=
  mkData (latitude d) (longitude d) (altitude d) (hdop d) (vdop d) (satellites d) (fix_type d)
    (hour d) (minute d) (second d) (year d) (month d) (day d) sp co (valid d) (timestamp d).
Definition set_timestamp (t : Z) (d : gps_data) : gps_data :=
  mkData (latitude d) (longitude d) (altitude d) (hdop d) (vdop d) (satellites d) (fix_type d)
    (hour d) (minute d) (second d) (year d) (month d) (day d) (speed_kmh d) (course_deg d) (valid d) t.

(** [struct Config]. *)
Record gps_config := mkConfig {
  baud_rate : Z; uart_num : Z; tx_pin : Z; rx_pin : Z; pps_pin : Z; enable_pin : Z;
  auto_power_on : bool; update_rate : Z
}.

Definition config_zero : gps_config := mkConfig 0 0 0 0 0 0 false 0.

(** [getDefaultConfig()]. *)
Definition getDefaultConfig : gps_config := mkConfig 9600 1 43 44 255 3 true 1.

(** [getWirelessTrackerV11Config()]. *)
Definition getWirelessTrackerV11Config : gps_config :=
  let c := getDefaultConfig in
  mkConfig (baud_rate c) (uart_num c) (tx_pin c) (rx_pin c) (pps_pin c) 3 (auto_power_on c) (update_rate c).

Definition set_baud (b : Z) (c : gps_config) : gps_config :=
  mkConfig b (uart_num c) (tx_pin c) (rx_pin c) (pps_pin c) (enable_pin c) (auto_power_on c) (update_rate c).
Definition set_rate (r : Z) (c : gps_config) : gps_config :=
  mkConfig (baud_rate c) (uart_num c) (tx_pin c) (rx_pin c) (pps_pin c) (enable_pin c) (auto_power_on c) r.

(** The members of [class UC6580] and the UART it owns. *)
Record gps := mkGps {
  m_config : gps_config;
  m_data : gps_data;
  m_initialized : bool;
  m_powered : bool;
  m_messages_received : Z;
  m_parse_errors : Z;
  m_last_update : Z;
  uart_rx : text;
  uart_tx : list text
}.

(** The constructor [UC6580()]. *)
Definition gps_boot : gps := mkGps config_zero data_zero false false 0 0 0 [] [].

Definition with_config (c : gps_config) (g : gps) : gps :=
  mkGps c (m_data g) (m_initialized g) (m_powered g) (m_messages_received g) (m_parse_errors g)
    (m_last_update g) (uart_rx g) (uart_tx g).
Definition with_data (d : gps_data) (g : gps) : gps :=
  mkGps (m_config g) d (m_initialized g) (m_powered g) (m_messages_received g) (m_parse_errors g)
    (m_last_update g) (uart_rx g) (uart_tx g).
Definition with_flags (ini pw : bool) (g : gps) : gps :=
  mkGps (m_config g) (m_data g) ini pw (m_messages_received g) (m_parse_errors g)
    (m_last_update g) (uart_rx g) (uart_tx g).
Definition with_counters (msgs errs : Z) (g : gps) : gps :=
  mkGps (m_config g) (m_data g) (m_initialized g) (m_powered g) msgs errs
    (m_last_update g) (uart_rx g) (uart_tx g).
Definition with_uart (rx : text) (tx : list text) (g : gps) : gps :=
  mkGps (m_config g) (m_data g) (m_initialized g) (m_powered g) (m_messages_received g) (m_parse_errors g)
    (m_last_update g) rx tx.

Definition parse_error (g : gps) : gps := with_counters (m_messages_received g) (m_parse_errors g +u 1) g.
Definition message_received (g : gps) : gps := with_counters (m_messages_received g +u 1) (m_parse_errors g) g.

(** [uint16_t] conversion. *)
Definition u16 (z : Z) : Z := z mod 65536.

(** [fields[i]]; every index the parsers read is below the count they checked. *)
Definition field (fs : list text) (i : nat) : text := nth i fs [].

(** [strlen(f) > 0] and [f[0]]. *)
Definition nonempty (f : text) : bool := negb (bool_decide (f = [])).
Definition first_char (f : text) : ascii := match f with c :: _ => c | [] => "000"%char end.

(** ** The sentence parsers *)

(** [parseGGA(fields, field_count)]. *)
Definition parseGGA (fs : list text) (count : Z) (d : gps_data) : option (Result * gps_data) :=
  if count <? 15 then Some (ERROR_COMMUNICATION_FAILED, d) else
  let d1 := if nonempty (field fs 6) then
              let quality := atoi (field fs 6) in
              set_fix (if 0 <? quality then FIX_3D else NO_FIX) (0 <? quality) d
            else d in
  let d2 := if nonempty (field fs 7) then set_satellites (u8 (atoi (field fs 7))) d1 else d1 in
  let d3 := if nonempty (field fs 8) then set_dop (atof (field fs 8)) (vdop d2) d2 else d2 in
  d4 ← (if nonempty (field fs 2) && nonempty (field fs 3) then
          (fun la => set_position la (longitude d3) (altitude d3) d3)
            <$> nmeaToDecimal (field fs 2) (first_char (field fs 3))
        else Some d3);
  d5 ← (if nonempty (field fs 4) && nonempty (field fs 5) then
          (fun lo => set_position (latitude d4) lo (altitude d4) d4)
            <$> nmeaToDecimal (field fs 4) (first_char (field fs 5))
        else Some d4);
  let d6 := if nonempty (field fs 9) then set_position (latitude d5) (longitude d5) (atof (field fs 9)) d5 else d5 in
  Some (SUCCESS, d6).

(** [parseRMC(fields, field_count)]: [int] [/] and [%] truncate, the
    results are stored in [uint8_t] and [uint16_t] fields. *)
Definition parseRMC (fs : list text) (count : Z) (d : gps_data) : Result * gps_data :=
  if count <? 12 then (ERROR_COMMUNICATION_FAILED, d) else
  let d1 := if nonempty (field fs 2) then set_valid (bool_decide (first_char (field fs 2) = "A"%char)) d else d in
  let d2 := if nonempty (field fs 7) then set_motion (knots_to_kmh (atof (field fs 7))) (course_deg d1) d1 else d1 in
  let d3 := if nonempty (field fs 8) then set_motion (speed_kmh d2) (atof (field fs 8)) d2 else d2 in
  let d4 := if nonempty (field fs 9) && (6 <=? length (field fs 9))%nat then
              let date := atoi (field fs 9) in
              set_date (u16 (2000 + Z.rem date 100)) (u8 (Z.rem (Z.quot date 100) 100)) (u8 (Z.quot date 10000)) d3
            else d3 in
  let d5 := if nonempty (field fs 1) && (6 <=? length (field fs 1))%nat then
              let time := atoi (field fs 1) in
              set_time (u8 (Z.quot time 10000)) (u8 (Z.rem (Z.quot time 100) 100)) (u8 (Z.rem time 100)) d4
            else d4 in
  (SUCCESS, d5).

(** [parseGSA(fields, field_count)]. *)
Definition parseGSA (fs : list text) (count : Z) (d : gps_data) : Result * gps_data :=
  if count <? 18 then (ERROR_COMMUNICATION_FAILED, d) else
  let d1 := if nonempty (field fs 2) then
              set_fix_type (match atoi (field fs 2) with 2 => FIX_2D | 3 => FIX_3D | _ => NO_FIX end) d
            else d in
  let d2 := if nonempty (field fs 16) then set_dop (atof (field fs 16)) (vdop d1) d1 else d1 in
  let d3 := if nonempty (field fs 17) then set_dop (hdop d2) (atof (field fs 17)) d2 else d2 in
  (SUCCESS, d3).

(** [parseGSV]: acknowledged only. *)
Definition parseGSV (fs : list text) (count : Z) (d : gps_data) : Result * gps_data := (SUCCESS, d).

(** The [strncmp(fields[0], "$G?xxx", 6) == 0] dispatch. *)
Inductive sentence_kind := GGA | RMC | GSA | GSV | OTHER.

Definition talker_is (f : text) (s1 s2 : string) : bool :=
  bool_decide (take 6 f = lit s1) || bool_decide (take 6 f = lit s2).

Definition kind_of (f : text) : sentence_kind :=
  if talker_is f "$GPGGA" "$GNGGA" then GGA
  else if talker_is f "$GPRMC" "$GNRMC" then RMC
  else if talker_is f "$GPGSA" "$GNGSA" then GSA
  else if talker_is f "$GPGSV" "$GNGSV" then GSV
  else OTHER.

Definition dispatch (fs : list text) (count : Z) (d : gps_data) : option (Result * gps_data) :=
  match kind_of (field fs 0) with
  | GGA => parseGGA fs count d
  | RMC => Some (parseRMC fs count d)
  | GSA => Some (parseGSA fs count d)
  | GSV => Some (parseGSV fs count d)
  | OTHER => Some (SUCCESS, d)
  end.

(** The [while (index < max_length - 1)] loop of [readLine]: a [\n] ends
    the line, a [\r] is dropped, an empty UART ends it by the timeout. *)
Fixpoint read_loop (max_length : nat) (buf rx : text) : text * text :=
  if negb (length buf <? max_length - 1)%nat then (buf, rx) else
  match rx with
  | [] => (buf, [])
  | c :: rx' =>
    if bool_decide (c = ascii_of_nat 10) then (buf, rx')
    else read_loop max_length (if bool_decide (c = ascii_of_nat 13) then buf else buf ++ [c]) rx'
  end.

(** The command of [factoryReset()]. *)
Definition factory_reset_cmd : text := lit "$PCAS10,3*1E" ++ [ascii_of_nat 13; ascii_of_nat 10].

Section Gps.
(** [true] for the [ARDUINO] build, [false] for the host build. *)
Variable arduino : bool.

(** [configureUART()]: [Serial], [Serial1] or [Serial2]. *)
Definition configureUART (c : gps_config) : Result :=
  if arduino then match uart_num c with 0 | 1 | 2 => SUCCESS | _ => ERROR_INVALID_PARAMETER end
  else SUCCESS.

(** [powerOn()]: [GPIO 3 HIGH = GPS ON]. *)
Definition powerOn (h : hal) (g : gps) : Result * gps :=
  if negb (m_initialized g) then (ERROR_NOT_INITIALIZED, g) else
  let r := if bool_decide (enable_pin (m_config g) = 255) then SUCCESS
           else digitalWrite (enable_pin (m_config g)) 1 h in
  if bool_decide (r <> SUCCESS) then (r, g) else (SUCCESS, with_flags (m_initialized g) true g).

(** [powerOff()]: also clears [m_data.valid]. *)
Definition powerOff (h : hal) (g : gps) : Result * gps :=
  if negb (m_initialized g) then (ERROR_NOT_INITIALIZED, g) else
  let r := if bool_decide (enable_pin (m_config g) = 255) then SUCCESS
           else digitalWrite (enable_pin (m_config g)) 0 h in
  if bool_decide (r <> SUCCESS) then (r, g)
  else (SUCCESS, with_data (set_valid false (m_data g)) (with_flags (m_initialized g) false g)).

(** [initialize(config)]: [m_config] is assigned before the checks. *)
Definition initialize (h : hal) (cfg : gps_config) (g : gps) : Result * gps :=
  if m_initialized g then (SUCCESS, g) else
  let g1 := with_config cfg g in
  let r1 := if bool_decide (enable_pin cfg = 255) then SUCCESS else pinMode (enable_pin cfg) MODE_OUTPUT h in
  if bool_decide (r1 <> SUCCESS) then (r1, g1) else
  let r2 := configureUART cfg in
  if bool_decide (r2 <> SUCCESS) then (r2, g1) else
  let r3 := if bool_decide (pps_pin cfg = 255) then SUCCESS else pinMode (pps_pin cfg) MODE_INPUT h in
  if bool_decide (r3 <> SUCCESS) then (r3, g1) else
  let g2 := with_flags true (m_powered g1) g1 in
  if auto_power_on cfg then
    let '(r, g3) := powerOn h g2 in
    if bool_decide (r <> SUCCESS) then (r, with_flags false (m_powered g3) g3) else (SUCCESS, g3)
  else (SUCCESS, g2).

(** [deinitialize()]: the result of [powerOff()] is ignored. *)
(** [GPS::initializeGPS(config)]: [g_gps.initialize(config)]. *)
Definition initializeGPS (h : hal) (config : gps_config) (g_gps : gps) : Result * gps := initialize h config g_gps.

Definition gps_deinitialize (h : hal) (g : gps) : gps :=
  if negb (m_initialized g) then g else with_flags false false (powerOff h g).2.

(** [sendCommand(command)]. *)
Definition sendCommand (cmd : text) (g : gps) : Result * gps :=
  if negb (m_initialized g) || negb (m_powered g) then (ERROR_NOT_INITIALIZED, g) else
  if arduino then
    match uart_num (m_config g) with
    | 0 | 1 | 2 => (SUCCESS, with_uart (uart_rx g) (uart_tx g ++ [cmd]) g)
    | _ => (ERROR_INVALID_PARAMETER, g)
    end
  else (SUCCESS, g).

(** [setBaudRate(baud_rate)]; the [configureUART()] that follows a sent
    command changes no modelled state and its result is ignored. *)
Definition setBaudRate (baud : Z) (g : gps) : Result * gps :=
  if negb (m_initialized g) then (ERROR_NOT_INITIALIZED, g) else
  let '(r, g1) := sendCommand (pcas_command (lit "PCAS01,") baud) g in
  if bool_decide (r = SUCCESS) then (r, with_config (set_baud baud (m_config g1)) g1) else (r, g1).

(** [setUpdateRate(rate_hz)]: the period [1000 / rate_hz] in ms. *)
Definition setUpdateRate (rate : Z) (g : gps) : Result * gps :=
  if negb (m_initialized g) then (ERROR_NOT_INITIALIZED, g) else
  if (rate <? 1) || (10 <? rate) then (ERROR_INVALID_PARAMETER, g) else
  let '(r, g1) := sendCommand (pcas_command (lit "PCAS02,") (1000 / rate)) g in
  if bool_decide (r = SUCCESS) then (r, with_config (set_rate rate (m_config g1)) g1) else (r, g1).

(** [enableGNSSSystems(...)]. *)
Definition enableGNSSSystems (g : gps) : Result :=
  if negb (m_initialized g) then ERROR_NOT_INITIALIZED else SUCCESS.

(** [factoryReset()]. *)
Definition factoryReset (g : gps) : Result * gps :=
  if negb (m_initialized g) then (ERROR_NOT_INITIALIZED, g) else sendCommand factory_reset_cmd g.

(** [readLine(buffer, 256, timeout)]: the count and the line. *)
Definition readLine (g : gps) : Z * text * gps :=
  if negb (m_initialized g) || negb (m_powered g) then (-1, [], g) else
  if arduino then
    match uart_num (m_config g) with
    | 0 | 1 | 2 =>
      let '(buf, rest) := read_loop 256 [] (uart_rx g) in
      (Z.of_nat (length buf), buf, with_uart rest (uart_tx g) g)
    | _ => (-1, [], g)
    end
  else (Z.of_nat (length mock_gga), mock_gga, g).

(** [parseNMEA(sentence)]; [now] is the board's clock for [millis()]. *)
Definition parseNMEA (now : Z) (s : text) (h : hal) (g : gps) : option (Result * gps * hal) :=
  if (length s <? 6)%nat then Some (ERROR_INVALID_PARAMETER, parse_error g, h) else
  match validateChecksum s with
  | None => None
  | Some false => Some (ERROR_COMMUNICATION_FAILED, parse_error g, h)
  | Some true =>
    let fs := splitNMEA s 32 in
    let count := Z.of_nat (length fs) in
    if count <? 1 then Some (ERROR_COMMUNICATION_FAILED, parse_error g, h) else
    let g1 := message_received g in
    '(r, d) ← dispatch fs count (m_data g1);
    if bool_decide (r = SUCCESS) then
      let '(m, t) := millis arduino now (tm h) in
      Some (SUCCESS, with_data (set_timestamp m d) g1, set_tm t h)
    else Some (r, with_data d g1, h)
  end.

(** [update()]. *)
Definition update (now : Z) (h : hal) (g : gps) : option (Result * gps * hal) :=
  if negb (m_initialized g) || negb (m_powered g) then Some (ERROR_NOT_INITIALIZED, g, h) else
  let '(n, buf, g1) := readLine g in
  if 0 <? n then parseNMEA now buf h g1 else Some (ERROR_TIMEOUT, g1, h).

(** [isDataFresh(max_age_ms)]: [uint32_t] subtraction. *)
Definition isDataFresh (now max_age : Z) (h : hal) (g : gps) : bool * hal :=
  if negb (valid (m_data g)) then (false, h) else
  let '(m, t) := millis arduino now (tm h) in
  ((m -u timestamp (m_data g)) <=? max_age, set_tm t h).

End Gps.

(** [hasValidFix()]. *)
Definition hasValidFix (g : gps) : bool :=
  valid (m_data g) && (bool_decide (fix_type (m_data g) = FIX_2D) || bool_decide (fix_type (m_data g) = FIX_3D)).

(** The getters: [isInitialized], [isPowered], [getData],
    [getMessagesReceived], [getParseErrors], and the global helpers
    [getGPSData] and [hasGPSFix] on [g_gps]. *)
Definition isInitialized (g : gps) : bool := m_initialized g.
Definition isPowered (g : gps) : bool := m_powered g.
Definition getData (g : gps) : gps_data := m_data g.
Definition getMessagesReceived (g : gps) : Z := m_messages_received g.
Definition getParseErrors (g : gps) : Z := m_parse_errors g.
Definition getGPSData (g_gps : gps) : gps_data := getData g_gps.
Definition hasGPSFix (g_gps : gps) : bool := hasValidFix g_gps.

(** [static_cast<int>(fix_type)]. *)
Definition FixType_val (f : FixType) : Z := match f with NO_FIX => 0 | FIX_2D => 2 | FIX_3D => 3 end.

(** The lines [printDiagnostics] writes, by the values they show. *)
Inductive diag_line :=
  | DiagTitle
  | DiagInitialized (b : bool)
  | DiagPowered (b : bool)
  | DiagValidFix (b : bool)
  | DiagFixType (f : Z)
  | DiagSatellites (n : Z)
  | DiagHdop (h : Q)
  | DiagMessagesReceived (n : Z)
  | DiagParseErrors (n : Z)
  | DiagLastUpdate (age_ms : Z)
  | DiagPosition (lat lon : Q)
  | DiagAltitude (alt : Q)
  | DiagSpeed (kmh : Q)
  | DiagCourse (deg : Q)
  | DiagRule.

(** [printDiagnostics()]: nothing outside the Arduino build; the age of
    the data is the [uint32_t] difference with [Timer::millis()]. *)
Definition printDiagnostics (arduino : bool) (now : Z) (h : hal) (g : gps) : list diag_line * hal :=
  if negb arduino then ([], h) else
  let d := m_data g in
  let '(m, t) := millis arduino now (tm h) in
  ([DiagTitle; DiagInitialized (m_initialized g); DiagPowered (m_powered g); DiagValidFix (hasValidFix g);
    DiagFixType (FixType_val (fix_type d)); DiagSatellites (satellites d); DiagHdop (hdop d);
    DiagMessagesReceived (m_messages_received g); DiagParseErrors (m_parse_errors g);
    DiagLastUpdate (m -u timestamp d)] ++
   (if hasValidFix g
    then [DiagPosition (latitude d) (longitude d); DiagAltitude (altitude d); DiagSpeed (speed_kmh d);
          DiagCourse (course_deg d)]
    else []) ++ [DiagRule], set_tm t h).

(** The canonical GGA sentence of the NMEA 0183 documentation: its
    differential-age and station fields are empty. *)
Definition canonical_gga : text :=
  lit "$GPGGA,123519,4807.038,N,01131.000,E,1,08,0.9,545.4,M,46.9,M,,*47".

(** The operations a program performs on the driver, with the HAL state
    and the clock they see, and the bytes the UART receives meanwhile. *)
Inductive gps_step (arduino : bool) : gps -> gps -> Prop :=
  | gs_initialize h cfg g : gps_step arduino g (initialize arduino h cfg g).2
  | gs_deinitialize h g : gps_step arduino g (gps_deinitialize h g)
  | gs_powerOn h g : gps_step arduino g (powerOn h g).2
  | gs_powerOff h g : gps_step arduino g (powerOff h g).2
  | gs_setBaudRate b g : gps_step arduino g (setBaudRate arduino b g).2
  | gs_setUpdateRate r g : gps_step arduino g (setUpdateRate arduino r g).2
  | gs_factoryReset g : gps_step arduino g (factoryReset arduino g).2
  | gs_update now h g r g' h' : update arduino now h g = Some (r, g', h') -> gps_step arduino g g'
  | gs_receive bytes g : gps_step arduino g (with_uart (uart_rx g ++ bytes) (uart_tx g) g).

(** The driver is powered only while initialised. *)
Definition gps_inv (g : gps) : Prop := m_powered g = true -> m_initialized g = true.

(** The two flags of [g'] are those of [g]. *)
Definition same_flags (g g' : gps) : Prop :=
  m_initialized g' = m_initialized g /\ m_powered g' = m_powered g.

(** ** Lemmas *)

Lemma with_data_same g : with_data (m_data g) g = g.
Proof. destruct g; reflexivity. Qed.

Lemma kind_of_nil : kind_of [] = OTHER.
Proof. reflexivity. Qed.

(** The shape of every outcome of [parseNMEA]: either the error counter is
    incremented and nothing else changes, or the message counter is
    incremented and only the data (and the clock) may change. *)
Lemma parseNMEA_cases arduino now s h g r g' h' :
  parseNMEA arduino now s h g = Some (r, g', h') ->
  (g' = parse_error g /\ r <> SUCCESS /\ h' = h) \/ (exists d, g' = with_data d (message_received g)).
Proof.
  unfold parseNMEA. destruct (length s <? 6)%nat; [intros [= <- <- <-]; left; repeat split; discriminate|].
  destruct (validateChecksum s) as [[|]|]; [|intros [= <- <- <-]; left; repeat split; discriminate | discriminate].
  destruct (_ <? 1); [intros [= <- <- <-]; left; repeat split; discriminate|].
  destruct (dispatch _ _ _) as [[r0 d]|]; [cbn [mbind option_bind]|discriminate].
  destruct (bool_decide _); [destruct (millis _ _ _)|]; intros [= _ <- _]; right; eauto.
Qed.

Lemma splitNMEA_length s max : (length (splitNMEA s max) <= length (filter (fun f => f <> []) (split_on_comma (nmea_body s))))%nat.
Proof.
  unfold splitNMEA. change (length (strtok_loop (S (length (nmea_body s))) max (nmea_body s)) <=
    length (filter (fun f => f <> []) (split_on_comma (nmea_body s))))%nat.
  rewrite strtok_loop_spec by lia. rewrite length_take. lia.
Qed.

(** ** Properties of the parser *)

(** C20: a checksum-valid GGA sentence with fewer than 15 non-empty fields is
    rejected: [splitNMEA] drops the empty fields, [parseGGA] sees fewer
    than 15 and fails with [ERROR_COMMUNICATION_FAILED]; the sentence is
    still counted as received, no parse error is counted and no data is
    stored. *)
Theorem gga_with_empty_fields_rejected arduino now s h g :
  (6 <= length s)%nat -> validateChecksum s = Some true ->
  kind_of (field (splitNMEA s 32) 0) = GGA ->
  (length (filter (fun f => f <> []) (split_on_comma (nmea_body s))) < 15)%nat ->
  parseNMEA arduino now s h g = Some (ERROR_COMMUNICATION_FAILED, message_received g, h).
Proof.
  intros Hl Hc Hk Hn. unfold parseNMEA. rewrite (proj2 (Nat.ltb_ge _ _) Hl), Hc.
  pose proof (splitNMEA_length s 32) as Hs.
  assert (Hne : splitNMEA s 32 <> []) by (intros E; rewrite E in Hk; discriminate).
  rewrite (proj2 (Z.ltb_ge _ _)) by (destruct (splitNMEA s 32); [congruence | simpl; lia]).
  unfold dispatch. rewrite Hk. unfold parseGGA. rewrite (proj2 (Z.ltb_lt _ _)) by lia.
  cbn [mbind option_bind]. rewrite bool_decide_false by discriminate. rewrite with_data_same. reflexivity.
Qed.

(** C22: every [parseNMEA] that completes increments exactly one of the two
    counters by one (modulo 2^32): the message counter, or the error
    counter with a failed result and the data untouched; the
    configuration and the flags never change. *)
Theorem parseNMEA_counts arduino now s h g r g' h' :
  parseNMEA arduino now s h g = Some (r, g', h') ->
  ((m_messages_received g' = m_messages_received g +u 1 /\ m_parse_errors g' = m_parse_errors g) \/
   (m_messages_received g' = m_messages_received g /\ m_parse_errors g' = m_parse_errors g +u 1 /\
    r <> SUCCESS /\ m_data g' = m_data g)) /\
  m_config g' = m_config g /\ m_initialized g' = m_initialized g /\ m_powered g' = m_powered g.
Proof.
  intros H. destruct (parseNMEA_cases arduino now s h g r g' h' H) as [(-> & Hr & _)|[d ->]];
    [split; [right|]|split; [left|]]; simpl; auto.
Qed.

(** In the host build, every [update()] of an initialised and powered
    driver reads the mock sentence and validates it past its terminator:
    the behaviour is undefined. *)
Theorem host_update_undefined now h g :
  m_initialized g = true -> m_powered g = true -> update false now h g = None.
Proof.
  intros Hi Hp. unfold update, readLine. rewrite Hi, Hp. cbn [negb orb].
  unfold parseNMEA. rewrite mock_gga_reads_past_end. reflexivity.
Qed.

(** ** Lemmas on the driver's flags *)

Lemma same_flags_inv g g' : same_flags g g' -> gps_inv g -> gps_inv g'.
Proof. unfold gps_inv. intros [-> ->]. exact id. Qed.

Section Flags.
Variable arduino : bool.

Lemma sendCommand_flags cmd g : same_flags g (sendCommand arduino cmd g).2.
Proof. unfold sendCommand, same_flags. repeat case_match; simpl; auto. Qed.

Lemma setBaudRate_flags b g : same_flags g (setBaudRate arduino b g).2.
Proof.
  unfold setBaudRate. pose proof (sendCommand_flags (pcas_command (lit "PCAS01,") b) g) as Hs.
  destruct (sendCommand _ _ _) as [r g1]. unfold same_flags in *. repeat case_match; simpl; auto.
Qed.

Lemma setUpdateRate_flags r g : same_flags g (setUpdateRate arduino r g).2.
Proof.
  unfold setUpdateRate. pose proof (sendCommand_flags (pcas_command (lit "PCAS02,") (1000 / r)) g) as Hs.
  destruct (sendCommand _ _ _) as [r' g1]. unfold same_flags in *. repeat case_match; simpl; auto.
Qed.

Lemma factoryReset_flags g : same_flags g (factoryReset arduino g).2.
Proof. unfold factoryReset. case_match; [split; reflexivity | apply sendCommand_flags]. Qed.

Lemma readLine_flags g : same_flags g (readLine arduino g).2.
Proof. unfold readLine, same_flags. repeat case_match; simplify_eq; simpl; auto. Qed.

Lemma update_flags now h g r g' h' : update arduino now h g = Some (r, g', h') -> same_flags g g'.
Proof.
  unfold update. pose proof (readLine_flags g) as Hl.
  destruct (_ || _); [intros [= _ <- _]; split; reflexivity|].
  destruct (readLine arduino g) as [[n buf] g1]. simpl in Hl.
  destruct (0 <? n); [|intros [= _ <- _]; exact Hl].
  intros Hp. destruct (parseNMEA_cases arduino now buf h g1 r g' h' Hp) as [(-> & _)|[d ->]];
    destruct Hl as [Hi Hpw]; split; simpl; assumption.
Qed.

Lemma initialize_inv h cfg g : gps_inv g -> gps_inv (initialize arduino h cfg g).2.
Proof.
  unfold initialize, gps_inv. intros Hg. destruct (m_initialized g) eqn:Ei; [intros _; exact Ei|].
  assert (Hp : m_powered g = false) by (destruct (m_powered g); [discriminate (Hg eq_refl)|reflexivity]).
  repeat case_match; simplify_eq; simpl; try (rewrite Hp; discriminate); try reflexivity.
  all: unfold powerOn in *; repeat case_match; simplify_eq; simpl in *; congruence.
Qed.

Lemma gps_step_inv g g' : gps_step arduino g g' -> gps_inv g -> gps_inv g'.
Proof.
  destruct 1 as [h cfg g|h g|h g|h g|b g|r g|g|now h g r g' h' Hu|bytes g].
  - apply initialize_inv.
  - unfold gps_deinitialize. case_match; [exact id | intros _ Hp; discriminate Hp].
  - unfold powerOn, gps_inv. destruct (m_initialized g) eqn:E; [|simpl; rewrite E; exact id].
    repeat case_match; simpl; intros _ _; rewrite ?E; reflexivity.
  - unfold powerOff, gps_inv. repeat case_match; simpl; solve [exact id | intros _ Hp; discriminate Hp].
  - apply same_flags_inv, setBaudRate_flags.
  - apply same_flags_inv, setUpdateRate_flags.
  - apply same_flags_inv, factoryReset_flags.
  - apply same_flags_inv. exact (update_flags now h g r g' h' Hu).
  - apply same_flags_inv. split; reflexivity.
Qed.

End Flags.

(** On the board, a powered driver on UART 0, 1 or 2 writes the command. *)
Lemma sendCommand_board cmd g :
  m_initialized g = true -> m_powered g = true -> 0 <= uart_num (m_config g) <= 2 ->
  sendCommand true cmd g = (SUCCESS, with_uart (uart_rx g) (uart_tx g ++ [cmd]) g).
Proof.
  intros Hi Hp Hu. unfold sendCommand. rewrite Hi, Hp. cbn [negb orb].
  assert (uart_num (m_config g) = 0 \/ uart_num (m_config g) = 1 \/ uart_num (m_config g) = 2)
    as [E|[E|E]] by lia; rewrite E; reflexivity.
Qed.

Lemma star_not_in (t : text) : forallb (fun c => negb (bool_decide (c = "*"%char))) t = true -> "*"%char ∉ t.
Proof.
  intros H Hin. apply forallb_forall with (x := "*"%char) in H; [|apply list_elem_of_In; exact Hin].
  rewrite bool_decide_true in H by reflexivity. discriminate.
Qed.

(** ** Properties of the driver *)

(** C23: in every state the driver reaches from its constructor, through any
    sequence of operations, HAL states and received bytes, it is powered
    only while it is initialised. *)
Theorem gps_reachable_inv arduino g : rtc (gps_step arduino) gps_boot g -> gps_inv g.
Proof.
  intros Hr. assert (H0 : gps_inv gps_boot) by (intros Hp; discriminate Hp).
  induction Hr as [|x y z Hs _ IH]; [exact H0|]. apply IH. exact (gps_step_inv arduino x y Hs H0).
Qed.

(** On the board, where the HAL never becomes initialised, the driver's
    [initialize] with an enable pin fails with [ERROR_NOT_INITIALIZED] at
    its first [GPIO::pinMode]: the driver stays uninitialised (only the
    configuration is stored). *)
Theorem board_gps_initialize_fails `{EspPlatform} h cfg g :
  rtc (hal_step true) hal_boot h -> m_initialized g = false -> enable_pin cfg <> 255 ->
  initialize true h cfg g = (ERROR_NOT_INITIALIZED, with_config cfg g).
Proof.
  intros Hh Hg Hp. pose proof (board_rtc_not_init hal_boot h Hh eq_refl) as Hi.
  unfold initialize. rewrite Hg, (bool_decide_false (enable_pin cfg = 255)) by exact Hp.
  unfold pinMode, gpio_guarded. rewrite Hi. cbn [negb]. rewrite bool_decide_true by discriminate. reflexivity.
Qed.

(** On the board, [setBaudRate] of an initialised and powered driver on
    UART 0, 1 or 2 writes exactly one command, a [$PCAS01] sentence whose
    checksum [validateChecksum] accepts, and records the new baud rate. *)
Theorem setBaudRate_sends_valid_command baud g :
  m_initialized g = true -> m_powered g = true -> 0 <= uart_num (m_config g) <= 2 -> is_u32 baud ->
  exists g', setBaudRate true baud g = (SUCCESS, g') /\
    uart_tx g' = uart_tx g ++ [pcas_command (lit "PCAS01,") baud] /\
    validateChecksum (pcas_command (lit "PCAS01,") baud) = Some true /\
    baud_rate (m_config g') = baud.
Proof.
  intros Hi Hp Hu Hb. unfold setBaudRate. rewrite Hi. cbn [negb].
  rewrite sendCommand_board by assumption. cbv beta iota. rewrite bool_decide_true by reflexivity.
  eexists; repeat split. apply pcas_checksum_roundtrip; [apply star_not_in; reflexivity|cbn; lia|exact Hb].
Qed.

(** On the board, [setUpdateRate] of an initialised and powered driver
    on UART 0, 1 or 2 rejects a rate outside 1..10 Hz with
    [ERROR_INVALID_PARAMETER] and no effect; a rate inside sends one
    [$PCAS02] command with the period [1000 / rate] (between 100 and 1000
    ms) and a checksum [validateChecksum] accepts, and records the rate. *)
Theorem setUpdateRate_spec rate g :
  m_initialized g = true -> m_powered g = true -> 0 <= uart_num (m_config g) <= 2 ->
  ((rate < 1 \/ 10 < rate) -> setUpdateRate true rate g = (ERROR_INVALID_PARAMETER, g)) /\
  (1 <= rate <= 10 ->
   exists g', setUpdateRate true rate g = (SUCCESS, g') /\
     uart_tx g' = uart_tx g ++ [pcas_command (lit "PCAS02,") (1000 / rate)] /\
     validateChecksum (pcas_command (lit "PCAS02,") (1000 / rate)) = Some true /\
     100 <= 1000 / rate <= 1000 /\ update_rate (m_config g') = rate).
Proof.
  intros Hi Hp Hu. unfold setUpdateRate. rewrite Hi. cbn [negb]. split.
  - intros Hr. rewrite (proj2 (orb_true_iff _ _)); [reflexivity|].
    rewrite Z.ltb_lt, Z.ltb_lt. exact Hr.
  - intros Hr. rewrite (proj2 (Z.ltb_ge rate 1)), (proj2 (Z.ltb_ge 10 rate)) by lia. cbn [orb].
    assert (Hq : 100 <= 1000 / rate <= 1000) by (split; [apply Z.div_le_lower_bound | apply Z.div_le_upper_bound]; lia).
    rewrite sendCommand_board by assumption. cbv beta iota. rewrite bool_decide_true by reflexivity.
    eexists; repeat split; try lia.
    apply pcas_checksum_roundtrip; [apply star_not_in; reflexivity|cbn; lia|unfold is_u32, u32_modulus; lia].
Qed.

(** [printDiagnostics] prints nothing on the host; on the board it leaves
    the layer as it was and prints eleven lines, four more (position,
    altitude, speed, course) exactly when the fix is valid, with the age
    [now - timestamp] modulo 2^32. *)
Lemma printDiagnostics_spec now h g :
  printDiagnostics false now h g = ([], h) /\
  let '(ls, h') := printDiagnostics true now h g in
  h' = h /\ length ls = (if hasValidFix g then 15 else 11)%nat /\
  DiagLastUpdate (now -u timestamp (m_data g)) ∈ ls.
Proof.
  split; [reflexivity|]. unfold printDiagnostics. cbn [negb millis].
  split; [destruct h; reflexivity|].
  destruct (hasValidFix g); split; try reflexivity; apply list_elem_of_In; simpl; tauto.
Qed.

(** ** Witnesses *)

(** A driver initialised and powered on UART 1 of the board. *)
Definition gps_on : gps := with_config getDefaultConfig (with_flags true true gps_boot).

Example gga_with_empty_fields_rejected_witness :
  parseNMEA true 0 canonical_gga hal_boot gps_boot = Some (ERROR_COMMUNICATION_FAILED, message_received gps_boot, hal_boot).
Proof.
  exact (gga_with_empty_fields_rejected true 0 canonical_gga hal_boot gps_boot
           ltac:(vm_compute; lia) ltac:(vm_compute; reflexivity) ltac:(vm_compute; reflexivity) ltac:(vm_compute; lia)).
Defined.

Example parseNMEA_counts_witness :
  let g := gps_boot in let g' := message_received gps_boot in
  ((m_messages_received g' = m_messages_received g +u 1 /\ m_parse_errors g' = m_parse_errors g) \/
   (m_messages_received g' = m_messages_received g /\ m_parse_errors g' = m_parse_errors g +u 1 /\
    ERROR_COMMUNICATION_FAILED <> SUCCESS /\ m_data g' = m_data g)) /\
  m_config g' = m_config g /\ m_initialized g' = m_initialized g /\ m_powered g' = m_powered g.
Proof.
  exact (parseNMEA_counts true 0 canonical_gga hal_boot gps_boot ERROR_COMMUNICATION_FAILED
           (message_received gps_boot) hal_boot ltac:(vm_compute; reflexivity)).
Defined.

Example host_update_undefined_witness : update false 0 hal_boot (with_flags true true gps_boot) = None.
Proof. exact (host_update_undefined 0 hal_boot (with_flags true true gps_boot) eq_refl eq_refl). Defined.

Example gps_reachable_inv_witness : gps_inv gps_on.
Proof.
  apply (gps_reachable_inv true). apply rtc_once.
  exact (gs_initialize true host_ready getDefaultConfig gps_boot).
Defined.

Example board_gps_initialize_fails_witness :
  initialize true hal_boot getDefaultConfig gps_boot = (ERROR_NOT_INITIALIZED, with_config getDefaultConfig gps_boot).
Proof. exact (@board_gps_initialize_fails esp_all_ok hal_boot getDefaultConfig gps_boot (rtc_refl _ _) eq_refl ltac:(discriminate)). Defined.

Example setBaudRate_sends_valid_command_witness :
  exists g', setBaudRate true 115200 gps_on = (SUCCESS, g') /\
    uart_tx g' = [pcas_command (lit "PCAS01,") 115200] /\
    validateChecksum (pcas_command (lit "PCAS01,") 115200) = Some true /\ baud_rate (m_config g') = 115200.
Proof.
  exact (setBaudRate_sends_valid_command 115200 gps_on eq_refl eq_refl ltac:(simpl; lia)
           ltac:(unfold is_u32, u32_modulus; lia)).
Defined.

Example setUpdateRate_spec_witness :
  setUpdateRate true 0 gps_on = (ERROR_INVALID_PARAMETER, gps_on) /\
  exists g', setUpdateRate true 5 gps_on = (SUCCESS, g') /\
    uart_tx g' = [pcas_command (lit "PCAS02,") (1000 / 5)] /\
    validateChecksum (pcas_command (lit "PCAS02,") (1000 / 5)) = Some true /\
    100 <= 1000 / 5 <= 1000 /\ update_rate (m_config g') = 5.
Proof.
  destruct (setUpdateRate_spec 5 gps_on eq_refl eq_refl ltac:(simpl; lia)) as [_ H5].
  destruct (setUpdateRate_spec 0 gps_on eq_refl eq_refl ltac:(simpl; lia)) as [H0 _].
  split; [apply H0; lia | apply H5; lia].
Defined.
