(* ===== verification/GpsGeo.v ===== *)
(** * GpsGeo: distance and bearing from the current fix

    Source: [src/src/sensors/gps_sensor.cpp], [UC6580::distanceTo] (the
    haversine formula) and [UC6580::bearingTo]. The arithmetic is the
    IEEE 754 arithmetic of [CFloat.v]: every [+ - * /] of the source is one
    rounded [double] operation, in the source's order (C's operators
    associate to the left), the literals are rounded once ([M_PI],
    [180.0], [360.0], [6371.0]), the [int] constants [1] and [2] are
    converted to [double], and the result goes through
    [static_cast<float>]. [sin], [cos], [atan2] and [sqrt] are the C
    library's, the class [Libm]; the theorems hold for every instance, under
    the range C's [atan2] promises where they need one. The stored position
    is the [double] nearest the driver's rational [latitude]/[longitude]
    of [GpsSensor.v]. *)

From stdpp Require Import base.
From Stdlib Require Import ZArith QArith Lqa.
From S2P Require Import Prelude GpsSensor CFloat.

Open Scope Q_scope.

(** The functions of [<math.h>] the two methods call. *)
Class Libm := {
  c_sin : fp -> fp;
  c_cos : fp -> fp;
  c_atan2 : fp -> fp -> fp;
  c_sqrt : fp -> fp
}.

(** A stored coordinate as a [double]. *)
Definition stored (q : Q) : fp := of_exact binary64 q false.

(** The literals [180.0], [360.0] and [R = 6371.0]. *)
Definition d180 : fp := dlit 180 0.
Definition d360 : fp := dlit 360 0.
Definition earth_radius_km : fp := dlit 6371 0.

Section Geo.
Context `{Libm}.

(** [x * M_PI / 180.0]. *)
Definition to_rad (x : fp) : fp := ddiv (dmul x M_PI) d180.

(** [UC6580::distanceTo(lat, lon)]. *)
Definition distanceTo (g : gps) (lat lon : fp) : fp :=
  if negb (hasValidFix g) then fneg (flit 1 0) else
  let lat0 := stored (latitude (m_data g)) in
  let lon0 := stored (longitude (m_data g)) in
  let lat1_rad := to_rad lat0 in
  let lat2_rad := to_rad lat in
  let dlat := to_rad (dsub lat lat0) in
  let dlon := to_rad (dsub lon lon0) in
  let s1 := c_sin (ddiv dlat (of_int 2)) in
  let s2 := c_sin (ddiv dlon (of_int 2)) in
  let a := dadd (dmul s1 s1) (dmul (dmul (dmul (c_cos lat1_rad) (c_cos lat2_rad)) s2) s2) in
  let c := dmul (of_int 2) (c_atan2 (c_sqrt a) (c_sqrt (dsub (of_int 1) a))) in
  to_float (dmul earth_radius_km c).

(** [bearing_rad = atan2(y, x)] of [UC6580::bearingTo]. *)
Definition bearing_rad (g : gps) (lat lon : fp) : fp :=
  let lat0 := stored (latitude (m_data g)) in
  let lon0 := stored (longitude (m_data g)) in
  let lat1_rad := to_rad lat0 in
  let lat2_rad := to_rad lat in
  let dlon := to_rad (dsub lon lon0) in
  let y := dmul (c_sin dlon) (c_cos lat2_rad) in
  let x := dsub (dmul (c_cos lat1_rad) (c_sin lat2_rad))
                (dmul (dmul (c_sin lat1_rad) (c_cos lat2_rad)) (c_cos dlon)) in
  c_atan2 y x.
End Geo.

(** The rest of [bearingTo]: [bearing_rad * 180.0 / M_PI], plus [360.0]
    when below [0], then [static_cast<float>]. *)
Definition bearing_finish (r : fp) : fp :=
  let bearing_deg := ddiv (dmul r d180) M_PI in
  to_float (if flt bearing_deg (of_int 0) then dadd bearing_deg d360 else bearing_deg).

(** [UC6580::bearingTo(lat, lon)]. *)
Definition bearingTo `{Libm} (g : gps) (lat lon : fp) : fp :=
  if negb (hasValidFix g) then fneg (flit 1 0) else bearing_finish (bearing_rad g lat lon).

(** ** Lemmas *)

Lemma fpQ_d180 : fpQ d180 == 180.
Proof. fp_num. Qed.

Lemma fpQ_d360 : fpQ d360 == 360.
Proof. fp_num. Qed.

Lemma M_PI_pos : 0 < fpQ M_PI.
Proof. fp_num. Qed.

(** [bearing_rad * 180.0 / M_PI] for a finite [bearing_rad] in [[lo, hi]]. *)
Lemma bearing_deg_range r lo hi :
  is_fin r = true -> lo <= fpQ r <= hi ->
  - pow2 1024 < rnd binary64 (lo * 180) -> rnd binary64 (hi * 180) < pow2 1024 ->
  - pow2 1024 < rnd binary64 (rnd binary64 (lo * 180) / fpQ M_PI) ->
  rnd binary64 (rnd binary64 (hi * 180) / fpQ M_PI) < pow2 1024 ->
  fin_range binary64 (rnd binary64 (lo * 180) / fpQ M_PI) (rnd binary64 (hi * 180) / fpQ M_PI)
    (ddiv (dmul r d180) M_PI).
Proof.
  intros Hr Hb H1 H2 H3 H4. unfold ddiv, dmul.
  destruct (fmul_range binary64 r d180 (lo * 180) (hi * 180) ltac:(discriminate) Hr eq_refl)
    as [Hp Hpb]; [rewrite fpQ_d180; lra|exact H1|exact H2|].
  pose proof M_PI_pos as Hpi.
  apply fdiv_range; [discriminate|exact Hp|reflexivity|lra| |exact H3|exact H4].
  split; apply Qdiv_le_pos; lra.
Qed.

(** [bearing_finish] of a finite angle in [[-M_PI, M_PI]]: a finite float
    in [[0, 360]]. *)
Lemma bearing_finish_range r :
  is_fin r = true -> - fpQ M_PI <= fpQ r <= fpQ M_PI ->
  is_fin (bearing_finish r) = true /\ 0 <= fpQ (bearing_finish r) <= 360.
Proof.
  intros Hr Hb.
  destruct (bearing_deg_range r (- fpQ M_PI) (fpQ M_PI) Hr Hb ltac:(fp_num) ltac:(fp_num) ltac:(fp_num)
              ltac:(fp_num)) as [Hdf Hdb].
  unfold bearing_finish. set (deg := ddiv (dmul r d180) M_PI) in *. unfold dadd.
  destruct (flt deg (of_int 0)) eqn:Hlt.
  - apply (flt_0 deg Hdf) in Hlt.
    destruct (fadd_range binary64 deg d360
                (rnd binary64 (rnd binary64 (- fpQ M_PI * 180) / fpQ M_PI) + 360) 360
                ltac:(discriminate) Hdf eq_refl) as [Ht Htb]; [rewrite fpQ_d360; lra|fp_num|fp_num|].
    eapply fin_range_weaken; [apply to_float_range; [exact Ht|exact Htb|fp_num|fp_num]|fp_num|fp_num].
  - assert (H0 : 0 <= fpQ deg) by (apply Qnot_lt_le; rewrite <- (flt_0 deg Hdf); congruence).
    eapply fin_range_weaken;
      [apply to_float_range; [exact Hdf|split; [exact H0|apply Hdb]|fp_num|fp_num]|fp_num|fp_num].
Qed.

(** [bearing_finish] of every negative [double] from [-2^-23] up: the
    float [360]. *)
Lemma bearing_finish_360 r :
  is_fin r = true -> - pow2 (-23) <= fpQ r <= - pow2 (-1074) ->
  is_fin (bearing_finish r) = true /\ fpQ (bearing_finish r) == 360.
Proof.
  intros Hr Hb.
  destruct (bearing_deg_range r (- pow2 (-23)) (- pow2 (-1074)) Hr Hb ltac:(fp_num) ltac:(fp_num)
              ltac:(fp_num) ltac:(fp_num)) as [Hdf Hdb].
  unfold bearing_finish. set (deg := ddiv (dmul r d180) M_PI) in *. unfold dadd.
  assert (Hlt : flt deg (of_int 0) = true)
    by (apply (flt_0 deg Hdf); eapply Qle_lt_trans; [apply Hdb|fp_num]).
  rewrite Hlt.
  destruct (fadd_range binary64 deg d360
              (rnd binary64 (rnd binary64 (- pow2 (-23) * 180) / fpQ M_PI) + 360)
              (rnd binary64 (rnd binary64 (- pow2 (-1074) * 180) / fpQ M_PI) + 360)
              ltac:(discriminate) Hdf eq_refl) as [Ht Htb]; [rewrite fpQ_d360; lra|fp_num|fp_num|].
  destruct (fin_range_weaken _ _ _ 360 360 _ (to_float_range _ _ _ Ht Htb ltac:(fp_num) ltac:(fp_num))
              ltac:(fp_num) ltac:(fp_num)) as [Hf Hv].
  split; [exact Hf|]. apply Qle_antisym; apply Hv.
Qed.

(** ** Properties *)

(** C24: Without a valid fix [bearingTo] returns [-1.0f]; with one, for
    every C library whose [atan2] returns a finite value within
    [[-M_PI, M_PI]] (the range C gives it), the rounded computation returns
    a finite float in the closed range [[0, 360]]. *)
Theorem bearingTo_range `{Libm} g lat lon :
  (hasValidFix g = false -> bearingTo g lat lon = fneg (flit 1 0)) /\
  (hasValidFix g = true -> is_fin (bearing_rad g lat lon) = true ->
   - fpQ M_PI <= fpQ (bearing_rad g lat lon) <= fpQ M_PI ->
   is_fin (bearingTo g lat lon) = true /\ 0 <= fpQ (bearingTo g lat lon) <= 360).
Proof.
  unfold bearingTo. split; intros Hf; rewrite Hf; [reflexivity|]. apply bearing_finish_range.
Qed.

(** C25: the normalisation does not keep the bearing below 360: whenever
    [atan2] returns a negative [double] no smaller than [-2^-23] (a target
    just west of due north), [bearing_deg + 360.0] rounds to [360.0] and
    [bearingTo] returns the float [360], not a value in [[0, 360)]. *)
Theorem bearingTo_returns_360 `{Libm} g lat lon :
  hasValidFix g = true -> is_fin (bearing_rad g lat lon) = true ->
  - pow2 (-23) <= fpQ (bearing_rad g lat lon) <= - pow2 (-1074) ->
  is_fin (bearingTo g lat lon) = true /\ fpQ (bearingTo g lat lon) == 360.
Proof. unfold bearingTo. intros Hf. rewrite Hf. apply bearing_finish_360. Qed.

(** ** Witnesses *)

(** The driver after a 3D fix at the origin. *)
Definition gps_fixed : gps := with_data (set_fix FIX_3D true (m_data gps_boot)) gps_boot.

(** A C library with the values a correctly rounded one returns near zero:
    [sin x = x] and [cos x = 1] below [2^-26]; [atan2 y x = y / x] to first
    order for a small ratio and a positive [x]. [sqrt] is not called by
    [bearingTo]. *)
#[local] Instance libm_small : Libm := {
  c_sin x := x;
  c_cos _ := of_int 1;
  c_atan2 y x := ddiv y x;
  c_sqrt _ := NaN
}.

(** A target [1e-7] degrees north and [1e-15] degrees west of the fix. *)
Definition target_lat : fp := dlit 1 (-7).
Definition target_lon : fp := fneg (dlit 1 (-15)).

Example bearingTo_range_witness :
  (hasValidFix gps_fixed = false -> bearingTo gps_fixed target_lat target_lon = fneg (flit 1 0)) /\
  (hasValidFix gps_fixed = true -> is_fin (bearing_rad gps_fixed target_lat target_lon) = true ->
   - fpQ M_PI <= fpQ (bearing_rad gps_fixed target_lat target_lon) <= fpQ M_PI ->
   is_fin (bearingTo gps_fixed target_lat target_lon) = true /\
   0 <= fpQ (bearingTo gps_fixed target_lat target_lon) <= 360) /\
  hasValidFix gps_fixed = true /\ is_fin (bearing_rad gps_fixed target_lat target_lon) = true /\
  - fpQ M_PI <= fpQ (bearing_rad gps_fixed target_lat target_lon) <= fpQ M_PI.
Proof.
  split; [exact (proj1 (bearingTo_range gps_fixed target_lat target_lon))|].
  split; [exact (proj2 (bearingTo_range gps_fixed target_lat target_lon))|].
  split; [reflexivity|]. split; [reflexivity|]. split; fp_num.
Defined.

Example bearingTo_returns_360_witness :
  is_fin (bearingTo gps_fixed target_lat target_lon) = true /\
  fpQ (bearingTo gps_fixed target_lat target_lon) == 360.
Proof.
  apply bearingTo_returns_360; [reflexivity|reflexivity|split; fp_num].
Defined.
