(* ===== verification/GpsTracker.v ===== *)
(** * GpsTracker: the GPS tracker example, the HAL and the GPS driver together

    Source: [src/src/examples/gps_tracker_example.cpp]. The class
    [GPSTrackerExample] keeps [m_last_fix_time] and [m_fix_lost_time];
    [update()] has the two function-local statics [last_status_print] and
    [last_detail_print]: the record [tracker]. The program's state is the
    HAL's ([Hal.hal]), the global driver [GPS::g_gps] ([GpsSensor.gps]) and
    the tracker: the record [sys]. [initialize()] calls
    [HardwareAbstraction::initialize()] and then [GPS::initializeGPS] with
    the V1.1 configuration; [update()] runs [g_gps.update()], reads the fix
    and [Timer::millis()], tracks fix acquisition and loss and prints on the
    board. The serial output is the list [printed] of the messages the
    board build prints (their text is not modelled, only which message);
    the host build prints nothing. One [update()] reads the board clock
    [now] for every [millis()] it makes. The board's [setup()] loops forever
    ([while (1)]) when [initialize()] fails: [Halted]. The host build's
    [main()] returns its exit code, [None] for undefined behaviour. *)

From stdpp Require Import base list gmap relations.
From Stdlib Require Import ZArith QArith Ascii String Lia.
From S2P Require Import Prelude HalTimer Hal GpsSensor.

Open Scope Z_scope.
Open Scope lora_scope.

(** The messages of [printGPSInfo], [printStatus], [printDetailedInfo]. *)
Inductive tracker_print := FixAcquired | FixLost | StatusLine | DetailedInfo.

(** The members of [GPSTrackerExample] and the statics of [update()]. *)
Record tracker := mkTracker {
  m_last_fix_time : Z;
  m_fix_lost_time : Z;
  last_status_print : Z;
  last_detail_print : Z
}.

(** [GPSTrackerExample()] and the zero-initialised statics. *)
Definition tracker_boot : tracker := mkTracker 0 0 0 0.

(** The whole program state. *)
Record sys := mkSys {
  s_hal : hal;
  s_gps : gps;
  s_trk : tracker;
  printed : list tracker_print
}.

Definition sys_boot : sys := mkSys hal_boot gps_boot tracker_boot [].

(** What [setup()] leaves: running, or stuck in [while (1)]. *)
Inductive setup_result := Running (w : sys) | Halted (w : sys).

Section Tracker.
Context `{EspPlatform}.
(** [true] for the [ARDUINO] build, [false] for the host build. *)
Variable arduino : bool.

(** [GPSTrackerExample::initialize()]. *)
Definition tracker_initialize (w : sys) : bool * sys :=
  let '(r, h1) := hal_initialize arduino (s_hal w) in
  if bool_decide (r <> SUCCESS) then (false, mkSys h1 (s_gps w) (s_trk w) (printed w)) else
  let '(r2, g1) := initializeGPS arduino h1 getWirelessTrackerV11Config (s_gps w) in
  (bool_decide (r2 = SUCCESS), mkSys h1 g1 (s_trk w) (printed w)).

(** The fix bookkeeping of [update()] at [current_time]. *)
Definition track_fix (has_fix : bool) (current_time : Z) (t : tracker) : tracker * list tracker_print :=
  if has_fix then
    (mkTracker current_time 0 (last_status_print t) (last_detail_print t),
     if m_last_fix_time t =? 0 then [FixAcquired] else [])
  else if negb (m_last_fix_time t =? 0) && (m_fix_lost_time t =? 0) then
    (mkTracker (m_last_fix_time t) current_time (last_status_print t) (last_detail_print t), [FixLost])
  else (t, []).

(** The two periodic prints: every 10 s the status, every 30 s with a fix
    the details. *)
Definition periodic_prints (has_fix : bool) (current_time : Z) (t : tracker) : tracker * list tracker_print :=
  let '(t1, p1) :=
    if 10000 <? current_time -u last_status_print t then
      (mkTracker (m_last_fix_time t) (m_fix_lost_time t) current_time (last_detail_print t), [StatusLine])
    else (t, []) in
  if has_fix && (30000 <? current_time -u last_detail_print t1) then
    (mkTracker (m_last_fix_time t1) (m_fix_lost_time t1) (last_status_print t1) current_time, p1 ++ [DetailedInfo])
  else (t1, p1).

(** [GPSTrackerExample::update()]; the result of [g_gps.update()] is
    ignored, its undefined behaviour is not. *)
Definition tracker_update (now : Z) (w : sys) : option sys :=
  '(_, g1, h1) ← update arduino now (s_hal w) (s_gps w);
  let has_fix := hasValidFix g1 in
  let '(current_time, tm1) := millis arduino now (tm h1) in
  let h2 := set_tm tm1 h1 in
  let '(t1, p1) := track_fix has_fix current_time (s_trk w) in
  let '(t2, p2) := periodic_prints has_fix current_time t1 in
  Some (mkSys h2 g1 t2 (printed w ++ if arduino then p1 ++ p2 else [])).

(** [for (int i = 0; i < 10; i++) { g_tracker.update(); delay(1000); }]
    on the clock readings [nows]. *)
Fixpoint tracker_updates (nows : list Z) (w : sys) : option sys :=
  match nows with
  | [] => Some w
  | now :: nows' => w1 ← tracker_update now w; tracker_updates nows' w1
  end.

(** The board's [setup()]. *)
Definition tracker_setup (w : sys) : setup_result :=
  let '(ok, w1) := tracker_initialize w in if ok then Running w1 else Halted w1.

End Tracker.

(** The host build's [main()]: 1 when [initialize()] fails, 0 after ten
    updates; [None] when an update has undefined behaviour. The host
    build's clock is the mock counter, so the board readings are unused. *)
Definition tracker_main `{EspPlatform} : option Z :=
  let '(ok, w1) := tracker_initialize false sys_boot in
  if negb ok then Some 1 else
  match tracker_updates false (repeat 0 10) w1 with Some _ => Some 0 | None => None end.

(** ** Properties of the composition *)

(** C26: on the board, [setup()] of the tracker example never gets past
    [initialize()]: in every HAL state reachable from boot, the HAL's
    [initialize()] fails, [initialize()] returns false before the GPS
    driver is touched, and [setup()] stays in its [while (1)] loop with
    the layer still uninitialised. *)
Theorem board_tracker_setup_halts `{EspPlatform} w :
  rtc (hal_step true) hal_boot (s_hal w) ->
  exists w', tracker_setup true w = Halted w' /\ g_initialized (s_hal w') = false /\ s_gps w' = s_gps w.
Proof.
  intros Hr. pose proof (board_rtc_not_init hal_boot (s_hal w) Hr eq_refl) as Hi.
  destruct (board_initialize_not_init (s_hal w) Hi) as [Hf Hg].
  unfold tracker_setup, tracker_initialize.
  destruct (hal_initialize true (s_hal w)) as [r h1]. cbn in Hf, Hg. subst r.
  rewrite bool_decide_true by discriminate. eexists; split; [reflexivity | split; [exact Hg | reflexivity]].
Qed.

(** ** Witnesses *)

Example board_tracker_setup_halts_witness :
  exists w', @tracker_setup esp_all_ok true sys_boot = Halted w' /\ g_initialized (s_hal w') = false /\
    s_gps w' = s_gps sys_boot.
Proof. exact (@board_tracker_setup_halts esp_all_ok sys_boot (rtc_refl _ _)). Defined.
