(* ===== verification/LoraOta.v ===== *)
(** * OtaCascadeProtocol: the LoRa OTA session

    Source: [src/src/main.cpp], [handleLoraOtaPacket], [checkLoraOtaTimeout]
    and [sendLoraOtaUpdate]. The receiving node keeps the globals
    [loraOtaActive], [loraOtaStartTime], [loraOtaTimeout], [loraOtaBuffer]
    (1024 bytes, filled up to [loraOtaBufferSize]), [loraOtaExpectedSize]
    and [loraOtaReceivedSize]: the record [ota]. The flash collaborator
    ([Update.begin/write/end] of the ESP32 core) is the interface [Flasher].
    Handlers return the new session and an [ota_outcome]: what the handler
    shows on the OLED (the start of a session, its progress percentage, the
    result of the flash), whether it restarts after a successful flash, or
    the trap of an integer division by zero. *)

From stdpp Require Import base list strings relations.
From Stdlib Require Import ZArith Ascii String Lia.
From S2P Require Import Prelude CFormat.

Open Scope Z_scope.
Open Scope lora_scope.

Record ota := mkOta {
  ota_active : bool;     (** loraOtaActive *)
  ota_start : Z;         (** loraOtaStartTime *)
  ota_timeout : Z;       (** loraOtaTimeout *)
  ota_buf : text;        (** loraOtaBuffer[0 .. loraOtaBufferSize) *)
  ota_expected : Z;      (** loraOtaExpectedSize *)
  ota_received : Z       (** loraOtaReceivedSize *)
}.

(** The values at boot. *)
Definition ota_init : ota := mkOta false 0 30000 [] 0 0.

(** [sizeof(loraOtaBuffer)]. *)
Definition ota_capacity : nat := 1024.

(** [Update.begin(size)] and [Update.write(buf, len); Update.end()]. *)
Class Flasher := {
  fl_begin : Z -> bool;
  fl_end : Z -> text -> bool
}.

(** A flash that accepts every image, for concrete scenarios. *)
Definition flash_ok : Flasher := {| fl_begin _ := true; fl_end _ _ := true |}.

Inductive ota_outcome :=
  | OtaNone          (** the handler returned without drawing *)
  | OtaStarted       (** "LoRa OTA" / "Starting..." *)
  | OtaProgress (percent : Z)  (** "LoRa OTA" / the percentage *)
  | OtaRestart       (** flashed, [ESP.restart()] *)
  | OtaFlashFailed   (** "Flash failed!" *)
  | OtaBeginFailed   (** "Begin failed!" *)
  | OtaDivZero.      (** [/ loraOtaExpectedSize] with a zero divisor traps *)

Definition ota_start_format : text := lit "OTA_START:%u:%u".
Definition ota_data_format : text := lit "OTA_DATA:%d:%255s".

(** [OTA_START:]: [sscanf] writes straight into [loraOtaExpectedSize] and
    [loraOtaTimeout], each as soon as it is converted; the session starts
    only when both were. *)
Definition handle_ota_start (now : Z) (pkt : text) (o : ota) : ota * ota_outcome :=
  let '(n, vs) := sscanf ota_start_format pkt in
  let expected := match vs with VInt e :: _ => e | _ => ota_expected o end in
  let timeout := match vs with _ :: VInt t :: _ => t | _ => ota_timeout o end in
  if n =? 2 then (mkOta true now timeout [] expected 0, OtaStarted)
  else (mkOta (ota_active o) (ota_start o) timeout (ota_buf o) expected (ota_received o), OtaNone).

(** [(loraOtaReceivedSize * 100) / loraOtaExpectedSize] in [uint32_t]
    arithmetic ([expected <> 0]). *)
Definition ota_percent (received expected : Z) : Z := u32 (received * 100) / expected.

(** [OTA_DATA:]: the payload is appended in arrival order when it fits
    ([loraOtaBufferSize + dataLen < sizeof(loraOtaBuffer)]), whatever the
    chunk index says; then the progress percentage divides by the expected
    size. *)
Definition handle_ota_data (pkt : text) (o : ota) : ota * ota_outcome :=
  if negb (ota_active o) then (o, OtaNone) else
  match sscanf ota_data_format pkt with
  | (n, [VInt _; VStr data]) =>
    if (n =? 2) && (length (ota_buf o) + length data <? ota_capacity)%nat then
      let o' := mkOta (ota_active o) (ota_start o) (ota_timeout o) (ota_buf o ++ data)
                      (ota_expected o) (u32 (ota_received o + Z.of_nat (length data))) in
      (o', if ota_expected o =? 0 then OtaDivZero else OtaProgress (ota_percent (ota_received o') (ota_expected o)))
    else (o, OtaNone)
  | _ => (o, OtaNone)
  end.

(** [OTA_END:]: flash when enough bytes arrived; the session ends in every
    case. *)
Definition handle_ota_end `{Flasher} (o : ota) : ota * ota_outcome :=
  if negb (ota_active o) then (o, OtaNone) else
  let out :=
    if ota_expected o <=? ota_received o then
      if fl_begin (ota_expected o) then
        if fl_end (ota_expected o) (ota_buf o) then OtaRestart else OtaFlashFailed
      else OtaBeginFailed
    else OtaNone in
  (mkOta false (ota_start o) (ota_timeout o) (ota_buf o) (ota_expected o) (ota_received o), out).

(** [handleLoraOtaPacket(packet)] at time [now] ([millis()]). *)
Definition handleLoraOtaPacket `{Flasher} (now : Z) (pkt : text) (o : ota) : ota * ota_outcome :=
  if starts_with (lit "OTA_START:") pkt then handle_ota_start now pkt o
  else if starts_with (lit "OTA_DATA:") pkt then handle_ota_data pkt o
  else if starts_with (lit "OTA_END:") pkt then handle_ota_end o
  else (o, OtaNone).

(** [checkLoraOtaTimeout()]: [millis() - loraOtaStartTime > loraOtaTimeout]
    in unsigned 32-bit arithmetic. *)
Definition checkLoraOtaTimeout (now : Z) (o : ota) : ota :=
  if ota_active o && (ota_timeout o <? (now -u ota_start o)) then
    mkOta false (ota_start o) (ota_timeout o) (ota_buf o) (ota_expected o) (ota_received o)
  else o.

(** The states a node's session can reach from boot: any packet, any
    timeout check, in any order. *)
Inductive ota_step `{Flasher} : ota -> ota -> Prop :=
  | ota_step_packet now pkt o : ota_step o (handleLoraOtaPacket now pkt o).1
  | ota_step_timeout now o : ota_step o (checkLoraOtaTimeout now o).

Definition ota_reachable `{Flasher} (o : ota) : Prop := rtc ota_step ota_init o.

(** The session invariant: the buffer never fills up, and the received
    counter is its length. *)
Definition ota_inv (o : ota) : Prop :=
  (length (ota_buf o) < ota_capacity)%nat /\ ota_received o = Z.of_nat (length (ota_buf o)).

(** ** The sending side: [sendLoraOtaUpdate] *)

Definition ota_chunk_size : nat := 200.

(** [while (sentBytes < firmwareSize) { currentChunkSize = min(chunkSize,
    firmwareSize - sentBytes); ... sentBytes += currentChunkSize;
    chunkNum++; }]: the (index, bytes) of each chunk. [fuel] bounds the
    iterations; each one sends at least one byte. *)
Fixpoint ota_chunks (fuel : nat) (fw : text) (sent : nat) (num : Z) : list (Z * text) :=
  match fuel with
  | O => []
  | S f =>
    if (sent <? length fw)%nat then
      let cur := Nat.min ota_chunk_size (length fw - sent) in
      (num, take cur (drop sent fw)) :: ota_chunks f fw (sent + cur) (num + 1)
    else []
  end.

(** [snprintf(chunkMsg, sizeof(chunkMsg), "OTA_DATA:%d:", chunkNum)]. *)
Definition ota_data_prefix (num : Z) : text := lit "OTA_DATA:" ++ fmt_int num ++ lit ":".

(** [snprintf(startMsg, sizeof(startMsg), "OTA_START:%zu:%lu", firmwareSize,
    loraOtaTimeout)]. *)
Definition ota_start_frame (size tmo : Z) : text :=
  lit "OTA_START:" ++ fmt_uint size ++ lit ":" ++ fmt_uint tmo.

(** The [OTA_DATA] frame of chunk [num] carrying [d]. *)
Definition ota_data_frame (num : Z) (d : text) : text := ota_data_prefix num ++ d.

Definition ota_end_frame : text := lit "OTA_END:".

(** A payload that [%255s] reads whole: non-empty, blank-free, at most 255
    characters. *)
Definition payload_ok (d : text) : bool :=
  bool_decide (d <> []) && forallb (fun c => negb (is_space c)) d && (length d <=? 255)%nat.

(** The packets [pkts] handled in order at time [now]: the last session and
    the outcome of each handler. *)
Fixpoint ota_feed `{Flasher} (now : Z) (pkts : list text) (o : ota) : ota * list ota_outcome :=
  match pkts with
  | [] => (o, [])
  | pkt :: ps =>
    let '(o1, out) := handleLoraOtaPacket now pkt o in
    let '(o2, outs) := ota_feed now ps o1 in (o2, out :: outs)
  end.

(** The [OTA_DATA] frames for [chunks], numbered by [nums]. *)
Definition data_frames (nums : list Z) (chunks : list text) : list text :=
  zip_with ota_data_frame nums chunks.

(** What [OTA_END:] does with a complete image: flash it through the
    collaborator. *)
Definition flash_outcome `{Flasher} (n : Z) (img : text) : ota_outcome :=
  if fl_begin n then if fl_end n img then OtaRestart else OtaFlashFailed else OtaBeginFailed.

(** The progress lines of data frames carrying [chunks], after [r] of
    [e] bytes. *)
Fixpoint progress_outcomes (e r : Z) (chunks : list text) : list ota_outcome :=
  match chunks with
  | [] => []
  | d :: ds => let r' := r + Z.of_nat (length d) in OtaProgress (ota_percent r' e) :: progress_outcomes e r' ds
  end.

(** ** The receiving session *)

Section Session.
Context `{Flasher}.

Lemma ota_init_inv : ota_inv ota_init.
Proof. split; simpl; [unfold ota_capacity; lia | reflexivity]. Qed.

Lemma handle_ota_start_inv now pkt o : ota_inv o -> ota_inv (handle_ota_start now pkt o).1.
Proof.
  intros Hi. unfold handle_ota_start. destruct (sscanf _ _) as [n vs].
  destruct (n =? 2); [split; simpl; [unfold ota_capacity; lia | reflexivity] | exact Hi].
Qed.

Lemma handle_ota_data_inv pkt o : ota_inv o -> ota_inv (handle_ota_data pkt o).1.
Proof.
  intros [Hlen Hrec]. unfold handle_ota_data.
  destruct (ota_active o); [|split; assumption]. simpl.
  destruct (sscanf _ _) as [n [|[z| |] [|[| |data] [|]]]]; try (split; assumption).
  destruct (_ && _) eqn:Hg; [|split; assumption].
  apply andb_prop in Hg as [_ Hg]. apply Nat.ltb_lt in Hg.
  split; simpl; rewrite length_app; [exact Hg|].
  rewrite Hrec, u32_small; [lia|]. unfold is_u32, u32_modulus, ota_capacity in *. lia.
Qed.

Lemma handle_ota_end_inv o : ota_inv o -> ota_inv (handle_ota_end o).1.
Proof. intros Hi. unfold handle_ota_end. destruct (ota_active o); exact Hi. Qed.

Lemma checkLoraOtaTimeout_inv now o : ota_inv o -> ota_inv (checkLoraOtaTimeout now o).
Proof. intros Hi. unfold checkLoraOtaTimeout. destruct (_ && _); exact Hi. Qed.

Lemma handleLoraOtaPacket_inv now pkt o : ota_inv o -> ota_inv (handleLoraOtaPacket now pkt o).1.
Proof.
  intros Hi. unfold handleLoraOtaPacket.
  repeat case_match; simpl;
    auto using handle_ota_start_inv, handle_ota_data_inv, handle_ota_end_inv.
Qed.

Lemma ota_step_inv o o' : ota_step o o' -> ota_inv o -> ota_inv o'.
Proof. intros []; [apply handleLoraOtaPacket_inv | apply checkLoraOtaTimeout_inv]. Qed.

Lemma ota_rtc_inv x y : rtc ota_step x y -> ota_inv x -> ota_inv y.
Proof. induction 1; eauto using ota_step_inv. Qed.

(** C5: in every session state reachable from boot, the OTA buffer holds
    fewer than [sizeof(loraOtaBuffer)] = 1024 bytes and
    [loraOtaReceivedSize] equals the number of buffered bytes. *)
Theorem ota_reachable_inv o : ota_reachable o -> ota_inv o.
Proof. intros Hr. exact (ota_rtc_inv _ _ Hr ota_init_inv). Qed.
End Session.

(** ** Parsing the frames *)

Lemma ota_start_directives :
  compile_fmt ota_start_format =
  [DLit "O"; DLit "T"; DLit "A"; DLit "_"; DLit "S"; DLit "T"; DLit "A"; DLit "R"; DLit "T";
   DLit ":"; DConv CUns; DLit ":"; DConv CUns].
Proof. reflexivity. Qed.

Lemma ota_data_directives :
  compile_fmt ota_data_format =
  [DLit "O"; DLit "T"; DLit "A"; DLit "_"; DLit "D"; DLit "A"; DLit "T"; DLit "A";
   DLit ":"; DConv CInt; DLit ":"; DConv (CStr (Some 255%nat))].
Proof. reflexivity. Qed.

Lemma sscanf_ota_start n t :
  is_u32 n -> is_u32 t -> sscanf ota_start_format (ota_start_frame n t) = (2, [VInt n; VInt t]).
Proof.
  intros Hn Ht. unfold sscanf, ota_start_frame, lit. rewrite ota_start_directives.
  cbn [app list_ascii_of_string]. scan_literals.
  erewrite run_scan_conv; [| apply hd_not_space_uint; u32_lia | apply scan_conv_uint; [exact Hn | reflexivity]].
  scan_literals. rewrite <- (app_nil_r (fmt_uint t)).
  erewrite run_scan_conv; [| apply hd_not_space_uint; u32_lia | apply scan_conv_uint; [exact Ht | reflexivity]].
  reflexivity.
Qed.

(** A start frame cut after the size assigns the size and returns 1. *)
Lemma sscanf_ota_start_partial e :
  is_u32 e -> sscanf ota_start_format (lit "OTA_START:" ++ fmt_uint e) = (1, [VInt e]).
Proof.
  intros He. unfold sscanf, lit. rewrite ota_start_directives.
  cbn [app list_ascii_of_string]. scan_literals. rewrite <- (app_nil_r (fmt_uint e)).
  erewrite run_scan_conv; [| apply hd_not_space_uint; u32_lia | apply scan_conv_uint; [exact He | reflexivity]].
  reflexivity.
Qed.

Lemma payload_ok_spec d :
  payload_ok d = true -> d <> [] /\ Forall (fun c => is_space c = false) d /\ (length d <= 255)%nat.
Proof.
  unfold payload_ok. intros H. apply andb_prop in H as [H Hl]. apply andb_prop in H as [Hne Hs].
  apply bool_decide_eq_true in Hne. apply Nat.leb_le in Hl. split; [exact Hne|]. split; [|exact Hl].
  pose proof (proj1 (forallb_forall _ d) Hs) as Hs'. apply Forall_forall. intros c Hc. apply list_elem_of_In in Hc.
  specialize (Hs' c Hc). cbv beta in Hs'. now destruct (is_space c).
Qed.

Lemma sscanf_ota_data num d :
  int_min <= num <= int_max -> payload_ok d = true ->
  sscanf ota_data_format (ota_data_frame num d) = (2, [VInt num; VStr d]).
Proof.
  intros Hnum Hd. apply payload_ok_spec in Hd as (Hne & Hsp & Hlen).
  unfold sscanf, ota_data_frame, ota_data_prefix, lit. rewrite ota_data_directives.
  rewrite <- !app_assoc. cbn [app list_ascii_of_string]. scan_literals.
  erewrite run_scan_conv; [| apply hd_not_space_int | apply scan_conv_int; [exact Hnum | reflexivity]].
  scan_literals.
  erewrite run_scan_conv; [| | apply scan_conv_str; assumption].
  - reflexivity.
  - destruct d as [|c d]; [congruence|]. inversion Hsp; subst. simpl. now rewrite H1.
Qed.

Section Frames.
Context `{Flasher}.

Lemma handle_start_frame now n t o :
  is_u32 n -> is_u32 t -> handleLoraOtaPacket now (ota_start_frame n t) o = (mkOta true now t [] n 0, OtaStarted).
Proof.
  intros Hn Ht. unfold handleLoraOtaPacket.
  replace (starts_with (lit "OTA_START:") (ota_start_frame n t)) with true
    by (unfold ota_start_frame; now rewrite starts_with_app).
  unfold handle_ota_start. rewrite sscanf_ota_start by assumption. reflexivity.
Qed.

Lemma handle_data_frame now o num d :
  ota_active o = true -> int_min <= num <= int_max -> payload_ok d = true ->
  handleLoraOtaPacket now (ota_data_frame num d) o =
  if (length (ota_buf o) + length d <? ota_capacity)%nat then
    (mkOta true (ota_start o) (ota_timeout o) (ota_buf o ++ d) (ota_expected o)
           (u32 (ota_received o + Z.of_nat (length d))),
     if ota_expected o =? 0 then OtaDivZero
     else OtaProgress (ota_percent (u32 (ota_received o + Z.of_nat (length d))) (ota_expected o)))
  else (o, OtaNone).
Proof.
  intros Ha Hnum Hd. unfold handleLoraOtaPacket.
  replace (starts_with (lit "OTA_START:") (ota_data_frame num d)) with false by reflexivity.
  replace (starts_with (lit "OTA_DATA:") (ota_data_frame num d)) with true
    by (unfold ota_data_frame, ota_data_prefix; now rewrite <- app_assoc, starts_with_app).
  unfold handle_ota_data. rewrite Ha, sscanf_ota_data by assumption.
  simpl negb. cbv iota. rewrite Z.eqb_refl. simpl andb.
  destruct (_ <? _)%nat; reflexivity.
Qed.

Lemma handle_end_frame now o : handleLoraOtaPacket now ota_end_frame o = handle_ota_end o.
Proof. reflexivity. Qed.
End Frames.

(** ** Sessions: sequences of frames *)

Section Sessions.
Context `{Flasher}.

Lemma ota_feed_app now ps qs o :
  ota_feed now (ps ++ qs) o =
  let '(o1, outs1) := ota_feed now ps o in let '(o2, outs2) := ota_feed now qs o1 in (o2, outs1 ++ outs2).
Proof.
  revert o. induction ps as [|pkt ps IH]; intros o; simpl.
  - destruct (ota_feed now qs o); reflexivity.
  - destruct (handleLoraOtaPacket now pkt o) as [o1 out]. rewrite IH.
    destruct (ota_feed now ps o1) as [o2 outs1]. destruct (ota_feed now qs o2). reflexivity.
Qed.

(** Data frames that fit are appended one after the other. *)
Lemma feed_data_frames now nums chunks o :
  ota_active o = true -> ota_expected o <> 0 -> ota_received o = Z.of_nat (length (ota_buf o)) ->
  length nums = length chunks -> Forall (fun i => int_min <= i <= int_max) nums ->
  Forall (fun d => payload_ok d = true) chunks ->
  (length (ota_buf o) + length (concat chunks) < ota_capacity)%nat ->
  ota_feed now (data_frames nums chunks) o =
  (mkOta true (ota_start o) (ota_timeout o) (ota_buf o ++ concat chunks) (ota_expected o)
         (Z.of_nat (length (ota_buf o ++ concat chunks))),
   progress_outcomes (ota_expected o) (ota_received o) chunks).
Proof.
  revert nums o. induction chunks as [|d ds IH]; intros nums o Ha He Hr Hl Hn Hd Hc.
  - destruct nums; [|discriminate]. destruct o; simpl in *. subst. rewrite app_nil_r. reflexivity.
  - destruct nums as [|i ns]; [discriminate|]. inversion Hn; inversion Hd; subst.
    simpl concat in *. rewrite length_app in Hc.
    cbn [data_frames zip_with ota_feed]. rewrite handle_data_frame by assumption.
    replace (length (ota_buf o) + length d <? ota_capacity)%nat with true by (symmetry; apply Nat.ltb_lt; lia).
    pose proof He as He'. apply Z.eqb_neq in He'. rewrite He'.
    rewrite u32_small by (unfold is_u32, u32_modulus, ota_capacity in *; lia).
    rewrite IH.
    + simpl. rewrite app_assoc, Hr. reflexivity.
    + reflexivity.
    + exact He.
    + simpl. rewrite Hr, length_app. lia.
    + simpl in Hl. lia.
    + assumption.
    + assumption.
    + simpl. rewrite length_app. lia.
Qed.

(** C7: a complete session ([OTA_START:n:t], data frames carrying exactly
    [n] < 1024 bytes in any numbering, [OTA_END:]) shows its start and,
    after each data frame, the percentage received so far; it then hands
    the received image, the payloads concatenated in arrival order, to the
    flash collaborator, and the session is over afterwards. *)
Theorem ota_session_complete now n tmo nums chunks o :
  is_u32 n -> is_u32 tmo -> 0 < n -> Z.of_nat (length (concat chunks)) = n ->
  (length (concat chunks) < ota_capacity)%nat ->
  length nums = length chunks -> Forall (fun i => int_min <= i <= int_max) nums ->
  Forall (fun d => payload_ok d = true) chunks ->
  ota_feed now (ota_start_frame n tmo :: data_frames nums chunks ++ [ota_end_frame]) o =
  (mkOta false now tmo (concat chunks) n n,
   OtaStarted :: progress_outcomes n 0 chunks ++ [flash_outcome n (concat chunks)]).
Proof.
  intros Hn Ht Hpos Hlen Hcap Hl Hnums Hd. cbn [ota_feed]. rewrite handle_start_frame by assumption.
  rewrite ota_feed_app, feed_data_frames by (simpl; lia || assumption). simpl.
  unfold handle_ota_end. simpl. rewrite Hlen, Z.leb_refl. reflexivity.
Qed.

(** When fewer than [n] bytes arrived, [OTA_END:] flashes nothing and
    ends the session (the node returns to idle, it does not stay active). *)
Theorem ota_session_incomplete now n tmo nums chunks o :
  is_u32 n -> is_u32 tmo -> Z.of_nat (length (concat chunks)) < n ->
  (length (concat chunks) < ota_capacity)%nat ->
  length nums = length chunks -> Forall (fun i => int_min <= i <= int_max) nums ->
  Forall (fun d => payload_ok d = true) chunks ->
  ota_feed now (ota_start_frame n tmo :: data_frames nums chunks ++ [ota_end_frame]) o =
  (mkOta false now tmo (concat chunks) n (Z.of_nat (length (concat chunks))),
   OtaStarted :: progress_outcomes n 0 chunks ++ [OtaNone]).
Proof.
  intros Hn Ht Hlt Hcap Hl Hnums Hd. cbn [ota_feed]. rewrite handle_start_frame by assumption.
  rewrite ota_feed_app, feed_data_frames by (simpl; unfold is_u32, u32_modulus, ota_capacity in *; lia || assumption).
  simpl. unfold handle_ota_end. simpl.
  replace (n <=? Z.of_nat (length (concat chunks))) with false by (symmetry; apply Z.leb_gt; lia).
  reflexivity.
Qed.
End Sessions.

(** ** Error paths *)

Section Errors.
Context `{Flasher}.

(** A start frame cut after the size ([OTA_START:e]) does not start a
    session, but [sscanf] has already overwritten the live session's
    expected size: an active session keeps its buffer and now expects [e]
    bytes. *)
Theorem ota_partial_start_overwrites now e o :
  is_u32 e ->
  handleLoraOtaPacket now (lit "OTA_START:" ++ fmt_uint e) o =
  (mkOta (ota_active o) (ota_start o) (ota_timeout o) (ota_buf o) e (ota_received o), OtaNone).
Proof.
  intros He. unfold handleLoraOtaPacket. rewrite starts_with_app.
  unfold handle_ota_start. rewrite sscanf_ota_start_partial by exact He. reflexivity.
Qed.

(** Consequence: an active session that has received [r] bytes of a
    larger image flashes those [r] bytes after [OTA_START:r] and
    [OTA_END:]. *)
Lemma ota_partial_start_truncated_flash now o :
  ota_active o = true -> is_u32 (ota_received o) ->
  ota_feed now [lit "OTA_START:" ++ fmt_uint (ota_received o); ota_end_frame] o =
  (mkOta false (ota_start o) (ota_timeout o) (ota_buf o) (ota_received o) (ota_received o),
   [OtaNone; flash_outcome (ota_received o) (ota_buf o)]).
Proof.
  intros Ha Hr. cbn [ota_feed].
  assert (E : handleLoraOtaPacket now (lit "OTA_START:" ++ fmt_uint (ota_received o)) o =
    (mkOta (ota_active o) (ota_start o) (ota_timeout o) (ota_buf o) (ota_received o) (ota_received o), OtaNone)).
  { unfold handleLoraOtaPacket. rewrite starts_with_app.
    unfold handle_ota_start. rewrite sscanf_ota_start_partial by exact Hr. reflexivity. }
  rewrite E.
  rewrite handle_end_frame. unfold handle_ota_end. simpl. rewrite Ha, Z.leb_refl. reflexivity.
Qed.

(** C11: a session started with expected size 0 traps on its first data
    frame: the progress percentage divides by [loraOtaExpectedSize]. *)
Theorem ota_zero_size_div_by_zero now tmo num d o :
  is_u32 tmo -> int_min <= num <= int_max -> payload_ok d = true ->
  ota_feed now [ota_start_frame 0 tmo; ota_data_frame num d] o =
  (mkOta true now tmo d 0 (Z.of_nat (length d)), [OtaStarted; OtaDivZero]).
Proof.
  intros Ht Hn Hd. cbn [ota_feed]. rewrite handle_start_frame by (u32_lia || exact Ht).
  rewrite handle_data_frame by (reflexivity || assumption). simpl.
  apply payload_ok_spec in Hd as (_ & _ & Hl).
  replace (length d <? ota_capacity)%nat with true by (symmetry; apply Nat.ltb_lt; unfold ota_capacity; lia).
  rewrite u32_small by (unfold is_u32, u32_modulus; lia). reflexivity.
Qed.

(** An idle node ignores data and end frames. *)
Theorem ota_idle_ignores now pkt o :
  ota_active o = false -> starts_with (lit "OTA_START:") pkt = false ->
  handleLoraOtaPacket now pkt o = (o, OtaNone).
Proof.
  intros Ha Hs. unfold handleLoraOtaPacket. rewrite Hs.
  unfold handle_ota_data, handle_ota_end. rewrite Ha. cbn [negb].
  destruct (starts_with (lit "OTA_DATA:") pkt), (starts_with (lit "OTA_END:") pkt); reflexivity.
Qed.

(** C8: no image of 1024 bytes or more is ever flashed: in every reachable
    state an [OTA_END:] expecting that many bytes finds too few. *)
Theorem ota_large_image_never_flashes o :
  ota_reachable o -> 1024 <= ota_expected o -> (handle_ota_end o).2 = OtaNone.
Proof.
  intros Hr Hbig. destruct (ota_rtc_inv _ _ Hr ota_init_inv) as [Hl Hrec]. unfold ota_capacity in Hl.
  unfold handle_ota_end. destruct (ota_active o); [|reflexivity]. simpl.
  replace (ota_expected o <=? ota_received o) with false by (symmetry; apply Z.leb_gt; lia).
  reflexivity.
Qed.

(** The timeout compares the wrapped elapsed time: at [start + d]
    (mod 2^32) an active session times out exactly when [d] exceeds the
    timeout, also across the wrap of [millis()]. *)
Theorem ota_timeout_wraps o d :
  ota_active o = true -> is_u32 (ota_start o) -> 0 <= d < u32_modulus ->
  checkLoraOtaTimeout (ota_start o +u d) o =
  if ota_timeout o <? d then
    mkOta false (ota_start o) (ota_timeout o) (ota_buf o) (ota_expected o) (ota_received o)
  else o.
Proof.
  intros Ha Hs Hd. unfold checkLoraOtaTimeout. rewrite Ha, u32_elapsed by assumption. reflexivity.
Qed.
End Errors.

(** ** The sending side *)

Lemma ota_chunks_spec fuel fw sent num :
  (length fw - sent <= fuel)%nat ->
  concat (map snd (ota_chunks fuel fw sent num)) = drop sent fw /\
  Forall (fun c => 0 < length c <= ota_chunk_size)%nat (map snd (ota_chunks fuel fw sent num)) /\
  length (ota_chunks fuel fw sent num) = ((length fw - sent + 199) / 200)%nat /\
  map fst (ota_chunks fuel fw sent num) = map (fun i => num + Z.of_nat i) (seq 0 (length (ota_chunks fuel fw sent num))).
Proof.
  revert sent num. induction fuel as [|f IH]; intros sent num Hf.
  - simpl. replace (length fw - sent)%nat with 0%nat by lia. rewrite drop_ge by lia. auto.
  - cbn [ota_chunks]. destruct (Nat.ltb_spec sent (length fw)) as [Hlt | Hge].
    + unfold ota_chunk_size in *. set (cur := Nat.min 200 (length fw - sent)).
      destruct (IH (sent + cur)%nat (num + 1)) as (Hc & Hs & Hn & Hi); [unfold cur; lia|].
      cbn [map concat]. rewrite Hc. split; [|split; [|split]].
      * rewrite <- drop_drop. apply take_drop.
      * constructor; [|exact Hs]. simpl snd. rewrite length_take, length_drop. unfold cur. lia.
      * cbn [length]. rewrite Hn. unfold cur.
        destruct (Nat.leb_spec 200 (length fw - sent)); [rewrite Nat.min_l by lia | rewrite Nat.min_r by lia].
        -- replace (length fw - sent + 199)%nat with (1 * 200 + (length fw - (sent + 200) + 199))%nat by lia.
           rewrite Nat.div_add_l by lia. reflexivity.
        -- replace (length fw - (sent + (length fw - sent)) + 199)%nat with 199%nat by lia.
           replace (length fw - sent + 199)%nat with (1 * 200 + (length fw - sent - 1))%nat by lia.
           rewrite Nat.div_add_l, !Nat.div_small by lia. reflexivity.
      * simpl. rewrite Z.add_0_r. f_equal. rewrite Hi, <- seq_shift, map_map. apply map_ext. intros i. lia.
    + simpl. replace (length fw - sent)%nat with 0%nat by lia. rewrite drop_ge by lia. auto.
Qed.

(** Once the fuel covers the bytes left, more fuel changes nothing: the
    model of the loop does not depend on it. *)
Lemma ota_chunks_fuel fuel1 fuel2 fw sent num :
  (length fw - sent <= fuel1)%nat -> (length fw - sent <= fuel2)%nat ->
  ota_chunks fuel1 fw sent num = ota_chunks fuel2 fw sent num.
Proof.
  revert fuel2 sent num. induction fuel1 as [|f1 IH]; intros [|f2] sent num H1 H2; cbn [ota_chunks].
  - reflexivity.
  - destruct (Nat.ltb_spec sent (length fw)); [lia | reflexivity].
  - destruct (Nat.ltb_spec sent (length fw)); [lia | reflexivity].
  - destruct (Nat.ltb_spec sent (length fw)); [|reflexivity].
    f_equal. apply IH; unfold ota_chunk_size; lia.
Qed.

(** C13: the sending loop of [sendLoraOtaUpdate] terminates: within
    [length fw] iterations it cuts the image into ceil(n/200) chunks of 1 to
    200 bytes, numbered 0, 1, ..., whose concatenation is the image. *)
Theorem ota_chunks_partition fw :
  concat (map snd (ota_chunks (length fw) fw 0 0)) = fw /\
  Forall (fun c => 0 < length c <= ota_chunk_size)%nat (map snd (ota_chunks (length fw) fw 0 0)) /\
  length (ota_chunks (length fw) fw 0 0) = ((length fw + 199) / 200)%nat /\
  map fst (ota_chunks (length fw) fw 0 0) = map Z.of_nat (seq 0 (length (ota_chunks (length fw) fw 0 0))).
Proof.
  destruct (ota_chunks_spec (length fw) fw 0 0) as (Hc & Hs & Hn & Hi); [lia|].
  rewrite Nat.sub_0_r in Hn. split; [exact Hc | split; [exact Hs | split; [exact Hn|]]].
  rewrite Hi. apply map_ext. intros i. lia.
Qed.

Lemma cstr_app l r : Forall (fun c => c <> nul) l -> cstr (l ++ r) = l ++ cstr r.
Proof.
  induction 1 as [|c l Hc _ IH]; [reflexivity|]. simpl.
  destruct (ascii_dec c nul); [contradiction | now rewrite IH].
Qed.

Lemma fmt_int_nonnul z : Forall (fun c => c <> nul) (fmt_int z).
Proof.
  assert (Hu : forall n, 0 <= n -> Forall (fun c => c <> nul) (fmt_uint n)).
  { intros n Hn. eapply Forall_impl; [apply fmt_uint_digits; exact Hn|].
    intros c Hc ->. discriminate. }
  unfold fmt_int. case_cmp; [constructor; [discriminate|] |]; apply Hu; lia.
Qed.


(** ** Witnesses *)

Example ota_reachable_inv_witness :
  ota_inv (@handleLoraOtaPacket flash_ok 5 (ota_start_frame 10 100) ota_init).1.
Proof.
  apply (@ota_reachable_inv flash_ok). eapply rtc_l; [apply ota_step_packet | apply rtc_refl].
Defined.

Example ota_session_complete_witness :
  @ota_feed flash_ok 7 (ota_start_frame 3 100 :: data_frames [0] [lit "abc"] ++ [ota_end_frame]) ota_init =
  (mkOta false 7 100 (concat [lit "abc"]) 3 3,
   OtaStarted :: progress_outcomes 3 0 [lit "abc"] ++ [@flash_outcome flash_ok 3 (concat [lit "abc"])]).
Proof.
  apply (@ota_session_complete flash_ok); try reflexivity; try (unfold is_u32, u32_modulus; lia).
  - vm_compute. lia.
  - repeat constructor; unfold int_min, int_max; lia.
  - repeat constructor.
Defined.

Example ota_session_incomplete_witness :
  @ota_feed flash_ok 7 (ota_start_frame 5 100 :: data_frames [0] [lit "abc"] ++ [ota_end_frame]) ota_init =
  (mkOta false 7 100 (concat [lit "abc"]) 5 (Z.of_nat (length (concat [lit "abc"]))),
   OtaStarted :: progress_outcomes 5 0 [lit "abc"] ++ [OtaNone]).
Proof.
  apply (@ota_session_incomplete flash_ok); try reflexivity; try (unfold is_u32, u32_modulus; simpl; lia).
  - vm_compute. lia.
  - repeat constructor; unfold int_min, int_max; lia.
  - repeat constructor.
Defined.

Example ota_partial_start_overwrites_witness :
  @handleLoraOtaPacket flash_ok 9 (lit "OTA_START:" ++ fmt_uint 2) (mkOta true 1 100 (lit "abc") 900 3) =
  (mkOta true 1 100 (lit "abc") 2 3, OtaNone).
Proof. apply (@ota_partial_start_overwrites flash_ok). unfold is_u32, u32_modulus; lia. Defined.

Example ota_zero_size_div_by_zero_witness :
  @ota_feed flash_ok 4 [ota_start_frame 0 100; ota_data_frame 0 (lit "abc")] ota_init =
  (mkOta true 4 100 (lit "abc") 0 (Z.of_nat (length (lit "abc"))), [OtaStarted; OtaDivZero]).
Proof.
  apply (@ota_zero_size_div_by_zero flash_ok); [unfold is_u32, u32_modulus; lia | unfold int_min, int_max; lia | reflexivity].
Defined.

Example ota_idle_ignores_witness :
  @handleLoraOtaPacket flash_ok 3 (ota_data_frame 0 (lit "abc")) ota_init = (ota_init, OtaNone).
Proof. apply (@ota_idle_ignores flash_ok); reflexivity. Defined.

Example ota_large_image_never_flashes_witness :
  (@handle_ota_end flash_ok (@handleLoraOtaPacket flash_ok 5 (ota_start_frame 2000 100) ota_init).1).2 = OtaNone.
Proof.
  apply (@ota_large_image_never_flashes flash_ok).
  - eapply rtc_l; [apply ota_step_packet | apply rtc_refl].
  - vm_compute. discriminate.
Defined.

Example ota_timeout_wraps_witness :
  checkLoraOtaTimeout (4294967000 +u 30001) (mkOta true 4294967000 30000 [] 10 0) =
  mkOta false 4294967000 30000 [] 10 0.
Proof.
  exact (ota_timeout_wraps (mkOta true 4294967000 30000 [] 10 0) 30001 eq_refl
           ltac:(unfold is_u32, u32_modulus; simpl; lia) ltac:(unfold u32_modulus; lia)).
Defined.
