(* ===== verification/OtaRefinement.v ===== *)
(** * OtaRefinement: the LoRa OTA session against its protocol state machine

    The protocol description of the OTA cascade gives each node the state
    machine [Idle -> Active -> {Flashing | TimedOut} -> Idle]: [OTA_START]
    (re)starts a session with an empty buffer, [OTA_DATA] appends its
    payload when it fits, [OTA_END] flashes the buffer when enough bytes
    arrived, and the session is dropped when its timeout has elapsed. This
    file states that machine abstractly ([phase], [spec_step], with the
    usable capacity of the buffer as a parameter) and proves that the code
    of [LoraOta.v] ([handleLoraOtaPacket], [checkLoraOtaTimeout]) refines it
    for the usable capacity 1023 bytes: along every sequence of well-formed
    frames and timeout checks, the abstraction [abs] of the concrete
    session follows the abstract machine step by step, and the concrete
    handler calls the flash collaborator exactly when the machine flashes,
    with the same image. The timeout theorem shows when a session ends. *)

From stdpp Require Import base list strings relations.
From Stdlib Require Import ZArith Ascii String Lia.
From S2P Require Import Prelude CFormat LoraOta.

Open Scope Z_scope.
Open Scope lora_scope.

(** The phases of the protocol machine; an active session carries what it
    announced and what it has buffered. *)
Inductive phase :=
  | Idle
  | Active (expected timeout start : Z) (buf : text).

(** What a node observes: a frame or a timeout check, at a clock reading. *)
Inductive ota_event :=
  | EvStart (size tmo : Z)
  | EvData (num : Z) (d : text)
  | EvEnd
  | EvOther (msg : text)
  | EvTick.

(** One step of the machine with a buffer of [cap] usable bytes; the
    output is the announced size and the image it flashes, if any. *)
Definition spec_step (cap : nat) (now : Z) (ev : ota_event) (st : phase) : phase * option (Z * text) :=
  match ev, st with
  | EvStart n t, _ => (Active n t now [], None)
  | EvData _ d, Active e t s b =>
    if (length b + length d <=? cap)%nat then (Active e t s (b ++ d), None) else (st, None)
  | EvEnd, Active e t s b => (Idle, if e <=? Z.of_nat (length b) then Some (e, b) else None)
  | EvTick, Active e t s b => (if t <? now -u s then Idle else st, None)
  | _, _ => (st, None)
  end.

Fixpoint spec_run (cap : nat) (evs : list (Z * ota_event)) (st : phase) : phase * list (option (Z * text)) :=
  match evs with
  | [] => (st, [])
  | (now, ev) :: evs' =>
    let '(st1, out) := spec_step cap now ev st in
    let '(st2, outs) := spec_run cap evs' st1 in (st2, out :: outs)
  end.

(** The abstraction of a concrete session. *)
Definition abs (o : ota) : phase :=
  if ota_active o then Active (ota_expected o) (ota_timeout o) (ota_start o) (ota_buf o) else Idle.

(** The frame that carries an event. *)
Definition frame_of (ev : ota_event) : text :=
  match ev with
  | EvStart n t => ota_start_frame n t
  | EvData num d => ota_data_frame num d
  | EvEnd => ota_end_frame
  | EvOther m => m
  | EvTick => []
  end.

(** Well-formed events: the frames the sending side builds, and other
    traffic that does not start with [OTA_]. *)
Definition event_ok (ev : ota_event) : Prop :=
  match ev with
  | EvStart n t => is_u32 n /\ is_u32 t
  | EvData num d => int_min <= num <= int_max /\ payload_ok d = true
  | EvOther m => starts_with (lit "OTA_") m = false
  | EvEnd | EvTick => True
  end.

(** The outcomes in which the flash collaborator was called. *)
Definition flashed (out : ota_outcome) : bool :=
  match out with OtaRestart | OtaFlashFailed | OtaBeginFailed => true | _ => false end.

Section Refinement.
Context `{Flasher}.

(** The code's reaction to an event: the packet handler for a frame,
    [checkLoraOtaTimeout] for a timeout check. *)
Definition impl_step (now : Z) (ev : ota_event) (o : ota) : ota * ota_outcome :=
  match ev with
  | EvTick => (checkLoraOtaTimeout now o, OtaNone)
  | _ => handleLoraOtaPacket now (frame_of ev) o
  end.

Fixpoint impl_run (evs : list (Z * ota_event)) (o : ota) : ota * list ota_outcome :=
  match evs with
  | [] => (o, [])
  | (now, ev) :: evs' =>
    let '(o1, out) := impl_step now ev o in
    let '(o2, outs) := impl_run evs' o1 in (o2, out :: outs)
  end.

(** A concrete outcome matches an abstract output: the flash of that image,
    or no flash at all. *)
Definition out_rel (out : ota_outcome) (a : option (Z * text)) : Prop :=
  match a with
  | Some (e, b) => out = flash_outcome e b
  | None => flashed out = false
  end.


(** ** Lemmas *)

Lemma starts_with_app_false p q m : starts_with p m = false -> starts_with (p ++ q) m = false.
Proof.
  revert m. induction p as [|c p IH]; intros m; [discriminate|].
  destruct m as [|d m]; [reflexivity|]. simpl. destruct (ascii_dec c d); [apply IH | reflexivity].
Qed.

(** A packet without the [OTA_] prefix leaves the session alone. *)
Lemma handle_other now m o :
  starts_with (lit "OTA_") m = false -> handleLoraOtaPacket now m o = (o, OtaNone).
Proof.
  intros Hm. unfold handleLoraOtaPacket.
  change (lit "OTA_START:") with (lit "OTA_" ++ lit "START:").
  change (lit "OTA_DATA:") with (lit "OTA_" ++ lit "DATA:").
  change (lit "OTA_END:") with (lit "OTA_" ++ lit "END:").
  rewrite !starts_with_app_false by exact Hm. reflexivity.
Qed.

Lemma fits_1023 a : (a <? ota_capacity)%nat = (a <=? 1023)%nat.
Proof. unfold ota_capacity. destruct (Nat.ltb_spec a 1024), (Nat.leb_spec a 1023); lia. Qed.

Lemma impl_step_inv now ev o : ota_inv o -> ota_inv (fst (impl_step now ev o)).
Proof.
  destruct ev; [apply handleLoraOtaPacket_inv.. | apply checkLoraOtaTimeout_inv].
Qed.

(** One step of the code is one step of the machine. *)
Lemma impl_step_refines now ev o :
  ota_inv o -> event_ok ev ->
  abs (fst (impl_step now ev o)) = fst (spec_step 1023 now ev (abs o)) /\ out_rel (snd (impl_step now ev o)) (snd (spec_step 1023 now ev (abs o))).
Proof.
  intros [Hl Hrec] Hev. destruct ev as [n t|num d| |m|]; cbn [impl_step frame_of].
  - destruct Hev as [Hn Ht]. rewrite handle_start_frame by assumption. unfold abs. destruct (ota_active o); split; reflexivity.
  - destruct Hev as [Hnum Hd]. unfold abs. destruct (ota_active o) eqn:Ha.
    + rewrite handle_data_frame by assumption. cbn [spec_step]. rewrite fits_1023.
      destruct (_ <=? 1023)%nat; split; simpl; rewrite ?Ha; try reflexivity; destruct (ota_expected o =? 0); reflexivity.
    + rewrite ota_idle_ignores by (assumption || reflexivity). split; simpl; rewrite ?Ha; reflexivity.
  - rewrite handle_end_frame. unfold handle_ota_end, abs. destruct (ota_active o) eqn:Ha; cbn; rewrite ?Ha;
      [|split; reflexivity].
    rewrite <- Hrec. split; [reflexivity|]. destruct (_ <=? _); reflexivity.
  - rewrite handle_other by exact Hev. split; reflexivity.
  - unfold checkLoraOtaTimeout, abs. destruct (ota_active o) eqn:Ha; cbn; rewrite ?Ha; [|split; reflexivity].
    destruct (_ <? _); cbn; rewrite ?Ha; split; reflexivity.
Qed.

(** ** The refinement *)

(** C6: the LoRa OTA session code refines the protocol's session machine
    with a usable buffer of 1023 bytes: from any session state that
    satisfies the session invariant (every reachable one does), along any
    sequence of well-formed frames and timeout checks, the phase of the
    concrete session is the machine's phase after the same events, and at
    each event the code calls the flash collaborator exactly when the
    machine flashes, with the announced size and the buffered image. *)
Theorem ota_refines_spec evs o :
  ota_inv o -> Forall (fun e => event_ok (snd e)) evs ->
  abs (fst (impl_run evs o)) = fst (spec_run 1023 evs (abs o)) /\
  Forall2 out_rel (snd (impl_run evs o)) (snd (spec_run 1023 evs (abs o))).
Proof.
  revert o. induction evs as [|[now ev] evs IH]; intros o Hi Hevs; [split; [reflexivity | constructor]|].
  inversion Hevs as [|? ? Hev Hevs']; subst. cbn [impl_run spec_run].
  destruct (impl_step_refines now ev o Hi Hev) as [Ha Ho]. pose proof (impl_step_inv now ev o Hi) as Hi1.
  destruct (impl_step now ev o) as [o1 out], (spec_step 1023 now ev (abs o)) as [st1 a]. simpl in *. subst st1.
  destruct (IH o1 Hi1 Hevs') as [IHa IHo].
  destruct (impl_run evs o1), (spec_run 1023 evs (abs o1)). simpl in *. split; [exact IHa | constructor; assumption].
Qed.

End Refinement.

(** ** Liveness of the timeout *)

(** C12: an active session whose timeout is below [2^32 - 1] ms ends: the
    timeout check at the clock reading [start + timeout + 1] (modulo 2^32)
    returns it to [Idle]. A session announced with the timeout
    [4294967295] never ends by timeout: the wrapped elapsed time can never
    exceed it, so every check leaves the session as it is. *)
Theorem ota_session_times_out o :
  ota_active o = true -> is_u32 (ota_start o) -> is_u32 (ota_timeout o) ->
  (ota_timeout o < u32_modulus - 1 ->
   abs (checkLoraOtaTimeout (ota_start o +u (ota_timeout o + 1)) o) = Idle) /\
  (ota_timeout o = u32_modulus - 1 -> forall now, abs (checkLoraOtaTimeout now o) = abs o).
Proof.
  intros Ha Hs Ht. unfold checkLoraOtaTimeout. rewrite Ha. split.
  - intros Hlt. rewrite u32_elapsed by (assumption || (unfold is_u32 in Ht; lia)).
    rewrite (proj2 (Z.ltb_lt _ _)) by lia. reflexivity.
  - intros Heq now. pose proof (u32_range (now - ota_start o)) as Hr. unfold is_u32 in Hr.
    rewrite (proj2 (Z.ltb_ge _ _)) by lia. reflexivity.
Qed.

(** ** Witnesses *)

(** A session of three bytes: announced, sent, ended. *)
Definition session_events : list (Z * ota_event) :=
  [(0, EvStart 3 1000); (10, EvData 0 (lit "abc")); (20, EvEnd); (30, EvOther (lit "PING seq=1"))].

Example ota_refines_spec_witness :
  abs (fst (@impl_run flash_ok session_events ota_init)) = fst (spec_run 1023 session_events (abs ota_init)) /\
  Forall2 (@out_rel flash_ok) (snd (@impl_run flash_ok session_events ota_init))
    (snd (spec_run 1023 session_events (abs ota_init))).
Proof.
  exact (@ota_refines_spec flash_ok session_events ota_init ota_init_inv
           ltac:(unfold session_events; repeat constructor; unfold is_u32, u32_modulus, int_min, int_max; simpl; try lia; reflexivity)).

Defined.

Example ota_session_times_out_witness :
  abs (checkLoraOtaTimeout (100 +u (1000 + 1)) (mkOta true 100 1000 [] 3 0)) = Idle.
Proof.
  exact (proj1 (ota_session_times_out (mkOta true 100 1000 [] 3 0) eq_refl
                  ltac:(unfold is_u32, u32_modulus; simpl; lia) ltac:(unfold is_u32, u32_modulus; simpl; lia))
           ltac:(unfold u32_modulus; simpl; lia)).
Defined.
