(* ===== verification/NodeState.v ===== *)
(** * The node's globals: state, display, radio and persistence helpers

    Source: [src/src/main.cpp]. The firmware keeps its state in file-scope
    [static] globals and three function-local statics of [loop()]; here they
    are the fields of the record [node], one per global or group of globals,
    with one [set_<field>] function each. The display routine [oledMsg], the
    radio calls that every handler shares ([radio.transmit], the [begin] /
    [setDio2AsRfSwitch] / [setCRC] sequence, [updateRadioSettings]) and the
    persistence calls are node transformers. Each [radio.transmit] is recorded
    in [air] with the configuration the radio had when it sent the frame, so
    that the theorems can say on which channel a frame went out. The build
    flag [ENABLE_WIFI_OTA] is the section variable [wifi_ota]. *)

From stdpp Require Import base list strings gmap.
From Stdlib Require Import ZArith Ascii String Lia.
From S2P Require Import Prelude CFormat AppLogic WifiManager RadioParams ConfigMsg LoraOta.

Open Scope Z_scope.
Open Scope lora_scope.

(** [lastButtonMs], [lastButtonState] ([HIGH] is [true]), [buttonPressMs],
    [buttonPressed]. *)
Record button := mkButton {
  lastButtonMs : Z;
  lastButtonState : bool;
  buttonPressMs : Z;
  buttonPressed : bool
}.

(** [lastRSSI], [lastSNR], [lastPacketTime], [packetCount], [errorCount]. *)
Record signal := mkSignal {
  lastRSSI : dec;
  lastSNR : dec;
  lastPacketTime : Z;
  packetCount : Z;
  errorCount : Z
}.

(** [pendingConfigBroadcast], [pendingFreq .. pendingTxPower], [cfgLastTxMs],
    [cfgRemaining]. *)
Record pending := mkPending {
  pendingConfigBroadcast : bool;
  pendingParams : params;
  cfgLastTxMs : Z;
  cfgRemaining : Z
}.

(** Whether [loop()] still runs: [Halted] in the [while (true)] of a failed
    initialisation, [Restarted] by [ESP.restart()], [Trapped] by an integer
    division by zero, [Undefined] after a store out of an array's bounds. *)
Inductive run_status := Running | Halted | Restarted | Trapped | Undefined.

#[export] Instance run_status_eq_dec : EqDecision run_status.
Proof. solve_decision. Defined.

(** The [u8g2] fonts the display routines select, by their glyph
    advance in pixels. *)
Inductive font := u8g2_font_6x10_tr | u8g2_font_5x7_tr.

Definition font_advance (f : font) : Z :=
  match f with u8g2_font_6x10_tr => 6 | u8g2_font_5x7_tr => 5 end.

(** One [u8g2.drawStr(x, y, s)] in the font selected at that point. *)
Record draw := mkDraw { dx : Z; dy : Z; dfont : font; dtext : text }.

(** The screen in the portrait rotation [U8G2_R1] of [initDisplay]: 64
    pixels wide, 128 tall. *)
Definition SCREEN_WIDTH : Z := 64.

(** The column just right of a drawn string. *)
Definition draw_right (d : draw) : Z := dx d + font_advance (dfont d) * Z.of_nat (length (dtext d)).

Record node := mkNode {
  isSender : bool;   (** isSender *)
  seq : Z;   (** seq (uint32_t) *)
  btn : button;   (** the button globals *)
  cur : params;   (** currentFreq .. currentTxPower *)
  ix : indices;   (** currentSfIndex, currentBwIndex, currentTxIndex *)
  sig : signal;   (** signal-quality globals *)
  pend : pending;   (** the pending broadcast *)
  lastTxMs : Z;   (** static lastTxMs of loop() *)
  lastRxMs : Z;   (** static lastRxMs of loop() *)
  session : ota;   (** the LoRa OTA session *)
  store : prefs;   (** Preferences namespace LtngDet *)
  rad : radio;   (** the SX1262's live configuration *)
  air : list (radio * text);   (** every radio.transmit: the configuration it went out on and the frame *)
  screen : list draw;   (** the strings oledMsg drew last *)
  wifiConnected : bool;   (** wifiConnected *)
  otaActive : bool;   (** otaActive (ArduinoOTA in progress) *)
  wm : wifi;   (** the WiFi manager *)
  lastWiFiCheck : Z;   (** static lastWiFiCheck of loop() *)
  hasStoredFirmware : bool;   (** hasStoredFirmware *)
  storedFirmware : text;   (** storedFirmware[0 .. storedFirmwareSize) *)
  run : run_status   (** whether loop() still runs *)
}.

Definition set_isSender (v : bool) (n : node) : node :=
  mkNode v (seq n) (btn n) (cur n) (ix n) (sig n) (pend n) (lastTxMs n) (lastRxMs n) (session n) (store n) (rad n) (air n) (screen n) (wifiConnected n) (otaActive n) (wm n) (lastWiFiCheck n) (hasStoredFirmware n) (storedFirmware n) (run n).
Definition set_seq (v : Z) (n : node) : node :=
  mkNode (isSender n) v (btn n) (cur n) (ix n) (sig n) (pend n) (lastTxMs n) (lastRxMs n) (session n) (store n) (rad n) (air n) (screen n) (wifiConnected n) (otaActive n) (wm n) (lastWiFiCheck n) (hasStoredFirmware n) (storedFirmware n) (run n).
Definition set_btn (v : button) (n : node) : node :=
  mkNode (isSender n) (seq n) v (cur n) (ix n) (sig n) (pend n) (lastTxMs n) (lastRxMs n) (session n) (store n) (rad n) (air n) (screen n) (wifiConnected n) (otaActive n) (wm n) (lastWiFiCheck n) (hasStoredFirmware n) (storedFirmware n) (run n).
Definition set_cur (v : params) (n : node) : node :=
  mkNode (isSender n) (seq n) (btn n) v (ix n) (sig n) (pend n) (lastTxMs n) (lastRxMs n) (session n) (store n) (rad n) (air n) (screen n) (wifiConnected n) (otaActive n) (wm n) (lastWiFiCheck n) (hasStoredFirmware n) (storedFirmware n) (run n).
Definition set_ix (v : indices) (n : node) : node :=
  mkNode (isSender n) (seq n) (btn n) (cur n) v (sig n) (pend n) (lastTxMs n) (lastRxMs n) (session n) (store n) (rad n) (air n) (screen n) (wifiConnected n) (otaActive n) (wm n) (lastWiFiCheck n) (hasStoredFirmware n) (storedFirmware n) (run n).
Definition set_sig (v : signal) (n : node) : node :=
  mkNode (isSender n) (seq n) (btn n) (cur n) (ix n) v (pend n) (lastTxMs n) (lastRxMs n) (session n) (store n) (rad n) (air n) (screen n) (wifiConnected n) (otaActive n) (wm n) (lastWiFiCheck n) (hasStoredFirmware n) (storedFirmware n) (run n).
Definition set_pend (v : pending) (n : node) : node :=
  mkNode (isSender n) (seq n) (btn n) (cur n) (ix n) (sig n) v (lastTxMs n) (lastRxMs n) (session n) (store n) (rad n) (air n) (screen n) (wifiConnected n) (otaActive n) (wm n) (lastWiFiCheck n) (hasStoredFirmware n) (storedFirmware n) (run n).
Definition set_lastTxMs (v : Z) (n : node) : node :=
  mkNode (isSender n) (seq n) (btn n) (cur n) (ix n) (sig n) (pend n) v (lastRxMs n) (session n) (store n) (rad n) (air n) (screen n) (wifiConnected n) (otaActive n) (wm n) (lastWiFiCheck n) (hasStoredFirmware n) (storedFirmware n) (run n).
Definition set_lastRxMs (v : Z) (n : node) : node :=
  mkNode (isSender n) (seq n) (btn n) (cur n) (ix n) (sig n) (pend n) (lastTxMs n) v (session n) (store n) (rad n) (air n) (screen n) (wifiConnected n) (otaActive n) (wm n) (lastWiFiCheck n) (hasStoredFirmware n) (storedFirmware n) (run n).
Definition set_session (v : ota) (n : node) : node :=
  mkNode (isSender n) (seq n) (btn n) (cur n) (ix n) (sig n) (pend n) (lastTxMs n) (lastRxMs n) v (store n) (rad n) (air n) (screen n) (wifiConnected n) (otaActive n) (wm n) (lastWiFiCheck n) (hasStoredFirmware n) (storedFirmware n) (run n).
Definition set_store (v : prefs) (n : node) : node :=
  mkNode (isSender n) (seq n) (btn n) (cur n) (ix n) (sig n) (pend n) (lastTxMs n) (lastRxMs n) (session n) v (rad n) (air n) (screen n) (wifiConnected n) (otaActive n) (wm n) (lastWiFiCheck n) (hasStoredFirmware n) (storedFirmware n) (run n).
Definition set_rad (v : radio) (n : node) : node :=
  mkNode (isSender n) (seq n) (btn n) (cur n) (ix n) (sig n) (pend n) (lastTxMs n) (lastRxMs n) (session n) (store n) v (air n) (screen n) (wifiConnected n) (otaActive n) (wm n) (lastWiFiCheck n) (hasStoredFirmware n) (storedFirmware n) (run n).
Definition set_air (v : list (radio * text)) (n : node) : node :=
  mkNode (isSender n) (seq n) (btn n) (cur n) (ix n) (sig n) (pend n) (lastTxMs n) (lastRxMs n) (session n) (store n) (rad n) v (screen n) (wifiConnected n) (otaActive n) (wm n) (lastWiFiCheck n) (hasStoredFirmware n) (storedFirmware n) (run n).
Definition set_screen (v : list draw) (n : node) : node :=
  mkNode (isSender n) (seq n) (btn n) (cur n) (ix n) (sig n) (pend n) (lastTxMs n) (lastRxMs n) (session n) (store n) (rad n) (air n) v (wifiConnected n) (otaActive n) (wm n) (lastWiFiCheck n) (hasStoredFirmware n) (storedFirmware n) (run n).
Definition set_wifiConnected (v : bool) (n : node) : node :=
  mkNode (isSender n) (seq n) (btn n) (cur n) (ix n) (sig n) (pend n) (lastTxMs n) (lastRxMs n) (session n) (store n) (rad n) (air n) (screen n) v (otaActive n) (wm n) (lastWiFiCheck n) (hasStoredFirmware n) (storedFirmware n) (run n).
Definition set_otaActive (v : bool) (n : node) : node :=
  mkNode (isSender n) (seq n) (btn n) (cur n) (ix n) (sig n) (pend n) (lastTxMs n) (lastRxMs n) (session n) (store n) (rad n) (air n) (screen n) (wifiConnected n) v (wm n) (lastWiFiCheck n) (hasStoredFirmware n) (storedFirmware n) (run n).
Definition set_wm (v : wifi) (n : node) : node :=
  mkNode (isSender n) (seq n) (btn n) (cur n) (ix n) (sig n) (pend n) (lastTxMs n) (lastRxMs n) (session n) (store n) (rad n) (air n) (screen n) (wifiConnected n) (otaActive n) v (lastWiFiCheck n) (hasStoredFirmware n) (storedFirmware n) (run n).
Definition set_lastWiFiCheck (v : Z) (n : node) : node :=
  mkNode (isSender n) (seq n) (btn n) (cur n) (ix n) (sig n) (pend n) (lastTxMs n) (lastRxMs n) (session n) (store n) (rad n) (air n) (screen n) (wifiConnected n) (otaActive n) (wm n) v (hasStoredFirmware n) (storedFirmware n) (run n).
Definition set_hasStoredFirmware (v : bool) (n : node) : node :=
  mkNode (isSender n) (seq n) (btn n) (cur n) (ix n) (sig n) (pend n) (lastTxMs n) (lastRxMs n) (session n) (store n) (rad n) (air n) (screen n) (wifiConnected n) (otaActive n) (wm n) (lastWiFiCheck n) v (storedFirmware n) (run n).
Definition set_storedFirmware (v : text) (n : node) : node :=
  mkNode (isSender n) (seq n) (btn n) (cur n) (ix n) (sig n) (pend n) (lastTxMs n) (lastRxMs n) (session n) (store n) (rad n) (air n) (screen n) (wifiConnected n) (otaActive n) (wm n) (lastWiFiCheck n) (hasStoredFirmware n) v (run n).
Definition set_run (v : run_status) (n : node) : node :=
  mkNode (isSender n) (seq n) (btn n) (cur n) (ix n) (sig n) (pend n) (lastTxMs n) (lastRxMs n) (session n) (store n) (rad n) (air n) (screen n) (wifiConnected n) (otaActive n) (wm n) (lastWiFiCheck n) (hasStoredFirmware n) (storedFirmware n) v.


(** The globals before [setup()] runs, given what flash holds in the two
    [Preferences] namespaces. *)
Definition node_boot (st : prefs) (wst : gmap string Z) : node :=
  mkNode true 0 (mkButton 0 true 0 false) default_params default_indices
         (mkSignal (Dec (-9990) 1) (Dec (-9990) 1) 0 0 0)
         (mkPending false (mkParams (Dec 0 0) (Dec 0 0) 0 0 0) 0 0)
         0 0 ota_init st None [] [] false false (wifi_boot wst) 0 false [] Running.

(** A receiver without WiFi in the middle of a LoRa OTA session. *)
Definition rx_ota_no_wifi : node :=
  set_session (mkOta true 0 30000 [] 100 0) (set_isSender false (node_boot ∅ ∅)).

(** What [radio.receive(rx)] returned: a frame with the [getRSSI()] and
    [getSNR()] read after it, or an error status ([RADIOLIB_ERR_RX_TIMEOUT]
    when nothing arrived). *)
Inductive rx_result :=
  | RxPacket (msg : text) (rssi snr : dec)
  | RxFail (st : Z).

(** The blocking listen loops
    [while (millis() - start < durationMs) { radio.receive(rx); ...; delay(..); }]:
    each event is the clock reading of one test and the result of the receive
    that follows it. The handler returns [true] to [break]. [None] when the
    events run out before the loop ends. *)
Fixpoint listen {S} (start dur : Z) (handle : rx_result -> S -> S * bool)
    (evs : list (Z * rx_result)) (s : S) : option S :=
  match evs with
  | [] => None
  | (t, r) :: evs' =>
    if (t -u start) <? dur then
      let '(s', stop) := handle r s in
      if stop then Some s' else listen start dur handle evs' s'
    else Some s
  end.

(** The clock readings of a listen loop, as offsets from [start]: at least
    [lo], each at least [gap] after the previous one (the loop's [delay]),
    below 2^32 so the 32-bit difference is the offset itself. *)
Fixpoint spaced {R} (start lo gap : Z) (evs : list (Z * R)) : Prop :=
  match evs with
  | [] => True
  | (t, _) :: evs' => exists d, lo <= d < u32_modulus /\ t = start +u d /\ spaced start (d + gap) gap evs'
  end.

(** [x < y] on the decimal values of two floats. *)
Definition dec_ltb (x y : dec) : bool :=
  dmant x * 10 ^ Z.of_nat (dexp y) <? dmant y * 10 ^ Z.of_nat (dexp x).

Section Globals.
Context `{RadioDriver}.
(** [ENABLE_WIFI_OTA]. *)
Variable wifi_ota : bool.

(** [drawStatusBar()]: drawn for receivers of the WiFi build only, along
    [y = 120] in the 5x7 font, each item at the [xPos] the code advances by
    its own estimates ([strlen(location) * 6], then 20 per item). *)
Definition drawStatusBar (n : node) : list draw :=
  if wifi_ota && negb (isSender n) then
    let y := 120 in
    let '(ds1, x1) :=
      if wifiConnected n then
        let loc := lit (getCurrentNetworkLocation WIFI_NETWORKS (wm n)) in
        ([mkDraw 2 y u8g2_font_5x7_tr loc], 2 + Z.of_nat (length loc) * 6)
      else ([mkDraw 2 y u8g2_font_5x7_tr (lit "NoWiFi")], 2 + 20) in
    let '(ds2, x2) :=
      if otaActive n then (ds1 ++ [mkDraw x1 y u8g2_font_5x7_tr (lit "OTA")], x1 + 20) else (ds1, x1) in
    if ota_active (session n) then ds2 ++ [mkDraw x2 y u8g2_font_5x7_tr (lit "LoRaOTA")] else ds2
  else [].

(** [oledMsg(l1, l2, l3)]: the strings drawn, top to bottom, in the 6x10
    font, then the status bar. The third argument is never drawn. *)
Definition oledMsg (l1 : text) (l2 l3 : option text) (n : node) : node :=
  set_screen
    ([mkDraw 2 12 u8g2_font_6x10_tr l1] ++ from_option (fun l => [mkDraw 2 32 u8g2_font_6x10_tr l]) [] l2 ++
     (if negb (isSender n) && dec_ltb (Dec (-9990) 1) (lastRSSI (sig n)) then
        [mkDraw 2 51 u8g2_font_6x10_tr (snprintf_buf 12 (lit "RSSI: " ++ fmt_fixed 0 (lastRSSI (sig n))));
         mkDraw 2 65 u8g2_font_6x10_tr (snprintf_buf 12 (lit "SNR: " ++ fmt_fixed 1 (lastSNR (sig n))))]
      else []) ++
     [mkDraw 2 81 u8g2_font_6x10_tr
        (snprintf_buf 32 (lit "SF" ++ fmt_int (p_sf (cur n)) ++ lit " BW" ++ fmt_fixed 0 (p_bw (cur n))));
      mkDraw 2 95 u8g2_font_6x10_tr
        (snprintf_buf 16 (lit (if isSender n then "TX" else "RX") ++ lit " " ++ fmt_fixed 1 (p_freq (cur n)) ++ lit "MHz"))] ++
     drawStatusBar n) n.

Definition oledRole (n : node) : node :=
  oledMsg (lit "Mode") (Some (lit (if isSender n then "Sender" else "Receiver"))) None n.

Definition oledSettings (n : node) : node := oledMsg (lit "Settings") (Some (lit "Updated")) None n.

(** [radio.transmit(msg)]: the frame goes out on the current configuration. *)
Definition transmit (msg : text) (n : node) : node := set_air (air n ++ [(rad n, msg)]) n.

(** [radio.begin(p...)] and, on success, [setDio2AsRfSwitch(true)] and
    [setCRC(true)]. *)
Definition begin_radio (p : params) (n : node) : Z * node :=
  let '(st, r) := radio_begin p (rad n) in (st, set_rad r n).

Definition savePersistedSettings_node (n : node) : node :=
  set_store (savePersistedSettings (cur n) (store n)) n.

Definition savePersistedRole_node (n : node) : node :=
  set_store (savePersistedRole (isSender n) (store n)) n.

(** [computeIndicesFromCurrent()] and the three loops [loop()] inlines. *)
Definition computeIndices_node (n : node) : node :=
  set_ix (computeIndicesFromCurrent (cur n) (ix n)) n.

(** [updateRadioSettings()]. *)
Definition updateRadioSettings (n : node) : node :=
  let '(st, r) := radio_setters (cur n) (rad n) in
  let n1 := set_rad r n in
  if st =? RADIOLIB_ERR_NONE then oledSettings n1
  else oledMsg (lit "Settings fail") (Some (snprintf_buf 16 (lit "Settings fail " ++ fmt_int st))) None n1.

(** [startConfigBroadcast(newFreq, newBW, newSF, newCR, newTxPower)]. *)
Definition startConfigBroadcast (p : params) (n : node) : node :=
  oledMsg (lit "Syncing...") (Some (lit "Sending config")) None
    (set_pend (mkPending true p 0 8) n).

(** [initRadioOrHalt()]. *)
Definition initRadioOrHalt (n : node) : node :=
  let '(st, n1) := begin_radio (cur n) n in
  if st =? RADIOLIB_ERR_NONE then oledSettings n1
  else set_run Halted (oledMsg (lit "Radio init") (Some (snprintf_buf 48 (lit "Radio fail " ++ fmt_int st))) None n1).
End Globals.

(** [n'] is [n] with frames satisfying [P] transmitted after [n]'s. *)
Definition air_ext (P : text -> Prop) (n n' : node) : Prop :=
  exists sent, air n' = air n ++ sent /\ Forall (fun rf => P (snd rf)) sent.

(** ** Lemmas *)

Section AirExt.
Context {P : text -> Prop}.

#[export] Instance air_ext_preorder : PreOrder (air_ext P).
Proof.
  split.
  - intros n. exists []. rewrite app_nil_r. auto.
  - intros n1 n2 n3 (s1 & E1 & F1) (s2 & E2 & F2). exists (s1 ++ s2).
    rewrite E2, E1, app_assoc. split; [reflexivity|]. apply Forall_app; auto.
Qed.

Lemma air_ext_same n n' : air n' = air n -> air_ext P n n'.
Proof. intros E. exists []. rewrite app_nil_r. auto. Qed.

Lemma air_ext_transmit n msg : P msg -> air_ext P n (transmit msg n).
Proof. intros Hp. exists [(rad n, msg)]. split; [reflexivity|]. repeat constructor. exact Hp. Qed.

Lemma air_ext_transmit_r n m msg : air_ext P n m -> P msg -> air_ext P n (transmit msg m).
Proof. intros Hm Hp. etransitivity; [exact Hm | apply air_ext_transmit, Hp]. Qed.

Lemma air_ext_weaken (Q : text -> Prop) n n' : (forall f, Q f -> P f) -> air_ext Q n n' -> air_ext P n n'.
Proof. intros HQ (s & E & F). exists s. split; [exact E|]. eapply Forall_impl; [exact F|]. intros; auto. Qed.
End AirExt.

Lemma air_oledMsg `{RadioDriver} w l1 l2 l3 n : air (oledMsg w l1 l2 l3 n) = air n.
Proof. reflexivity. Qed.

#[export] Hint Resolve air_ext_same air_ext_transmit : lora.
#[export] Hint Rewrite @air_oledMsg : lora_rw.

(** The listen loop ends once the clock passes the window: with readings
    [gap > 0] apart, [(dur - lo + gap - 1) / gap + 1] events suffice. *)
Lemma listen_total {S} start dur gap (handle : rx_result -> S -> S * bool) evs s lo :
  is_u32 start -> 0 < gap -> 0 <= lo -> spaced start lo gap evs ->
  Z.max 0 ((dur - lo + gap - 1) / gap) < Z.of_nat (length evs) ->
  is_Some (listen start dur handle evs s).
Proof.
  intros Hs Hg. revert s lo. induction evs as [|[t r] evs IH]; intros s lo Hlo Hsp Hlen; simpl in Hlen; [lia|].
  destruct Hsp as (d & Hd & -> & Hsp). cbn [listen]. rewrite u32_elapsed by (first [exact Hs | unfold u32_modulus in *; lia]).
  destruct (Z.ltb_spec d dur); [|eauto].
  destruct (handle r s) as [s' []]; [eauto|].
  apply (IH s' (d + gap)); [lia | exact Hsp |].
  assert (Hq : (dur - (d + gap) + gap - 1) / gap <= (dur - lo + gap - 1) / gap - 1).
  { replace (dur - lo + gap - 1) with ((dur - (d + gap) + gap - 1) + (d - lo) + 1 * gap) by ring.
    rewrite Z.div_add by lia. assert (0 <= d - lo) by lia.
    pose proof (Z.div_le_mono (dur - (d + gap) + gap - 1) (dur - (d + gap) + gap - 1 + (d - lo)) gap Hg ltac:(lia)). lia. }
  assert (1 <= (dur - lo + gap - 1) / gap) by (apply Z.div_le_lower_bound; lia).
  rewrite Nat2Z.inj_succ in Hlen. lia.
Qed.

(** Whatever a listen loop's passes preserve, the loop preserves. *)
Lemma listen_rel {S} (R : relation S) `{!PreOrder R} start dur handle evs (s s' : S) :
  (forall r s0, R s0 (fst (handle r s0))) -> listen start dur handle evs s = Some s' -> R s s'.
Proof.
  intros Hh. revert s. induction evs as [|[t r] evs IH]; intros s; simpl; [discriminate|].
  destruct (_ <? dur); [|intros [= ->]; reflexivity].
  specialize (Hh r s). destruct (handle r s) as [s1 []]; simpl in Hh.
  - intros [= <-]. exact Hh.
  - intros Hl. etransitivity; [exact Hh | exact (IH s1 Hl)].
Qed.

(** ** The display layout *)

Section Layout.
Variable wifi_ota : bool.

(** The frequency line of [oledMsg]: ["TX 915.0MHz"] in the 6x10 font. *)
Lemma mode_line_right n :
  1000 <= scaled_round 1 (p_freq (cur n)) ->
  SCREEN_WIDTH < draw_right (mkDraw 2 95 u8g2_font_6x10_tr
    (snprintf_buf 16 (lit (if isSender n then "TX" else "RX") ++ lit " " ++ fmt_fixed 1 (p_freq (cur n)) ++ lit "MHz"))).
Proof.
  intros Hf. pose proof (fmt_fixed1_length _ Hf) as Hl.
  unfold draw_right, SCREEN_WIDTH, snprintf_buf. cbn [dx dfont font_advance dtext].
  rewrite length_take. destruct (isSender n); cbn [lit list_ascii_of_string app length];
    rewrite ?length_app; cbn [length]; lia.
Qed.

(** C19: The portrait screen is too narrow for what [oledMsg] draws: for
    every frequency of at least 99.95 MHz (every band the SX1262 serves)
    the line ["TX 915.0MHz"] or ["RX 915.0MHz"] at [y = 95] runs past the
    64-pixel edge; and on a receiver of the WiFi build that has no WiFi
    while an ArduinoOTA or LoRa OTA update is active, the status bar draws
    its second item at [x = 22], inside ["NoWiFi"], which reaches [x = 32]. *)
Theorem oled_layout_overflows n l1 l2 l3 :
  1000 <= scaled_round 1 (p_freq (cur n)) ->
  (exists d, d ∈ screen (oledMsg wifi_ota l1 l2 l3 n) /\ dy d = 95 /\ SCREEN_WIDTH < draw_right d) /\
  (wifi_ota = true -> isSender n = false -> wifiConnected n = false ->
   otaActive n || ota_active (session n) = true ->
   exists d1 d2 ds, drawStatusBar wifi_ota n = d1 :: d2 :: ds /\ dtext d1 = lit "NoWiFi" /\
                    dy d1 = dy d2 /\ dx d2 < draw_right d1).
Proof.
  intros Hf. split.
  - set (fl := snprintf_buf 16 (lit (if isSender n then "TX" else "RX") ++ lit " " ++ fmt_fixed 1 (p_freq (cur n)) ++ lit "MHz")).
    exists (mkDraw 2 95 u8g2_font_6x10_tr fl). split; [|split; [reflexivity | apply mode_line_right, Hf]].
    unfold oledMsg. cbn [screen set_screen]. apply list_elem_of_In.
    rewrite !in_app_iff. right; right; right. left. right. left. reflexivity.
  - intros -> Hs Hw Ho. unfold drawStatusBar. rewrite Hs, Hw. cbn [andb negb].
    destruct (otaActive n), (ota_active (session n)); try discriminate; cbn;
      do 3 eexists; (split; [reflexivity|]); repeat split; reflexivity.
Qed.

End Layout.

Example oled_layout_overflows_witness :
  1000 <= scaled_round 1 (p_freq (cur rx_ota_no_wifi)) /\
  exists d1 d2 ds, drawStatusBar true rx_ota_no_wifi = d1 :: d2 :: ds /\ dtext d1 = lit "NoWiFi" /\
                   dy d1 = dy d2 /\ dx d2 < draw_right d1.
Proof.
  assert (Hf : 1000 <= scaled_round 1 (p_freq (cur rx_ota_no_wifi))) by (vm_compute; discriminate).
  split; [exact Hf|].
  apply (proj2 (oled_layout_overflows true rx_ota_no_wifi [] None None Hf)); reflexivity.
Defined.
