(* ===== verification/Display.v ===== *)
(** * Display: bringing up the OLED ([initDisplay])

    Source: [src/src/main.cpp], the pin macros at its top and
    [initDisplay()]. The function powers the OLED through Vext, pulses its
    reset line, starts I2C on GPIO 17/18 and calls [u8g2.begin()] at the
    address [0x3C << 1], then at [0x3D << 1]; when both fail it prints and
    waits in [while (true)] for ever. The hardware calls are the list
    [disp_call]s made, in order; whether [u8g2.begin()] succeeds at an
    address is the environment's [begin_ok]. The endless loop is returned
    as [false] with the calls of its first iteration. *)

From stdpp Require Import base list.
From Stdlib Require Import ZArith String Lia.
From S2P Require Import Prelude.

Open Scope Z_scope.

(** The pin macros of [main.cpp] (the [#ifndef] defaults for the radio). *)
Definition VEXT_PIN : Z := 36.
Definition OLED_RST_PIN : Z := 21.
Definition BUTTON_PIN : Z := 0.
Definition PIN_LORA_NSS : Z := 8.
Definition PIN_LORA_DIO1 : Z := 14.
Definition PIN_LORA_RST : Z := 12.
Definition PIN_LORA_BUSY : Z := 13.

(** The Arduino, [Wire], [Serial] and [u8g2] calls of [initDisplay]. *)
Inductive disp_call :=
  | PinModeOutput (pin : Z)
  | DigitalWrite (pin : Z) (high : bool)
  | Delay (ms : Z)
  | WireBegin (sda scl : Z)
  | WireSetTimeOut (ms : Z)
  | WireSetClock (hz : Z)
  | SetI2CAddress (addr : Z)
  | U8g2Begin
  | SerialPrintln (msg : text)
  | SetPowerSave (v : Z)
  | SetContrast (v : Z)
  | SetDisplayRotation (r : Z).

(** [U8G2_R1]: the rotation by 90 degrees. *)
Definition U8G2_R1 : Z := 1.

(** Everything up to the first [u8g2.begin()]. *)
Definition display_power_and_bus : list disp_call :=
  [PinModeOutput VEXT_PIN; DigitalWrite VEXT_PIN false; Delay 50;
   PinModeOutput OLED_RST_PIN; DigitalWrite OLED_RST_PIN false; Delay 20;
   DigitalWrite OLED_RST_PIN true; Delay 50;
   WireBegin 17 18; WireSetTimeOut 1000; WireSetClock 100000; Delay 100].

(** After a successful [begin()]. *)
Definition display_finish : list disp_call :=
  [SetPowerSave 0; SetContrast 255; SetDisplayRotation U8G2_R1].

(** [initDisplay()]: the calls made and whether it returns. *)
Definition initDisplay (begin_ok : Z -> bool) : list disp_call * bool :=
  let a1 := Z.shiftl 60 1 in
  let c1 := display_power_and_bus ++ [SetI2CAddress a1; U8g2Begin] in
  if begin_ok a1 then (c1 ++ display_finish, true) else
  let a2 := Z.shiftl 61 1 in
  let c2 := c1 ++ [SetI2CAddress a2; U8g2Begin] in
  if begin_ok a2 then (c2 ++ display_finish, true)
  else (c2 ++ [SerialPrintln (lit "OLED init failed"); Delay 1000], false).
