(* ===== verification/ControlChannel.v ===== *)
(** * Control-channel rendezvous

    Source: [src/src/main.cpp], [broadcastConfigOnControlChannel] and
    [tryReceiveConfigOnControlChannel]. Both switch the radio to the fixed
    control configuration ([CTRL_FREQ_MHZ] .. [CTRL_CR] with the node's TX
    power, [ctrl_params]), run on it, and restore the node's parameters with
    a second [radio.begin]. The receive window is the listen loop [listen]
    over the clock readings and receive results the environment supplies;
    [intervalMs] only delays and is not modelled. *)

From stdpp Require Import base list strings gmap.
From Stdlib Require Import ZArith Ascii String Lia.
From S2P Require Import Prelude CFormat RadioParams ConfigMsg NodeState.

Open Scope Z_scope.
Open Scope lora_scope.

Section Control.
Context `{RadioDriver}.

(** [for (uint8_t i = 0; i < times; i++) { radio.transmit(msg); delay(..); }]. *)
Fixpoint transmit_times (k : nat) (msg : text) (n : node) : node :=
  match k with
  | O => n
  | S k' => transmit_times k' msg (transmit msg n)
  end.

(** [broadcastConfigOnControlChannel(times, intervalMs)]. *)
Definition broadcastConfigOnControlChannel (times : nat) (n : node) : node :=
  let '(st, n1) := begin_radio (ctrl_params (p_tx (cur n))) n in
  if negb (st =? RADIOLIB_ERR_NONE) then n1 else
  let msg := cfg_message (cur n1) in
  let n2 := transmit_times times msg n1 in
  snd (begin_radio (cur n2) n2).

(** One pass of the receive loop: a [CFG ] frame whose five fields parse
    is applied, indexed, persisted, and ends the loop. *)
Definition ctrl_rx (r : rx_result) (n : node) : node * bool :=
  match r with
  | RxPacket msg _ _ =>
    if starts_with cfg_prefix msg then
      match parse_cfg msg with
      | Some q => (savePersistedSettings_node (computeIndices_node (set_cur q n)), true)
      | None => (n, false)
      end
    else (n, false)
  | RxFail _ => (n, false)
  end.

(** Whether the loop applies a receive result. *)
Definition ctrl_accepts (r : rx_result) : bool :=
  match r with
  | RxPacket msg _ _ => starts_with cfg_prefix msg && bool_decide (is_Some (parse_cfg msg))
  | RxFail _ => false
  end.

(** [tryReceiveConfigOnControlChannel(durationMs)], entered at [millis()]
    = [start]. *)
Definition tryReceiveConfigOnControlChannel (dur start : Z) (evs : list (Z * rx_result)) (n : node) : option node :=
  let '(st, n1) := begin_radio (ctrl_params (p_tx (cur n))) n in
  if negb (st =? RADIOLIB_ERR_NONE) then Some n1 else
  match listen start dur ctrl_rx evs n1 with
  | Some n2 => Some (snd (begin_radio (cur n2) n2))
  | None => None
  end.
End Control.

(** A receiver that asks for SF 10 on the table's other parameters. *)
Definition cfg_sf10 : params := mkParams (Dec 9150 1) (Dec 1250 1) 10 5 17.

(** ** Lemmas *)

Section ControlLemmas.
Context `{RadioDriver}.

Lemma transmit_times_spec k msg n :
  transmit_times k msg n = set_air (air n ++ replicate k (rad n, msg)) n.
Proof.
  revert n. induction k as [|k IH]; intros n; simpl.
  - rewrite app_nil_r. destruct n; reflexivity.
  - rewrite IH. destruct n; simpl. rewrite <- app_assoc. reflexivity.
Qed.

Lemma begin_radio_spec p n :
  begin_radio p n = (drv_begin p, set_rad (if drv_begin p =? RADIOLIB_ERR_NONE then Some p else None) n).
Proof. unfold begin_radio, radio_begin. destruct (drv_begin p =? RADIOLIB_ERR_NONE); reflexivity. Qed.

(** A pass that does not end the loop leaves the node as it was. *)
Lemma ctrl_rx_continue r n n' : ctrl_rx r n = (n', false) -> n' = n.
Proof.
  unfold ctrl_rx. destruct r as [msg rs sn|st]; [|congruence].
  destruct (starts_with cfg_prefix msg); [|congruence]. destruct (parse_cfg msg); congruence.
Qed.

Lemma ctrl_rx_reject r n : ctrl_accepts r = false -> ctrl_rx r n = (n, false).
Proof.
  unfold ctrl_accepts, ctrl_rx. destruct r as [msg rs sn|st]; [|reflexivity].
  destruct (starts_with cfg_prefix msg); [|reflexivity].
  destruct (parse_cfg msg); [|reflexivity]. rewrite bool_decide_true by eauto. discriminate.
Qed.

Lemma listen_skip {S} start dur handle pre evs (s : S) :
  Forall (fun '(t, r) => (t -u start) < dur /\ handle r s = (s, false)) pre ->
  listen start dur handle (pre ++ evs) s = listen start dur handle evs s.
Proof.
  induction 1 as [|[t r] pre [Ht Hr] _ IH]; [reflexivity|].
  cbn [app listen]. rewrite (proj2 (Z.ltb_lt _ _) Ht), Hr. exact IH.
Qed.
End ControlLemmas.

(** ** Properties *)

Section ControlProperties.
Context `{RadioDriver}.

(** The boot-time broadcast sends [times] copies of the node's own [CFG]
    frame on the control channel, then restores the node's parameters:
    the radio ends configured with them when the driver accepts them. *)
Theorem broadcast_on_control_channel times n :
  drv_begin (ctrl_params (p_tx (cur n))) = RADIOLIB_ERR_NONE ->
  let n' := broadcastConfigOnControlChannel times n in
  air n' = air n ++ replicate times (Some (ctrl_params (p_tx (cur n))), cfg_message (cur n)) /\
  cur n' = cur n /\
  rad n' = (if drv_begin (cur n) =? RADIOLIB_ERR_NONE then Some (cur n) else None).
Proof.
  intros Hb. unfold broadcastConfigOnControlChannel. rewrite begin_radio_spec, Hb. simpl.
  rewrite transmit_times_spec, begin_radio_spec. simpl. auto.
Qed.

(** C33: when the switch to the control channel fails, the early [return]
    skips the restore: nothing is sent and the radio is left in the failed
    [begin]'s state, whatever the node's own parameters are. *)
Theorem broadcast_begin_fail_not_restored times n :
  drv_begin (ctrl_params (p_tx (cur n))) <> RADIOLIB_ERR_NONE ->
  let n' := broadcastConfigOnControlChannel times n in
  rad n' = None /\ air n' = air n /\ cur n' = cur n.
Proof.
  intros Hb. unfold broadcastConfigOnControlChannel. rewrite begin_radio_spec.
  apply Z.eqb_neq in Hb. rewrite Hb. simpl. auto.
Qed.

(** C34: the receive window ends: with the clock advancing at least 50 ms a
    pass (the loop's [delay(50)]) and enough readings, the rendezvous
    returns. *)
Theorem tryReceive_terminates dur start evs n :
  is_u32 start -> spaced start 0 50 evs -> Z.max 0 ((dur + 49) / 50) < Z.of_nat (length evs) ->
  is_Some (tryReceiveConfigOnControlChannel dur start evs n).
Proof.
  intros Hs Hsp Hlen. unfold tryReceiveConfigOnControlChannel. rewrite begin_radio_spec.
  destruct (drv_begin _ =? RADIOLIB_ERR_NONE); [|eauto]. simpl.
  destruct (listen_total start dur 50 ctrl_rx evs
              (set_rad (Some (ctrl_params (p_tx (cur n)))) n) 0 Hs ltac:(lia) ltac:(lia) Hsp
              ltac:(replace (dur - 0 + 50 - 1) with (dur + 49) by ring; exact Hlen)) as [n2 ->].
  eauto.
Qed.

(** The first well-formed [CFG] frame heard inside the window is
    applied: the node takes its parameters, re-indexes them, persists them
    and restores the radio with them. *)
Theorem tryReceive_applies_first_cfg dur start pre t msg rs sn post n q :
  drv_begin (ctrl_params (p_tx (cur n))) = RADIOLIB_ERR_NONE ->
  Forall (fun '(t', r) => (t' -u start) < dur /\ ctrl_accepts r = false) pre ->
  (t -u start) < dur -> starts_with cfg_prefix msg = true -> parse_cfg msg = Some q ->
  exists n', tryReceiveConfigOnControlChannel dur start (pre ++ (t, RxPacket msg rs sn) :: post) n = Some n' /\
    cur n' = q /\ ix n' = computeIndicesFromCurrent q (ix n) /\
    store n' = savePersistedSettings q (store n) /\
    rad n' = (if drv_begin q =? RADIOLIB_ERR_NONE then Some q else None).
Proof.
  intros Hb Hpre Ht Hs Hp. unfold tryReceiveConfigOnControlChannel. rewrite begin_radio_spec, Hb. simpl.
  rewrite listen_skip.
  - cbn [listen]. rewrite (proj2 (Z.ltb_lt _ _) Ht). unfold ctrl_rx. rewrite Hs, Hp.
    eexists; split; [reflexivity|]. rewrite begin_radio_spec. simpl. auto.
  - eapply Forall_impl; [exact Hpre|]. intros [t' r] [? Hr]. split; [assumption|]. apply ctrl_rx_reject, Hr.
Qed.
End ControlProperties.

(** ** Witnesses *)

Example broadcast_on_control_channel_witness :
  let n' := @broadcastConfigOnControlChannel sx1262 6 (node_boot ∅ ∅) in
  air n' = air (node_boot ∅ ∅) ++ replicate 6 (Some (ctrl_params 17), cfg_message default_params) /\
  cur n' = default_params /\ rad n' = Some default_params.
Proof. exact (@broadcast_on_control_channel sx1262 6 (node_boot ∅ ∅) eq_refl). Defined.

Example broadcast_begin_fail_not_restored_witness :
  let n0 := set_cur (mkParams (Dec 9150 1) (Dec 1250 1) 9 5 30) (node_boot ∅ ∅) in
  let n' := @broadcastConfigOnControlChannel sx1262 6 n0 in
  rad n' = None /\ air n' = air n0 /\ cur n' = cur n0.
Proof. exact (@broadcast_begin_fail_not_restored sx1262 6
         (set_cur (mkParams (Dec 9150 1) (Dec 1250 1) 9 5 30) (node_boot ∅ ∅))
         ltac:(vm_compute; discriminate)). Defined.

Example tryReceive_terminates_witness :
  is_Some (@tryReceiveConfigOnControlChannel sx1262 100 0 [(0, RxFail (-6)); (50, RxFail (-6)); (100, RxFail (-6))]
             (node_boot ∅ ∅)).
Proof.
  apply (@tryReceive_terminates sx1262); [unfold is_u32, u32_modulus; lia | | vm_compute; reflexivity].
  cbn [spaced]. exists 0. split; [unfold u32_modulus; lia|]. split; [reflexivity|].
  exists 50. split; [unfold u32_modulus; lia|]. split; [reflexivity|].
  exists 100. split; [unfold u32_modulus; lia|]. split; [reflexivity | exact I].
Defined.

Example tryReceive_applies_first_cfg_witness :
  exists n', @tryReceiveConfigOnControlChannel sx1262 6000 0
               ([(0, RxFail (-6))] ++ (50, RxPacket (cfg_message cfg_sf10) (Dec (-80) 0) (Dec 9 0)) :: [])
               (node_boot ∅ ∅) = Some n' /\
    cur n' = mkParams (Dec 9150 1) (Dec 125 0) 10 5 17 /\
    ix n' = computeIndicesFromCurrent (mkParams (Dec 9150 1) (Dec 125 0) 10 5 17) (ix (node_boot ∅ ∅)) /\
    store n' = savePersistedSettings (mkParams (Dec 9150 1) (Dec 125 0) 10 5 17) (store (node_boot ∅ ∅)) /\
    rad n' = (if @drv_begin sx1262 (mkParams (Dec 9150 1) (Dec 125 0) 10 5 17) =? RADIOLIB_ERR_NONE
              then Some (mkParams (Dec 9150 1) (Dec 125 0) 10 5 17) else None).
Proof.
  apply (@tryReceive_applies_first_cfg sx1262); try reflexivity.
  repeat constructor.
Defined.
