(* ===== verification/Cascade.v ===== *)
(** * The WiFi-side cascade: storing, announcing and sending firmware

    Source: [src/src/main.cpp] of the [ENABLE_WIFI_OTA] build:
    [storeCurrentFirmware], [triggerLoraFirmwareUpdates],
    [sendLoraOtaUpdate], [initWiFi] and the [ArduinoOTA] callbacks that
    [initOTA] registers. [sendLoraOtaUpdate] builds each [OTA_DATA] frame in
    the stack array [char chunkMsg[256]]; the array keeps its bytes from one
    iteration to the next and starts with unknown content [stack], so it is
    modelled as a list of 256 characters. [radio.transmit(chunkMsg)] sends
    the C string: the bytes before the first NUL. An out-of-bounds store
    (undefined behaviour) makes the result [None]. *)

From stdpp Require Import base list strings gmap.
From Stdlib Require Import ZArith Ascii String Lia.
From S2P Require Import Prelude CFormat AppLogic WifiManager RadioParams ConfigMsg LoraOta NodeState ControlChannel.

Open Scope Z_scope.
Open Scope lora_scope.

(** [sizeof(chunkMsg)]. *)
Definition chunkMsg_size : nat := 256.

(** [firmwareVersion = 0x010000]. *)
Definition firmwareVersion : Z := 65536.

(** The image [storeCurrentFirmware] writes: the header "LtngDet_FW_v1.0.0"
    and the 15 bytes of [dummyFirmware]. *)
Definition dummyFirmware : text :=
  map (fun k => ascii_of_nat k) [170; 85; 170; 85; 1; 0; 0; 0; 0; 0; 0; 0; 0; 0; 0]%nat.

Definition stored_image : text := lit "LtngDet_FW_v1.0.0" ++ dummyFirmware.

(** One pass of the chunk loop on the array [arr]:
    [snprintf(chunkMsg, 256, "OTA_DATA:%d:", chunkNum)],
    [memcpy(chunkMsg + strlen(chunkMsg), chunk, n)],
    [chunkMsg[strlen(chunkMsg) + n] = '\0']. The array afterwards and the
    frame [radio.transmit] sends. *)
Definition ota_chunk_step (arr : text) (num : Z) (chunk : text) : option (text * text) :=
  let p := snprintf_buf chunkMsg_size (ota_data_prefix num) in
  let a1 := p ++ [nul] ++ drop (length p + 1) arr in
  let a2 := p ++ chunk ++ drop (length p + length chunk) a1 in
  let i := (length (cstr a2) + length chunk)%nat in
  if (i <? chunkMsg_size)%nat then
    let a3 := <[i := nul]> a2 in Some (a3, cstr a3)
  else None.

(** [ArduinoOTA] callback events delivered by [ArduinoOTA.handle()]. *)
Inductive arduino_ota_event :=
  | OtaStartEv
  | OtaProgressEv (progress total : Z)
  | OtaEndEv (start : Z) (evs : list (Z * rx_result))
  | OtaErrorEv (code : Z).

Section Cascade.
Context `{RadioDriver} `{WifiLink}.
Variable wifi_ota : bool.

(** The chunk loop of [sendLoraOtaUpdate]: [sent] bytes of [size] are
    out; after each chunk the progress line
    [(sentBytes * 100) / firmwareSize] ([size_t], 32 bits) is drawn. *)
Fixpoint send_chunks (size sent : Z) (arr : text) (cs : list (Z * text)) (n : node) : option node :=
  match cs with
  | [] => Some n
  | (num, d) :: cs' =>
    match ota_chunk_step arr num d with
    | Some (arr', frame) =>
      let sent' := sent + Z.of_nat (length d) in
      send_chunks size sent' arr' cs'
        (oledMsg wifi_ota (lit "LoRa OTA") (Some (snprintf_buf 20 (lit "Sending " ++ fmt_int (u32 (sent' * 100) / size) ++ lit "%")))
           None (transmit frame n))
    | None => None
    end
  end.

(** [sendLoraOtaUpdate(firmware, firmwareSize)] with the chunk array
    starting as [stack]. *)
Definition sendLoraOtaUpdate (fw stack : text) (n : node) : option node :=
  if isSender n then Some n else
  let n1 := oledMsg wifi_ota (lit "LoRa OTA") (Some (lit "Sending...")) None n in
  let n2 := transmit (snprintf_buf 64 (ota_start_frame (Z.of_nat (length fw)) (ota_timeout (session n1)))) n1 in
  match send_chunks (Z.of_nat (length fw)) 0 stack (ota_chunks (length fw) fw 0 0) n2 with
  | Some n3 => Some (oledMsg wifi_ota (lit "LoRa OTA") (Some (lit "Sent!")) None (transmit ota_end_frame n3))
  | None => None
  end.

(** [storeCurrentFirmware()]. *)
Definition storeCurrentFirmware (n : node) : bool * node :=
  if isSender n then (false, n)
  else (true, set_hasStoredFirmware true (set_storedFirmware stored_image n)).

(** One round of the notification loop: [FW_UPDATE_AVAILABLE], the
    version frame, [UPDATE_NOW]. *)
Definition notify_round (n : node) : node :=
  let version := snprintf_buf 64 (if hasStoredFirmware n
                                  then lit "FW_VERSION:" ++ fmt_uint firmwareVersion
                                  else lit "FW_VERSION:0.0.0") in
  transmit (lit "UPDATE_NOW") (transmit version (transmit (lit "FW_UPDATE_AVAILABLE") n)).

(** A pass of the 15 s request window: a [REQUEST_UPDATE] is acknowledged
    and nothing else is done. *)
Definition trigger_rx (r : rx_result) (n : node) : node * bool :=
  match r with
  | RxPacket msg _ _ =>
    if starts_with (lit "REQUEST_UPDATE") msg then
      (transmit (lit "UPDATE_ACK") (oledMsg wifi_ota (lit "LoRa Update") (Some (lit "Request received!")) None n), false)
    else (n, false)
  | RxFail _ => (n, false)
  end.

(** [triggerLoraFirmwareUpdates()], its request window entered at [start]. *)
Definition triggerLoraFirmwareUpdates (start : Z) (evs : list (Z * rx_result)) (n : node) : option node :=
  if isSender n then Some n else
  let n1 := oledMsg wifi_ota (lit "LoRa Update") (Some (lit "Broadcasting...")) None n in
  let n2 := broadcastConfigOnControlChannel 8 n1 in
  let n3 := Nat.iter 10 notify_round n2 in
  let n4 := oledMsg wifi_ota (lit "LoRa Update") (Some (lit "Checking...")) None
              (oledMsg wifi_ota (lit "LoRa Update") (Some (lit "Notifications sent!")) None n3) in
  match listen start 15000 trigger_rx evs n4 with
  | Some n5 => Some (oledMsg wifi_ota (lit "LoRa Update") (Some (lit "Complete!")) None n5)
  | None => None
  end.

(** [initWiFi()]. *)
Definition initWiFi (n : node) : node :=
  let n1 := oledMsg wifi_ota (lit "WiFi") (Some (lit "Connecting...")) None n in
  let '(ok, w) := connectToWiFi WIFI_NETWORKS (initWiFiPreferences (wm n1)) in
  let n2 := set_wm w n1 in
  if ok then oledMsg wifi_ota (lit "WiFi") (Some (lit (getCurrentNetworkLocation WIFI_NETWORKS w))) None
               (set_wifiConnected true n2)
  else oledMsg wifi_ota (lit "WiFi") (Some (lit "Failed!")) None n2.

(** The [onEnd] callback: store the image and run the cascade. *)
Definition ota_on_end (start : Z) (evs : list (Z * rx_result)) (n : node) : option node :=
  let n1 := oledMsg wifi_ota (lit "OTA") (Some (lit "Complete!")) None (set_otaActive false n) in
  if wifi_ota && negb (isSender n1) then
    let '(ok, n2) := storeCurrentFirmware n1 in
    if ok then
      triggerLoraFirmwareUpdates start evs
        (oledMsg wifi_ota (lit "LoRa Update") (Some (lit "Triggering...")) None
           (oledMsg wifi_ota (lit "Firmware") (Some (lit "Stored")) None n2))
    else Some (oledMsg wifi_ota (lit "Firmware") (Some (lit "Store failed")) None n2)
  else Some n1.

(** The callbacks [initOTA()] registers, run by [ArduinoOTA.handle()].
    [onProgress] computes [(progress * 100) / total] in [unsigned int]. *)
Definition arduino_ota_callback (ev : arduino_ota_event) (n : node) : option node :=
  match ev with
  | OtaStartEv => Some (oledMsg wifi_ota (lit "OTA") (Some (lit "Starting...")) None (set_otaActive true n))
  | OtaProgressEv progress total =>
    if total =? 0 then Some (set_run Trapped n)
    else Some (oledMsg wifi_ota (lit "OTA Update")
                 (Some (snprintf_buf 20 (fmt_int (i32_of_u32 (u32 (progress * 100) / total)) ++ lit "%"))) None n)
  | OtaEndEv start evs => ota_on_end start evs n
  | OtaErrorEv code =>
    Some (oledMsg wifi_ota (lit "OTA Error") (Some (snprintf_buf 20 (lit "Error: " ++ fmt_uint code))) None
            (set_otaActive false n))
  end.
End Cascade.

(** A frame that is not one of the [OTA_] frames. *)
Definition not_ota (f : text) : Prop := starts_with (lit "OTA_") f = false.

(** A receiver node just after boot. *)
Definition boot_receiver : node := set_isSender false (node_boot ∅ ∅).

(** ** Lemmas *)

Section CascadeLemmas.
Context `{RadioDriver} `{WifiLink}.

(** The frame the chunk loop sends for the stored image, whatever the
    array held: [memcpy] copies the NUL at offset 22 of the image and
    [strlen] stops there. *)
Lemma ota_chunk_step_stored stack :
  exists a, ota_chunk_step stack 0 stored_image = Some (a, ota_data_frame 0 (take 22 stored_image)).
Proof. eexists. reflexivity. Qed.

Lemma ota_chunks_stored : ota_chunks (length stored_image) stored_image 0 0 = [(0, stored_image)].
Proof. reflexivity. Qed.

Lemma not_ota_prefix_cfg p : starts_with (lit "OTA_") (cfg_message p) = false.
Proof.
  reflexivity.
Qed.

Lemma broadcast_air k n :
  air_ext (fun f => f = cfg_message (cur n)) n (broadcastConfigOnControlChannel k n).
Proof.
  unfold broadcastConfigOnControlChannel. rewrite begin_radio_spec.
  destruct (drv_begin _ =? RADIOLIB_ERR_NONE); simpl; [|apply air_ext_same; reflexivity].
  rewrite transmit_times_spec, begin_radio_spec. eexists. split; [reflexivity|].
  apply Forall_replicate. reflexivity.
Qed.

Lemma snprintf_prefix_nonnul num : Forall (fun c => c <> nul) (snprintf_buf chunkMsg_size (ota_data_prefix num)).
Proof.
  unfold snprintf_buf. apply Forall_take. unfold ota_data_prefix.
  apply Forall_app; split; [repeat constructor; discriminate|].
  apply Forall_app; split; [apply fmt_int_nonnul | repeat constructor; discriminate].
Qed.

(** A full chunk without a zero byte: the second [strlen] counts the chunk
    and the terminator lands past the 256-byte array. *)
Lemma ota_chunk_step_full arr num chunk :
  length chunk = ota_chunk_size -> Forall (fun c => c <> nul) chunk -> ota_chunk_step arr num chunk = None.
Proof.
  intros Hl Hn. unfold ota_chunk_step. cbv zeta.
  rewrite (app_assoc _ chunk), cstr_app by (apply Forall_app; split; [apply snprintf_prefix_nonnul | exact Hn]).
  rewrite !length_app, Hl. unfold ota_chunk_size, chunkMsg_size.
  replace (_ <? 256)%nat with false by (symmetry; apply Nat.ltb_ge; lia). reflexivity.
Qed.
End CascadeLemmas.

Section CascadeAir.
Context `{RadioDriver} `{WifiLink}.
Variable wifi_ota : bool.


Lemma notify_round_air n : air_ext not_ota n (notify_round n).
Proof.
  unfold notify_round.
  apply air_ext_transmit_r; [|reflexivity]. apply air_ext_transmit_r; [|destruct (hasStoredFirmware n); reflexivity].
  apply air_ext_transmit. reflexivity.
Qed.

Lemma notify_rounds_air k n : air_ext not_ota n (Nat.iter k notify_round n).
Proof.
  induction k as [|k IH]; simpl; [reflexivity|].
  etransitivity; [exact IH | apply notify_round_air].
Qed.

Lemma trigger_rx_air r n : air_ext not_ota n (fst (trigger_rx wifi_ota r n)).
Proof.
  unfold trigger_rx. destruct r as [msg rs sn|st]; cbn [fst]; [|reflexivity].
  destruct (starts_with (lit "REQUEST_UPDATE") msg); cbn [fst]; [|reflexivity].
  apply air_ext_transmit_r; [apply air_ext_same; reflexivity | reflexivity].
Qed.

Lemma oledMsg_air l1 l2 l3 n : air_ext not_ota n (oledMsg wifi_ota l1 l2 l3 n).
Proof. apply air_ext_same. reflexivity. Qed.
End CascadeAir.

(** ** Properties *)

Section CascadeProperties.
Context `{RadioDriver} `{WifiLink} `{Flasher}.
Variable wifi_ota : bool.

(** C9: the receiver's answer to [REQUEST_UPDATE] never delivers the image
    [storeCurrentFirmware] stored: the chunk frame stops at the NUL byte at
    offset 22, so a node that receives the three frames gets 22 of the 32
    announced bytes (the progress line shows 68%), and [OTA_END:] ends the
    session without flashing. *)
Theorem cascade_stored_image_never_flashes stack n now o :
  isSender n = false -> is_u32 (ota_timeout (session n)) ->
  exists n' sent, sendLoraOtaUpdate wifi_ota stored_image stack n = Some n' /\ air n' = air n ++ sent /\
    ota_feed now (map snd sent) o =
    (mkOta false now (ota_timeout (session n)) (take 22 stored_image) 32 22, [OtaStarted; OtaProgress 68; OtaNone]).
Proof.
  intros Hs Ht. unfold sendLoraOtaUpdate. rewrite Hs, ota_chunks_stored. cbn [send_chunks].
  destruct (ota_chunk_step_stored stack) as [a ->].
  set (tmo := ota_timeout (session n)) in *.
  assert (Hf : snprintf_buf 64 (ota_start_frame (Z.of_nat (length stored_image)) (ota_timeout
                 (session (oledMsg wifi_ota (lit "LoRa OTA") (Some (lit "Sending...")) None n)))) =
               ota_start_frame 32 tmo).
  { unfold snprintf_buf. apply take_ge. unfold ota_start_frame. rewrite !length_app.
    pose proof (fmt_uint_length_u32 tmo Ht). simpl. lia. }
  rewrite Hf. eexists.
  exists [(rad n, ota_start_frame 32 tmo); (rad n, ota_data_frame 0 (take 22 stored_image)); (rad n, ota_end_frame)].
  split; [reflexivity|]. split; [cbn [air transmit oledMsg set_air set_screen]; rewrite <- !app_assoc; reflexivity|].
  cbn [map snd ota_feed]. rewrite handle_start_frame by (unfold is_u32, u32_modulus; lia || exact Ht).
  rewrite handle_data_frame by (reflexivity || (unfold int_min, int_max; lia)).
  reflexivity.
Qed.

(** C14: the cascade started after a WiFi update announces the firmware and
    acknowledges requests, but sends no [OTA_] frame at all: the image is
    never transferred by [triggerLoraFirmwareUpdates]. *)
Theorem trigger_sends_no_firmware start evs n n' :
  triggerLoraFirmwareUpdates wifi_ota start evs n = Some n' -> air_ext not_ota n n'.
Proof.
  unfold triggerLoraFirmwareUpdates. destruct (isSender n); [intros [= <-]; reflexivity|].
  destruct (listen _ _ _ _ _) as [n5|] eqn:E; [intros [= <-]|discriminate].
  etransitivity; [|apply oledMsg_air].
  etransitivity; [|eapply (listen_rel _ _ _ _ _ _ _ (trigger_rx_air wifi_ota)), E].
  etransitivity; [|apply oledMsg_air]. etransitivity; [|apply oledMsg_air].
  etransitivity; [|apply notify_rounds_air].
  etransitivity; [apply oledMsg_air|].
  eapply air_ext_weaken; [|apply broadcast_air]. intros f ->. apply not_ota_prefix_cfg.
Qed.

(** C10: for an image of at least 200 bytes whose first 200 bytes hold no
    zero byte, [sendLoraOtaUpdate] writes the terminator of the first
    [OTA_DATA] frame outside [chunkMsg[256]], whatever the array held:
    undefined behaviour, before any data frame is sent. *)
Theorem send_full_chunk_overflows fw stack n :
  isSender n = false -> (200 <= length fw)%nat -> Forall (fun c => c <> nul) (take 200 fw) ->
  sendLoraOtaUpdate wifi_ota fw stack n = None.
Proof.
  intros Hs Hl Hn. unfold sendLoraOtaUpdate. rewrite Hs.
  destruct fw as [|c fw']; [simpl in Hl; lia|].
  cbn [length ota_chunks]. replace (0 <? S (length fw'))%nat with true by reflexivity.
  rewrite Nat.sub_0_r, (Nat.min_l ota_chunk_size); [|unfold ota_chunk_size; simpl in Hl; lia].
  cbn [send_chunks drop]. rewrite ota_chunk_step_full; [reflexivity| |exact Hn].
  rewrite length_take. unfold ota_chunk_size. cbn [length] in Hl |- *. lia.
Qed.
End CascadeProperties.

(** ** Witnesses *)

Example cascade_stored_image_never_flashes_witness :
  exists n' sent, sendLoraOtaUpdate false stored_image [] boot_receiver = Some n' /\
    air n' = air boot_receiver ++ sent /\
    @ota_feed flash_ok 0 (map snd sent) ota_init =
    (mkOta false 0 30000 (take 22 stored_image) 32 22, [OtaStarted; OtaProgress 68; OtaNone]).
Proof.
  exact (@cascade_stored_image_never_flashes flash_ok false [] boot_receiver 0 ota_init
           eq_refl ltac:(vm_compute; split; congruence)).
Defined.

Example trigger_sends_no_firmware_witness :
  exists n', @triggerLoraFirmwareUpdates sx1262 false 0
               [(100, RxPacket (lit "REQUEST_UPDATE") (Dec (-70) 0) (Dec 8 0)); (20000, RxFail (-6))]
               boot_receiver = Some n' /\ air_ext not_ota boot_receiver n'.
Proof.
  eexists. split; [reflexivity|].
  eapply (@trigger_sends_no_firmware sx1262 false 0
            [(100, RxPacket (lit "REQUEST_UPDATE") (Dec (-70) 0) (Dec 8 0)); (20000, RxFail (-6))]).
  reflexivity.
Defined.

Example send_full_chunk_overflows_witness :
  sendLoraOtaUpdate false (repeat "a"%char 200) [] boot_receiver = None.
Proof.
  apply (send_full_chunk_overflows false); [reflexivity | simpl; lia |].
  apply Forall_take, Forall_forall. intros c Hc. apply list_elem_of_In, repeat_spec in Hc. subst. discriminate.
Defined.
