(* ===== verification/Node.v ===== *)
(** * The node: [updateButton], [loop()] and [setup()]

    Source: [src/src/main.cpp]. One call of [loop()] is the function [loop]
    on a [tick]: the values the environment supplies to that iteration
    ([millis()], [digitalRead(BUTTON_PIN)], the result of [radio.receive],
    the status of [radio.transmit], the WiFi link status at the periodic
    check, the [ArduinoOTA] callbacks that [ArduinoOTA.handle()] runs, and
    the bytes the chunk array of [sendLoraOtaUpdate] starts with). The clock
    is read once per iteration: the handlers that call [millis()] again see
    the same value. [loop] returns [None] only when a blocking window of an
    [ArduinoOTA] callback runs out of the events it was given. The build
    flags are section variables: [wifi_ota] for [ENABLE_WIFI_OTA] and
    [role_sender] for the initial role of [ROLE_SENDER] / [ROLE_RECEIVER].

    The second half holds the properties of the loop: the button dispatch
    against [classifyPress], the pending configuration broadcast of the
    sender over several iterations ([run_loop]), and the receiver's handling
    of [CFG] frames. The helper lemmas rewrite the node-level operations into
    the [set_<field>] functions of [NodeState.v], whose projections then
    compute ([node_simp]). *)

From stdpp Require Import base list strings gmap.
From Stdlib Require Import ZArith Ascii String Lia.
From S2P Require Import Prelude CFormat AppLogic WifiManager RadioParams ConfigMsg LoraOta NodeState Display ControlChannel Cascade.

Open Scope Z_scope.
Open Scope lora_scope.

(** What one [loop()] iteration reads from the outside world. *)
Record tick := Tick {
  t_now : Z;                          (** [millis()] *)
  t_pin : bool;                       (** [digitalRead(BUTTON_PIN)], [HIGH] is [true] *)
  t_rx : rx_result;                   (** [radio.receive(rx)] *)
  t_tx : Z;                           (** the status of the [radio.transmit] whose status is tested *)
  t_link : bool;                      (** [WiFi.status() == WL_CONNECTED] at the 30 s check *)
  t_ota : list arduino_ota_event;     (** the callbacks [ArduinoOTA.handle()] runs *)
  t_stack : text                      (** the initial bytes of [chunkMsg] *)
}.

(** The [NetworkSelectionMode] switch of [updateButton]. *)
Definition nextNetworkMode (m : Z) : Z :=
  if m =? AUTO then MANUAL_HOME else if m =? MANUAL_HOME then MANUAL_WORK else AUTO.

Definition networkModeStr (m : Z) : string :=
  if m =? AUTO then "Auto" else if m =? MANUAL_HOME then "Home" else if m =? MANUAL_WORK then "Work" else "Auto".

Section Loop.
Context `{RadioDriver} `{WifiLink} `{Flasher}.
Variable wifi_ota : bool.

Definition msg1 (l1 l2 : string) : node -> node := oledMsg wifi_ota (lit l1) (Some (lit l2)) None.

(** ** [updateButton()] *)

(** Short press: [isSender = !isSender; seq = 0; savePersistedRole(); oledRole();]. *)
Definition toggle_mode (n : node) : node :=
  oledRole wifi_ota (savePersistedRole_node (set_seq 0 (set_isSender (negb (isSender n)) n))).

(** The receiver's medium press in the WiFi build: next network mode, then
    a reconnect when [wifiConnected]. *)
Definition cycle_network_mode (n : node) : node :=
  let nm := nextNetworkMode (currentNetworkMode (wm n)) in
  let n1 := set_wm (setNetworkMode WIFI_NETWORKS nm (wm n)) n in
  let n2 := msg1 "Network Mode" (networkModeStr nm) n1 in
  if wifiConnected n2 then
    let '(ok, w) := connectToWiFi WIFI_NETWORKS (set_link false (wm n2)) in
    let n3 := set_wm w n2 in
    if ok then msg1 "Reconnected" (getCurrentNetworkLocation WIFI_NETWORKS w) (set_wifiConnected true n3)
    else msg1 "Reconnect" "Failed" (set_wifiConnected false n3)
  else n2.

(** The receiver's local cycle of a table: the index moves on, the value is
    read from the table, the radio is updated, the settings are saved. *)
Definition local_cycle (n : node) (ix' : indices) (p' : params) : node :=
  savePersistedSettings_node (updateRadioSettings wifi_ota (set_cur p' (set_ix ix' n))).

(** Medium press. *)
Definition cycle_sf (n : node) : node :=
  let i := next_index (i_sf (ix n)) (length sfValues) in
  let sf := table_at sfValues 0 i in
  if isSender n then startConfigBroadcast wifi_ota (set_sf sf (cur n)) n
  else if wifi_ota then cycle_network_mode n
  else local_cycle n (Indices i (i_bw (ix n)) (i_tx (ix n))) (set_sf sf (cur n)).

(** Long press. *)
Definition cycle_bw (n : node) : node :=
  let i := next_index (i_bw (ix n)) (length bwValues) in
  let bw := table_at bwValues (Dec 0 0) i in
  if isSender n then startConfigBroadcast wifi_ota (set_bw bw (cur n)) n
  else local_cycle n (Indices (i_sf (ix n)) i (i_tx (ix n))) (set_bw bw (cur n)).

(** The release branch with its inline thresholds. *)
Definition press_action (pressDuration : Z) (n : node) : node :=
  if pressDuration <? 100 then n
  else if pressDuration <? 1000 then toggle_mode n
  else if pressDuration <? 3000 then cycle_sf n
  else cycle_bw n.

(** The same dispatch through [classifyPress]. *)
Definition button_action (a : ButtonAction) (n : node) : node :=
  match a with
  | Ignore => n
  | ToggleMode => toggle_mode n
  | CycleSF => cycle_sf n
  | CycleBW => cycle_bw n
  end.

Definition set_lastButtonMs (t : Z) (n : node) : node :=
  set_btn (mkButton t (lastButtonState (btn n)) (buttonPressMs (btn n)) (buttonPressed (btn n))) n.

(** [updateButton()] with [now = millis()] and [s = digitalRead(BUTTON_PIN)]. *)
Definition updateButton (now : Z) (s : bool) (n : node) : node :=
  let b := btn n in
  let b1 := if lastButtonState b && negb s then mkButton (lastButtonMs b) (lastButtonState b) now true else b in
  let n1 := set_btn b1 n in
  let n2 :=
    if negb (lastButtonState b1) && s && buttonPressed b1 then
      let n' := set_btn (mkButton (lastButtonMs b1) (lastButtonState b1) (buttonPressMs b1) false) n1 in
      set_lastButtonMs now (press_action (now -u buttonPressMs b1) n')
    else n1 in
  set_btn (mkButton (lastButtonMs (btn n2)) s (buttonPressMs (btn n2)) (buttonPressed (btn n2))) n2.

(** ** The sender branch of [loop()] *)

(** [cfgRemaining <= 0]: apply the pending parameters, re-index, reconfigure,
    save, end the broadcast. *)
Definition commit_pending (now : Z) (n : node) : node :=
  let n1 := savePersistedSettings_node
              (updateRadioSettings wifi_ota (computeIndices_node (set_cur (pendingParams (pend n)) n))) in
  let n2 := msg1 "Sync complete" "TX switched" n1 in
  let p := pend n2 in
  set_lastTxMs now (set_pend (mkPending false (pendingParams p) (cfgLastTxMs p) (cfgRemaining p)) n2).

Definition sender_step (now txst : Z) (n : node) : node :=
  let p := pend n in
  if pendingConfigBroadcast p then
    if (50 <=? now -u lastTxMs n) && (300 <=? now -u cfgLastTxMs p) then
      let n1 := transmit (cfg_message (pendingParams p)) n in
      let n2 := set_pend (mkPending true (pendingParams p) now (cfgRemaining p - 1)) n1 in
      if cfgRemaining p - 1 <=? 0 then commit_pending now n2 else n2
    else n
  else if 2000 <=? now -u lastTxMs n then
    let msg := snprintf_buf 48 (lit "PING seq=" ++ fmt_uint (seq n)) in
    let n1 := set_seq (seq n +u 1) (transmit msg n) in
    let n2 :=
      if txst =? RADIOLIB_ERR_NONE then
        oledMsg wifi_ota (lit "PING") (Some (snprintf_buf 20 (lit "seq=" ++ fmt_uint (seq n1 -u 1)))) None n1
      else oledMsg wifi_ota (lit "TX FAIL") (Some msg) (Some (snprintf_buf 24 (lit "err " ++ fmt_int txst))) n1 in
    set_lastTxMs now n2
  else n.

(** ** The receiver branch of [loop()] *)

(** A [CFG] frame whose five fields parsed. *)
Definition apply_cfg (q : params) (n : node) : node :=
  savePersistedSettings_node (updateRadioSettings wifi_ota (computeIndices_node (set_cur q n))).

Definition rssi_line (rssi : dec) : text := snprintf_buf 20 (lit "RSSI " ++ fmt_fixed 1 rssi).

(** The result of [handleLoraOtaPacket] on the node. *)
Definition ota_on_node (now : Z) (msg : text) (n : node) : node :=
  let '(o, out) := handleLoraOtaPacket now msg (session n) in
  let n1 := set_session o n in
  match out with
  | OtaNone => n1
  | OtaStarted => msg1 "LoRa OTA" "Starting..." n1
  | OtaProgress p => oledMsg wifi_ota (lit "LoRa OTA") (Some (snprintf_buf 20 (fmt_int p ++ lit "%"))) None n1
  | OtaRestart => set_run Restarted (set_session o (msg1 "OTA Complete" "Rebooting..." (msg1 "LoRa OTA" "Flashing..." n)))
  | OtaFlashFailed => set_session o (msg1 "OTA Error" "Flash failed!" (msg1 "LoRa OTA" "Flashing..." n))
  | OtaBeginFailed => set_session o (msg1 "OTA Error" "Begin failed!" (msg1 "LoRa OTA" "Flashing..." n))
  | OtaDivZero => set_run Trapped n1
  end.

(** [REQUEST_UPDATE] heard by a receiver. *)
Definition answer_request (stack : text) (n : node) : node :=
  let n1 := transmit (lit "UPDATE_ACK") (msg1 "Update Req" "Received" n) in
  if wifi_ota then
    if hasStoredFirmware n1 && (0 <? length (storedFirmware n1))%nat then
      match sendLoraOtaUpdate wifi_ota (storedFirmware n1) stack (msg1 "Sending FW" "To TX" n1) with
      | Some n2 => n2
      | None => set_run Undefined n1
      end
    else transmit (lit "NO_FIRMWARE") (msg1 "No FW" "Stored" n1)
  else transmit (lit "NO_FIRMWARE") n1.

(** The dispatch on the received text. *)
Definition handle_rx (now : Z) (msg : text) (rssi : dec) (stack : text) (n : node) : node :=
  if starts_with cfg_prefix msg then
    match parse_cfg msg with
    | Some q => oledMsg wifi_ota (lit "SYNC") (Some msg) (Some (rssi_line rssi)) (apply_cfg q n)
    | None => oledMsg wifi_ota (lit "RX") (Some msg) (Some (rssi_line rssi)) n
    end
  else if starts_with (lit "OTA_") msg then ota_on_node now msg n
  else if starts_with (lit "FW_UPDATE_AVAILABLE") msg || starts_with (lit "UPDATE_NOW") msg then
    (if isSender n then transmit (lit "REQUEST_UPDATE") n else n)
  else if starts_with (lit "REQUEST_UPDATE") msg then
    (if negb (isSender n) then answer_request stack n else n)
  else if starts_with (lit "PING ") msg then
    oledMsg wifi_ota (lit "PING") (Some (default msg (strstr (lit "seq=") msg))) None n
  else oledMsg wifi_ota (lit "RX") (Some msg) (Some (rssi_line rssi)) n.

Definition receiver_step (now : Z) (rx : rx_result) (stack : text) (n : node) : node :=
  if 50 <=? now -u lastRxMs n then
    let s := sig n in
    let n1 :=
      match rx with
      | RxPacket msg rssi snr =>
        handle_rx now msg rssi stack
          (set_sig (mkSignal rssi snr now (packetCount s +u 1) (errorCount s)) n)
      | RxFail st =>
        if st =? RADIOLIB_ERR_RX_TIMEOUT then n
        else oledMsg wifi_ota (lit "RX FAIL") (Some (snprintf_buf 24 (lit "err " ++ fmt_int st))) None
               (set_sig (mkSignal (lastRSSI s) (lastSNR s) (lastPacketTime s) (packetCount s) (errorCount s +u 1)) n)
      end in
    set_lastRxMs now n1
  else n.

(** ** WiFi upkeep, timeout check, the whole iteration *)

Definition running (n : node) : bool := bool_decide (run n = Running).

(** The callbacks of one [ArduinoOTA.handle()]. *)
Fixpoint run_callbacks (evs : list arduino_ota_event) (n : node) : option node :=
  match evs with
  | [] => Some n
  | ev :: evs' =>
    if running n then
      match arduino_ota_callback wifi_ota ev n with
      | Some n1 => run_callbacks evs' n1
      | None => None
      end
    else Some n
  end.

(** [if (!isSender && wifiConnected) { ArduinoOTA.handle(); ... }]. *)
Definition wifi_step (now : Z) (link : bool) (evs : list arduino_ota_event) (n : node) : option node :=
  if wifi_ota && negb (isSender n) && wifiConnected n then
    match run_callbacks evs n with
    | Some n1 =>
      if running n1 && (30000 <=? now -u lastWiFiCheck n1) then
        let '(ok, w) := checkWiFiConnection WIFI_NETWORKS (set_link link (wm n1)) in
        let n2 := set_wm w n1 in
        let n3 :=
          if negb ok then msg1 "WiFi" "Reconnecting..." (set_wifiConnected false n2)
          else if negb (wifiConnected n2) then msg1 "WiFi" "Reconnected" (set_wifiConnected true n2)
          else n2 in
        Some (set_lastWiFiCheck now n3)
      else Some n1
    | None => None
    end
  else Some n.

(** [checkLoraOtaTimeout()] on the node. *)
Definition ota_timeout_step (now : Z) (n : node) : node :=
  let o := checkLoraOtaTimeout now (session n) in
  if ota_active (session n) && negb (ota_active o) then set_session o (msg1 "LoRa OTA" "Timeout!" n)
  else set_session o n.

(** One iteration of [loop()]. *)
Definition loop (t : tick) (n : node) : option node :=
  if negb (running n) then Some n else
  let now := t_now t in
  let n1 := updateButton now (t_pin t) n in
  let n2 := if isSender n1 then sender_step now (t_tx t) n1 else receiver_step now (t_rx t) (t_stack t) n1 in
  if negb (running n2) then Some n2 else
  match wifi_step now (t_link t) (t_ota t) n2 with
  | Some n3 => Some (if running n3 then ota_timeout_step now n3 else n3)
  | None => None
  end.

(** Iterations of [loop()] over a list of ticks. *)
Fixpoint run_loop (ts : list tick) (n : node) : option node :=
  match ts with
  | [] => Some n
  | t :: ts' => match loop t n with Some n1 => run_loop ts' n1 | None => None end
  end.

(** ** [setup()] *)

(** The initial role of the build: [ROLE_SENDER], [ROLE_RECEIVER] or neither. *)
Variable role_sender : bool.

(** [setup()]: [display_ok] says whether [u8g2.begin()] succeeded at one of
    the two addresses; [start] and [evs] are the receiver's rendezvous
    window. *)
Definition setup (display_ok : bool) (start : Z) (evs : list (Z * rx_result)) (n : node) : option node :=
  let n0 := set_cur default_params (set_isSender role_sender n) in
  let '(p, role) := loadPersistedSettingsAndRole (store n0) (cur n0) (isSender n0) in
  let n1 := computeIndices_node (set_isSender role (set_cur p n0)) in
  if negb display_ok then Some (set_run Halted n1) else
  let n2 := initRadioOrHalt wifi_ota (oledRole wifi_ota (msg1 "Booting..." "Heltec V3" n1)) in
  if negb (running n2) then Some n2 else
  let n3 :=
    if wifi_ota && negb (isSender n2) then
      let n' := initWiFi wifi_ota n2 in
      if wifiConnected n' then msg1 "WiFi + OTA" "Ready" n' else n'
    else n2 in
  let n4 :=
    if isSender n3 then
      startConfigBroadcast wifi_ota (cur n3) (broadcastConfigOnControlChannel 6 n3)
    else n3 in
  if negb (isSender n4) then tryReceiveConfigOnControlChannel 6000 start evs n4 else Some n4.
(** [setup()] with its [initDisplay()] call answered by the display:
    [begin_ok a] says whether [u8g2.begin()] succeeds at the I2C address
    [a]. *)
Definition setup_with_display (begin_ok : Z -> bool) (start : Z) (evs : list (Z * rx_result)) (n : node) : option node :=
  setup (snd (initDisplay begin_ok)) start evs n.
End Loop.


(** ** Schedules *)

(** The schedule of a pending broadcast: every send at least 50 ms after
    [lastTxMs] and at least 300 ms after the previous send. *)
Fixpoint cfg_schedule (last prev : Z) (ts : list Z) : Prop :=
  match ts with
  | [] => True
  | t :: ts' => 50 <= t -u last /\ 300 <= t -u prev /\ cfg_schedule last t ts'
  end.

(** ** Scenarios

    Concrete inputs for the witnesses below: the SX1262 driver, a link on
    which only the Home network joins, a flash that accepts every image. *)

(** A loop iteration at [now] with the button up and nothing received. *)
Definition idle_tick (now : Z) : tick :=
  Tick now true (RxFail RADIOLIB_ERR_RX_TIMEOUT) RADIOLIB_ERR_NONE false [] [].

(** A loop iteration at [now] that receives [msg]. *)
Definition rx_tick (now : Z) (msg : text) : tick :=
  Tick now true (RxPacket msg (Dec (-700) 1) (Dec 85 1)) RADIOLIB_ERR_NONE false [] [].

(** What the receiver parses from [cfg_message cfg_sf10]: the bandwidth is
    printed with [%.0f]. *)
Definition cfg_sf10_rx : params := mkParams (Dec 9150 1) (Dec 125 0) 10 5 17.

(** The sender just after [startConfigBroadcast cfg_sf10] with two frames left. *)
Definition sender_pending : node := set_pend (mkPending true cfg_sf10 0 2) (node_boot ∅ ∅).

(** The receiver after it has applied [cfg_message cfg_sf10] once. *)
Definition receiver_once : node :=
  default boot_receiver (@loop sx1262 link_home flash_ok false (rx_tick 100 (cfg_message cfg_sf10)) boot_receiver).

(** ** Rewriting node operations into field updates *)

Section Rewrite.
Context `{RadioDriver}.

Lemma updateRadioSettings_eq w n :
  updateRadioSettings w n =
  set_screen (screen (updateRadioSettings w n)) (set_rad (snd (radio_setters (cur n) (rad n))) n).
Proof.
  unfold updateRadioSettings. destruct (radio_setters (cur n) (rad n)) as [st r].
  destruct (st =? RADIOLIB_ERR_NONE); destruct n; reflexivity.
Qed.

Lemma transmit_eq msg n : transmit msg n = set_air (air n ++ [(rad n, msg)]) n.
Proof. reflexivity. Qed.
End Rewrite.

(** What the timeout check draws; only the screen and the session change. *)
Definition timeout_screen (w : bool) (now : Z) (n : node) : list draw := screen (ota_timeout_step w now n).

Lemma ota_timeout_step_eq w now n :
  ota_timeout_step w now n = set_screen (timeout_screen w now n) (set_session (checkLoraOtaTimeout now (session n)) n).
Proof. unfold timeout_screen, ota_timeout_step. destruct (_ && _); destruct n; reflexivity. Qed.

Ltac node_simp := rewrite ?ota_timeout_step_eq in *;
  unfold transmit, savePersistedSettings_node, savePersistedRole_node, computeIndices_node in *; cbn [isSender seq btn cur ix sig pend lastTxMs lastRxMs session store rad air screen
  wifiConnected otaActive wm lastWiFiCheck hasStoredFirmware storedFirmware run
  set_isSender set_seq set_btn set_cur set_ix set_sig set_pend set_lastTxMs set_lastRxMs set_session
  set_store set_rad set_air set_screen set_wifiConnected set_otaActive set_wm set_lastWiFiCheck
  set_hasStoredFirmware set_storedFirmware set_run pendingConfigBroadcast pendingParams cfgLastTxMs cfgRemaining
  lastButtonMs lastButtonState buttonPressMs buttonPressed].

Section ButtonProps.
Context `{RadioDriver} `{WifiLink} `{Flasher}.
Variable wifi_ota : bool.

(** The release branch of [updateButton] repeats the thresholds of
    [classifyPress] inline; it selects the same action for every
    duration. *)
Theorem press_action_classify d n :
  press_action wifi_ota d n = button_action wifi_ota (classifyPress d) n.
Proof. unfold press_action, classifyPress. case_cmp; reflexivity. Qed.

(** With the button held up, [updateButton] changes nothing. *)
Lemma updateButton_idle now n :
  lastButtonState (btn n) = true -> updateButton wifi_ota now true n = n.
Proof. destruct n as [? ? [? ? ? ?] ? ? ? ? ? ? ? ? ? ? ? ? ? ? ? ? ? ?]; simpl. intros ->. reflexivity. Qed.
End ButtonProps.

Section SenderProps.
Context `{RadioDriver} `{WifiLink} `{Flasher}.
Variable wifi_ota : bool.

Lemma sender_step_keeps now txst n :
  isSender (sender_step wifi_ota now txst n) = isSender n /\ run (sender_step wifi_ota now txst n) = run n.
Proof.
  unfold sender_step, commit_pending, msg1, savePersistedSettings_node, computeIndices_node.
  destruct (pendingConfigBroadcast (pend n)).
  - destruct (_ && _); [|auto]. destruct (_ <=? 0); [|auto].
    unfold oledMsg. rewrite updateRadioSettings_eq. node_simp. auto.
  - destruct (2000 <=? _); [|auto]. destruct (_ =? _); auto.
Qed.

(** An iteration of a sender whose button stays up: the sender branch, then
    the OTA timeout check. *)
Lemma loop_sender_idle t n :
  isSender n = true -> run n = Running -> lastButtonState (btn n) = true -> t_pin t = true ->
  loop wifi_ota t n = Some (ota_timeout_step wifi_ota (t_now t) (sender_step wifi_ota (t_now t) (t_tx t) n)).
Proof.
  intros Hs Hr Hb Hp. destruct (sender_step_keeps (t_now t) (t_tx t) n) as [Ks Kr].
  unfold loop, running. rewrite Hr, Hp, updateButton_idle by exact Hb. rewrite Hs.
  cbn [negb]. rewrite bool_decide_true by reflexivity.
  rewrite Kr, Hr. rewrite bool_decide_true by reflexivity. cbn [negb].
  unfold wifi_step. rewrite Ks, Hs. rewrite andb_false_r. cbn [andb].
  unfold running. rewrite Kr, Hr, bool_decide_true by reflexivity. reflexivity.
Qed.

(** One send of a pending broadcast that is not the last. *)
Lemma sender_step_pending now txst n p c r :
  pend n = mkPending true p c r -> 50 <= now -u lastTxMs n -> 300 <= now -u c -> 1 < r ->
  sender_step wifi_ota now txst n = set_pend (mkPending true p now (r - 1)) (transmit (cfg_message p) n).
Proof.
  intros Hp H50 H300 Hr. unfold sender_step. rewrite Hp. node_simp.
  rewrite (proj2 (Z.leb_le _ _) H50), (proj2 (Z.leb_le _ _) H300). cbn [andb].
  replace (r - 1 <=? 0) with false by (symmetry; apply Z.leb_gt; lia). reflexivity.
Qed.

(** The last send: the broadcast commits. *)
Lemma sender_step_last now txst n p c :
  pend n = mkPending true p c 1 -> 50 <= now -u lastTxMs n -> 300 <= now -u c ->
  sender_step wifi_ota now txst n = commit_pending wifi_ota now (set_pend (mkPending true p now 0) (transmit (cfg_message p) n)).
Proof.
  intros Hp H50 H300. unfold sender_step. rewrite Hp. node_simp.
  rewrite (proj2 (Z.leb_le _ _) H50), (proj2 (Z.leb_le _ _) H300). reflexivity.
Qed.
End SenderProps.

Section PendingProps.
Context `{RadioDriver} `{WifiLink} `{Flasher}.
Variable wifi_ota : bool.

(** C1: a pending configuration broadcast is sent exactly [r] more times,
    each on the radio's current (old) configuration, and then committed:
    the sender takes the new parameters, re-indexes them, reconfigures its
    radio, saves them and stops broadcasting. The sender switches last. *)
Theorem pending_broadcast_commits ts n p c r :
  isSender n = true -> run n = Running -> lastButtonState (btn n) = true ->
  pend n = mkPending true p c r -> Forall (fun t => t_pin t = true) ts ->
  cfg_schedule (lastTxMs n) c (map t_now ts) -> 0 < r -> Z.of_nat (length ts) = r ->
  exists n', run_loop wifi_ota ts n = Some n' /\
    air n' = air n ++ replicate (length ts) (rad n, cfg_message p) /\
    cur n' = p /\ pendingConfigBroadcast (pend n') = false /\
    ix n' = computeIndicesFromCurrent p (ix n) /\ store n' = savePersistedSettings p (store n) /\
    rad n' = snd (radio_setters p (rad n)).
Proof.
  revert n c r. induction ts as [|t ts IH]; intros n c r Hs Hr Hb Hp Hpin Hsch Hpos Hlen; [simpl in Hlen; lia|].
  apply Forall_cons in Hpin as [Hpt Hpins]. destruct Hsch as (H50 & H300 & Hsch).
  cbn [run_loop]. rewrite loop_sender_idle by assumption.
  destruct ts as [|t' ts'].
  - simpl in Hlen. subst r. rewrite (sender_step_last wifi_ota _ _ n p c) by (exact Hp || assumption).
    eexists; split; [reflexivity|].
    unfold commit_pending, msg1, oledMsg. rewrite updateRadioSettings_eq. node_simp.
    repeat split; reflexivity.
  - rewrite (sender_step_pending wifi_ota _ _ n p c r) by (exact Hp || assumption || (simpl in Hlen; lia)).
    edestruct (IH (ota_timeout_step wifi_ota (t_now t) (set_pend (mkPending true p (t_now t) (r - 1))
                    (transmit (cfg_message p) n))) (t_now t) (r - 1)) as (n' & E & Ha & Hc & Hpd & Hix & Hst & Hrd).
    all: node_simp; try assumption; try reflexivity; try (simpl in Hlen |- *; lia).
    exists n'. split; [exact E|]. rewrite Ha. split; [|auto].
    simpl. rewrite <- ?app_assoc. reflexivity.
Qed.
End PendingProps.

(** ** The receiver *)

Section Idempotence.
Context `{RadioDriver}.

Lemma find_index_idem {A} (eqb : A -> A -> bool) tbl v old :
  find_index eqb tbl v (find_index eqb tbl v old) = find_index eqb tbl v old.
Proof. unfold find_index. destruct (list_find _ tbl) as [[]|]; reflexivity. Qed.

Lemma computeIndices_idem q ix0 :
  computeIndicesFromCurrent q (computeIndicesFromCurrent q ix0) = computeIndicesFromCurrent q ix0.
Proof. unfold computeIndicesFromCurrent. simpl. rewrite !find_index_idem. reflexivity. Qed.

Lemma savePersistedSettings_idem q st :
  savePersistedSettings q (savePersistedSettings q st) = savePersistedSettings q st.
Proof.
  apply map_eq. intros k. unfold savePersistedSettings. rewrite !lookup_insert.
  repeat case_decide; congruence.
Qed.

Lemma radio_setters_idem p r : radio_setters p (snd (radio_setters p r)) = radio_setters p r.
Proof.
  unfold radio_setters, radio_set, RADIOLIB_ERR_NONE.
  repeat (simpl; match goal with |- context [?x =? 0] => destruct (Z.eqb_spec x 0) end);
    simpl; try reflexivity; destruct r as [[]|]; reflexivity.
Qed.
End Idempotence.

Section ReceiverProps.
Context `{RadioDriver} `{WifiLink} `{Flasher}.
Variable wifi_ota : bool.

(** An iteration of a receiver whose button stays up and whose branch
    leaves it running without WiFi. *)
Lemma loop_receiver_idle t n :
  isSender n = false -> run n = Running -> lastButtonState (btn n) = true -> t_pin t = true ->
  run (receiver_step wifi_ota (t_now t) (t_rx t) (t_stack t) n) = Running ->
  wifiConnected (receiver_step wifi_ota (t_now t) (t_rx t) (t_stack t) n) = false ->
  loop wifi_ota t n = Some (ota_timeout_step wifi_ota (t_now t) (receiver_step wifi_ota (t_now t) (t_rx t) (t_stack t) n)).
Proof.
  intros Hs Hr Hb Hp Kr Kw.
  unfold loop, running. rewrite Hr, Hp, updateButton_idle by exact Hb. rewrite Hs.
  cbn [negb]. rewrite bool_decide_true by reflexivity.
  rewrite Kr. rewrite bool_decide_true by reflexivity. cbn [negb].
  unfold wifi_step. rewrite Kw, !andb_false_r.
  unfold running. rewrite Kr, bool_decide_true by reflexivity. reflexivity.
Qed.

(** The receiver branch on a [CFG] frame whose five fields parse. *)
Lemma receiver_step_cfg now msg rssi snr stack n q :
  50 <= now -u lastRxMs n -> starts_with cfg_prefix msg = true -> parse_cfg msg = Some q ->
  let n' := receiver_step wifi_ota now (RxPacket msg rssi snr) stack n in
  cur n' = q /\ ix n' = computeIndicesFromCurrent q (ix n) /\ store n' = savePersistedSettings q (store n) /\
  rad n' = snd (radio_setters q (rad n)) /\ air n' = air n /\ run n' = run n /\
  wifiConnected n' = wifiConnected n /\ isSender n' = isSender n /\
  packetCount (sig n') = packetCount (sig n) +u 1 /\ lastRxMs n' = now /\ btn n' = btn n.
Proof.
  intros H50 Hs Hp. unfold receiver_step. rewrite (proj2 (Z.leb_le _ _) H50).
  unfold handle_rx. rewrite Hs, Hp. unfold apply_cfg, oledMsg. rewrite updateRadioSettings_eq.
  node_simp. repeat split; reflexivity.
Qed.

(** The receiver branch on a [CFG] frame that does not parse. *)
Lemma receiver_step_bad_cfg now msg rssi snr stack n :
  50 <= now -u lastRxMs n -> starts_with cfg_prefix msg = true -> parse_cfg msg = None ->
  let n' := receiver_step wifi_ota now (RxPacket msg rssi snr) stack n in
  cur n' = cur n /\ ix n' = ix n /\ store n' = store n /\ rad n' = rad n /\ air n' = air n /\
  run n' = run n /\ wifiConnected n' = wifiConnected n.
Proof.
  intros H50 Hs Hp. unfold receiver_step. rewrite (proj2 (Z.leb_le _ _) H50).
  unfold handle_rx. rewrite Hs, Hp. unfold oledMsg. node_simp. repeat split; reflexivity.
Qed.

(** C2: a receiver that hears a well-formed [CFG] frame commits its
    parameters, re-indexes, persists them and reconfigures its radio, and
    sends no reply. *)
Theorem receiver_applies_cfg t n msg rssi snr q :
  isSender n = false -> run n = Running -> lastButtonState (btn n) = true -> t_pin t = true ->
  wifiConnected n = false -> 50 <= t_now t -u lastRxMs n -> t_rx t = RxPacket msg rssi snr ->
  starts_with cfg_prefix msg = true -> parse_cfg msg = Some q ->
  exists n', loop wifi_ota t n = Some n' /\
    cur n' = q /\ ix n' = computeIndicesFromCurrent q (ix n) /\
    store n' = savePersistedSettings q (store n) /\ rad n' = snd (radio_setters q (rad n)) /\
    air n' = air n.
Proof.
  intros Hs Hr Hb Hpin Hw H50 Hrx Hc Hp.
  destruct (receiver_step_cfg (t_now t) msg rssi snr (t_stack t) n q H50 Hc Hp)
    as (Ec & Ei & Es & Erd & Ea & Er & Ew & _).
  rewrite loop_receiver_idle by (rewrite ?Hrx; congruence).
  eexists; split; [reflexivity|]. rewrite Hrx. node_simp. auto.
Qed.

(** A [CFG] frame missing a field changes neither the parameters, nor
    the indices, nor the stored settings, nor the radio, and nothing is
    sent. *)
Theorem receiver_ignores_malformed_cfg t n msg rssi snr :
  isSender n = false -> run n = Running -> lastButtonState (btn n) = true -> t_pin t = true ->
  wifiConnected n = false -> 50 <= t_now t -u lastRxMs n -> t_rx t = RxPacket msg rssi snr ->
  starts_with cfg_prefix msg = true -> parse_cfg msg = None ->
  exists n', loop wifi_ota t n = Some n' /\
    cur n' = cur n /\ ix n' = ix n /\ store n' = store n /\ rad n' = rad n /\ air n' = air n.
Proof.
  intros Hs Hr Hb Hpin Hw H50 Hrx Hc Hp.
  destruct (receiver_step_bad_cfg (t_now t) msg rssi snr (t_stack t) n H50 Hc Hp)
    as (Ec & Ei & Es & Erd & Ea & Er & Ew).
  rewrite loop_receiver_idle by (rewrite ?Hrx; congruence).
  eexists; split; [reflexivity|]. rewrite Hrx. node_simp. auto.
Qed.

(** Receiving the same well-formed [CFG] frame twice in a row commits
    the same parameters, indices, stored settings and radio
    configuration after either receipt: no double advancement. *)
Theorem receiver_cfg_idempotent t1 t2 n n1 msg rssi snr rssi' snr' q :
  isSender n = false -> run n = Running -> lastButtonState (btn n) = true ->
  t_pin t1 = true -> t_pin t2 = true -> wifiConnected n = false ->
  50 <= t_now t1 -u lastRxMs n -> 50 <= t_now t2 -u t_now t1 ->
  t_rx t1 = RxPacket msg rssi snr -> t_rx t2 = RxPacket msg rssi' snr' ->
  starts_with cfg_prefix msg = true -> parse_cfg msg = Some q ->
  loop wifi_ota t1 n = Some n1 ->
  exists n2, loop wifi_ota t2 n1 = Some n2 /\
    cur n2 = cur n1 /\ ix n2 = ix n1 /\ store n2 = store n1 /\ rad n2 = rad n1 /\ air n2 = air n1.
Proof.
  intros Hs Hr Hb Hp1 Hp2 Hw Hd1 Hd2 Hrx1 Hrx2 Hc Hq.
  destruct (receiver_step_cfg (t_now t1) msg rssi snr (t_stack t1) n q Hd1 Hc Hq)
    as (Ec & Ei & Es & Erd & Ea & Er & Ew & Esn & _ & Et & Eb).
  rewrite loop_receiver_idle by (rewrite ?Hrx1; congruence). rewrite Hrx1. intros [= <-].
  set (m := receiver_step wifi_ota (t_now t1) (RxPacket msg rssi snr) (t_stack t1) n) in *.
  assert (H2' : 50 <= t_now t2 -u lastRxMs (ota_timeout_step wifi_ota (t_now t1) m)) by (node_simp; rewrite Et; exact Hd2).
  destruct (receiver_step_cfg (t_now t2) msg rssi' snr' (t_stack t2) (ota_timeout_step wifi_ota (t_now t1) m) q H2' Hc Hq)
    as (Fc & Fi & Fs & Frd & Fa & Fr & Fw & Fsn & _).
  node_simp.
  rewrite loop_receiver_idle; rewrite ?Hrx2; node_simp; try congruence.
  2, 3: rewrite ?Fr, ?Fw; cbn [run wifiConnected set_session set_screen]; congruence.
  eexists; split; [reflexivity|]. node_simp.
  rewrite Fc, Fi, Fs, Frd, Fa. cbn [ix store rad set_session set_screen].
  rewrite Ec, Ei, Es, Erd, computeIndices_idem, savePersistedSettings_idem, radio_setters_idem.
  auto.
Qed.
End ReceiverProps.

(** ** Witnesses *)

Example pending_broadcast_commits_witness :
  exists n', @run_loop sx1262 link_home flash_ok false [idle_tick 300; idle_tick 600] sender_pending = Some n' /\
    air n' = air sender_pending ++ replicate 2 (rad sender_pending, cfg_message cfg_sf10) /\
    cur n' = cfg_sf10 /\ pendingConfigBroadcast (pend n') = false /\
    ix n' = computeIndicesFromCurrent cfg_sf10 (ix sender_pending) /\
    store n' = savePersistedSettings cfg_sf10 (store sender_pending) /\
    rad n' = snd (@radio_setters sx1262 cfg_sf10 (rad sender_pending)).
Proof.
  apply (@pending_broadcast_commits sx1262 link_home flash_ok false [idle_tick 300; idle_tick 600]
           sender_pending cfg_sf10 0 2); try reflexivity.
  - repeat constructor.
  - vm_compute. repeat split; discriminate.
Defined.

Example receiver_applies_cfg_witness :
  exists n', @loop sx1262 link_home flash_ok false (rx_tick 100 (cfg_message cfg_sf10)) boot_receiver = Some n' /\
    cur n' = cfg_sf10_rx /\ ix n' = computeIndicesFromCurrent cfg_sf10_rx (ix boot_receiver) /\
    store n' = savePersistedSettings cfg_sf10_rx (store boot_receiver) /\
    rad n' = snd (@radio_setters sx1262 cfg_sf10_rx (rad boot_receiver)) /\
    air n' = air boot_receiver.
Proof.
  apply (@receiver_applies_cfg sx1262 link_home flash_ok false _ _ (cfg_message cfg_sf10) (Dec (-700) 1) (Dec 85 1));
    try reflexivity.
  vm_compute. congruence.
Defined.

Example receiver_ignores_malformed_cfg_witness :
  exists n', @loop sx1262 link_home flash_ok false (rx_tick 100 (lit "CFG F=915.0")) boot_receiver = Some n' /\
    cur n' = cur boot_receiver /\ ix n' = ix boot_receiver /\ store n' = store boot_receiver /\
    rad n' = rad boot_receiver /\ air n' = air boot_receiver.
Proof.
  apply (@receiver_ignores_malformed_cfg sx1262 link_home flash_ok false _ _ (lit "CFG F=915.0") (Dec (-700) 1) (Dec 85 1));
    try reflexivity.
  vm_compute. congruence.
Defined.

Example receiver_cfg_idempotent_witness :
  @loop sx1262 link_home flash_ok false (rx_tick 100 (cfg_message cfg_sf10)) boot_receiver = Some receiver_once /\
  exists n2, @loop sx1262 link_home flash_ok false (rx_tick 200 (cfg_message cfg_sf10)) receiver_once = Some n2 /\
    cur n2 = cur receiver_once /\ ix n2 = ix receiver_once /\ store n2 = store receiver_once /\
    rad n2 = rad receiver_once /\ air n2 = air receiver_once.
Proof.
  split; [vm_compute; reflexivity|].
  apply (@receiver_cfg_idempotent sx1262 link_home flash_ok false (rx_tick 100 (cfg_message cfg_sf10))
           (rx_tick 200 (cfg_message cfg_sf10)) boot_receiver receiver_once (cfg_message cfg_sf10)
           (Dec (-700) 1) (Dec 85 1) (Dec (-700) 1) (Dec 85 1) cfg_sf10_rx);
    vm_compute; first [reflexivity | congruence].
Defined.

Section DisplayProps.
Context `{RadioDriver} `{WifiLink} `{Flasher}.
Variable wifi_ota role_sender : bool.

(** C18: A board whose OLED answers at neither I2C address halts in [setup()]:
    [initDisplay] never returns, so the node is stuck before the radio is
    initialised and never transmits, whatever the role, the stored
    settings and the control channel would have been. *)
Theorem setup_without_display_halts begin_ok start evs n :
  begin_ok 120 = false -> begin_ok 122 = false ->
  exists n', setup_with_display wifi_ota role_sender begin_ok start evs n = Some n' /\
    run n' = Halted /\ rad n' = rad n /\ air n' = air n.
Proof.
  intros Hb1 Hb2. unfold setup_with_display, initDisplay.
  change (Z.shiftl 60 1) with 120. change (Z.shiftl 61 1) with 122. rewrite Hb1, Hb2. cbn [snd].
  unfold setup. cbn [negb]. destruct (loadPersistedSettingsAndRole _ _ _) as [p role].
  eexists; split; [reflexivity|]. repeat split.
Qed.

End DisplayProps.

Example setup_without_display_halts_witness :
  exists n', @setup_with_display sx1262 link_home false true (fun _ => false) 0 [] boot_receiver = Some n' /\
    run n' = Halted /\ rad n' = rad boot_receiver /\ air n' = air boot_receiver.
Proof.
  exact (@setup_without_display_halts sx1262 link_home false true (fun _ => false) 0 [] boot_receiver
           eq_refl eq_refl).
Defined.
