(* ===== verification/SystemConfig.v ===== *)
(** * SystemConfig: the central configuration against the firmware's values

    Source: [src/src/config/system_config.h], namespace [SystemConfig]
    with its nested namespaces (the Modules of the same names). The header
    collects the pins, radio defaults and ranges, button thresholds,
    timing, WiFi and OTA settings that the firmware of [main.cpp],
    [app_logic.cpp] and [wifi_config.h] writes as literals and macros of
    its own; no code includes it but the tests. The section at the end
    states which of its values the firmware agrees with. Floats are the
    exact decimals of [RadioParams.v]. The firmware side that no other file
    models is here: the [wifi_config.h] OTA and WiFi macros and the size of
    [storedFirmware]. *)

From stdpp Require Import base list.
From Stdlib Require Import ZArith String Lia.
From S2P Require Import Prelude CFormat AppLogic RadioParams Display Cascade.

Open Scope Z_scope.

Module SystemConfig.

Module Pins.
Definition VEXT : Z := 36.
Definition OLED_RST : Z := 21.
Definition BUTTON : Z := 0.
Definition I2C_SDA : Z := 17.
Definition I2C_SCL : Z := 18.
Definition LORA_NSS : Z := 8.
Definition LORA_DIO1 : Z := 14.
Definition LORA_RST : Z := 12.
Definition LORA_BUSY : Z := 13.
Definition LIGHTNING_IRQ : Z := 4.
Definition LIGHTNING_CS : Z := 5.
Definition LED_DATA : Z := 2.
Definition BUZZER : Z := 3.
End Pins.

Module LoRa.
Definition DEFAULT_FREQ_MHZ : dec := Dec 9150 1.
Definition DEFAULT_BW_KHZ : dec := Dec 1250 1.
Definition DEFAULT_SF : Z := 9.
Definition DEFAULT_CR : Z := 5.
Definition DEFAULT_TX_DBM : Z := 17.
Definition CTRL_FREQ_MHZ : dec := DEFAULT_FREQ_MHZ.
Definition CTRL_BW_KHZ : dec := Dec 1250 1.
Definition CTRL_SF : Z := 9.
Definition CTRL_CR : Z := 5.
Definition SF_MIN : Z := 7.
Definition SF_MAX : Z := 12.
Definition BW_OPTIONS : list dec := [Dec 625 1; Dec 1250 1; Dec 2500 1; Dec 5000 1].
Definition BW_OPTIONS_COUNT : nat := length BW_OPTIONS.
End LoRa.

Module Button.
Definition DEBOUNCE_MS : Z := 50.
Definition SHORT_PRESS_MS : Z := 100.
Definition MEDIUM_PRESS_MS : Z := 1000.
Definition LONG_PRESS_MS : Z := 3000.
End Button.

Module Display.
Definition WIDTH : Z := 128.
Definition HEIGHT : Z := 64.
Definition UPDATE_INTERVAL_MS : Z := 100.
End Display.

Module Timing.
Definition MAIN_LOOP_INTERVAL_MS : Z := 10.
Definition STATUS_UPDATE_INTERVAL_MS : Z := 1000.
Definition PING_INTERVAL_MS : Z := 2000.
End Timing.

Module WiFi.
Definition CONNECT_TIMEOUT_MS : Z := 10000.
Definition RETRY_DELAY_MS : Z := 1000.
Definition MAX_RETRIES : Z := 3.
End WiFi.

Module OTA.
Definition HOSTNAME : text := lit "LtngDet-Receiver".
Definition PASSWORD : text := lit "123456".
Definition FIRMWARE_BUFFER_SIZE : Z := 64 * 1024.
Definition CURRENT_VERSION : Z := 65536.
End OTA.

Module Lightning.
Definition NOISE_FLOOR : Z := 2.
Definition WATCHDOG_THRESHOLD : Z := 2.
Definition SPIKE_REJECTION : Z := 2.
Definition MIN_STRIKES : Z := 5.
End Lightning.

Module LEDs.
Definition COUNT : Z := 16.
Definition BRIGHTNESS : Z := 128.
Definition ANIMATION_SPEED_MS : Z := 50.
End LEDs.

End SystemConfig.

(** ** The firmware's own values not modelled elsewhere *)

(** [wifi_config.h]: [OTA_HOSTNAME], [OTA_PASSWORD] and the connection
    settings. *)
Definition OTA_HOSTNAME : text := lit "LtngDet-Receiver".
Definition OTA_PASSWORD : text := lit "123456".
Definition WIFI_CONNECT_TIMEOUT_MS : Z := 10000.
Definition WIFI_RETRY_DELAY_MS : Z := 1000.
Definition WIFI_MAX_RETRIES : Z := 3.

(** [static uint8_t storedFirmware[64 * 1024]] of [main.cpp]. *)
Definition storedFirmware_size : Z := 64 * 1024.

(** The press classification written with the configuration's thresholds. *)
Definition classify_by_config (d : Z) : ButtonAction :=
  if d <? SystemConfig.Button.SHORT_PRESS_MS then Ignore
  else if d <? SystemConfig.Button.MEDIUM_PRESS_MS then ToggleMode
  else if d <? SystemConfig.Button.LONG_PRESS_MS then CycleSF
  else CycleBW.

(** ** Agreement *)

(** The central configuration agrees with every value the firmware uses in
    its place: the radio defaults and the control channel of [main.cpp],
    the SF range and the BW table the button cycles through, the button
    thresholds of [classifyPress], the pins of the radio, the button and
    the OLED (as [initDisplay] drives them), the OTA host name, password
    and image buffer, the firmware version and the WiFi timeouts of
    [wifi_config.h]. *)
Theorem config_agrees_with_firmware :
  default_params = mkParams SystemConfig.LoRa.DEFAULT_FREQ_MHZ SystemConfig.LoRa.DEFAULT_BW_KHZ
                     SystemConfig.LoRa.DEFAULT_SF SystemConfig.LoRa.DEFAULT_CR SystemConfig.LoRa.DEFAULT_TX_DBM /\
  (forall tx, ctrl_params tx = mkParams SystemConfig.LoRa.CTRL_FREQ_MHZ SystemConfig.LoRa.CTRL_BW_KHZ
                                 SystemConfig.LoRa.CTRL_SF SystemConfig.LoRa.CTRL_CR tx) /\
  sfValues = seqZ SystemConfig.LoRa.SF_MIN (SystemConfig.LoRa.SF_MAX - SystemConfig.LoRa.SF_MIN + 1) /\
  bwValues = SystemConfig.LoRa.BW_OPTIONS /\ length bwValues = SystemConfig.LoRa.BW_OPTIONS_COUNT /\
  (forall d, classifyPress d = classify_by_config d) /\
  [VEXT_PIN; OLED_RST_PIN; BUTTON_PIN; PIN_LORA_NSS; PIN_LORA_DIO1; PIN_LORA_RST; PIN_LORA_BUSY] =
    [SystemConfig.Pins.VEXT; SystemConfig.Pins.OLED_RST; SystemConfig.Pins.BUTTON; SystemConfig.Pins.LORA_NSS;
     SystemConfig.Pins.LORA_DIO1; SystemConfig.Pins.LORA_RST; SystemConfig.Pins.LORA_BUSY] /\
  (forall begin_ok, WireBegin SystemConfig.Pins.I2C_SDA SystemConfig.Pins.I2C_SCL ∈ fst (initDisplay begin_ok)) /\
  OTA_HOSTNAME = SystemConfig.OTA.HOSTNAME /\ OTA_PASSWORD = SystemConfig.OTA.PASSWORD /\
  storedFirmware_size = SystemConfig.OTA.FIRMWARE_BUFFER_SIZE /\ firmwareVersion = SystemConfig.OTA.CURRENT_VERSION /\
  [WIFI_CONNECT_TIMEOUT_MS; WIFI_RETRY_DELAY_MS; WIFI_MAX_RETRIES] =
    [SystemConfig.WiFi.CONNECT_TIMEOUT_MS; SystemConfig.WiFi.RETRY_DELAY_MS; SystemConfig.WiFi.MAX_RETRIES].
Proof.
  split; [reflexivity|]. split; [reflexivity|]. split; [reflexivity|]. split; [reflexivity|].
  split; [reflexivity|]. split; [intros d; reflexivity|]. split; [reflexivity|]. split.
  - intros begin_ok. unfold initDisplay. destruct (begin_ok _); [|destruct (begin_ok _)];
      cbn [fst]; apply list_elem_of_In; cbn; tauto.
  - repeat split.
Qed.
