(* ===== verification/EnvMonitor.v ===== *)
(** * EnvMonitor: the environmental monitor example

    Source: [src/examples/environmental_monitor/src/main.cpp]. The example
    reads a DHT sensor, a light sensor, an analog air-quality pin and the
    battery, shows the values on an OLED, appends them as a CSV row to
    [/envdata.csv] on an SD card, prints them, and sleeps.

    None of the classes it calls is in the repository ([DHTSensor],
    [LightSensor], [OLEDDisplay], [SD], [WiFiManager::begin/connect/
    enableOTA], [HAL::init], [HAL::Power::deepSleep]), nor are its build
    macros ([ENABLE_SD_CARD], ..., [SLEEP_INTERVAL]). They are modelled the
    way library code is throughout: the calls the example makes are the list
    [em_call]s it emits, in order; what the calls return is given by the
    environment ([setup_env] for [setup()], one [tick] per [loop()]); the
    macros are the record [build]. A [float] is a [cfloat]: a finite binary
    value, which is an exact decimal [dec], or NaN (what the DHT library
    returns on a failed read). The SD card's files are a [gmap] from paths
    to their bytes; [SD.open(path, FILE_APPEND)] succeeds when the card was
    mounted by [SD.begin] and answers ([t_sd_ok]), and creates the file
    when it is missing. Partial writes of a full card are not modelled. *)

From stdpp Require Import base list gmap strings.
From Stdlib Require Import ZArith Ascii String Lia.
From S2P Require Import Prelude CFormat.

Open Scope Z_scope.
Open Scope lora_scope.

Module EnvMonitor.

(** A [float]: finite (exactly a decimal) or NaN. *)
Inductive cfloat := Fin (x : dec) | NaN.

(** [printf("%.kf", f)]; newlib prints NaN as "nan". *)
Definition fmt_float (k : nat) (f : cfloat) : text :=
  match f with Fin x => fmt_fixed k x | NaN => lit "nan" end.

(** The build macros the example tests or uses. *)
Record build := mkBuild {
  ENABLE_SD_CARD : bool;
  ENABLE_WIFI : bool;
  ENABLE_OTA : bool;
  ENABLE_AIR_QUALITY : bool;
  ENABLE_BATTERY_MONITOR : bool;
  ENABLE_DEEP_SLEEP : bool;
  SLEEP_INTERVAL : Z;
  SD_CS_PIN : Z;
  AIR_QUALITY_PIN : Z
}.

(** [struct SensorData]. *)
Record SensorData := mkSensorData {
  temperature : cfloat;
  humidity : cfloat;
  airQuality : Z;
  lightLevel : cfloat;
  batteryVoltage : cfloat;
  timestamp : Z
}.

(** The global [currentData], zero-initialised static storage. *)
Definition SensorData_zero : SensorData :=
  mkSensorData (Fin (Dec 0 0)) (Fin (Dec 0 0)) 0 (Fin (Dec 0 0)) (Fin (Dec 0 0)) 0.

(** The calls the example makes on [Serial], the display, the sensors, the
    card, WiFi and the HAL. *)
Inductive em_call :=
  | SerialBegin (baud : Z)
  | SerialPrintln (t : text)
  | SerialPrintf (t : text)
  | HalInit
  | DisplayBegin
  | DisplayShowMessage (t : text)
  | DisplayClear
  | DisplaySetCursor (x y : Z)
  | DisplayPrintf (t : text)
  | DisplayUpdate
  | DhtBegin
  | LightBegin
  | SdBegin (pin : Z)
  | WifiBegin
  | WifiConnect
  | WifiEnableOTA (hostname : text)
  | DeepSleep (ms : Z)
  | Delay (ms : Z).

(** The program's state: [currentData], whether [SD.begin] mounted the
    card, the card's files, and the calls made so far. *)
Record em := mkEm {
  currentData : SensorData;
  sd_mounted : bool;
  files : gmap string text;
  out : list em_call
}.

(** Power-on (or a wake from deep sleep): static storage is zero again,
    the card keeps its files. *)
Definition em_boot (fs : gmap string text) : em := mkEm SensorData_zero false fs [].

(** What [SD.begin] and [WiFiManager::connect] return in [setup()]. *)
Record setup_env := mkSetupEnv { sd_begin_ok : bool; wifi_connect_ok : bool }.

(** What one [loop()] reads: [millis()], the DHT, [analogRead], the light
    sensor, the battery, and whether the card answers [SD.open]. *)
Record tick := mkTick {
  t_millis : Z;
  t_temp : cfloat;
  t_hum : cfloat;
  t_analog : Z;
  t_lux : cfloat;
  t_batt : cfloat;
  t_sd_ok : bool
}.

Definition DATA_FILE : string := "/envdata.csv".

Definition crlf : text := [ascii_of_nat 13; ascii_of_nat 10].
Definition lf : text := [ascii_of_nat 10].

(** [Print::println(s)]: the text, then CR LF. *)
Definition println (t : text) : text := t ++ crlf.

Definition csv_header : text :=
  lit "timestamp,temperature,humidity,air_quality,light_level,battery_voltage".

(** The row [logDataToSD] prints with
    ["%lu,%.2f,%.2f,%d,%.2f,%.2f\n"]. *)
Definition csv_row (d : SensorData) : text :=
  fmt_uint (timestamp d) ++ lit "," ++ fmt_float 2 (temperature d) ++ lit "," ++
  fmt_float 2 (humidity d) ++ lit "," ++ fmt_int (airQuality d) ++ lit "," ++
  fmt_float 2 (lightLevel d) ++ lit "," ++ fmt_float 2 (batteryVoltage d) ++ lf.

(** The degree sign of the serial line as the source file spells it: the
    UTF-8 bytes of "Â°" (C3 82 C2 B0), a doubly encoded "°". *)
Definition degree_in_source : text := map ascii_of_nat [195; 130; 194; 176]%nat.

(** The line [loop()] prints with
    ["Temp: %.1f°C, Humidity: %.1f%%, Light: %.1f lux\n"]. *)
Definition serial_line (d : SensorData) : text :=
  lit "Temp: " ++ fmt_float 1 (temperature d) ++ degree_in_source ++ lit "C, Humidity: " ++
  fmt_float 1 (humidity d) ++ lit "%, Light: " ++ fmt_float 1 (lightLevel d) ++ lit " lux" ++ lf.

Section Monitor.
Variable b : build.

Definition emit (cs : list em_call) (s : em) : em :=
  mkEm (currentData s) (sd_mounted s) (files s) (out s ++ cs).
Definition set_data (d : SensorData) (s : em) : em := mkEm d (sd_mounted s) (files s) (out s).
Definition set_mounted (m : bool) (s : em) : em := mkEm (currentData s) m (files s) (out s).
Definition set_file (p : string) (f : text) (s : em) : em :=
  mkEm (currentData s) (sd_mounted s) (<[p := f]> (files s)) (out s).

(** [connectToWiFi()]. *)
Definition connectToWiFi (e : setup_env) (s : em) : em :=
  if ENABLE_WIFI b then
    let s1 := emit [WifiBegin; WifiConnect] s in
    if wifi_connect_ok e then
      emit ([SerialPrintln (lit "WiFi connected!"); DisplayShowMessage (lit "WiFi OK")] ++
            (if ENABLE_OTA b then [WifiEnableOTA (lit "EnvMonitor")] else [])) s1
    else emit [SerialPrintln (lit "WiFi connection failed"); DisplayShowMessage (lit "No WiFi")] s1
  else s.

(** [setup()]. *)
Definition setup (e : setup_env) (s : em) : em :=
  let s1 := emit [SerialBegin 115200; SerialPrintln (lit "Environmental Monitor Starting...");
                  HalInit; DisplayBegin; DisplayShowMessage (lit "Initializing..."); DhtBegin; LightBegin] s in
  let s2 := if ENABLE_SD_CARD b then
              set_mounted (sd_begin_ok e)
                (emit [SdBegin (SD_CS_PIN b);
                       SerialPrintln (if sd_begin_ok e then lit "SD Card initialized."
                                      else lit "SD Card initialization failed!")] s1)
            else s1 in
  emit [DisplayShowMessage (lit "Ready!"); Delay 2000] (connectToWiFi e s2).

(** [readSensors()]: the air quality and the battery keep their previous
    value when their macro is off. *)
Definition readSensors (t : tick) (s : em) : em :=
  let d := currentData s in
  set_data (mkSensorData (t_temp t) (t_hum t)
                         (if ENABLE_AIR_QUALITY b then t_analog t else airQuality d)
                         (t_lux t)
                         (if ENABLE_BATTERY_MONITOR b then t_batt t else batteryVoltage d)
                         (t_millis t)) s.

(** [displayData()]. *)
Definition displayData (s : em) : em :=
  let d := currentData s in
  emit ([DisplayClear; DisplaySetCursor 0 0;
         DisplayPrintf (lit "T:" ++ fmt_float 1 (temperature d) ++ lit "C H:" ++ fmt_float 1 (humidity d) ++ lit "%");
         DisplaySetCursor 0 16; DisplayPrintf (lit "Light: " ++ fmt_float 1 (lightLevel d) ++ lit " lux")] ++
        (if ENABLE_AIR_QUALITY b then [DisplaySetCursor 0 32; DisplayPrintf (lit "Air: " ++ fmt_int (airQuality d))]
         else []) ++
        (if ENABLE_BATTERY_MONITOR b
         then [DisplaySetCursor 0 48; DisplayPrintf (lit "Bat: " ++ fmt_float 2 (batteryVoltage d) ++ lit "V")]
         else []) ++
        [DisplayUpdate]) s.

(** The file after a successful [logDataToSD]: the header when the file
    was empty, then the row. *)
Definition log_append (f : text) (d : SensorData) : text :=
  (if bool_decide (length f = 0%nat) then f ++ println csv_header else f) ++ csv_row d.

(** [logDataToSD()]. *)
Definition logDataToSD (sd_ok : bool) (s : em) : em :=
  if ENABLE_SD_CARD b then
    if sd_mounted s && sd_ok then
      emit [SerialPrintln (lit "Data logged to SD card")]
           (set_file DATA_FILE (log_append (default [] (files s !! DATA_FILE)) (currentData s)) s)
    else emit [SerialPrintln (lit "Error opening data file")] s
  else s.

(** [loop()]. *)
Definition loop (t : tick) (s : em) : em :=
  let s1 := displayData (readSensors t s) in
  let s2 := if ENABLE_SD_CARD b then logDataToSD (t_sd_ok t) s1 else s1 in
  let s3 := emit [SerialPrintf (serial_line (currentData s2))] s2 in
  if ENABLE_DEEP_SLEEP b
  then emit [SerialPrintln (lit "Going to sleep..."); DisplayClear; DeepSleep (SLEEP_INTERVAL b)] s3
  else emit [Delay (SLEEP_INTERVAL b)] s3.

(** The program's runs: a (re)start runs [setup()] on freshly zeroed
    storage with the card's files kept; otherwise one [loop()]. *)
Inductive em_step : em -> em -> Prop :=
  | step_boot e s : em_step s (setup e (em_boot (files s)))
  | step_loop t s : em_step s (loop t s).

End Monitor.

(** ** A concrete run *)

(** A build with every option but deep sleep, and two readings, the second
    a failed DHT read. *)
Definition build_demo : build := mkBuild true true true true true false 60000 5 34.
Definition env_demo : setup_env := mkSetupEnv true true.
Definition tick_demo : tick :=
  mkTick 1234 (Fin (Dec 2350 2)) (Fin (Dec 415 1)) 812 (Fin (Dec 1200 1)) (Fin (Dec 395 2)) true.
Definition tick_dht_fail : tick :=
  mkTick 61234 NaN NaN 790 (Fin (Dec 1185 1)) (Fin (Dec 394 2)) true.
Definition em_demo : em :=
  loop build_demo tick_dht_fail (loop build_demo tick_demo (setup build_demo env_demo (em_boot ∅))).

(** ** The data file *)

(** The bytes of [/envdata.csv] ([FILE_APPEND] creates it empty). *)
Definition data_file (s : em) : text := default [] (files s !! DATA_FILE).

(** A data file as the example writes it: empty, or the header line
    followed by rows. *)
Definition csv_file (f : text) : Prop :=
  f = [] \/ exists ds, f = println csv_header ++ concat (map csv_row ds).

(** The value [sscanf("%f")] reads back from [printf("%.kf", x)]. *)
Definition fixed_readback (k : nat) (x : dec) : dec := Dec (dec_sign x * scaled_round k x) k.

(** A reader of the file's rows; on the ESP32 [unsigned long] is 32 bits
    wide, so [%u] reads what [%lu] printed. *)
Definition csv_scan_fmt : text := lit "%u,%f,%f,%d,%f,%f".

Lemma csv_directives :
  compile_fmt csv_scan_fmt =
  [DConv CUns; DLit ","; DConv CFlt; DLit ","; DConv CFlt; DLit ","; DConv CInt; DLit ",";
   DConv CFlt; DLit ","; DConv CFlt].
Proof. reflexivity. Qed.

Lemma csv_file_log_append f d : csv_file f -> csv_file (log_append f d).
Proof.
  unfold log_append. intros [-> | [ds ->]]; right.
  - exists [d]. rewrite bool_decide_true by reflexivity. cbn [map List.concat]. now rewrite app_nil_r.
  - exists (ds ++ [d]). rewrite bool_decide_false by (rewrite length_app; unfold println, crlf; simpl; lia).
    rewrite map_app, concat_app, <- app_assoc. cbn [map List.concat]. now rewrite app_nil_r.
Qed.

Section Properties.
Variable b : build.

Lemma data_file_emit cs s : data_file (emit cs s) = data_file s.
Proof. reflexivity. Qed.

Lemma data_file_setup e s : data_file (setup b e s) = data_file s.
Proof.
  unfold setup, connectToWiFi.
  destruct (ENABLE_SD_CARD b), (ENABLE_WIFI b), (wifi_connect_ok e); reflexivity.
Qed.

(** [logDataToSD] on each branch: off, the card failing to open, and a
    successful append. *)
Lemma logDataToSD_spec ok s :
  logDataToSD b ok s =
  if ENABLE_SD_CARD b then
    if sd_mounted s && ok then
      mkEm (currentData s) (sd_mounted s) (<[DATA_FILE := log_append (data_file s) (currentData s)]> (files s))
           (out s ++ [SerialPrintln (lit "Data logged to SD card")])
    else mkEm (currentData s) (sd_mounted s) (files s) (out s ++ [SerialPrintln (lit "Error opening data file")])
  else s.
Proof. reflexivity. Qed.

Lemma logDataToSD_csv ok s : csv_file (data_file s) -> csv_file (data_file (logDataToSD b ok s)).
Proof.
  intros Hf. rewrite logDataToSD_spec.
  destruct (ENABLE_SD_CARD b), (sd_mounted s && ok); try exact Hf.
  unfold data_file at 1. cbn [files]. rewrite lookup_insert. apply csv_file_log_append, Hf.
Qed.

Lemma loop_csv t s : csv_file (data_file s) -> csv_file (data_file (loop b t s)).
Proof.
  intros Hf. unfold loop. cbv zeta.
  assert (H1 : csv_file (data_file (displayData b (readSensors b t s)))) by exact Hf.
  destruct (ENABLE_SD_CARD b), (ENABLE_DEEP_SLEEP b); rewrite ?data_file_emit;
    try apply logDataToSD_csv; exact H1.
Qed.

End Properties.

Section Runs.
Variable b : build.

Lemma em_step_csv s s' : em_step b s s' -> csv_file (data_file s) -> csv_file (data_file s').
Proof.
  intros [e s0 | t s0] Hf.
  - rewrite data_file_setup. exact Hf.
  - apply loop_csv, Hf.
Qed.

(** C27: Whatever the build, the sensor readings (NaN included), the
    card's failures and the restarts, the data file stays well formed: in
    every state reachable from a card whose [/envdata.csv] is absent, empty
    or well formed, the file is empty or holds the CSV header line exactly
    once, at its start, followed by whole rows. *)
Theorem em_reachable_csv fs s :
  csv_file (default [] (fs !! DATA_FILE)) -> rtc (em_step b) (em_boot fs) s -> csv_file (data_file s).
Proof.
  intros Hf Hr. change (csv_file (data_file (em_boot fs))) in Hf.
  induction Hr as [s0 | s0 s1 s2 Hs _ IH]; [exact Hf|].
  apply IH, (em_step_csv s0 s1 Hs), Hf.
Qed.

End Runs.

Section ReadBack.
Local Opaque fmt_fixed fmt_int fmt_uint.

(** C28: A row of finite readings reads back: [sscanf] with
    ["%u,%f,%f,%d,%f,%f"] assigns all six fields, the timestamp and the air
    quality as they were, each [float] as [printf("%.2f")] rounded it. *)
Theorem csv_row_roundtrip ts t h aq l v :
  is_u32 ts -> int_min <= aq <= int_max ->
  scaled_round 2 t < 10 ^ 20 -> scaled_round 2 h < 10 ^ 20 ->
  scaled_round 2 l < 10 ^ 20 -> scaled_round 2 v < 10 ^ 20 ->
  sscanf csv_scan_fmt (csv_row (mkSensorData (Fin t) (Fin h) aq (Fin l) (Fin v) ts)) =
  (6, [VInt ts; VFlt (fixed_readback 2 t); VFlt (fixed_readback 2 h); VInt aq;
       VFlt (fixed_readback 2 l); VFlt (fixed_readback 2 v)]).
Proof.
  intros Hts Haq Ht Hh Hl Hv. unfold sscanf. rewrite csv_directives.
  unfold csv_row, lit. cbn [app list_ascii_of_string fmt_float timestamp temperature humidity airQuality lightLevel batteryVoltage].
  erewrite run_scan_conv; [| apply hd_not_space_uint; unfold is_u32 in Hts; lia
                           | apply scan_conv_uint; [exact Hts | reflexivity]].
  scan_literals.
  erewrite run_scan_conv; [| apply hd_not_space_fixed | apply scan_conv_fixed; [lia | exact Ht | reflexivity]].
  scan_literals.
  erewrite run_scan_conv; [| apply hd_not_space_fixed | apply scan_conv_fixed; [lia | exact Hh | reflexivity]].
  scan_literals.
  erewrite run_scan_conv; [| apply hd_not_space_int | apply scan_conv_int; [exact Haq | reflexivity]].
  scan_literals.
  erewrite run_scan_conv; [| apply hd_not_space_fixed | apply scan_conv_fixed; [lia | exact Hl | reflexivity]].
  scan_literals.
  erewrite run_scan_conv; [| apply hd_not_space_fixed | apply scan_conv_fixed; [lia | exact Hv | reflexivity]].
  reflexivity.
Qed.
End ReadBack.

(** ** Witnesses *)

Example em_reachable_csv_witness :
  csv_file (default [] ((∅ : gmap string text) !! DATA_FILE)) /\ csv_file (data_file em_demo).
Proof.
  assert (H0 : csv_file (default [] ((∅ : gmap string text) !! DATA_FILE))) by (left; reflexivity).
  split; [exact H0|]. apply (em_reachable_csv build_demo ∅ em_demo H0).
  eapply rtc_l; [apply (step_boot build_demo env_demo)|].
  eapply rtc_l; [apply (step_loop build_demo tick_demo)|].
  eapply rtc_l; [apply (step_loop build_demo tick_dht_fail)|]. apply rtc_refl.
Defined.

Example csv_row_roundtrip_witness :
  sscanf csv_scan_fmt (csv_row (mkSensorData (Fin (Dec 2355 2)) (Fin (Dec 41375 3)) 812 (Fin (Dec (-5) 1))
                                             (Fin (Dec 395 2)) 1234)) =
  (6, [VInt 1234; VFlt (fixed_readback 2 (Dec 2355 2)); VFlt (fixed_readback 2 (Dec 41375 3)); VInt 812;
       VFlt (fixed_readback 2 (Dec (-5) 1)); VFlt (fixed_readback 2 (Dec 395 2))]).
Proof.
  apply csv_row_roundtrip; unfold is_u32, u32_modulus, int_min, int_max; (vm_compute; reflexivity) || lia.
Defined.

End EnvMonitor.
